(** * Alert rules of a dashboard: reconciliation, state transitions, search

    A shallow embedding of [pkg/models/alert.go] and
    [pkg/services/sqlstore/alert.go].  The Go functions become Rocq functions
    over an explicit relational store; a function that runs inside a database
    session becomes a computation in a small state-and-error monad whose state
    is the store together with the list of statements issued so far. *)

From Stdlib Require Import ZArith List String Bool Lia Btauto.
Import ListNotations.
Local Open Scope Z_scope.
Local Open Scope string_scope.

Set Implicit Arguments.

(** ** Machine integers and time *)


Definition wrap64 (z : Z) : Z := (z + 2 ^ 63) mod 2 ^ 64 - 2 ^ 63.

(** A [time.Time] is the offset of the instant from Go's zero time, so that
    [0] is the zero value the storage layer treats as unset. *)
Definition Time := Z.

(** ** Settings documents *)

(** Modelled from the spec: [pkg/components/simplejson] is not among the
    sources.  The settings of a rule are "an opaque structured document
    holding conditions, notification references, and tag assignments"; a
    document is the tree a JSON text decodes to, numbers kept as their
    literal. *)
#[warnings="-register-all"]
Inductive Json : Type :=
| JNull
| JBool (b : bool)
| JNumber (literal : string)
| JString (s : string)
| JArray (items : list Json)
| JObject (fields : list (string * Json)).

(** Go's [m[key]] on the fields of an object. *)
Fixpoint lookup_field (key : string) (fields : list (string * Json)) : option Json :=
  match fields with
  | [] => None
  | (k, v) :: rest => if k =? key then Some v else lookup_field key rest
  end.

(** Modelled from the spec: [simplejson.Json.CheckGet], the field of an
    object when the document is an object that has it. *)
Definition CheckGet (j : Json) (key : string) : option Json :=
  match j with
  | JObject fields => lookup_field key fields
  | _ => None
  end.

(** Modelled from the spec: [simplejson.Json.MustMap], the fields of an
    object and no field for any other document. *)
Definition MustMap (j : Json) : list (string * Json) :=
  match j with
  | JObject fields => fields
  | _ => []
  end.

(** Modelled from the spec: [simplejson.Json.MustArray]. *)
Definition MustArray (j : Json) : list Json :=
  match j with
  | JArray items => items
  | _ => []
  end.

(** Modelled from the spec: [simplejson.Json.MustString]. *)
Definition MustString (j : Json) : string :=
  match j with
  | JString s => s
  | _ => ""
  end.

(** ** pkg/models/alert.go *)

Definition AlertStateType := string.

Definition AlertStateNoData : AlertStateType := "no_data".
Definition AlertStatePaused : AlertStateType := "paused".
Definition AlertStateAlerting : AlertStateType := "alerting".
Definition AlertStateOK : AlertStateType := "ok".
Definition AlertStatePending : AlertStateType := "pending".
Definition AlertStateUnknown : AlertStateType := "unknown".

Definition IsValid (s : AlertStateType) : bool :=
  (s =? AlertStateOK) ||
  (s =? AlertStateNoData) ||
  (s =? AlertStatePaused) ||
  (s =? AlertStatePending) ||
  (s =? AlertStateAlerting) ||
  (s =? AlertStateUnknown).

Module Tag.
Record t : Type := Build { Id : Z; Key : string; Value : string }.
End Tag.

Module Alert.
Record t : Type := Build {
  Id : Z;
  Version : Z;
  OrgId : Z;
  DashboardId : Z;
  PanelId : Z;
  Name : string;
  Message : string;
  Severity : string;
  State : AlertStateType;
  Handler : Z;
  Silenced : bool;
  ExecutionError : string;
  Frequency : Z;
  For : Z;
  EvalData : option Json;
  NewStateDate : Time;
  StateChanges : Z;
  Created : Time;
  Updated : Time;
  Settings : option Json
}.

(** Assignments to one field of an [*Alert]. *)
Definition set_Id (v : Z) (a : t) : t :=
  let 'Build _ f1 f2 f3 f4 f5 f6 f7 f8 f9 f10 f11 f12 f13 f14 f15 f16 f17 f18 f19 := a in
  Build v f1 f2 f3 f4 f5 f6 f7 f8 f9 f10 f11 f12 f13 f14 f15 f16 f17 f18 f19.

Definition set_State (v : AlertStateType) (a : t) : t :=
  let 'Build f0 f1 f2 f3 f4 f5 f6 f7 _ f9 f10 f11 f12 f13 f14 f15 f16 f17 f18 f19 := a in
  Build f0 f1 f2 f3 f4 f5 f6 f7 v f9 f10 f11 f12 f13 f14 f15 f16 f17 f18 f19.

Definition set_ExecutionError (v : string) (a : t) : t :=
  let 'Build f0 f1 f2 f3 f4 f5 f6 f7 f8 f9 f10 _ f12 f13 f14 f15 f16 f17 f18 f19 := a in
  Build f0 f1 f2 f3 f4 f5 f6 f7 f8 f9 f10 v f12 f13 f14 f15 f16 f17 f18 f19.

Definition set_EvalData (v : option Json) (a : t) : t :=
  let 'Build f0 f1 f2 f3 f4 f5 f6 f7 f8 f9 f10 f11 f12 f13 _ f15 f16 f17 f18 f19 := a in
  Build f0 f1 f2 f3 f4 f5 f6 f7 f8 f9 f10 f11 f12 f13 v f15 f16 f17 f18 f19.

Definition set_NewStateDate (v : Time) (a : t) : t :=
  let 'Build f0 f1 f2 f3 f4 f5 f6 f7 f8 f9 f10 f11 f12 f13 f14 _ f16 f17 f18 f19 := a in
  Build f0 f1 f2 f3 f4 f5 f6 f7 f8 f9 f10 f11 f12 f13 f14 v f16 f17 f18 f19.

Definition set_StateChanges (v : Z) (a : t) : t :=
  let 'Build f0 f1 f2 f3 f4 f5 f6 f7 f8 f9 f10 f11 f12 f13 f14 f15 _ f17 f18 f19 := a in
  Build f0 f1 f2 f3 f4 f5 f6 f7 f8 f9 f10 f11 f12 f13 f14 f15 v f17 f18 f19.

Definition set_Created (v : Time) (a : t) : t :=
  let 'Build f0 f1 f2 f3 f4 f5 f6 f7 f8 f9 f10 f11 f12 f13 f14 f15 f16 _ f18 f19 := a in
  Build f0 f1 f2 f3 f4 f5 f6 f7 f8 f9 f10 f11 f12 f13 f14 f15 f16 v f18 f19.

Definition set_Updated (v : Time) (a : t) : t :=
  let 'Build f0 f1 f2 f3 f4 f5 f6 f7 f8 f9 f10 f11 f12 f13 f14 f15 f16 f17 _ f19 := a in
  Build f0 f1 f2 f3 f4 f5 f6 f7 f8 f9 f10 f11 f12 f13 f14 f15 f16 f17 v f19.

(** The zero value [models.Alert{}]. *)
Definition zero : t :=
  Build 0 0 0 0 0 "" "" "" "" 0 false "" 0 0 None 0 0 0 0 None.
End Alert.

Definition ValidToSave (alert : Alert.t) : bool :=
  negb (Alert.DashboardId alert =? 0)%Z &&
  negb (Alert.OrgId alert =? 0)%Z &&
  negb (Alert.PanelId alert =? 0)%Z.

Definition ShouldUpdateState (alert : Alert.t) (newState : AlertStateType) : bool :=
  negb (Alert.State alert =? newState).

(** The tags come in the order the document lists the fields; Go ranges over
    the map in no fixed order. *)
Definition GetTagsFromSettings (alert : Alert.t) : list Tag.t :=
  match Alert.Settings alert with
  | Some settings =>
      match CheckGet settings "alertRuleTags" with
      | Some data =>
          map (fun kv => Tag.Build 0 (fst kv) (MustString (snd kv))) (MustMap data)
      | None => []
      end
  | None => []
  end.

(** [mm["uid"].(string)]: the type assertion panics unless the array element
    is an object whose [uid] is a string. *)
Definition uid_of (m : Json) : option string :=
  match lookup_field "uid" (MustMap m) with
  | Some (JString s) => Some s
  | _ => None
  end.

Fixpoint uids_of (data : list Json) : option (list string) :=
  match data with
  | [] => Some []
  | m :: rest =>
      match uid_of m, uids_of rest with
      | Some u, Some us => Some (u :: us)
      | _, _ => None
      end
  end.

(** [None] is the run-time panic of the type assertion. *)
Definition GetNotificationsFromSettings (alert : Alert.t) : option (list string) :=
  match Alert.Settings alert with
  | Some settings =>
      match CheckGet settings "notifications" with
      | Some data => uids_of (MustArray data)
      | None => Some []
      end
  | None => Some []
  end.

Section ContainsUpdates.

(** [simplejson.Json.Encode]: the JSON text of a document, or [None] when
    marshalling fails.  The encoder is not among the sources and is a
    parameter of everything that compares settings. *)
Variable Encode : Json -> option string.

Definition ContainsUpdates (this other : Alert.t) : bool :=
  let result := false in
  let result := result || negb (Alert.Name this =? Alert.Name other) in
  let result := result || negb (Alert.Message this =? Alert.Message other) in
  match Alert.Settings this, Alert.Settings other with
  | Some s1, Some s2 =>
      match Encode s1, Encode s2 with
      | Some json1, Some json2 => result || negb (json1 =? json2)
      | _, _ => false
      end
  | _, _ => result
  end.

End ContainsUpdates.

Module SaveAlertsCommand.
Record t : Type := Build {
  DashboardId : Z;
  UserId : Z;
  OrgId : Z;
  Alerts : list Alert.t
}.
End SaveAlertsCommand.

Module PauseAlertCommand.
Record t : Type := Build {
  OrgId : Z;
  AlertIds : list Z;
  ResultCount : Z;
  Paused : bool
}.
End PauseAlertCommand.

Module PauseAllAlertCommand.
Record t : Type := Build {
  ResultCount : Z;
  Paused : bool
}.
End PauseAllAlertCommand.

Module SetAlertStateCommand.
Record t : Type := Build {
  AlertId : Z;
  OrgId : Z;
  State : AlertStateType;
  Error : string;
  EvalData : option Json;
  Result : Alert.t
}.
End SetAlertStateCommand.

Module SignedInUser.
(** [models.SignedInUser] is declared outside the two files; the search
    reads its [OrgRole] and hands the user to the permission filter. *)
Record t : Type := Build {
  UserId : Z;
  OrgId : Z;
  OrgRole : string
}.
End SignedInUser.

Definition ROLE_ADMIN : string := "Admin".
Definition PERMISSION_VIEW : Z := 1.

Module GetAlertsQuery.
Record t : Type := Build {
  OrgId : Z;
  State : list string;
  DashboardIDs : list Z;
  PanelId : Z;
  Limit : Z;
  Query : string;
  User : SignedInUser.t;
  StandaloneAlertsEnabled : bool
}.
End GetAlertsQuery.

Module AlertListItemDTO.
Record t : Type := Build {
  Id : Z;
  DashboardId : Z;
  DashboardUid : string;
  DashboardSlug : string;
  PanelId : Z;
  Name : string;
  State : AlertStateType;
  NewStateDate : Time;
  EvalDate : Time;
  EvalData : option Json;
  ExecutionError : string;
  Url : string
}.

Definition set_ExecutionError (v : string) (d : t) : t :=
  let 'Build f0 f1 f2 f3 f4 f5 f6 f7 f8 f9 _ f11 := d in
  Build f0 f1 f2 f3 f4 f5 f6 f7 f8 f9 v f11.
End AlertListItemDTO.

Module AlertStateInfoDTO.
Record t : Type := Build {
  Id : Z;
  DashboardId : Z;
  PanelId : Z;
  State : AlertStateType;
  NewStateDate : Time
}.
End AlertStateInfoDTO.

(** ** The relational store *)

Module Annotation.
Record t : Type := Build { Id : Z; AlertId : Z }.
End Annotation.

Module AlertNotificationState.
Record t : Type := Build { Id : Z; AlertId : Z; NotifierId : Z }.
End AlertNotificationState.

Module AlertRuleTag.
Record t : Type := Build { AlertId : Z; TagId : Z }.
End AlertRuleTag.

Module AlertRuleNotification.
Record t : Type := Build { AlertId : Z; AlertNotificationId : Z }.
End AlertRuleNotification.

Module AlertNotification.
Record t : Type := Build { Id : Z; OrgId : Z; Uid : string }.
End AlertNotification.

Module Dashboard.
Record t : Type := Build { Id : Z; Uid : string; Slug : string }.
End Dashboard.

(** One list of rows per table the two files read or write, in storage
    order.  Of the tables owned by other packages only the columns the
    statements of this file mention are kept. *)
Record Store : Type := mkStore {
  alert : list Alert.t;
  annotation : list Annotation.t;
  alert_notification_state : list AlertNotificationState.t;
  alert_rule_tag : list AlertRuleTag.t;
  alert_rule_notification : list AlertRuleNotification.t;
  tag : list Tag.t;
  alert_notification : list AlertNotification.t;
  dashboard : list Dashboard.t
}.

Definition with_alert (rows : list Alert.t) (s : Store) : Store :=
  mkStore rows (annotation s) (alert_notification_state s) (alert_rule_tag s)
    (alert_rule_notification s) (tag s) (alert_notification s) (dashboard s).

Definition with_annotation (rows : list Annotation.t) (s : Store) : Store :=
  mkStore (alert s) rows (alert_notification_state s) (alert_rule_tag s)
    (alert_rule_notification s) (tag s) (alert_notification s) (dashboard s).

Definition with_alert_notification_state (rows : list AlertNotificationState.t)
    (s : Store) : Store :=
  mkStore (alert s) (annotation s) rows (alert_rule_tag s)
    (alert_rule_notification s) (tag s) (alert_notification s) (dashboard s).

Definition with_alert_rule_tag (rows : list AlertRuleTag.t) (s : Store) : Store :=
  mkStore (alert s) (annotation s) (alert_notification_state s) rows
    (alert_rule_notification s) (tag s) (alert_notification s) (dashboard s).

Definition with_alert_rule_notification (rows : list AlertRuleNotification.t)
    (s : Store) : Store :=
  mkStore (alert s) (annotation s) (alert_notification_state s) (alert_rule_tag s)
    rows (tag s) (alert_notification s) (dashboard s).

Definition with_tag (rows : list Tag.t) (s : Store) : Store :=
  mkStore (alert s) (annotation s) (alert_notification_state s) (alert_rule_tag s)
    (alert_rule_notification s) rows (alert_notification s) (dashboard s).

(** *** How the storage layer updates a row from a bean

    [sess.ID(id).Update(bean)] writes the columns whose field in the bean is
    not the zero value of its type, and the columns named by [MustCols]
    whatever their value ("without this space, xorm skips updating this
    field").  The key column and boolean columns are not written; the
    columns that hold a document always are. *)
Definition must (cols : list string) (col : string) : bool :=
  existsb (String.eqb col) cols.

Definition upd_int (cols : list string) (col : string) (old new : Z) : Z :=
  if must cols col || negb (new =? 0)%Z then new else old.

Definition upd_string (cols : list string) (col : string) (old new : string) : string :=
  if must cols col || negb (new =? "") then new else old.

Definition upd_bool (cols : list string) (col : string) (old new : bool) : bool :=
  if must cols col then new else old.

(** A column that holds a document is written whatever the bean holds: the
    storage layer asks the field for its database value before it looks
    whether the pointer is nil, and a nil [*simplejson.Json] answers with no
    value and no error, so that a bean without a document stores NULL. *)
Definition upd_json (old new : option Json) : option Json := new.

Definition xorm_update_row (cols : list string) (bean old : Alert.t) : Alert.t :=
  Alert.Build
    (Alert.Id old)
    (upd_int cols "version" (Alert.Version old) (Alert.Version bean))
    (upd_int cols "org_id" (Alert.OrgId old) (Alert.OrgId bean))
    (upd_int cols "dashboard_id" (Alert.DashboardId old) (Alert.DashboardId bean))
    (upd_int cols "panel_id" (Alert.PanelId old) (Alert.PanelId bean))
    (upd_string cols "name" (Alert.Name old) (Alert.Name bean))
    (upd_string cols "message" (Alert.Message old) (Alert.Message bean))
    (upd_string cols "severity" (Alert.Severity old) (Alert.Severity bean))
    (upd_string cols "state" (Alert.State old) (Alert.State bean))
    (upd_int cols "handler" (Alert.Handler old) (Alert.Handler bean))
    (upd_bool cols "silenced" (Alert.Silenced old) (Alert.Silenced bean))
    (upd_string cols "execution_error" (Alert.ExecutionError old) (Alert.ExecutionError bean))
    (upd_int cols "frequency" (Alert.Frequency old) (Alert.Frequency bean))
    (upd_int cols "for" (Alert.For old) (Alert.For bean))
    (upd_json (Alert.EvalData old) (Alert.EvalData bean))
    (upd_int cols "new_state_date" (Alert.NewStateDate old) (Alert.NewStateDate bean))
    (upd_int cols "state_changes" (Alert.StateChanges old) (Alert.StateChanges bean))
    (upd_int cols "created" (Alert.Created old) (Alert.Created bean))
    (upd_int cols "updated" (Alert.Updated old) (Alert.Updated bean))
    (upd_json (Alert.Settings old) (Alert.Settings bean)).

(** *** Statements *)

Inductive Stmt : Type :=
| InsertAlert (row : Alert.t)
| UpdateAlert (id : Z) (cols : list string) (bean : Alert.t)
| DeleteAlertRow (id : Z)
| DeleteAnnotations (alertId : Z)
| DeleteNotificationStates (alertId : Z)
| DeleteRuleTags (alertId : Z)
| DeleteRuleNotifications (alertId : Z)
| InsertTag (row : Tag.t)
| InsertRuleTag (alertId tagId : Z)
| InsertRuleNotifications (alertId orgId : Z) (uid : string)
| UpdateStateWhereIdIn (state : AlertStateType) (date : Time) (ids : list Z)
| UpdateStateAll (state : AlertStateType) (date : Time).

Definition mem (x : Z) (l : list Z) : bool := existsb (Z.eqb x) l.

Definition set_state_date (state : AlertStateType) (date : Time) (r : Alert.t) : Alert.t :=
  Alert.set_NewStateDate date (Alert.set_State state r).

(** The rows [INSERT INTO alert_rule_notification ... SELECT alertID,
    alert_notification.id FROM alert_notification WHERE org_id = ? AND uid = ?]
    adds: one per channel of the organisation with that uid. *)
Definition resolve_channels (alertId orgId : Z) (uid : string)
    (channels : list AlertNotification.t) : list AlertRuleNotification.t :=
  map (fun c => AlertRuleNotification.Build alertId (AlertNotification.Id c))
    (filter (fun c => (AlertNotification.OrgId c =? orgId)%Z &&
                      (AlertNotification.Uid c =? uid))
       channels).

Definition exec (st : Stmt) (s : Store) : Store :=
  match st with
  | InsertAlert row => with_alert (alert s ++ [row]) s
  | UpdateAlert id cols bean =>
      with_alert
        (map (fun r => if (Alert.Id r =? id)%Z then xorm_update_row cols bean r else r)
           (alert s)) s
  | DeleteAlertRow id =>
      with_alert (filter (fun r => negb (Alert.Id r =? id)%Z) (alert s)) s
  | DeleteAnnotations alertId =>
      with_annotation
        (filter (fun r => negb (Annotation.AlertId r =? alertId)%Z) (annotation s)) s
  | DeleteNotificationStates alertId =>
      with_alert_notification_state
        (filter (fun r => negb (AlertNotificationState.AlertId r =? alertId)%Z)
           (alert_notification_state s)) s
  | DeleteRuleTags alertId =>
      with_alert_rule_tag
        (filter (fun r => negb (AlertRuleTag.AlertId r =? alertId)%Z)
           (alert_rule_tag s)) s
  | DeleteRuleNotifications alertId =>
      with_alert_rule_notification
        (filter (fun r => negb (AlertRuleNotification.AlertId r =? alertId)%Z)
           (alert_rule_notification s)) s
  | InsertTag row => with_tag (tag s ++ [row]) s
  | InsertRuleTag alertId tagId =>
      with_alert_rule_tag (alert_rule_tag s ++ [AlertRuleTag.Build alertId tagId]) s
  | InsertRuleNotifications alertId orgId uid =>
      with_alert_rule_notification
        (alert_rule_notification s ++
         resolve_channels alertId orgId uid (alert_notification s)) s
  | UpdateStateWhereIdIn state date ids =>
      with_alert
        (map (fun r => if mem (Alert.Id r) ids then set_state_date state date r else r)
           (alert s)) s
  | UpdateStateAll state date =>
      with_alert (map (set_state_date state date) (alert s)) s
  end.

(** [res.RowsAffected()] of the two bulk updates: the rows the statement
    matches. *)
Definition rows_affected (st : Stmt) (s : Store) : Z :=
  match st with
  | UpdateStateWhereIdIn _ _ ids =>
      Z.of_nat (List.length (filter (fun r => mem (Alert.Id r) ids) (alert s)))
  | UpdateStateAll _ _ => Z.of_nat (List.length (alert s))
  | _ => 0
  end.

(** *** Errors *)

Inductive error : Type :=
| Errorf (msg : string)
| DuplicateKey (table : string) (id : Z)
| Panic.

Definition ErrCannotChangeStateOnPausedAlert : error :=
  Errorf "Cannot change state on pause alert".
Definition ErrRequiresNewState : error :=
  Errorf "update alert state requires a new state".

(** *** Sessions

    A [*DBSession] is the store as the open transaction sees it and the
    statements the transaction has issued.  A computation either fails, and
    the transaction is abandoned, or returns a value and the next session. *)
Record DBSession : Type := mkSession {
  db : Store;
  issued : list Stmt
}.

Definition M (A : Type) : Type := DBSession -> error + (A * DBSession).

Definition ret {A : Type} (a : A) : M A := fun sess => inr (a, sess).

Definition bind {A B : Type} (m : M A) (k : A -> M B) : M B :=
  fun sess =>
    match m sess with
    | inl e => inl e
    | inr (a, sess') => k a sess'
    end.

Definition fail {A : Type} (e : error) : M A := fun _ => inl e.

Definition reads {A : Type} (f : Store -> A) : M A :=
  fun sess => inr (f (db sess), sess).

Definition issue (st : Stmt) : M unit :=
  fun sess => inr (tt, mkSession (exec st (db sess)) (issued sess ++ [st])).

Declare Scope session_scope.
Delimit Scope session_scope with session.
Notation "x <- m ;; k" := (bind m (fun x => k))
  (at level 61, m at next level, right associativity) : session_scope.
Notation "m ;;; k" := (bind m (fun _ => k))
  (at level 61, right associativity) : session_scope.
Local Open Scope session_scope.

(** The outcome of a top-level operation: what it returned, the store it
    left, and the statements it committed. *)
Record Tx (A : Type) : Type := mkTx {
  outcome : error + A;
  store : Store;
  committed : list Stmt
}.

(** Modelled from the spec: [inTransaction] is declared outside the two
    files.  "Any step failing aborts and rolls back every prior step of that
    operation": a failed callback leaves the store as it was and commits
    nothing. *)
Definition inTransaction {A : Type} (callback : M A) (s : Store) : Tx A :=
  match callback (mkSession s []) with
  | inl e => mkTx (inl e) s []
  | inr (a, sess) => mkTx (inr a) (db sess) (issued sess)
  end.

(** [sess.ID(id).Get(&alert)] and [x.ID(id).Get(&alert)]. *)
Definition get_alert (id : Z) (s : Store) : option Alert.t :=
  find (fun r => (Alert.Id r =? id)%Z) (alert s).

(** [sess.Where("dashboard_id = ?", dashboardId).Find(&alerts)]. *)
Definition find_by_dashboard (dashboardId : Z) (s : Store) : list Alert.t :=
  filter (fun r => (Alert.DashboardId r =? dashboardId)%Z) (alert s).

(** The key the store assigns to a row inserted without one. *)
Definition next_id (ids : list Z) : Z := fold_right Z.max 0 ids + 1.

(** [sess.Insert(alert)]: every column is written; a bean without a key
    receives the next one, a bean with a key keeps it and the insert fails
    when the key is taken.  The bean leaves with its key set. *)
Definition xorm_Insert (bean : Alert.t) : M Alert.t :=
  ids <- reads (fun s => map Alert.Id (alert s)) ;;
  let id := if (Alert.Id bean =? 0)%Z then next_id ids else Alert.Id bean in
  if mem id ids then fail (DuplicateKey "alert" id)
  else
    let row := Alert.set_Id id bean in
    issue (InsertAlert row) ;;;
    ret row.

(** ** pkg/services/sqlstore/alert.go *)

Module GetAlertByIdQuery.
Record t : Type := Build { Id : Z; Result : option Alert.t }.
End GetAlertByIdQuery.

Module GetAllAlertsQuery.
Record t : Type := Build { Result : list Alert.t }.
End GetAllAlertsQuery.

Module DeleteAlertCommand.
Record t : Type := Build { Id : Z }.
End DeleteAlertCommand.

Definition GetAlertById (query : GetAlertByIdQuery.t) (s : Store)
    : error + GetAlertByIdQuery.t :=
  match get_alert (GetAlertByIdQuery.Id query) s with
  | None => inl (Errorf "could not find alert")
  | Some alert => inr (GetAlertByIdQuery.Build (GetAlertByIdQuery.Id query) (Some alert))
  end.

Definition GetAllAlertQueryHandler (query : GetAllAlertsQuery.t) (s : Store)
    : error + GetAllAlertsQuery.t :=
  let alerts := alert s in
  inr (GetAllAlertsQuery.Build alerts).

Definition deleteAlertByIdInternal (alertId : Z) (reason : string) : M unit :=
  issue (DeleteAlertRow alertId) ;;;
  issue (DeleteAnnotations alertId) ;;;
  issue (DeleteNotificationStates alertId) ;;;
  issue (DeleteRuleTags alertId) ;;;
  issue (DeleteRuleNotifications alertId) ;;;
  ret tt.

Fixpoint deleteEach (alerts : list Alert.t) (reason : string) : M unit :=
  match alerts with
  | [] => ret tt
  | a :: rest =>
      deleteAlertByIdInternal (Alert.Id a) reason ;;;
      deleteEach rest reason
  end.

Definition deleteAlertDefinition (dashboardId : Z) : M unit :=
  alerts <- reads (find_by_dashboard dashboardId) ;;
  deleteEach alerts "Dashboard deleted".

Definition GetAlertsByDashboardId2 (dashboardId : Z) : M (list Alert.t) :=
  reads (find_by_dashboard dashboardId).

(** Modelled from the spec: [EnsureTagsExist] is declared outside the two
    files.  "A tag-existence-ensurer, idempotent create-or-fetch": "creating a
    (key,value) pair that already exists must return the existing identity
    rather than duplicating". *)
Definition same_tag (t : Tag.t) (r : Tag.t) : bool :=
  (Tag.Key r =? Tag.Key t) && (Tag.Value r =? Tag.Value t).

Definition ensureTag (t : Tag.t) : M Tag.t :=
  rows <- reads tag ;;
  match find (same_tag t) rows with
  | Some existing => ret existing
  | None =>
      let row := Tag.Build (next_id (map Tag.Id rows)) (Tag.Key t) (Tag.Value t) in
      issue (InsertTag row) ;;;
      ret row
  end.

Fixpoint EnsureTagsExist (tags : list Tag.t) : M (list Tag.t) :=
  match tags with
  | [] => ret []
  | t :: rest =>
      t' <- ensureTag t ;;
      rest' <- EnsureTagsExist rest ;;
      ret (t' :: rest')
  end.

Fixpoint insertRuleTags (tags : list Tag.t) (alertID : Z) : M unit :=
  match tags with
  | [] => ret tt
  | t :: rest =>
      issue (InsertRuleTag alertID (Tag.Id t)) ;;;
      insertRuleTags rest alertID
  end.

(** The slices this file passes are never [nil], so the guard [tags != nil]
    of the source is taken. *)
Definition insertTags (tags : list Tag.t) (alertID : Z) : M unit :=
  tags <- EnsureTagsExist tags ;;
  insertRuleTags tags alertID.

Fixpoint insertNotifications (alertID orgID : Z) (notificationUIDs : list string)
    : M unit :=
  match notificationUIDs with
  | [] => ret tt
  | uid :: rest =>
      issue (InsertRuleNotifications alertID orgID uid) ;;;
      insertNotifications alertID orgID rest
  end.

Definition MustCols_message_for : list string := ["message"; "for"].

Section Reconciliation.

Variable Encode : Json -> option string.

(** [timeNow()], taken to return the same instant throughout one call; the
    source keeps the clock in a variable so that it can be pinned. *)
Variable now : Time.

(** The body of the loop of [updateAlerts]; the alert leaves as the loop
    mutated it. *)
Definition updateAlert (existingAlerts : list Alert.t) (alert : Alert.t)
    : M Alert.t :=
  alert <-
    match find (fun k => (Alert.PanelId alert =? Alert.PanelId k)%Z) existingAlerts with
    | Some alertToUpdate =>
        let alert := Alert.set_Id (Alert.Id alertToUpdate) alert in
        if ContainsUpdates Encode alertToUpdate alert then
          let alert := Alert.set_Updated now alert in
          let alert := Alert.set_State (Alert.State alertToUpdate) alert in
          issue (UpdateAlert (Alert.Id alert) MustCols_message_for alert) ;;;
          ret alert
        else ret alert
    | None =>
        let alert := Alert.set_Updated now alert in
        let alert := Alert.set_Created now alert in
        let alert := Alert.set_State AlertStateUnknown alert in
        let alert := Alert.set_NewStateDate now alert in
        xorm_Insert alert
    end ;;
  let tags := GetTagsFromSettings alert in
  issue (DeleteRuleTags (Alert.Id alert)) ;;;
  insertTags tags (Alert.Id alert) ;;;
  match GetNotificationsFromSettings alert with
  | None => fail Panic
  | Some alertNotificationUIDs =>
      issue (DeleteRuleNotifications (Alert.Id alert)) ;;;
      insertNotifications (Alert.Id alert) (Alert.OrgId alert) alertNotificationUIDs ;;;
      ret alert
  end.

Fixpoint updateEach (existingAlerts : list Alert.t) (alerts : list Alert.t)
    : M (list Alert.t) :=
  match alerts with
  | [] => ret []
  | alert :: rest =>
      alert' <- updateAlert existingAlerts alert ;;
      rest' <- updateEach existingAlerts rest ;;
      ret (alert' :: rest')
  end.

Definition updateAlerts (existingAlerts : list Alert.t) (cmd : SaveAlertsCommand.t)
    : M SaveAlertsCommand.t :=
  alerts <- updateEach existingAlerts (SaveAlertsCommand.Alerts cmd) ;;
  ret (SaveAlertsCommand.Build (SaveAlertsCommand.DashboardId cmd)
         (SaveAlertsCommand.UserId cmd) (SaveAlertsCommand.OrgId cmd) alerts).

Fixpoint deleteMissingAlerts (alerts : list Alert.t) (cmd : SaveAlertsCommand.t)
    : M unit :=
  match alerts with
  | [] => ret tt
  | missingAlert :: rest =>
      let missing :=
        negb (existsb (fun k => (Alert.PanelId missingAlert =? Alert.PanelId k)%Z)
                (SaveAlertsCommand.Alerts cmd)) in
      (if missing
       then deleteAlertByIdInternal (Alert.Id missingAlert) "Removed from dashboard"
       else ret tt) ;;;
      deleteMissingAlerts rest cmd
  end.

(** The command leaves with its alerts as [updateAlerts] mutated them. *)
Definition SaveAlerts (cmd : SaveAlertsCommand.t) (s : Store)
    : Tx SaveAlertsCommand.t :=
  inTransaction
    (existingAlerts <- GetAlertsByDashboardId2 (SaveAlertsCommand.DashboardId cmd) ;;
     cmd <- updateAlerts existingAlerts cmd ;;
     deleteMissingAlerts existingAlerts cmd ;;;
     ret cmd)
    s.

End Reconciliation.

Section StateTransitions.

Variable now : Time.

Definition SetAlertState (cmd : SetAlertStateCommand.t) (s : Store)
    : Tx SetAlertStateCommand.t :=
  inTransaction
    (found <- reads (get_alert (SetAlertStateCommand.AlertId cmd)) ;;
     match found with
     | None => fail (Errorf "Could not find alert")
     | Some alert =>
         if Alert.State alert =? AlertStatePaused then
           fail ErrCannotChangeStateOnPausedAlert
         else if Alert.State alert =? SetAlertStateCommand.State cmd then
           fail ErrRequiresNewState
         else
           let alert := Alert.set_State (SetAlertStateCommand.State cmd) alert in
           let alert :=
             Alert.set_StateChanges (wrap64 (Alert.StateChanges alert + 1)) alert in
           let alert := Alert.set_NewStateDate now alert in
           let alert := Alert.set_EvalData (SetAlertStateCommand.EvalData cmd) alert in
           let alert :=
             if SetAlertStateCommand.Error cmd =? "" then
               Alert.set_ExecutionError " " alert
             else
               Alert.set_ExecutionError (SetAlertStateCommand.Error cmd) alert in
           issue (UpdateAlert (Alert.Id alert) [] alert) ;;;
           ret (SetAlertStateCommand.Build
                  (SetAlertStateCommand.AlertId cmd)
                  (SetAlertStateCommand.OrgId cmd)
                  (SetAlertStateCommand.State cmd)
                  (SetAlertStateCommand.Error cmd)
                  (SetAlertStateCommand.EvalData cmd)
                  alert)
     end)
    s.

(** [sess.Exec] of a bulk update, with the [RowsAffected] of its result. *)
Definition issue_counting (st : Stmt) : M Z :=
  n <- reads (rows_affected st) ;;
  issue st ;;;
  ret n.

Definition PauseAlert (cmd : PauseAlertCommand.t) (s : Store)
    : Tx PauseAlertCommand.t :=
  inTransaction
    (if (Z.of_nat (List.length (PauseAlertCommand.AlertIds cmd)) =? 0)%Z then
       fail (Errorf "command contains no alertids")
     else
       let newState :=
         if PauseAlertCommand.Paused cmd then AlertStatePaused else AlertStateUnknown in
       n <- issue_counting
              (UpdateStateWhereIdIn newState now (PauseAlertCommand.AlertIds cmd)) ;;
       ret (PauseAlertCommand.Build (PauseAlertCommand.OrgId cmd)
              (PauseAlertCommand.AlertIds cmd) n (PauseAlertCommand.Paused cmd)))
    s.

Definition PauseAllAlerts (cmd : PauseAllAlertCommand.t) (s : Store)
    : Tx PauseAllAlertCommand.t :=
  inTransaction
    (let newState :=
       if PauseAllAlertCommand.Paused cmd then AlertStatePaused else AlertStateUnknown in
     n <- issue_counting (UpdateStateAll newState now) ;;
     ret (PauseAllAlertCommand.Build n (PauseAllAlertCommand.Paused cmd)))
    s.

End StateTransitions.

Definition DeleteAlert (cmd : DeleteAlertCommand.t) (s : Store) : Tx unit :=
  inTransaction
    (deleteAlertByIdInternal (DeleteAlertCommand.Id cmd)
       "Alert deletion requested from the API")
    s.

(** ** The search *)

(** [strings.TrimSpace], [strings.HasPrefix] and [strings.TrimPrefix].  A Go
    string is a sequence of bytes, and [TrimSpace] removes the leading and the
    trailing white space "as defined by Unicode" from it: the code points
    U+0009 to U+000D, U+0020, U+0085, U+00A0, U+1680, U+2000 to U+200A,
    U+2028, U+2029, U+202F, U+205F and U+3000, each in its UTF-8 encoding of
    one, two or three bytes.  A byte that starts no such encoding ends the
    trimming. *)
Definition is_space (c : Ascii.ascii) : bool :=
  let n := Ascii.nat_of_ascii c in
  ((9 <=? n)%nat && (n <=? 13)%nat) || (n =? 32)%nat.

(** U+0085 is [C2 85] and U+00A0 is [C2 A0]. *)
Definition is_space2 (c1 c2 : Ascii.ascii) : bool :=
  let n1 := Ascii.nat_of_ascii c1 in
  let n2 := Ascii.nat_of_ascii c2 in
  (n1 =? 194)%nat && ((n2 =? 133)%nat || (n2 =? 160)%nat).

(** U+1680 is [E1 9A 80]; U+2000 to U+200A are [E2 80 80] to [E2 80 8A];
    U+2028, U+2029 and U+202F are [E2 80 A8], [E2 80 A9] and [E2 80 AF];
    U+205F is [E2 81 9F]; U+3000 is [E3 80 80]. *)
Definition is_space3 (c1 c2 c3 : Ascii.ascii) : bool :=
  let n1 := Ascii.nat_of_ascii c1 in
  let n2 := Ascii.nat_of_ascii c2 in
  let n3 := Ascii.nat_of_ascii c3 in
  ((n1 =? 225)%nat && (n2 =? 154)%nat && (n3 =? 128)%nat) ||
  ((n1 =? 226)%nat && (n2 =? 128)%nat &&
   (((128 <=? n3)%nat && (n3 <=? 138)%nat) ||
    (n3 =? 168)%nat || (n3 =? 169)%nat || (n3 =? 175)%nat)) ||
  ((n1 =? 226)%nat && (n2 =? 129)%nat && (n3 =? 159)%nat) ||
  ((n1 =? 227)%nat && (n2 =? 128)%nat && (n3 =? 128)%nat).

(** The white space at the front of a string is removed one code point at a
    time; [two] and [three] recognise the encodings of two and three bytes,
    so that the same function serves for the end of a string, read
    backwards. *)
Fixpoint trim_runes (two : Ascii.ascii -> Ascii.ascii -> bool)
    (three : Ascii.ascii -> Ascii.ascii -> Ascii.ascii -> bool) (s : string) : string :=
  match s with
  | EmptyString => EmptyString
  | String c1 r1 =>
      if is_space c1 then trim_runes two three r1
      else
        match r1 with
        | EmptyString => s
        | String c2 r2 =>
            if two c1 c2 then trim_runes two three r2
            else
              match r2 with
              | EmptyString => s
              | String c3 r3 => if three c1 c2 c3 then trim_runes two three r3 else s
              end
        end
  end.

Definition trim_left (s : string) : string := trim_runes is_space2 is_space3 s.

Definition reverse (s : string) : string :=
  string_of_list_ascii (rev (list_ascii_of_string s)).

Definition trim_right (s : string) : string :=
  reverse (trim_runes (fun c2 c1 => is_space2 c1 c2)
             (fun c3 c2 c1 => is_space3 c1 c2 c3) (reverse s)).

Definition TrimSpace (s : string) : string := trim_right (trim_left s).

Definition HasPrefix (s prefix : string) : bool := String.prefix prefix s.

Definition TrimPrefix (s prefix : string) : string :=
  if HasPrefix s prefix
  then substring (String.length prefix) (String.length s - String.length prefix) s
  else s.

(** A row of [alert JOIN dashboard ON dashboard.id = alert.dashboard_id]; the
    dashboard side is [None] where the outer join found none. *)
Definition JoinedRow : Type := (Alert.t * option Dashboard.t)%type.

Definition join_dashboard (outer : bool) (s : Store) : list JoinedRow :=
  flat_map
    (fun a =>
       match filter (fun d => (Dashboard.Id d =? Alert.DashboardId a)%Z) (dashboard s) with
       | [] => if outer then [(a, None)] else []
       | ds => map (fun d => (a, Some d)) ds
       end)
    (alert s).

(** [ORDER BY name ASC]: the rows in the order of their names under the
    collation of the column, which belongs to the database and not to the
    program: [before x y] tells whether the name [x] sorts strictly before
    the name [y].  The rows are inserted one by one behind the rows whose
    name sorts before theirs; rows whose names the collation does not tell
    apart, which a database may return in any order, stay in the order of
    the table. *)
Fixpoint insert_by_name (before : string -> string -> bool)
    (r : JoinedRow) (rows : list JoinedRow) : list JoinedRow :=
  match rows with
  | [] => [r]
  | r' :: rest =>
      if before (Alert.Name (fst r')) (Alert.Name (fst r))
      then r' :: insert_by_name before r rest
      else r :: rows
  end.

Definition order_by_name (before : string -> string -> bool)
    (rows : list JoinedRow) : list JoinedRow :=
  fold_right (insert_by_name before) [] rows.

Definition to_dto (r : JoinedRow) : AlertListItemDTO.t :=
  let (a, d) := r in
  AlertListItemDTO.Build
    (Alert.Id a)
    (Alert.DashboardId a)
    (match d with Some d => Dashboard.Uid d | None => "" end)
    (match d with Some d => Dashboard.Slug d | None => "" end)
    (Alert.PanelId a)
    (Alert.Name a)
    (Alert.State a)
    (Alert.NewStateDate a)
    0
    (Alert.EvalData a)
    (Alert.ExecutionError a)
    "".

Section Search.

(** [dialect.LikeStr()]: whether a name matches a pattern. *)
Variable LikeStr : string -> string -> bool.

(** The collation of the column [alert.name]: whether a name sorts strictly
    before another. *)
Variable Collation : string -> string -> bool.

(** [dialect.Limit(n)] applied to the ordered rows. *)
Variable Limit : Z -> list JoinedRow -> list JoinedRow.

(** [writeDashboardPermissionFilter(user, permission)]: whether the user
    holds the permission on the dashboard of a row.  Declared outside the
    two files. *)
Variable dashboardPermissionFilter :
  SignedInUser.t -> Z -> Store -> option Dashboard.t -> bool.

(** One token of the state filter: [state <> ?] or [state = ?] with its
    parameter. *)
Definition state_token (v : string) (state : AlertStateType) : bool :=
  if HasPrefix v "not_"
  then negb (state =? TrimPrefix v "not_")
  else state =? v.

(** The parenthesised clause: the tokens joined by [OR]. *)
Definition state_clause (tokens : list string) (state : AlertStateType) : bool :=
  existsb (fun v => state_token v state) tokens.

(** The [WHERE] clause as the builder assembles it: the conjuncts written
    so far. *)
Definition where_clause (query : GetAlertsQuery.t) (s : Store)
    : list (JoinedRow -> bool) :=
  let builder : list (JoinedRow -> bool) :=
    [fun r => (Alert.OrgId (fst r) =? GetAlertsQuery.OrgId query)%Z] in
  let builder :=
    if (0 <? String.length (TrimSpace (GetAlertsQuery.Query query)))%nat
    then (builder ++
          [fun r => LikeStr ("%" ++ GetAlertsQuery.Query query ++ "%")%string
                      (Alert.Name (fst r))])%list
    else builder in
  let builder :=
    if (0 <? List.length (GetAlertsQuery.DashboardIDs query))%nat
    then (builder ++
          [fun r => mem (Alert.DashboardId (fst r)) (GetAlertsQuery.DashboardIDs query)])%list
    else builder in
  let builder :=
    if negb (GetAlertsQuery.PanelId query =? 0)%Z
    then (builder ++
          [fun r => (Alert.PanelId (fst r) =? GetAlertsQuery.PanelId query)%Z])%list
    else builder in
  let builder :=
    match GetAlertsQuery.State query with
    | first :: _ =>
        if negb (first =? "all")
        then (builder ++
              [fun r => state_clause (GetAlertsQuery.State query)
                          (Alert.State (fst r))])%list
        else builder
    | [] => builder
    end in
  let builder :=
    if negb (SignedInUser.OrgRole (GetAlertsQuery.User query) =? ROLE_ADMIN)
    then (builder ++
          [fun r => dashboardPermissionFilter (GetAlertsQuery.User query)
                      PERMISSION_VIEW s (snd r)])%list
    else builder in
  builder.

Definition normalize (d : AlertListItemDTO.t) : AlertListItemDTO.t :=
  if AlertListItemDTO.ExecutionError d =? " "
  then AlertListItemDTO.set_ExecutionError "" d
  else d.

Definition HandleAlertsQuery (query : GetAlertsQuery.t) (s : Store)
    : error + list AlertListItemDTO.t :=
  let joined := join_dashboard (GetAlertsQuery.StandaloneAlertsEnabled query) s in
  let conjuncts := where_clause query s in
  let selected := filter (fun r => forallb (fun c => c r) conjuncts) joined in
  let ordered := order_by_name Collation selected in
  let limited :=
    if negb (GetAlertsQuery.Limit query =? 0)%Z
    then Limit (GetAlertsQuery.Limit query) ordered
    else ordered in
  let alerts := map to_dto limited in
  inr (map normalize alerts).

End Search.

(** ** Notions the properties are stated with *)

(** The store a list of statements leads to. *)
Definition replay (stmts : list Stmt) (s : Store) : Store :=
  fold_left (fun s st => exec st s) stmts s.

(** The five statements of [deleteAlertByIdInternal]. *)
Definition cascade (alertId : Z) : list Stmt :=
  [DeleteAlertRow alertId; DeleteAnnotations alertId; DeleteNotificationStates alertId;
   DeleteRuleTags alertId; DeleteRuleNotifications alertId].

(** No row of the rule, and no row that depends on it, is left. *)
Definition unreachable (id : Z) (s : Store) : Prop :=
  (forall r, In r (alert s) -> Alert.Id r <> id) /\
  (forall r, In r (annotation s) -> Annotation.AlertId r <> id) /\
  (forall r, In r (alert_notification_state s) -> AlertNotificationState.AlertId r <> id) /\
  (forall r, In r (alert_rule_tag s) -> AlertRuleTag.AlertId r <> id) /\
  (forall r, In r (alert_rule_notification s) -> AlertRuleNotification.AlertId r <> id).

(** Every row that does not belong to the rule is left as it was. *)
Definition others_kept (id : Z) (s s' : Store) : Prop :=
  alert s' = filter (fun r => negb (Alert.Id r =? id)%Z) (alert s) /\
  annotation s' = filter (fun r => negb (Annotation.AlertId r =? id)%Z) (annotation s) /\
  alert_notification_state s' =
    filter (fun r => negb (AlertNotificationState.AlertId r =? id)%Z)
      (alert_notification_state s) /\
  alert_rule_tag s' =
    filter (fun r => negb (AlertRuleTag.AlertId r =? id)%Z) (alert_rule_tag s) /\
  alert_rule_notification s' =
    filter (fun r => negb (AlertRuleNotification.AlertId r =? id)%Z)
      (alert_rule_notification s) /\
  tag s' = tag s /\
  alert_notification s' = alert_notification s /\
  dashboard s' = dashboard s.

(** The primary key of the rule table. *)
Definition unique_ids (s : Store) : Prop := NoDup (map Alert.Id (alert s)).

(** Statements on the rule table. *)
Definition is_rule_write (st : Stmt) : bool :=
  match st with
  | InsertAlert _ | UpdateAlert _ _ _ | DeleteAlertRow _
  | UpdateStateWhereIdIn _ _ _ | UpdateStateAll _ _ => true
  | _ => false
  end.

(** The persisted rule [updateAlerts] pairs a desired rule with. *)
Definition match_of (existingAlerts : list Alert.t) (alert : Alert.t) : option Alert.t :=
  find (fun k => (Alert.PanelId alert =? Alert.PanelId k)%Z) existingAlerts.

(** The bean [updateAlerts] writes over a persisted rule, and the row it
    inserts for a new one (before the key is assigned).  The clock is read
    once for the bean and three times for the new row; the three readings
    are taken to be the one instant [now]. *)
Definition bean (now : Time) (k alert : Alert.t) : Alert.t :=
  Alert.set_State (Alert.State k) (Alert.set_Updated now (Alert.set_Id (Alert.Id k) alert)).

Definition stamp (now : Time) (alert : Alert.t) : Alert.t :=
  Alert.set_NewStateDate now
    (Alert.set_State AlertStateUnknown
       (Alert.set_Created now (Alert.set_Updated now alert))).

Definition panels (alerts : list Alert.t) : list Z := map Alert.PanelId alerts.

(** The tables a statement on the rule table leaves alone. *)
Definition same_other_tables (s s' : Store) : Prop :=
  annotation s' = annotation s /\
  alert_notification_state s' = alert_notification_state s /\
  alert_rule_tag s' = alert_rule_tag s /\
  alert_rule_notification s' = alert_rule_notification s /\
  tag s' = tag s /\
  alert_notification s' = alert_notification s /\
  dashboard s' = dashboard s.

(** The same command issued on behalf of another organisation. *)
Definition with_OrgId (orgId : Z) (cmd : SetAlertStateCommand.t) : SetAlertStateCommand.t :=
  SetAlertStateCommand.Build
    (SetAlertStateCommand.AlertId cmd) orgId (SetAlertStateCommand.State cmd)
    (SetAlertStateCommand.Error cmd) (SetAlertStateCommand.EvalData cmd)
    (SetAlertStateCommand.Result cmd).

(** The state [PauseAlert] and [PauseAllAlerts] write. *)
Definition pause_state (paused : bool) : AlertStateType :=
  if paused then AlertStatePaused else AlertStateUnknown.

(** The rule [SetAlertState] builds from the stored one before it writes it
    back. *)
Definition transitioned (now : Time) (cmd : SetAlertStateCommand.t) (rule : Alert.t)
    : Alert.t :=
  (if SetAlertStateCommand.Error cmd =? ""
   then Alert.set_ExecutionError " "
   else Alert.set_ExecutionError (SetAlertStateCommand.Error cmd))
    (Alert.set_EvalData (SetAlertStateCommand.EvalData cmd)
       (Alert.set_NewStateDate now
          (Alert.set_StateChanges (wrap64 (Alert.StateChanges rule + 1))
             (Alert.set_State (SetAlertStateCommand.State cmd) rule)))).

(** ** Sample data *)

Module Sample.

(** An encoder for the samples: a document that is a string encodes to it,
    any other document to one fixed text. *)
Definition encode (j : Json) : option string :=
  match j with
  | JString text => Some text
  | _ => Some "{}"
  end.

Definition rule (id dashboardId panelId : Z) (name : string) (state : AlertStateType)
    (created : Time) : Alert.t :=
  Alert.Build id 0 1 dashboardId panelId name "" "" state 0 false "" 60 0
    None created 0 created created (Some (JObject [])).

(** Dashboard 7 of organisation 1 with rules on its panels 1, 2 and 3, and
    a rule of organisation 2 on dashboard 8. *)
Definition store : Store :=
  mkStore
    [rule 1 7 1 "cpu" AlertStateOK 10;
     rule 2 7 2 "disk" AlertStateAlerting 10;
     rule 3 7 3 "load" AlertStatePaused 10;
     Alert.Build 4 0 2 8 1 "net" "" "" AlertStatePending 0 false "" 60 0
       (Some (JString "old")) 10 5 10 10 (Some (JObject []))]
    [Annotation.Build 1 1; Annotation.Build 2 2; Annotation.Build 3 1]
    [AlertNotificationState.Build 1 1 1; AlertNotificationState.Build 2 3 1]
    [AlertRuleTag.Build 1 1; AlertRuleTag.Build 2 1]
    [AlertRuleNotification.Build 1 1; AlertRuleNotification.Build 3 1]
    [Tag.Build 1 "team" "ops"]
    [AlertNotification.Build 1 1 "slack"]
    [Dashboard.Build 7 "uid7" "seven"; Dashboard.Build 8 "uid8" "eight"].

Definition admin : SignedInUser.t := SignedInUser.Build 1 1 ROLE_ADMIN.

(** A dialect for the samples: a pattern matches every name, names sort
    byte by byte, [LIMIT n] keeps the first [n] rows. *)
Definition like (pattern name : string) : bool := true.
Definition collate (x y : string) : bool := String.ltb x y.
Definition limit (n : Z) (rows : list JoinedRow) : list JoinedRow :=
  firstn (Z.to_nat n) rows.
Definition permitted (user : SignedInUser.t) (permission : Z) (s : Store)
    (d : option Dashboard.t) : bool := true.

Definition search (states : list string) : GetAlertsQuery.t :=
  GetAlertsQuery.Build 1 states [] 0 0 "" admin false.

(** Rule 1 goes to [alerting] with no execution error. *)
Definition to_alerting : SetAlertStateCommand.t :=
  SetAlertStateCommand.Build 1 1 AlertStateAlerting "" (Some (JString "data"))
    Alert.zero.


(** A desired rule of dashboard 7, as a dashboard save hands it over: no
    id, no state, no dates. *)
Definition desired (panelId : Z) (name : string) : Alert.t :=
  Alert.Build 0 0 1 7 panelId name "" "" "" 0 false "" 60 0
    None 0 0 0 0 (Some (JObject [])).

Definition save (alerts : list Alert.t) : SaveAlertsCommand.t :=
  SaveAlertsCommand.Build 7 1 1 alerts.

(** Panels 2, 3 and 4: panel 2 as persisted, panel 3 renamed, panel 4
    new. *)
Definition panels_234 : SaveAlertsCommand.t :=
  save [desired 2 "disk"; desired 3 "load average"; desired 4 "net"].

(** The rule of panel 1 renamed, handed over with an id, a state and a
    creation time of the caller's. *)
Definition recreated : Alert.t :=
  Alert.Build 77 0 1 7 1 "cpu load" "" "" AlertStateAlerting 0 false "" 60 0
    None 0 0 999 0 (Some (JObject [])).

Definition with_recreated : SaveAlertsCommand.t :=
  save [recreated; desired 2 "disk"; desired 3 "load"].

(** The rule of panel 1 as persisted, but without settings. *)
Definition bare : Alert.t :=
  Alert.Build 0 0 1 7 1 "cpu" "" "" "" 0 false "" 60 0 None 0 0 0 0 None.

Definition with_bare : SaveAlertsCommand.t :=
  save [bare; desired 2 "disk"; desired 3 "load"].

(** The rule of panel 1 without a name. *)
Definition with_unnamed : SaveAlertsCommand.t :=
  save [desired 1 ""; desired 2 "disk"; desired 3 "load"].

Definition persisted_1 : Alert.t := rule 1 7 1 "cpu" AlertStateOK 10.
Definition persisted_3 : Alert.t := rule 3 7 3 "load" AlertStatePaused 10.

End Sample.

(** The same search with another state filter. *)
Definition with_State (states : list string) (query : GetAlertsQuery.t)
    : GetAlertsQuery.t :=
  GetAlertsQuery.Build
    (GetAlertsQuery.OrgId query) states (GetAlertsQuery.DashboardIDs query)
    (GetAlertsQuery.PanelId query) (GetAlertsQuery.Limit query)
    (GetAlertsQuery.Query query) (GetAlertsQuery.User query)
    (GetAlertsQuery.StandaloneAlertsEnabled query).

(** The ids of the rules a search returned. *)
Definition returned_ids (r : error + list AlertListItemDTO.t) : list Z :=
  match r with
  | inr rows => map AlertListItemDTO.Id rows
  | inl _ => []
  end.

(** ** Notions for reconciliation *)

(** The session moved on without a statement on the rule table. *)
Definition links_only (sess sess' : DBSession) : Prop :=
  alert (db sess') = alert (db sess) /\
  exists new,
    issued sess' = (issued sess ++ new)%list /\
    forallb (fun st => negb (is_rule_write st)) new = true.

(** What reconciling one desired rule does to one stored row, and what
    reconciling a list of them does. *)
Definition update_of (Encode : Json -> option string) (now : Time)
    (existingAlerts : list Alert.t) (alert : Alert.t) (r : Alert.t) : Alert.t :=
  match match_of existingAlerts alert with
  | Some k =>
      if (Alert.Id r =? Alert.Id k)%Z && ContainsUpdates Encode k alert
      then xorm_update_row MustCols_message_for (bean now k alert) r
      else r
  | None => r
  end.

Definition updates_of (Encode : Json -> option string) (now : Time)
    (existingAlerts : list Alert.t) (alerts : list Alert.t) (r : Alert.t) : Alert.t :=
  fold_left (fun r a => update_of Encode now existingAlerts a r) alerts r.

(** The persisted rules no desired rule shares a panel with. *)
Definition missing (existingAlerts alerts : list Alert.t) : list Alert.t :=
  filter
    (fun k => negb (existsb (fun a => (Alert.PanelId k =? Alert.PanelId a)%Z) alerts))
    existingAlerts.

(** The row of a new rule once the store has given it the key [id]. *)
Definition inserted (now : Time) (id : Z) (alert : Alert.t) : Alert.t :=
  Alert.set_Id id (stamp now alert).

(** A computation that always returns and issues no statement on the rule
    table. *)
Definition link_comp {A : Type} (m : M A) : Prop :=
  forall sess, exists a sess', m sess = inr (a, sess') /\ links_only sess sess'.

(** What one turn of the loop of [updateAlerts] did when it returned: the
    settings yield notification uids, and the rule was written over its match,
    or left alone, or inserted; [links] are the statements that regenerate the
    links. *)
Definition reconcile_step (Encode : Json -> option string) (now : Time)
    (existingAlerts : list Alert.t) (a : Alert.t) (sess : DBSession)
    (a' : Alert.t) (sess' : DBSession) : Prop :=
  GetNotificationsFromSettings a <> None /\
  exists links,
    forallb (fun st => negb (is_rule_write st)) links = true /\
    ((exists k,
        match_of existingAlerts a = Some k /\
        ContainsUpdates Encode k a = true /\
        a' = bean now k a /\
        issued sess' =
          (issued sess ++ UpdateAlert (Alert.Id k) MustCols_message_for a' :: links)%list /\
        alert (db sess') =
          alert (exec (UpdateAlert (Alert.Id k) MustCols_message_for a') (db sess)))
     \/
     (exists k,
        match_of existingAlerts a = Some k /\
        ContainsUpdates Encode k a = false /\
        a' = Alert.set_Id (Alert.Id k) a /\
        issued sess' = (issued sess ++ links)%list /\
        alert (db sess') = alert (db sess))
     \/
     (match_of existingAlerts a = None /\
      exists id,
        a' = inserted now id a /\
        ~ In id (map Alert.Id (alert (db sess))) /\
        issued sess' = (issued sess ++ InsertAlert a' :: links)%list /\
        alert (db sess') = (alert (db sess) ++ [a'])%list)).

(** Whether a statement writes the rule with the given id. *)
Definition writes_rule (id : Z) (st : Stmt) : bool :=
  match st with
  | InsertAlert row => (Alert.Id row =? id)%Z
  | UpdateAlert i _ _ => (i =? id)%Z
  | DeleteAlertRow i => (i =? id)%Z
  | UpdateStateWhereIdIn _ _ ids => mem id ids
  | UpdateStateAll _ _ => true
  | _ => false
  end.

(** ** The rest of pkg/models/alert.go *)

Definition NoDataSetOK : string := "ok".
Definition NoDataSetNoData : string := "no_data".
Definition NoDataKeepState : string := "keep_state".
Definition NoDataSetAlerting : string := "alerting".

Definition ExecutionErrorSetAlerting : string := "alerting".
Definition ExecutionErrorKeepState : string := "keep_state".

Module NoDataOption.
Definition t : Type := string.

Definition IsValid (s : t) : bool :=
  (s =? NoDataSetNoData) || (s =? NoDataSetAlerting) ||
  (s =? NoDataKeepState) || (s =? NoDataSetOK).

Definition ToAlertState (s : t) : AlertStateType := s.
End NoDataOption.

Module ExecutionErrorOption.
Definition t : Type := string.

Definition IsValid (s : t) : bool :=
  (s =? ExecutionErrorSetAlerting) || (s =? ExecutionErrorKeepState).

Definition ToAlertState (s : t) : AlertStateType := s.
End ExecutionErrorOption.

Module GetAlertStatesForDashboardQuery.
Record t : Type := Build {
  OrgId : Z;
  DashboardId : Z;
  Result : list AlertStateInfoDTO.t
}.
End GetAlertStatesForDashboardQuery.

(** The conditions of a standalone rule are carried into its settings and
    read nowhere else in the two files. *)
Module alertCondition.

Module Evaluator.
Record t : Type := Build { Params : list Z; Type_ : string }.
End Evaluator.

Module Operator.
Record t : Type := Build { Type_ : string }.
End Operator.

Module Model.
Record t : Type := Build { data : option Json }.
End Model.

Module Query.
Record t : Type := Build { DatasourceID : Z; Model : Model.t; Params : list string }.
End Query.

Module Reducer.
Record t : Type := Build { Params : list string; Type_ : string }.
End Reducer.

Record t : Type := Build {
  Evaluator : Evaluator.t;
  Operator : Operator.t;
  Query : Query.t;
  Reducer : Reducer.t;
  Type_ : string
}.
End alertCondition.

(** An element of [Notifications []struct{ UID string }]. *)
Module NotificationRef.
Record t : Type := Build { UID : string }.
End NotificationRef.

(** [AlertRuleTags map[string]string] is kept as the list of its entries,
    ranged over in list order; Go ranges over the map in no fixed order. *)
Module CreateAlertCommand.
Record t : Type := Build {
  AlertRuleTags : list (string * string);
  Conditions : list alertCondition.t;
  ExecutionErrorState : string;
  For : string;
  Frequency : Z;
  Handler : Z;
  Name : string;
  NoDataState : NoDataOption.t;
  Notifications : list NotificationRef.t;
  OrgId : Z;
  Result : option Alert.t
}.

Definition set_ExecutionErrorState (v : string) (c : t) : t :=
  let 'Build f0 f1 _ f3 f4 f5 f6 f7 f8 f9 f10 := c in
  Build f0 f1 v f3 f4 f5 f6 f7 f8 f9 f10.

Definition set_Result (v : option Alert.t) (c : t) : t :=
  let 'Build f0 f1 f2 f3 f4 f5 f6 f7 f8 f9 _ := c in
  Build f0 f1 f2 f3 f4 f5 f6 f7 f8 f9 v.
End CreateAlertCommand.

Module UpdateAlertCommand.
Record t : Type := Build {
  OrgID : Z;
  ID : Z;
  AlertRuleTags : list (string * string);
  Conditions : list alertCondition.t;
  ExecutionErrorState : string;
  For : string;
  Frequency : Z;
  Handler : Z;
  Name : string;
  NoDataState : NoDataOption.t;
  Notifications : list NotificationRef.t;
  Result : option Alert.t
}.

Definition set_Result (v : option Alert.t) (c : t) : t :=
  let 'Build f0 f1 f2 f3 f4 f5 f6 f7 f8 f9 f10 _ := c in
  Build f0 f1 f2 f3 f4 f5 f6 f7 f8 f9 f10 v.
End UpdateAlertCommand.

(** ** The rest of pkg/services/sqlstore/alert.go *)

Definition to_state_info (r : Alert.t) : AlertStateInfoDTO.t :=
  AlertStateInfoDTO.Build (Alert.Id r) (Alert.DashboardId r) (Alert.PanelId r)
    (Alert.State r) (Alert.NewStateDate r).

Definition GetAlertStatesForDashboard (query : GetAlertStatesForDashboardQuery.t)
    (s : Store) : error + GetAlertStatesForDashboardQuery.t :=
  let rows :=
    filter
      (fun r =>
         (Alert.OrgId r =? GetAlertStatesForDashboardQuery.OrgId query)%Z &&
         (Alert.DashboardId r =? GetAlertStatesForDashboardQuery.DashboardId query)%Z)
      (alert s) in
  inr (GetAlertStatesForDashboardQuery.Build
         (GetAlertStatesForDashboardQuery.OrgId query)
         (GetAlertStatesForDashboardQuery.DashboardId query)
         (map to_state_info rows)).

Definition getAlertNotificationIDs (alertID : Z) (s : Store) : error + list Z :=
  let notifiers :=
    map AlertRuleNotification.AlertNotificationId
      (filter (fun r => (AlertRuleNotification.AlertId r =? alertID)%Z)
         (alert_rule_notification s)) in
  inr notifiers.

(** [x.Exist(&models.Alert{Id: id})]: the storage layer turns the non-zero
    fields of the bean into the conditions of the query, so a bean with a
    zero id asks whether the table holds any row. *)
Definition exist_alert (id : Z) (s : Store) : bool :=
  if (id =? 0)%Z
  then negb (Nat.eqb (List.length (alert s)) 0)
  else existsb (fun r => (Alert.Id r =? id)%Z) (alert s).

(** The tags and notification uids the two commands of standalone rules
    build from their fields. *)
Definition tags_of_map (alertRuleTags : list (string * string)) : list Tag.t :=
  map (fun kv => Tag.Build 0 (fst kv) (snd kv)) alertRuleTags.

Definition uids_of_refs (notifications : list NotificationRef.t) : list string :=
  map NotificationRef.UID notifications.

(** The two commands of standalone rules.  [UpdateAlert] shares its name
    with the statement that updates a row, hence the module. *)
Module sqlstore.

Section Standalone.

(** [time.ParseDuration]. *)
Variable ParseDuration : string -> error + Z.

(** [simplejson.NewFromAny] at the types of the two commands: the document
    a command marshals to. *)
Variable NewFromAny_create : CreateAlertCommand.t -> Json.
Variable NewFromAny_update : UpdateAlertCommand.t -> Json.

Variable now : Time.

(** The command leaves with [ExecutionErrorState] cleared and, when the
    call returns no error, with its [Result]. *)
Definition CreateAlert (cmd : CreateAlertCommand.t) (s : Store)
    : Tx CreateAlertCommand.t :=
  let settings := cmd in
  let settings := CreateAlertCommand.set_Result None settings in
  let cmd := CreateAlertCommand.set_ExecutionErrorState "" cmd in
  match ParseDuration (CreateAlertCommand.For cmd) with
  | inl err => mkTx (inl err) s []
  | inr forDuration =>
      inTransaction
        (let creationTime := now in
         let alert :=
           Alert.Build 0 0 (CreateAlertCommand.OrgId cmd) 0 0
             (CreateAlertCommand.Name cmd) "" "" AlertStateUnknown 0 false ""
             (CreateAlertCommand.Frequency cmd) forDuration None creationTime 0
             creationTime creationTime (Some (NewFromAny_create settings)) in
         alert <- xorm_Insert alert ;;
         let tags := tags_of_map (CreateAlertCommand.AlertRuleTags cmd) in
         insertTags tags (Alert.Id alert) ;;;
         let notificationUIDs := uids_of_refs (CreateAlertCommand.Notifications cmd) in
         insertNotifications (Alert.Id alert) (CreateAlertCommand.OrgId cmd)
           notificationUIDs ;;;
         ret (CreateAlertCommand.set_Result (Some alert) cmd))
        s
  end.

Definition UpdateAlert (cmd : UpdateAlertCommand.t) (s : Store)
    : Tx UpdateAlertCommand.t :=
  let has := exist_alert (UpdateAlertCommand.ID cmd) s in
  if negb has then mkTx (inl (Errorf "Cannot find alert")) s []
  else
    let settings := cmd in
    let settings := UpdateAlertCommand.set_Result None settings in
    match ParseDuration (UpdateAlertCommand.For cmd) with
    | inl err => mkTx (inl err) s []
    | inr forDuration =>
        let alert :=
          Alert.Build (UpdateAlertCommand.ID cmd) 0 (UpdateAlertCommand.OrgID cmd) 0 0
            (UpdateAlertCommand.Name cmd) "" "" "" 0 false ""
            (UpdateAlertCommand.Frequency cmd) forDuration None 0 0 0 now
            (Some (NewFromAny_update settings)) in
        inTransaction
          (issue (UpdateAlert (Alert.Id alert) MustCols_message_for alert) ;;;
           issue (DeleteRuleTags (Alert.Id alert)) ;;;
           let tags := tags_of_map (UpdateAlertCommand.AlertRuleTags cmd) in
           insertTags tags (Alert.Id alert) ;;;
           issue (DeleteRuleNotifications (Alert.Id alert)) ;;;
           let notificationUIDs := uids_of_refs (UpdateAlertCommand.Notifications cmd) in
           insertNotifications (UpdateAlertCommand.ID cmd) (UpdateAlertCommand.OrgID cmd)
             notificationUIDs ;;;
           ret (UpdateAlertCommand.set_Result (Some alert) cmd))
          s
    end.

End Standalone.

End sqlstore.

(** The tag links of a rule. *)
Definition tag_links_of (alertID : Z) (s : Store) : list AlertRuleTag.t :=
  filter (fun r => (AlertRuleTag.AlertId r =? alertID)%Z) (alert_rule_tag s).

Section Tags.

(** The statement of [getAlertTags] is the database's to run, and two
    things in it depend on the dialect.  It selects the column [key] by its
    bare name, a reserved word for some dialects: [rejected] is the error of a
    database that does not accept the statement.  And it compares [id] with
    a subquery: [scalar_of_many] is what the database makes of a subquery used
    as a value that selects several rows, an error on some databases, the
    value of the first row on others. *)
Variable rejected : option error.
Variable scalar_of_many : list Z -> error + option Z.

(** [(SELECT tag_id from alert_rule_tag WHERE alert_id = ?)] used as a
    value: no row is NULL, which equals no id, and one row is its value. *)
Definition scalar_subquery (rows : list Z) : error + option Z :=
  match rows with
  | [] => inr None
  | [v] => inr (Some v)
  | _ => scalar_of_many rows
  end.

Definition getAlertTags (alertID : Z) (s : Store) : error + list Tag.t :=
  match rejected with
  | Some err => inl err
  | None =>
      let tag_ids :=
        map AlertRuleTag.TagId
          (filter (fun r => (AlertRuleTag.AlertId r =? alertID)%Z) (alert_rule_tag s)) in
      match scalar_subquery tag_ids with
      | inl err => inl err
      | inr None => inr []
      | inr (Some id) => inr (filter (fun t => (Tag.Id t =? id)%Z) (tag s))
      end
  end.

End Tags.

(** ** Notions for the links, the standalone rules and the search *)

(** The channels of an organisation the uids resolve to, in the order of the
    uids. *)
Definition channel_ids (orgId : Z) (uids : list string) (s : Store) : list Z :=
  flat_map
    (fun uid =>
       map AlertNotification.Id
         (filter (fun c => (AlertNotification.OrgId c =? orgId)%Z &&
                           (AlertNotification.Uid c =? uid))
            (alert_notification s)))
    uids.

(** The statements of [insertNotifications]. *)
Definition link_stmts (alertID orgID : Z) (uids : list string) : list Stmt :=
  map (InsertRuleNotifications alertID orgID) uids.

(** What a computation that maintains the tags of one rule does to the
    store: it adds tags and tag links of that rule, and leaves every other
    table alone. *)
Definition tag_effect (alertID : Z) (s s' : Store) : Prop :=
  alert s' = alert s /\
  annotation s' = annotation s /\
  alert_notification_state s' = alert_notification_state s /\
  alert_rule_notification s' = alert_rule_notification s /\
  alert_notification s' = alert_notification s /\
  dashboard s' = dashboard s /\
  (exists rows, tag s' = (tag s ++ rows)%list) /\
  (exists links,
     alert_rule_tag s' = (alert_rule_tag s ++ links)%list /\
     forall l, In l links -> AlertRuleTag.AlertId l = alertID).

Definition tag_comp {A : Type} (alertID : Z) (m : M A) : Prop :=
  forall sess,
    exists a sess', m sess = inr (a, sess') /\ tag_effect alertID (db sess) (db sess').

(** The notification links of a rule. *)
Definition links_of (alertID : Z) (s : Store) : list AlertRuleNotification.t :=
  filter (fun r => (AlertRuleNotification.AlertId r =? alertID)%Z)
    (alert_rule_notification s).

(** The rule [CreateAlert] hands to the store, and the bean [UpdateAlert]
    writes over the stored rule. *)
Definition created_rule (now : Time) (cmd : CreateAlertCommand.t) (forDuration : Z)
    (settings : Json) : Alert.t :=
  Alert.Build 0 0 (CreateAlertCommand.OrgId cmd) 0 0
    (CreateAlertCommand.Name cmd) "" "" AlertStateUnknown 0 false ""
    (CreateAlertCommand.Frequency cmd) forDuration None now 0 now now (Some settings).

Definition update_bean (now : Time) (cmd : UpdateAlertCommand.t) (forDuration : Z)
    (settings : Json) : Alert.t :=
  Alert.Build (UpdateAlertCommand.ID cmd) 0 (UpdateAlertCommand.OrgID cmd) 0 0
    (UpdateAlertCommand.Name cmd) "" "" "" 0 false ""
    (UpdateAlertCommand.Frequency cmd) forDuration None 0 0 0 now (Some settings).

(** No row that depends on a rule is left behind without its rule. *)
Definition no_orphans (s : Store) : Prop :=
  forall id, ~ In id (map Alert.Id (alert s)) -> unreachable id s.

(** The same search with another text to look for. *)
Definition with_Query (text : string) (query : GetAlertsQuery.t) : GetAlertsQuery.t :=
  GetAlertsQuery.Build
    (GetAlertsQuery.OrgId query) (GetAlertsQuery.State query)
    (GetAlertsQuery.DashboardIDs query) (GetAlertsQuery.PanelId query)
    (GetAlertsQuery.Limit query) text (GetAlertsQuery.User query)
    (GetAlertsQuery.StandaloneAlertsEnabled query).

(** ** Sample data for standalone rules, links and tags *)

Module Fixture.

(** A duration parser for the samples: five minutes parse, nothing else
    does. *)
Definition parse (text : string) : error + Z :=
  if text =? "5m" then inr 300000000000
  else inl (Errorf "time: invalid duration").

Definition settings_of_create (cmd : CreateAlertCommand.t) : Json :=
  JObject [("name", JString (CreateAlertCommand.Name cmd));
           ("for", JString (CreateAlertCommand.For cmd));
           ("executionErrorState", JString (CreateAlertCommand.ExecutionErrorState cmd))].

Definition settings_of_update (cmd : UpdateAlertCommand.t) : Json :=
  JObject [("name", JString (UpdateAlertCommand.Name cmd));
           ("for", JString (UpdateAlertCommand.For cmd))].

(** A standalone rule of organisation 1 with two tags, one of them new, and
    two channels, one of them unknown. *)
Definition create : CreateAlertCommand.t :=
  CreateAlertCommand.Build [("team", "ops"); ("env", "prod")] [] "alerting" "5m" 60 1
    "latency" NoDataSetNoData [NotificationRef.Build "slack"; NotificationRef.Build "mail"]
    1 None.

(** Rule 1 updated on behalf of organisation 1, and rule 1 updated without
    a name on behalf of organisation 2. *)
Definition update : UpdateAlertCommand.t :=
  UpdateAlertCommand.Build 1 1 [("team", "ops"); ("env", "prod")] [] "" "5m" 30 1
    "cpu usage" NoDataSetNoData [NotificationRef.Build "slack"] None.

Definition update_from_org2 : UpdateAlertCommand.t :=
  UpdateAlertCommand.Build 2 1 [] [] "" "5m" 30 1 "" NoDataSetNoData [] None.

(** A desired rule of panel 3 whose notification has a number for uid, and a
    desired rule of panel 4 that notifies the channel [slack]. *)
Definition malformed : Alert.t :=
  Alert.Build 0 0 1 7 3 "load" "" "" "" 0 false "" 60 0 None 0 0 0 0
    (Some (JObject [("notifications", JArray [JObject [("uid", JNumber "5")]])])).

Definition with_malformed : SaveAlertsCommand.t :=
  Sample.save [Sample.desired 2 "disk usage"; malformed].

Definition notifying : Alert.t :=
  Alert.Build 0 0 1 7 4 "net" "" "" "" 0 false "" 60 0 None 0 0 0 0
    (Some (JObject [("notifications", JArray [JObject [("uid", JString "slack")]])])).

Definition with_notifying : SaveAlertsCommand.t :=
  Sample.save [Sample.desired 2 "disk"; notifying].

(** A database that refuses a scalar subquery with several rows. *)
Definition many_rows (rows : list Z) : error + option Z :=
  inl (Errorf "subquery returns more than 1 row").

Definition pause_1 : PauseAlertCommand.t := PauseAlertCommand.Build 1 [1] 0 true.

Definition states_of_7 : GetAlertStatesForDashboardQuery.t :=
  GetAlertStatesForDashboardQuery.Build 1 7 [].

Definition dashboard_7 : Dashboard.t := Dashboard.Build 7 "uid7" "seven".

(** The rule [create] leaves in the sample store at time 100, and the
    command as it returns. *)
Definition created : Alert.t :=
  Alert.Build 5 0 1 0 0 "latency" "" "" AlertStateUnknown 0 false "" 60 300000000000
    None 100 0 100 100 (Some (settings_of_create create)).

Definition create_result : CreateAlertCommand.t :=
  CreateAlertCommand.set_Result (Some created)
    (CreateAlertCommand.set_ExecutionErrorState "" create).

(** A desired rule of panel 4 with two tags in its settings. *)
Definition tagged : Alert.t :=
  Alert.Build 0 0 1 7 4 "net" "" "" "" 0 false "" 60 0 None 0 0 0 0
    (Some (JObject [("alertRuleTags",
                     JObject [("team", JString "ops"); ("env", JString "prod")])])).

Definition with_tagged : SaveAlertsCommand.t :=
  Sample.save [Sample.desired 2 "disk"; tagged].

End Fixture.

(** ** Proofs *)

(** *** The session monad *)

Lemma bind_inr {A B : Type} (m : M A) (k : A -> M B) sess b sess' :
  bind m k sess = inr (b, sess') ->
  exists a sess1, m sess = inr (a, sess1) /\ k a sess1 = inr (b, sess').
Proof.
  unfold bind. destruct (m sess) as [e | [a sess1]]; [discriminate |].
  intros H. exists a, sess1. split; [reflexivity | exact H].
Qed.

Lemma bind_run {A B : Type} (m : M A) (k : A -> M B) sess a sess1 :
  m sess = inr (a, sess1) -> bind m k sess = k a sess1.
Proof. unfold bind. intros ->. reflexivity. Qed.

Lemma replay_app stmts1 stmts2 s :
  replay (stmts1 ++ stmts2) s = replay stmts2 (replay stmts1 s).
Proof. unfold replay. apply fold_left_app. Qed.

(** *** Deleting a rule *)

Lemma deleteAlertByIdInternal_run alertId reason sess :
  deleteAlertByIdInternal alertId reason sess =
  inr (tt, mkSession (replay (cascade alertId) (db sess)) (issued sess ++ cascade alertId)).
Proof.
  unfold deleteAlertByIdInternal, bind, issue, ret. simpl.
  repeat rewrite <- app_assoc. reflexivity.
Qed.

Lemma cascade_others_kept id s : others_kept id s (replay (cascade id) s).
Proof. unfold others_kept. simpl. repeat split; reflexivity. Qed.

Lemma others_kept_unreachable id s s' : others_kept id s s' -> unreachable id s'.
Proof.
  intros (Ha & Hb & Hc & Hd & He & _).
  unfold unreachable.
  rewrite Ha, Hb, Hc, Hd, He.
  repeat split; intros r Hin; apply filter_In in Hin; destruct Hin as [_ Hin];
    apply negb_true_iff in Hin; apply Z.eqb_neq in Hin; exact Hin.
Qed.

Lemma cascade_unreachable id s : unreachable id (replay (cascade id) s).
Proof. eapply others_kept_unreachable, cascade_others_kept. Qed.

Lemma cascade_keeps_unreachable id id' s :
  unreachable id s -> unreachable id (replay (cascade id') s).
Proof.
  intros (Ha & Hb & Hc & Hd & He).
  destruct (cascade_others_kept id' s) as (Ka & Kb & Kc & Kd & Ke & _).
  unfold unreachable. rewrite Ka, Kb, Kc, Kd, Ke.
  repeat split; intros r Hin; apply filter_In in Hin; destruct Hin as [Hin _]; auto.
Qed.

Lemma deleteEach_run alerts reason sess :
  deleteEach alerts reason sess =
  inr (tt, mkSession (replay (flat_map (fun a => cascade (Alert.Id a)) alerts) (db sess))
             (issued sess ++ flat_map (fun a => cascade (Alert.Id a)) alerts)).
Proof.
  revert sess. induction alerts as [| a rest IH]; intros sess.
  - simpl. unfold ret. rewrite app_nil_r. destruct sess; reflexivity.
  - cbn [deleteEach flat_map].
    erewrite bind_run by apply deleteAlertByIdInternal_run.
    rewrite IH. cbn [db issued]. rewrite replay_app, <- app_assoc. reflexivity.
Qed.

Lemma replay_cascades_unreachable (ids : list Z) id s :
  In id ids -> unreachable id (replay (flat_map cascade ids) s).
Proof.
  revert s. induction ids as [| i rest IH]; intros s Hin; [contradiction |].
  cbn [flat_map]. rewrite replay_app.
  destruct Hin as [-> | Hin].
  - clear IH. generalize (cascade_unreachable id s).
    generalize (replay (cascade id) s). induction rest as [| j rest' IH']; intros s' H.
    + exact H.
    + cbn [flat_map]. rewrite replay_app. apply IH'. apply cascade_keeps_unreachable. exact H.
  - apply IH. exact Hin.
Qed.

Lemma flat_map_cascade_ids (f : Alert.t -> Z) alerts :
  flat_map (fun a => cascade (f a)) alerts = flat_map cascade (map f alerts).
Proof. induction alerts; simpl; congruence. Qed.

(** *** Reading one rule *)

Lemma mem_In x l : mem x l = true <-> In x l.
Proof.
  unfold mem. rewrite existsb_exists. split.
  - intros (y & Hin & Heq). apply Z.eqb_eq in Heq. subst. exact Hin.
  - intros Hin. exists x. split; [exact Hin | apply Z.eqb_refl].
Qed.

Lemma mem_false x l : mem x l = false <-> ~ In x l.
Proof.
  rewrite <- mem_In. destruct (mem x l); split; intros H; try discriminate; auto.
  exfalso; apply H; reflexivity.
Qed.

Lemma get_alert_some id s r : get_alert id s = Some r -> In r (alert s) /\ Alert.Id r = id.
Proof.
  unfold get_alert. intros H. apply find_some in H. destruct H as [Hin Heq].
  apply Z.eqb_eq in Heq. auto.
Qed.

Lemma find_id_unique (rows : list Alert.t) r :
  NoDup (map Alert.Id rows) -> In r rows ->
  find (fun x => (Alert.Id x =? Alert.Id r)%Z) rows = Some r.
Proof.
  induction rows as [| x rest IH]; intros Hnd Hin; [contradiction |].
  simpl in Hnd. inversion Hnd as [| ? ? Hnotin Hnd']; subst.
  simpl. destruct Hin as [-> | Hin].
  - rewrite Z.eqb_refl. reflexivity.
  - destruct (Z.eqb_spec (Alert.Id x) (Alert.Id r)) as [Heq | _].
    + exfalso. apply Hnotin. rewrite Heq. apply in_map. exact Hin.
    + apply IH; assumption.
Qed.

Lemma get_alert_unique s r :
  unique_ids s -> In r (alert s) -> get_alert (Alert.Id r) s = Some r.
Proof. apply find_id_unique. Qed.

Lemma find_id_map (g : Alert.t -> Alert.t) id rows :
  (forall r, Alert.Id (g r) = Alert.Id r) ->
  find (fun x => (Alert.Id x =? id)%Z) (map g rows) =
  option_map g (find (fun x => (Alert.Id x =? id)%Z) rows).
Proof.
  intros Hg. induction rows as [| x rest IH]; [reflexivity |].
  simpl. rewrite Hg. destruct (Alert.Id x =? id)%Z; [reflexivity | exact IH].
Qed.

(** *** What an update preserves *)

Lemma upd_int_same cols col x : upd_int cols col x x = x.
Proof. unfold upd_int. destruct (_ || _); reflexivity. Qed.

Lemma upd_string_same cols col x : upd_string cols col x x = x.
Proof. unfold upd_string. destruct (_ || _); reflexivity. Qed.

Lemma upd_bool_same cols col x : upd_bool cols col x x = x.
Proof. unfold upd_bool. destruct (must _ _); reflexivity. Qed.

Lemma upd_json_same x : upd_json x x = x.
Proof. destruct x; reflexivity. Qed.

Lemma upd_int_nonzero cols col old new : new <> 0 -> upd_int cols col old new = new.
Proof.
  intros H. unfold upd_int. apply Z.eqb_neq in H. rewrite H.
  rewrite orb_true_r. reflexivity.
Qed.

Lemma upd_string_nonempty cols col old new : new <> "" -> upd_string cols col old new = new.
Proof.
  intros H. unfold upd_string. apply String.eqb_neq in H. rewrite H.
  rewrite orb_true_r. reflexivity.
Qed.

Lemma xorm_update_row_Id cols b r : Alert.Id (xorm_update_row cols b r) = Alert.Id r.
Proof. reflexivity. Qed.

Lemma IsValid_nonempty st : IsValid st = true -> st <> "".
Proof. intros H ->. discriminate H. Qed.

(** *** State transitions *)

Lemma SetAlertState_found now cmd s rule :
  get_alert (SetAlertStateCommand.AlertId cmd) s = Some rule ->
  Alert.State rule <> AlertStatePaused ->
  SetAlertStateCommand.State cmd <> Alert.State rule ->
  SetAlertState now cmd s =
  mkTx (inr (SetAlertStateCommand.Build
               (SetAlertStateCommand.AlertId cmd) (SetAlertStateCommand.OrgId cmd)
               (SetAlertStateCommand.State cmd) (SetAlertStateCommand.Error cmd)
               (SetAlertStateCommand.EvalData cmd) (transitioned now cmd rule)))
       (exec (UpdateAlert (Alert.Id rule) [] (transitioned now cmd rule)) s)
       [UpdateAlert (Alert.Id rule) [] (transitioned now cmd rule)].
Proof.
  intros Hget Hp Hs.
  unfold SetAlertState, inTransaction, bind, reads. cbn [db issued].
  rewrite Hget.
  apply String.eqb_neq in Hp. rewrite Hp.
  assert (Hs' : (Alert.State rule =? SetAlertStateCommand.State cmd) = false).
  { apply String.eqb_neq. congruence. }
  rewrite Hs'.
  unfold transitioned. destruct rule; cbn.
  destruct (SetAlertStateCommand.Error cmd =? ""); reflexivity.
Qed.

Lemma transitioned_fields now cmd rule :
  let r' := transitioned now cmd rule in
  Alert.Id r' = Alert.Id rule /\
  Alert.State r' = SetAlertStateCommand.State cmd /\
  Alert.StateChanges r' = wrap64 (Alert.StateChanges rule + 1) /\
  Alert.NewStateDate r' = now /\
  Alert.EvalData r' = SetAlertStateCommand.EvalData cmd /\
  Alert.ExecutionError r' =
    (if SetAlertStateCommand.Error cmd =? "" then " " else SetAlertStateCommand.Error cmd).
Proof.
  unfold transitioned.
  destruct rule; destruct (SetAlertStateCommand.Error cmd =? "");
    cbn; repeat split; reflexivity.
Qed.

Lemma transitioned_stored now cmd rule :
  let stored := xorm_update_row [] (transitioned now cmd rule) rule in
  Alert.ExecutionError stored = Alert.ExecutionError (transitioned now cmd rule) /\
  Alert.EvalData stored = SetAlertStateCommand.EvalData cmd /\
  Alert.StateChanges stored =
    upd_int [] "state_changes" (Alert.StateChanges rule)
      (wrap64 (Alert.StateChanges rule + 1)) /\
  Alert.State stored =
    upd_string [] "state" (Alert.State rule) (SetAlertStateCommand.State cmd) /\
  Alert.NewStateDate stored = upd_int [] "new_state_date" (Alert.NewStateDate rule) now.
Proof.
  unfold transitioned.
  destruct rule; destruct (SetAlertStateCommand.Error cmd =? "") eqn:He; cbn;
    (split; [| split; [| split; [| split]]]); try reflexivity.
  apply upd_string_nonempty. apply String.eqb_neq. exact He.
Qed.

Lemma exec_UpdateAlert_get id cols b s rule :
  get_alert id s = Some rule ->
  get_alert id (exec (UpdateAlert id cols b) s) = Some (xorm_update_row cols b rule).
Proof.
  intros Hget. unfold get_alert. cbn [exec with_alert alert].
  rewrite find_id_map.
  - unfold get_alert in Hget. rewrite Hget. cbn [option_map].
    destruct (get_alert_some _ _ Hget) as [_ ->]. rewrite Z.eqb_refl. reflexivity.
  - intros r. destruct (Alert.Id r =? id)%Z; reflexivity.
Qed.

Lemma exec_UpdateAlert_ids id cols b s :
  map Alert.Id (alert (exec (UpdateAlert id cols b) s)) = map Alert.Id (alert s).
Proof.
  cbn [exec with_alert alert]. rewrite map_map. apply map_ext.
  intros r. destruct (Alert.Id r =? id)%Z; reflexivity.
Qed.

Lemma same_other_tables_refl s : same_other_tables s s.
Proof. unfold same_other_tables. repeat split. Qed.

Lemma same_other_tables_with_alert rows s : same_other_tables s (with_alert rows s).
Proof. unfold same_other_tables. repeat split. Qed.





(** *** Pausing *)

Lemma PauseAlert_run now cmd s :
  PauseAlertCommand.AlertIds cmd <> [] ->
  let st := UpdateStateWhereIdIn (pause_state (PauseAlertCommand.Paused cmd)) now
              (PauseAlertCommand.AlertIds cmd) in
  PauseAlert now cmd s =
  mkTx (inr (PauseAlertCommand.Build (PauseAlertCommand.OrgId cmd)
               (PauseAlertCommand.AlertIds cmd) (rows_affected st s)
               (PauseAlertCommand.Paused cmd)))
       (exec st s) [st].
Proof.
  intros Hne st. unfold PauseAlert, inTransaction.
  destruct (PauseAlertCommand.AlertIds cmd) as [| i ids] eqn:Hids; [congruence |].
  cbn [List.length]. rewrite Nat2Z.inj_succ.
  destruct (Z.eqb_spec (Z.succ (Z.of_nat (List.length ids))) 0) as [H0 | _]; [lia |].
  subst st. unfold pause_state.
  destruct (PauseAlertCommand.Paused cmd); reflexivity.
Qed.

Lemma set_state_date_fields st date r :
  Alert.State (set_state_date st date r) = st /\
  Alert.NewStateDate (set_state_date st date r) = date /\
  Alert.Id (set_state_date st date r) = Alert.Id r.
Proof. destruct r; cbn; auto. Qed.

Lemma paused_rows st date ids (rows : list Alert.t) :
  let rows' := map (fun r => if mem (Alert.Id r) ids then set_state_date st date r else r)
                 rows in
  map Alert.Id rows' = map Alert.Id rows /\
  (forall r, In r rows -> In (Alert.Id r) ids -> In (set_state_date st date r) rows') /\
  (forall r', In r' rows' -> In (Alert.Id r') ids ->
     Alert.State r' = st /\ Alert.NewStateDate r' = date) /\
  (forall r, In r rows -> ~ In (Alert.Id r) ids -> In r rows') /\
  (forall r', In r' rows' -> ~ In (Alert.Id r') ids -> In r' rows).
Proof.
  intros rows'. subst rows'. repeat split.
  - rewrite map_map. apply map_ext. intros r.
    destruct (mem (Alert.Id r) ids); [apply set_state_date_fields | reflexivity].
  - intros r Hin Hid. apply in_map_iff. exists r. split; [| exact Hin].
    apply mem_In in Hid. rewrite Hid. reflexivity.
  - apply in_map_iff in H. destruct H as (r & Heq & Hin).
    destruct (mem (Alert.Id r) ids) eqn:Hm.
    + subst r'. apply set_state_date_fields.
    + subst r'. apply mem_false in Hm. contradiction.
  - apply in_map_iff in H. destruct H as (r & Heq & Hin).
    destruct (mem (Alert.Id r) ids) eqn:Hm.
    + subst r'. apply set_state_date_fields.
    + subst r'. apply mem_false in Hm. contradiction.
  - intros r Hin Hid. apply in_map_iff. exists r. split; [| exact Hin].
    apply mem_false in Hid. rewrite Hid. reflexivity.
  - intros r' Hin Hid. apply in_map_iff in Hin. destruct Hin as (r & Heq & Hin).
    destruct (mem (Alert.Id r) ids) eqn:Hm.
    + subst r'. exfalso. apply Hid.
      destruct (set_state_date_fields st date r) as (_ & _ & ->).
      apply mem_In. exact Hm.
    + subst r'. exact Hin.
Qed.

(** C8.  [PauseAlert] with an empty id list fails and changes nothing.  With
    a non-empty list it succeeds whatever the listed rules' states are: every
    stored rule whose id is listed gets the state [paused] (for
    [Paused = true]) or [unknown] (for [Paused = false]) and the current time
    as [NewStateDate], every other rule and every other table is left as it
    was, ids that name no rule are ignored, and [ResultCount] is the number
    of rules whose id is listed.  Unpausing therefore leaves the listed rules
    in state [unknown], whatever their state was before the pause.
    [PauseAllAlerts] does the same to every rule of the table. *)
Theorem PauseAlert_bulk (now : Time) (cmd : PauseAlertCommand.t) (s : Store) :
  let res := PauseAlert now cmd s in
  let ids := PauseAlertCommand.AlertIds cmd in
  let newState := pause_state (PauseAlertCommand.Paused cmd) in
  (ids = [] ->
   outcome res = inl (Errorf "command contains no alertids") /\
   store res = s /\ committed res = []) /\
  (ids <> [] ->
   exists cmd',
     outcome res = inr cmd' /\
     PauseAlertCommand.ResultCount cmd' =
       Z.of_nat (List.length (filter (fun r => mem (Alert.Id r) ids) (alert s))) /\
     committed res = [UpdateStateWhereIdIn newState now ids] /\
     same_other_tables s (store res) /\
     map Alert.Id (alert (store res)) = map Alert.Id (alert s) /\
     (forall r, In r (alert s) -> In (Alert.Id r) ids ->
        In (set_state_date newState now r) (alert (store res))) /\
     (forall r', In r' (alert (store res)) -> In (Alert.Id r') ids ->
        Alert.State r' = newState /\ Alert.NewStateDate r' = now) /\
     (forall r, In r (alert s) -> ~ In (Alert.Id r) ids -> In r (alert (store res))) /\
     (forall r', In r' (alert (store res)) -> ~ In (Alert.Id r') ids -> In r' (alert s)) /\
     (forall now' cmd2 r',
        PauseAlertCommand.AlertIds cmd2 = ids ->
        PauseAlertCommand.Paused cmd2 = false ->
        In r' (alert (store (PauseAlert now' cmd2 (store res)))) ->
        In (Alert.Id r') ids ->
        Alert.State r' = AlertStateUnknown)) /\
  (forall cmdAll,
     let resAll := PauseAllAlerts now cmdAll s in
     exists cmd',
       outcome resAll = inr cmd' /\
       PauseAllAlertCommand.ResultCount cmd' = Z.of_nat (List.length (alert s)) /\
       alert (store resAll) =
         map (set_state_date (pause_state (PauseAllAlertCommand.Paused cmdAll)) now)
           (alert s) /\
       same_other_tables s (store resAll)).
Proof.
  intros res ids newState. split; [| split].
  - intros Hids. subst res. unfold PauseAlert, inTransaction.
    fold ids. rewrite Hids. cbn. auto.
  - intros Hne. subst res. rewrite (PauseAlert_run now cmd s Hne).
    cbn [outcome store committed]. fold ids. fold newState.
    eexists. split; [reflexivity |].
    cbn [PauseAlertCommand.ResultCount rows_affected exec with_alert alert].
    destruct (paused_rows newState now ids (alert s)) as (P1 & P2 & P3 & P4 & P5).
    split; [reflexivity |].
    split; [reflexivity |].
    split; [apply same_other_tables_with_alert |].
    split; [exact P1 |].
    split; [exact P2 |].
    split; [exact P3 |].
    split; [exact P4 |].
    split; [exact P5 |].
    intros now' cmd2 r' Hids2 Hp2 Hin Hid.
    assert (Hne2 : PauseAlertCommand.AlertIds cmd2 <> []) by (rewrite Hids2; exact Hne).
    rewrite (PauseAlert_run now' cmd2 _ Hne2) in Hin.
    cbn [store exec with_alert alert] in Hin.
    rewrite Hids2, Hp2 in Hin.
    match type of Hin with
    | In _ (map _ ?rows) =>
        destruct (paused_rows (pause_state false) now' ids rows) as (_ & _ & Q3 & _)
    end.
    apply (Q3 r' Hin Hid).
  - intros cmdAll resAll. subst resAll.
    unfold PauseAllAlerts, inTransaction, pause_state.
    destruct (PauseAllAlertCommand.Paused cmdAll); cbn;
      (eexists; split; [reflexivity |]; split; [reflexivity |];
       split; [reflexivity | apply same_other_tables_with_alert]).
Qed.

(** *** The organisation of a command *)

(** C10.  [SetAlertState] does not read the [OrgId] of its command: the
    same command issued for any other organisation fails with the same
    error or returns the same rule, leaves the same store and commits the
    same statements.  [GetAlertById] takes an id and nothing else, and
    returns the rule with that id whatever organisation the rule belongs
    to. *)
Theorem OrgId_is_ignored (now : Time) (cmd : SetAlertStateCommand.t) (orgId : Z)
    (s : Store) :
  let res := SetAlertState now cmd s in
  let res' := SetAlertState now (with_OrgId orgId cmd) s in
  store res' = store res /\
  committed res' = committed res /\
  match outcome res, outcome res' with
  | inl e, inl e' => e' = e
  | inr c, inr c' =>
      c' = with_OrgId orgId c /\
      SetAlertStateCommand.Result c' = SetAlertStateCommand.Result c
  | _, _ => False
  end /\
  (forall rule query,
     unique_ids s -> In rule (alert s) ->
     GetAlertByIdQuery.Id query = Alert.Id rule ->
     GetAlertById query s = inr (GetAlertByIdQuery.Build (Alert.Id rule) (Some rule))).
Proof.
  intros res res'. subst res res'.
  split; [| split; [| split]].
  - unfold SetAlertState, inTransaction, bind, reads, with_OrgId. cbn.
    destruct (get_alert (SetAlertStateCommand.AlertId cmd) s) as [rule |]; [| reflexivity].
    destruct (Alert.State rule =? AlertStatePaused); [reflexivity |].
    destruct (Alert.State rule =? SetAlertStateCommand.State cmd); [reflexivity |].
    destruct (SetAlertStateCommand.Error cmd =? ""); reflexivity.
  - unfold SetAlertState, inTransaction, bind, reads, with_OrgId. cbn.
    destruct (get_alert (SetAlertStateCommand.AlertId cmd) s) as [rule |]; [| reflexivity].
    destruct (Alert.State rule =? AlertStatePaused); [reflexivity |].
    destruct (Alert.State rule =? SetAlertStateCommand.State cmd); [reflexivity |].
    destruct (SetAlertStateCommand.Error cmd =? ""); reflexivity.
  - unfold SetAlertState, inTransaction, bind, reads, with_OrgId. cbn.
    destruct (get_alert (SetAlertStateCommand.AlertId cmd) s) as [rule |]; [| reflexivity].
    destruct (Alert.State rule =? AlertStatePaused); [reflexivity |].
    destruct (Alert.State rule =? SetAlertStateCommand.State cmd); [reflexivity |].
    destruct (SetAlertStateCommand.Error cmd =? ""); cbn; auto.
  - intros rule query Hu Hin Hid. unfold GetAlertById. rewrite Hid.
    rewrite (get_alert_unique rule Hu Hin). reflexivity.
Qed.

(** *** The search *)

Lemma In_insert_by_name before x r rows :
  In x (insert_by_name before r rows) <-> x = r \/ In x rows.
Proof.
  induction rows as [| r' rest IH]; simpl.
  - intuition.
  - destruct (before _ _); simpl; [| intuition].
    rewrite IH. intuition.
Qed.

Lemma In_order_by_name before x rows : In x (order_by_name before rows) <-> In x rows.
Proof.
  unfold order_by_name. induction rows as [| r rest IH]; simpl; [reflexivity |].
  rewrite In_insert_by_name, IH. intuition.
Qed.

Lemma normalize_State d : AlertListItemDTO.State (normalize d) = AlertListItemDTO.State d.
Proof.
  unfold normalize. destruct (AlertListItemDTO.ExecutionError d =? " "); [| reflexivity].
  destruct d; reflexivity.
Qed.

Lemma normalize_no_sentinel d : AlertListItemDTO.ExecutionError (normalize d) <> " ".
Proof.
  unfold normalize. destruct (AlertListItemDTO.ExecutionError d =? " ") eqn:He.
  - destruct d; cbn. discriminate.
  - apply String.eqb_neq. exact He.
Qed.

Lemma to_dto_State r : AlertListItemDTO.State (to_dto r) = Alert.State (fst r).
Proof. destruct r as [a d]. reflexivity. Qed.

Section SearchProofs.

Variable LikeStr : string -> string -> bool.
Variable Collation : string -> string -> bool.
Variable Limit : Z -> list JoinedRow -> list JoinedRow.
Variable dashboardPermissionFilter :
  SignedInUser.t -> Z -> Store -> option Dashboard.t -> bool.

(** The search hands out no single-space execution error. *)
Lemma HandleAlertsQuery_normalizes query s result d :
  HandleAlertsQuery LikeStr Collation Limit dashboardPermissionFilter query s = inr result -> In d result ->
  AlertListItemDTO.ExecutionError d <> " ".
Proof.
  unfold HandleAlertsQuery. intros H Hin. injection H as <-.
  apply in_map_iff in Hin. destruct Hin as (d0 & <- & _).
  apply normalize_no_sentinel.
Qed.

Lemma where_clause_all query s rest :
  GetAlertsQuery.State query = "all" :: rest ->
  where_clause LikeStr dashboardPermissionFilter query s = where_clause LikeStr dashboardPermissionFilter (with_State [] query) s.
Proof.
  intros Hst. unfold where_clause, with_State. cbn. rewrite Hst. cbn.
  reflexivity.
Qed.

Lemma where_clause_filtered query s first rest r :
  GetAlertsQuery.State query = first :: rest -> first <> "all" ->
  forallb (fun c => c r) (where_clause LikeStr dashboardPermissionFilter query s) =
  forallb (fun c => c r) (where_clause LikeStr dashboardPermissionFilter (with_State [] query) s) &&
  state_clause (GetAlertsQuery.State query) (Alert.State (fst r)).
Proof.
  intros Hst Hne. unfold where_clause, with_State.
  cbn [GetAlertsQuery.OrgId GetAlertsQuery.State GetAlertsQuery.DashboardIDs
       GetAlertsQuery.PanelId GetAlertsQuery.Limit GetAlertsQuery.Query
       GetAlertsQuery.User GetAlertsQuery.StandaloneAlertsEnabled].
  rewrite Hst.
  apply String.eqb_neq in Hne. rewrite Hne. cbn [negb].
  destruct (0 <? String.length (TrimSpace (GetAlertsQuery.Query query)))%nat;
    destruct (0 <? List.length (GetAlertsQuery.DashboardIDs query))%nat;
    destruct (negb (GetAlertsQuery.PanelId query =? 0)%Z);
    destruct (negb (SignedInUser.OrgRole (GetAlertsQuery.User query) =? ROLE_ADMIN));
    repeat rewrite forallb_app; cbn [forallb]; btauto.
Qed.

Lemma search_sound query s result d :
  (forall n rows r, In r (Limit n rows) -> In r rows) ->
  HandleAlertsQuery LikeStr Collation Limit dashboardPermissionFilter query s = inr result -> In d result ->
  exists r,
    In r (join_dashboard (GetAlertsQuery.StandaloneAlertsEnabled query) s) /\
    forallb (fun c => c r) (where_clause LikeStr dashboardPermissionFilter query s) = true /\
    d = normalize (to_dto r).
Proof.
  intros Hlimit H Hin. unfold HandleAlertsQuery in H. injection H as <-.
  apply in_map_iff in Hin. destruct Hin as (d0 & <- & Hin).
  apply in_map_iff in Hin. destruct Hin as (r & <- & Hin).
  exists r.
  assert (Hsel : In r (filter (fun r => forallb (fun c => c r) (where_clause LikeStr dashboardPermissionFilter query s))
                         (join_dashboard (GetAlertsQuery.StandaloneAlertsEnabled query) s))).
  { apply (In_order_by_name Collation).
    destruct (negb (GetAlertsQuery.Limit query =? 0)%Z); [eapply Hlimit |]; exact Hin. }
  apply filter_In in Hsel. destruct Hsel as [Hj Hc]. auto.
Qed.

Lemma search_unlimited query s result d :
  GetAlertsQuery.Limit query = 0 ->
  HandleAlertsQuery LikeStr Collation Limit dashboardPermissionFilter query s = inr result ->
  In d result <->
  exists r,
    In r (join_dashboard (GetAlertsQuery.StandaloneAlertsEnabled query) s) /\
    forallb (fun c => c r) (where_clause LikeStr dashboardPermissionFilter query s) = true /\
    d = normalize (to_dto r).
Proof.
  intros H0 H. unfold HandleAlertsQuery in H. injection H as <-.
  rewrite H0. cbn [Z.eqb negb]. split.
  - intros Hin.
    apply in_map_iff in Hin. destruct Hin as (d0 & <- & Hin).
    apply in_map_iff in Hin. destruct Hin as (r & <- & Hin).
    apply In_order_by_name, filter_In in Hin. destruct Hin as [Hj Hc].
    exists r. auto.
  - intros (r & Hj & Hc & ->).
    apply in_map, in_map, In_order_by_name, filter_In. auto.
Qed.

Lemma state_clause_tokens tokens st :
  state_clause tokens st = true <->
  exists v, In v tokens /\
    if HasPrefix v "not_" then st <> TrimPrefix v "not_" else st = v.
Proof.
  unfold state_clause. rewrite existsb_exists.
  split; intros (v & Hin & Hv); exists v; (split; [exact Hin |]);
    unfold state_token in *; destruct (HasPrefix v "not_").
  - apply negb_true_iff, String.eqb_neq in Hv. exact Hv.
  - apply String.eqb_eq. exact Hv.
  - apply negb_true_iff, String.eqb_neq. exact Hv.
  - apply String.eqb_eq. exact Hv.
Qed.

End SearchProofs.

(** C7, as amended.  A state filter whose first token is the literal [all]
    is no filter: the search returns what it returns without a state filter.
    Under any other filter a token [not_X] stands for "state differs from X"
    and any other token for "state is X", the tokens are alternatives, and
    the search returns the rules the unfiltered search returns whose state
    meets one of them; under the filter [not_ok] every returned rule has a
    state other than [ok]. *)
Theorem state_filter
    (LikeStr : string -> string -> bool)
    (Collation : string -> string -> bool)
    (Limit : Z -> list JoinedRow -> list JoinedRow)
    (dashboardPermissionFilter : SignedInUser.t -> Z -> Store -> option Dashboard.t -> bool)
    (query : GetAlertsQuery.t) (s : Store) :
  let search := HandleAlertsQuery LikeStr Collation Limit dashboardPermissionFilter in
  let sublist := forall n rows r, In r (Limit n rows) -> In r rows in
  (forall rest,
     GetAlertsQuery.State query = "all" :: rest ->
     search query s = search (with_State [] query) s) /\
  (forall first rest result unfiltered,
     GetAlertsQuery.State query = first :: rest -> first <> "all" ->
     search query s = inr result ->
     search (with_State [] query) s = inr unfiltered ->
     (sublist ->
      forall d, In d result ->
        state_clause (GetAlertsQuery.State query) (AlertListItemDTO.State d) = true) /\
     (GetAlertsQuery.Limit query = 0 ->
      forall d, In d result <->
        In d unfiltered /\
        state_clause (GetAlertsQuery.State query) (AlertListItemDTO.State d) = true)) /\
  (forall tokens st,
     state_clause tokens st = true <->
     exists v, In v tokens /\
       if HasPrefix v "not_" then st <> TrimPrefix v "not_" else st = v) /\
  (forall result d,
     GetAlertsQuery.State query = ["not_ok"] -> sublist ->
     search query s = inr result -> In d result ->
     AlertListItemDTO.State d <> AlertStateOK).
Proof.
  intros search sublist.
  assert (Hsound : forall first rest result d,
            GetAlertsQuery.State query = first :: rest -> first <> "all" -> sublist ->
            search query s = inr result -> In d result ->
            state_clause (GetAlertsQuery.State query) (AlertListItemDTO.State d) = true).
  { intros first rest result d Hst Hne Hsub Hres Hin.
    destruct (@search_sound LikeStr Collation Limit dashboardPermissionFilter query s result d
                Hsub Hres Hin) as (r & _ & Hc & ->).
    rewrite (@where_clause_filtered LikeStr dashboardPermissionFilter query s first rest r
               Hst Hne) in Hc.
    apply andb_true_iff in Hc. destruct Hc as [_ Hc].
    rewrite normalize_State, to_dto_State. exact Hc. }
  split; [| split; [| split]].
  - intros rest Hst. subst search. unfold HandleAlertsQuery.
    rewrite (@where_clause_all LikeStr dashboardPermissionFilter query s rest Hst).
    reflexivity.
  - intros first rest result unfiltered Hst Hne Hres Hun. split.
    + intros Hsub d Hin. eapply Hsound; eassumption.
    + intros H0 d.
      rewrite (@search_unlimited LikeStr Collation Limit dashboardPermissionFilter query s result d
                 H0 Hres).
      assert (H0' : GetAlertsQuery.Limit (with_State [] query) = 0) by exact H0.
      rewrite (@search_unlimited LikeStr Collation Limit dashboardPermissionFilter
                 (with_State [] query) s unfiltered d H0' Hun).
      cbn [with_State GetAlertsQuery.StandaloneAlertsEnabled].
      split.
      * intros (r & Hj & Hc & ->).
        rewrite (@where_clause_filtered LikeStr dashboardPermissionFilter query s first rest r
               Hst Hne) in Hc.
        apply andb_true_iff in Hc. destruct Hc as [Hc Hs].
        split; [exists r; auto |].
        rewrite normalize_State, to_dto_State. exact Hs.
      * intros [(r & Hj & Hc & ->) Hs].
        exists r. split; [exact Hj |]. split; [| reflexivity].
        rewrite (@where_clause_filtered LikeStr dashboardPermissionFilter query s first rest r
                   Hst Hne).
        rewrite normalize_State, to_dto_State in Hs.
        apply andb_true_iff. auto.
  - apply state_clause_tokens.
  - intros result d Hst Hsub Hres Hin.
    assert (Hne : "not_ok" <> "all") by discriminate.
    pose proof (Hsound _ _ _ _ Hst Hne Hsub Hres Hin) as Hc.
    rewrite Hst in Hc. cbn in Hc. rewrite orb_false_r in Hc.
    apply negb_true_iff, String.eqb_neq in Hc. exact Hc.
Qed.

(** The claim C7 fails where [all] is not the first token: with the filter
    [ok, all] the sample search returns the [ok] rule only, without a filter
    it returns the three rules of the organisation. *)
Lemma all_after_another_token_filters :
  In "all" (GetAlertsQuery.State (Sample.search ["ok"; "all"])) /\
  HandleAlertsQuery Sample.like Sample.collate Sample.limit Sample.permitted
    (Sample.search ["ok"; "all"]) Sample.store <>
  HandleAlertsQuery Sample.like Sample.collate Sample.limit Sample.permitted
    (with_State [] (Sample.search ["ok"; "all"])) Sample.store /\
  returned_ids
    (HandleAlertsQuery Sample.like Sample.collate Sample.limit Sample.permitted
       (Sample.search ["ok"; "all"]) Sample.store) = [1] /\
  returned_ids
    (HandleAlertsQuery Sample.like Sample.collate Sample.limit Sample.permitted
       (with_State [] (Sample.search ["ok"; "all"])) Sample.store) = [1; 2; 3].
Proof.
  split; [| split; [| split]].
  - right. left. reflexivity.
  - vm_compute. discriminate.
  - vm_compute. reflexivity.
  - vm_compute. reflexivity.
Qed.

(** *** The single-space execution error *)

(** C3 fails on the code.  After rule 1 of the sample store went to
    [alerting] with an empty error text, the rule [SetAlertState] returns,
    the rule [GetAlertById] returns and the rules [GetAllAlertQueryHandler]
    returns all carry the single space as their execution error; the search
    alone hands out the empty string. *)
Theorem sentinel_reaches_callers :
  let res := SetAlertState 100 Sample.to_alerting Sample.store in
  (exists cmd',
     outcome res = inr cmd' /\
     Alert.ExecutionError (SetAlertStateCommand.Result cmd') = " ") /\
  (exists rule,
     GetAlertById (GetAlertByIdQuery.Build 1 None) (store res) =
       inr (GetAlertByIdQuery.Build 1 (Some rule)) /\
     Alert.ExecutionError rule = " ") /\
  (exists query rule,
     GetAllAlertQueryHandler (GetAllAlertsQuery.Build []) (store res) = inr query /\
     In rule (GetAllAlertsQuery.Result query) /\
     Alert.ExecutionError rule = " ") /\
  (exists rows,
     HandleAlertsQuery Sample.like Sample.collate Sample.limit Sample.permitted
       (Sample.search []) (store res) = inr rows /\
     map AlertListItemDTO.ExecutionError rows = [""; ""; ""]).
Proof.
  cbv zeta. split; [| split; [| split]].
  - eexists. split; [vm_compute; reflexivity | reflexivity].
  - eexists. split; [vm_compute; reflexivity | reflexivity].
  - eexists. eexists. split; [vm_compute; reflexivity |].
    split; [left; reflexivity | reflexivity].
  - eexists. split; [vm_compute; reflexivity | reflexivity].
Qed.

(** *** Regenerating the links of a rule *)

Lemma links_only_refl sess : links_only sess sess.
Proof.
  split; [reflexivity |]. exists []. rewrite app_nil_r. split; reflexivity.
Qed.

Lemma links_only_trans sess1 sess2 sess3 :
  links_only sess1 sess2 -> links_only sess2 sess3 -> links_only sess1 sess3.
Proof.
  intros (Ha & n1 & Hi1 & Hn1) (Hb & n2 & Hi2 & Hn2). split; [congruence |].
  exists (n1 ++ n2)%list. split.
  - rewrite Hi2, Hi1, app_assoc. reflexivity.
  - rewrite forallb_app, Hn1, Hn2. reflexivity.
Qed.

Lemma exec_link_alert st s : is_rule_write st = false -> alert (exec st s) = alert s.
Proof. destruct st; cbn; intros H; try discriminate H; reflexivity. Qed.

Lemma link_ret {A : Type} (a : A) : link_comp (ret a).
Proof. intros sess. exists a, sess. split; [reflexivity | apply links_only_refl]. Qed.

Lemma link_reads {A : Type} (f : Store -> A) : link_comp (reads f).
Proof.
  intros sess. exists (f (db sess)), sess. split; [reflexivity | apply links_only_refl].
Qed.

Lemma link_issue st : is_rule_write st = false -> link_comp (issue st).
Proof.
  intros Hst sess. eexists. eexists. split; [reflexivity |].
  split; [apply exec_link_alert; exact Hst |].
  exists [st]. split; [reflexivity |]. cbn. rewrite Hst. reflexivity.
Qed.

Lemma link_bind {A B : Type} (m : M A) (k : A -> M B) :
  link_comp m -> (forall a, link_comp (k a)) -> link_comp (bind m k).
Proof.
  intros Hm Hk sess.
  destruct (Hm sess) as (a & sess1 & Hrun & Hl1).
  destruct (Hk a sess1) as (b & sess2 & Hrun2 & Hl2).
  exists b, sess2. split.
  - erewrite bind_run by exact Hrun. exact Hrun2.
  - eapply links_only_trans; eassumption.
Qed.

Lemma link_ensureTag t : link_comp (ensureTag t).
Proof.
  unfold ensureTag. apply link_bind; [apply link_reads |].
  intros rows. destruct (find (same_tag t) rows).
  - apply link_ret.
  - apply link_bind; [apply link_issue; reflexivity |]. intros _. apply link_ret.
Qed.

Lemma link_EnsureTagsExist tags : link_comp (EnsureTagsExist tags).
Proof.
  induction tags as [| t rest IH]; cbn [EnsureTagsExist].
  - apply link_ret.
  - apply link_bind; [apply link_ensureTag |]. intros t'.
    apply link_bind; [exact IH |]. intros rest'. apply link_ret.
Qed.

Lemma link_insertRuleTags tags alertID : link_comp (insertRuleTags tags alertID).
Proof.
  induction tags as [| t rest IH]; cbn [insertRuleTags].
  - apply link_ret.
  - apply link_bind; [apply link_issue; reflexivity |]. intros _. exact IH.
Qed.

Lemma link_insertTags tags alertID : link_comp (insertTags tags alertID).
Proof.
  unfold insertTags. apply link_bind; [apply link_EnsureTagsExist |].
  intros tags'. apply link_insertRuleTags.
Qed.

Lemma link_insertNotifications alertID orgID uids :
  link_comp (insertNotifications alertID orgID uids).
Proof.
  induction uids as [| uid rest IH]; cbn [insertNotifications].
  - apply link_ret.
  - apply link_bind; [apply link_issue; reflexivity |]. intros _. exact IH.
Qed.

(** The second half of the loop body of [updateAlerts]. *)
Lemma relink (alert : Alert.t) sess :
  let tail :=
    (issue (DeleteRuleTags (Alert.Id alert)) ;;;
     insertTags (GetTagsFromSettings alert) (Alert.Id alert) ;;;
     match GetNotificationsFromSettings alert with
     | None => fail Panic
     | Some alertNotificationUIDs =>
         issue (DeleteRuleNotifications (Alert.Id alert)) ;;;
         insertNotifications (Alert.Id alert) (Alert.OrgId alert) alertNotificationUIDs ;;;
         ret alert
     end)%session in
  match GetNotificationsFromSettings alert with
  | None => tail sess = inl Panic
  | Some _ => exists sess', tail sess = inr (alert, sess') /\ links_only sess sess'
  end.
Proof.
  intros tail. subst tail.
  destruct (link_issue (DeleteRuleTags (Alert.Id alert)) eq_refl sess)
    as ([] & sess1 & R1 & L1).
  destruct (link_insertTags (GetTagsFromSettings alert) (Alert.Id alert) sess1)
    as ([] & sess2 & R2 & L2).
  erewrite bind_run by exact R1. erewrite bind_run by exact R2.
  destruct (GetNotificationsFromSettings alert) as [uids |]; [| reflexivity].
  destruct (link_issue (DeleteRuleNotifications (Alert.Id alert)) eq_refl sess2)
    as ([] & sess3 & R3 & L3).
  destruct (link_insertNotifications (Alert.Id alert) (Alert.OrgId alert) uids sess3)
    as ([] & sess4 & R4 & L4).
  erewrite bind_run by exact R3. erewrite bind_run by exact R4.
  exists sess4. split; [reflexivity |].
  eapply links_only_trans; [exact L1 |].
  eapply links_only_trans; [exact L2 |].
  eapply links_only_trans; [exact L3 | exact L4].
Qed.

(** *** One turn of the loop of [updateAlerts] *)

Lemma set_Id_fields id a :
  Alert.Id (Alert.set_Id id a) = id /\
  Alert.PanelId (Alert.set_Id id a) = Alert.PanelId a /\
  Alert.Name (Alert.set_Id id a) = Alert.Name a /\
  Alert.Message (Alert.set_Id id a) = Alert.Message a /\
  Alert.Settings (Alert.set_Id id a) = Alert.Settings a /\
  Alert.DashboardId (Alert.set_Id id a) = Alert.DashboardId a /\
  Alert.OrgId (Alert.set_Id id a) = Alert.OrgId a.
Proof. destruct a; cbn; repeat split. Qed.

Lemma bean_fields now k a :
  Alert.Id (bean now k a) = Alert.Id k /\
  Alert.PanelId (bean now k a) = Alert.PanelId a /\
  Alert.Name (bean now k a) = Alert.Name a /\
  Alert.Message (bean now k a) = Alert.Message a /\
  Alert.Settings (bean now k a) = Alert.Settings a /\
  Alert.DashboardId (bean now k a) = Alert.DashboardId a /\
  Alert.State (bean now k a) = Alert.State k /\
  Alert.Updated (bean now k a) = now /\
  Alert.Created (bean now k a) = Alert.Created a.
Proof. destruct a; cbn; repeat split. Qed.

Lemma inserted_fields now id a :
  Alert.Id (inserted now id a) = id /\
  Alert.PanelId (inserted now id a) = Alert.PanelId a /\
  Alert.Name (inserted now id a) = Alert.Name a /\
  Alert.Message (inserted now id a) = Alert.Message a /\
  Alert.Settings (inserted now id a) = Alert.Settings a /\
  Alert.DashboardId (inserted now id a) = Alert.DashboardId a /\
  Alert.State (inserted now id a) = AlertStateUnknown /\
  Alert.Created (inserted now id a) = now /\
  Alert.Updated (inserted now id a) = now /\
  Alert.NewStateDate (inserted now id a) = now.
Proof. destruct a; cbn; repeat split. Qed.

Lemma notifications_of_settings a b :
  Alert.Settings a = Alert.Settings b ->
  GetNotificationsFromSettings a = GetNotificationsFromSettings b.
Proof. unfold GetNotificationsFromSettings. intros ->. reflexivity. Qed.

Lemma xorm_Insert_inr b sess row sess1 :
  xorm_Insert b sess = inr (row, sess1) ->
  exists id,
    row = Alert.set_Id id b /\
    ~ In id (map Alert.Id (alert (db sess))) /\
    sess1 = mkSession (exec (InsertAlert row) (db sess)) (issued sess ++ [InsertAlert row]).
Proof.
  unfold xorm_Insert, bind, reads. cbn [db].
  set (id := if (Alert.Id b =? 0)%Z then next_id (map Alert.Id (alert (db sess)))
             else Alert.Id b).
  destruct (mem id (map Alert.Id (alert (db sess)))) eqn:Hm; [discriminate |].
  unfold issue, ret. intros H. injection H as <- <-.
  exists id. split; [reflexivity |]. split; [| reflexivity].
  apply mem_false. exact Hm.
Qed.

Section ReconciliationProofs.

Variable Encode : Json -> option string.
Variable now : Time.

Lemma ContainsUpdates_fields k a a' :
  Alert.Name a = Alert.Name a' -> Alert.Message a = Alert.Message a' ->
  Alert.Settings a = Alert.Settings a' ->
  ContainsUpdates Encode k a = ContainsUpdates Encode k a'.
Proof. unfold ContainsUpdates. intros -> -> ->. reflexivity. Qed.

Lemma ContainsUpdates_set_Id k id a :
  ContainsUpdates Encode k (Alert.set_Id id a) = ContainsUpdates Encode k a.
Proof. destruct a; reflexivity. Qed.

Lemma updateAlert_inv existingAlerts a sess a' sess' :
  updateAlert Encode now existingAlerts a sess = inr (a', sess') ->
  reconcile_step Encode now existingAlerts a sess a' sess'.
Proof.
  unfold updateAlert. intros H.
  apply bind_inr in H. destruct H as (a1 & sess1 & H1 & H2).
  cbv zeta in H2.
  pose proof (relink a1 sess1) as R. cbv zeta in R.
  destruct (GetNotificationsFromSettings a1) as [uids |] eqn:Hn;
    [| rewrite R in H2; discriminate].
  destruct R as (sess2 & R & (Halert & links & Hissued & Hlinks)).
  rewrite R in H2. injection H2 as <- <-.
  unfold reconcile_step, match_of.
  destruct (find (fun k => (Alert.PanelId a =? Alert.PanelId k)%Z) existingAlerts)
    as [k |] eqn:Hfind.
  - rewrite ContainsUpdates_set_Id in H1.
    destruct (ContainsUpdates Encode k a) eqn:Hcu.
    + cbv zeta in H1. unfold bind, issue, ret in H1. injection H1 as <- <-.
      fold (bean now k a) in *.
      destruct (bean_fields now k a) as (Bid & _ & _ & _ & Bs & _).
      split.
      { rewrite <- (@notifications_of_settings _ _ Bs), Hn. discriminate. }
      exists links. split; [exact Hlinks |]. left. exists k.
      split; [reflexivity |]. split; [exact Hcu |]. split; [reflexivity |].
      rewrite Bid in *. cbn [issued db] in *. split.
      * rewrite Hissued, <- app_assoc. reflexivity.
      * exact Halert.
    + unfold ret in H1. injection H1 as <- <-.
      destruct (set_Id_fields (Alert.Id k) a) as (_ & _ & _ & _ & Bs & _).
      split.
      { rewrite <- (@notifications_of_settings _ _ Bs), Hn. discriminate. }
      exists links. split; [exact Hlinks |]. right. left. exists k. auto.
  - cbv zeta in H1. fold (stamp now a) in H1.
    apply xorm_Insert_inr in H1. destruct H1 as (id & Hrow & Hfresh & ->).
    fold (inserted now id a) in Hrow. subst a1.
    destruct (inserted_fields now id a) as (_ & _ & _ & _ & Bs & _).
    split.
    { rewrite <- (@notifications_of_settings _ _ Bs), Hn. discriminate. }
    exists links. split; [exact Hlinks |]. right. right.
    split; [reflexivity |]. exists id.
    split; [reflexivity |]. split; [exact Hfresh |].
    cbn [issued db] in *. split.
    * rewrite Hissued, <- app_assoc. reflexivity.
    * exact Halert.
Qed.

Lemma updateAlert_unchanged existingAlerts a k sess :
  match_of existingAlerts a = Some k ->
  ContainsUpdates Encode k a = false ->
  GetNotificationsFromSettings a <> None ->
  exists sess',
    updateAlert Encode now existingAlerts a sess = inr (Alert.set_Id (Alert.Id k) a, sess') /\
    links_only sess sess'.
Proof.
  intros Hm Hcu Hn. unfold updateAlert. unfold match_of in Hm. rewrite Hm.
  rewrite ContainsUpdates_set_Id, Hcu.
  unfold bind at 1. unfold ret at 1. cbv zeta.
  pose proof (relink (Alert.set_Id (Alert.Id k) a) sess) as R. cbv zeta in R.
  destruct (set_Id_fields (Alert.Id k) a) as (_ & _ & _ & _ & Bs & _).
  rewrite (@notifications_of_settings _ _ Bs) in R.
  rewrite (@notifications_of_settings _ _ Bs).
  destruct (GetNotificationsFromSettings a) as [uids |]; [| congruence].
  exact R.
Qed.

(** *** The loop of [updateAlerts] *)

Lemma update_of_matched existingAlerts a k r :
  match_of existingAlerts a = Some k -> ContainsUpdates Encode k a = true ->
  update_of Encode now existingAlerts a r =
  if (Alert.Id r =? Alert.Id k)%Z
  then xorm_update_row MustCols_message_for (bean now k a) r else r.
Proof.
  intros Hm Hcu. unfold update_of. rewrite Hm, Hcu, andb_true_r. reflexivity.
Qed.

Lemma update_of_unchanged existingAlerts a k r :
  match_of existingAlerts a = Some k -> ContainsUpdates Encode k a = false ->
  update_of Encode now existingAlerts a r = r.
Proof.
  intros Hm Hcu. unfold update_of. rewrite Hm, Hcu, andb_false_r. reflexivity.
Qed.

Lemma update_of_new existingAlerts a r :
  match_of existingAlerts a = None -> update_of Encode now existingAlerts a r = r.
Proof. intros Hm. unfold update_of. rewrite Hm. reflexivity. Qed.

Lemma update_of_Id existingAlerts a r :
  Alert.Id (update_of Encode now existingAlerts a r) = Alert.Id r.
Proof.
  unfold update_of. destruct (match_of existingAlerts a) as [k |]; [| reflexivity].
  destruct (_ && _); reflexivity.
Qed.

Lemma updates_of_Id existingAlerts alerts r :
  Alert.Id (updates_of Encode now existingAlerts alerts r) = Alert.Id r.
Proof.
  unfold updates_of. revert r. induction alerts as [| a rest IH]; intros r; cbn.
  - reflexivity.
  - rewrite IH. apply update_of_Id.
Qed.

Lemma match_of_some existingAlerts a k :
  match_of existingAlerts a = Some k ->
  In k existingAlerts /\ Alert.PanelId k = Alert.PanelId a.
Proof.
  unfold match_of. intros H. apply find_some in H. destruct H as [Hin Heq].
  apply Z.eqb_eq in Heq. auto.
Qed.

Lemma match_of_none existingAlerts a k :
  match_of existingAlerts a = None -> In k existingAlerts ->
  Alert.PanelId k <> Alert.PanelId a.
Proof.
  unfold match_of. intros H Hin Heq.
  pose proof (find_none _ _ H k Hin) as Hk. cbn in Hk.
  apply Z.eqb_neq in Hk. congruence.
Qed.

Lemma update_of_foreign existingAlerts a r :
  (forall k, In k existingAlerts -> Alert.Id k <> Alert.Id r) ->
  update_of Encode now existingAlerts a r = r.
Proof.
  intros Hf. unfold update_of.
  destruct (match_of existingAlerts a) as [k |] eqn:Hm; [| reflexivity].
  destruct (match_of_some _ _ Hm) as [Hin _].
  destruct (Z.eqb_spec (Alert.Id r) (Alert.Id k)) as [Heq | _]; [| reflexivity].
  exfalso. apply (Hf k Hin). congruence.
Qed.

Lemma updates_of_foreign existingAlerts alerts r :
  (forall k, In k existingAlerts -> Alert.Id k <> Alert.Id r) ->
  updates_of Encode now existingAlerts alerts r = r.
Proof.
  intros Hf. unfold updates_of. induction alerts as [| a rest IH]; cbn.
  - reflexivity.
  - rewrite update_of_foreign by exact Hf. exact IH.
Qed.

Lemma updateEach_cons existingAlerts a rest sess alerts' sess' :
  updateEach Encode now existingAlerts (a :: rest) sess = inr (alerts', sess') ->
  exists a' rest' sess1,
    alerts' = a' :: rest' /\
    updateAlert Encode now existingAlerts a sess = inr (a', sess1) /\
    updateEach Encode now existingAlerts rest sess1 = inr (rest', sess').
Proof.
  cbn [updateEach]. intros H.
  apply bind_inr in H. destruct H as (a' & sess1 & H1 & H).
  apply bind_inr in H. destruct H as (rest' & sess2 & H2 & H).
  unfold ret in H. injection H as <- <-.
  exists a', rest', sess1. auto.
Qed.

(** The rule table after the loop: every row that was there, as the
    updates left it, followed by the inserted rows. *)
Lemma updateEach_table existingAlerts alerts sess alerts' sess' :
  updateEach Encode now existingAlerts alerts sess = inr (alerts', sess') ->
  (forall k, In k existingAlerts -> In (Alert.Id k) (map Alert.Id (alert (db sess)))) ->
  exists ins,
    alert (db sess') =
      (map (updates_of Encode now existingAlerts alerts) (alert (db sess)) ++ ins)%list /\
    (forall i, In i ins ->
       ~ In (Alert.Id i) (map Alert.Id (alert (db sess))) /\
       exists a id, In a alerts /\ match_of existingAlerts a = None /\
                    i = inserted now id a) /\
    (forall a, In a alerts -> match_of existingAlerts a = None ->
       exists id, In (inserted now id a) ins).
Proof.
  revert sess alerts' sess'.
  induction alerts as [| a rest IH]; intros sess alerts' sess' H Hids.
  - cbn in H. unfold ret in H. injection H as <- <-.
    exists []. rewrite app_nil_r. split; [| split].
    + symmetry. rewrite <- map_id. apply map_ext. reflexivity.
    + intros i [].
    + intros a [].
  - apply updateEach_cons in H.
    destruct H as (a' & rest' & sess1 & -> & H1 & H2).
    apply updateAlert_inv in H1.
    destruct H1 as (_ & links & _ & [Hcase | [Hcase | Hcase]]).
    + destruct Hcase as (k & Hm & Hcu & -> & _ & Htab).
      assert (Htab' : alert (db sess1) =
                      map (update_of Encode now existingAlerts a) (alert (db sess))).
      { rewrite Htab. cbn [exec with_alert alert]. apply map_ext.
        intros r. rewrite (update_of_matched _ _ r Hm Hcu). reflexivity. }
      assert (Hids1 : map Alert.Id (alert (db sess1)) = map Alert.Id (alert (db sess))).
      { rewrite Htab', map_map. apply map_ext. intros r. apply update_of_Id. }
      destruct (IH sess1 rest' sess' H2) as (ins & Ht & Hi & Hn).
      { rewrite Hids1. exact Hids. }
      exists ins. split; [| split].
      * rewrite Ht, Htab', map_map. reflexivity.
      * intros i Hin. destruct (Hi i Hin) as (Hfresh & a0 & id & Ha0 & Hm0 & ->).
        rewrite Hids1 in Hfresh. split; [exact Hfresh |].
        exists a0, id. split; [right; exact Ha0 | auto].
      * intros a0 [<- | Ha0] Hm0; [congruence |]. apply Hn; assumption.
    + destruct Hcase as (k & Hm & Hcu & -> & _ & Htab).
      destruct (IH sess1 rest' sess' H2) as (ins & Ht & Hi & Hn).
      { rewrite Htab. exact Hids. }
      exists ins. split; [| split].
      * rewrite Ht, Htab. f_equal. apply map_ext. intros r.
        unfold updates_of. cbn [fold_left].
        rewrite (update_of_unchanged _ _ r Hm Hcu). reflexivity.
      * intros i Hin. destruct (Hi i Hin) as (Hfresh & a0 & id & Ha0 & Hm0 & ->).
        rewrite Htab in Hfresh. split; [exact Hfresh |].
        exists a0, id. split; [right; exact Ha0 | auto].
      * intros a0 [<- | Ha0] Hm0; [congruence |]. apply Hn; assumption.
    + destruct Hcase as (Hm & id & -> & Hfresh & _ & Htab).
      destruct (IH sess1 rest' sess' H2) as (ins & Ht & Hi & Hn).
      { intros k Hk. rewrite Htab, map_app. apply in_or_app. left. apply Hids, Hk. }
      exists (inserted now id a :: ins). split; [| split].
      * rewrite Ht, Htab, map_app. cbn [map]. rewrite <- app_assoc. cbn [app].
        f_equal.
        -- apply map_ext. intros r. unfold updates_of. cbn [fold_left].
           rewrite (update_of_new _ _ r Hm). reflexivity.
        -- f_equal. apply updates_of_foreign. intros k Hk Heq.
           apply Hfresh. destruct (inserted_fields now id a) as (Hid & _).
           rewrite <- Hid, <- Heq. apply Hids, Hk.
      * intros i [<- | Hin].
        -- destruct (inserted_fields now id a) as (Hid & _). rewrite Hid.
           split; [exact Hfresh |]. exists a, id. split; [left; reflexivity | auto].
        -- destruct (Hi i Hin) as (Hf & a0 & id0 & Ha0 & Hm0 & ->).
           split.
           ++ intros Hc. apply Hf. rewrite Htab, map_app. apply in_or_app. left. exact Hc.
           ++ exists a0, id0. split; [right; exact Ha0 | auto].
      * intros a0 [<- | Ha0] Hm0.
        -- exists id. left. reflexivity.
        -- destruct (Hn a0 Ha0 Hm0) as (id0 & Hin0). exists id0. right. exact Hin0.
Qed.

Lemma reconcile_step_ids existingAlerts a sess a' sess' :
  reconcile_step Encode now existingAlerts a sess a' sess' ->
  map Alert.Id (alert (db sess')) = map Alert.Id (alert (db sess)) \/
  exists id, ~ In id (map Alert.Id (alert (db sess))) /\
             map Alert.Id (alert (db sess')) =
             (map Alert.Id (alert (db sess)) ++ [id])%list.
Proof.
  intros (_ & links & _ & [Hcase | [Hcase | Hcase]]).
  - destruct Hcase as (k & _ & _ & _ & _ & ->). left. apply exec_UpdateAlert_ids.
  - destruct Hcase as (k & _ & _ & _ & _ & ->). left. reflexivity.
  - destruct Hcase as (_ & id & -> & Hfresh & _ & ->). right. exists id.
    split; [exact Hfresh |]. rewrite map_app. cbn [map].
    destruct (inserted_fields now id a) as (-> & _). reflexivity.
Qed.

Lemma updateEach_ids existingAlerts alerts sess alerts' sess' :
  updateEach Encode now existingAlerts alerts sess = inr (alerts', sess') ->
  (NoDup (map Alert.Id (alert (db sess))) -> NoDup (map Alert.Id (alert (db sess')))) /\
  (forall id, In id (map Alert.Id (alert (db sess))) ->
              In id (map Alert.Id (alert (db sess')))).
Proof.
  revert sess alerts' sess'.
  induction alerts as [| a rest IH]; intros sess alerts' sess' H.
  - cbn in H. unfold ret in H. injection H as <- <-. auto.
  - apply updateEach_cons in H.
    destruct H as (a' & rest' & sess1 & -> & H1 & H2).
    apply updateAlert_inv, reconcile_step_ids in H1.
    destruct (IH _ _ _ H2) as [IHn IHi].
    destruct H1 as [Heq | (id & Hfresh & Heq)]; rewrite Heq in *.
    + auto.
    + split.
      * intros Hnd. apply IHn. apply NoDup_app; [exact Hnd | | ].
        -- constructor; [intros [] | constructor].
        -- intros x Hx [<- | []]. contradiction.
      * intros x Hx. apply IHi. apply in_or_app. left. exact Hx.
Qed.

Lemma updateEach_panels existingAlerts alerts sess alerts' sess' :
  updateEach Encode now existingAlerts alerts sess = inr (alerts', sess') ->
  panels alerts' = panels alerts.
Proof.
  revert sess alerts' sess'.
  induction alerts as [| a rest IH]; intros sess alerts' sess' H.
  - cbn in H. unfold ret in H. injection H as <- <-. reflexivity.
  - apply updateEach_cons in H.
    destruct H as (a' & rest' & sess1 & -> & H1 & H2).
    apply updateAlert_inv in H1. unfold panels in *. cbn [map].
    rewrite (IH _ _ _ H2). f_equal.
    destruct H1 as (_ & links & _ & [Hcase | [Hcase | Hcase]]).
    + destruct Hcase as (k & _ & _ & -> & _). apply bean_fields.
    + destruct Hcase as (k & _ & _ & -> & _). apply set_Id_fields.
    + destruct Hcase as (_ & id & -> & _). apply inserted_fields.
Qed.

(** The statements of the loop: besides the statements on links, one
    update for each desired rule that differs from its match and one
    insert for each desired rule without a match. *)
Lemma updateEach_log existingAlerts alerts sess alerts' sess' :
  updateEach Encode now existingAlerts alerts sess = inr (alerts', sess') ->
  exists new,
    issued sess' = (issued sess ++ new)%list /\
    (forall st, In st new -> is_rule_write st = true ->
       (exists a k, In a alerts /\ match_of existingAlerts a = Some k /\
                    ContainsUpdates Encode k a = true /\
                    st = UpdateAlert (Alert.Id k) MustCols_message_for (bean now k a)) \/
       (exists a id, In a alerts /\ match_of existingAlerts a = None /\
                     ~ In id (map Alert.Id (alert (db sess))) /\
                     st = InsertAlert (inserted now id a))) /\
    (forall a k, In a alerts -> match_of existingAlerts a = Some k ->
       ContainsUpdates Encode k a = true ->
       In (UpdateAlert (Alert.Id k) MustCols_message_for (bean now k a)) new) /\
    (forall a, In a alerts -> GetNotificationsFromSettings a <> None).
Proof.
  revert sess alerts' sess'.
  induction alerts as [| a rest IH]; intros sess alerts' sess' H.
  - cbn in H. unfold ret in H. injection H as <- <-.
    exists []. rewrite app_nil_r. split; [reflexivity |].
    split; [intros st [] |]. split; [intros a k [] | intros a []].
  - apply updateEach_cons in H.
    destruct H as (a' & rest' & sess1 & -> & H1 & H2).
    apply updateAlert_inv in H1.
    pose proof (reconcile_step_ids H1) as Hstep.
    assert (Hgrow : forall id, ~ In id (map Alert.Id (alert (db sess1))) ->
                      ~ In id (map Alert.Id (alert (db sess)))).
    { intros id Hn Hc. apply Hn. destruct Hstep as [-> | (id1 & _ & ->)]; [exact Hc |].
      apply in_or_app. left. exact Hc. }
    destruct (IH _ _ _ H2) as (new2 & Hiss2 & Hw2 & Hu2 & Hn2).
    destruct H1 as (Hnotif & links & Hlinks & Hcase).
    assert (Hlinks' : forall st, In st links -> is_rule_write st = true -> False).
    { intros st Hin Hw. rewrite forallb_forall in Hlinks.
      specialize (Hlinks st Hin). rewrite Hw in Hlinks. discriminate. }
    destruct Hcase as [Hcase | [Hcase | Hcase]].
    + destruct Hcase as (k & Hm & Hcu & -> & Hiss1 & _).
      exists ((UpdateAlert (Alert.Id k) MustCols_message_for (bean now k a) :: links)
              ++ new2)%list.
      split; [rewrite Hiss2, Hiss1, <- app_assoc; reflexivity |].
      split; [| split].
      * intros st Hin Hw. apply in_app_or in Hin.
        destruct Hin as [[<- | Hin] | Hin].
        -- left. exists a, k. split; [left; reflexivity | auto].
        -- exfalso. eapply Hlinks'; eassumption.
        -- destruct (Hw2 st Hin Hw)
             as [(a0 & k0 & Ha0 & R) | (a0 & id0 & Ha0 & Hm0 & Hf0 & R)].
           ++ left. exists a0, k0. split; [right; exact Ha0 | exact R].
           ++ right. exists a0, id0. split; [right; exact Ha0 |].
              split; [exact Hm0 |]. split; [apply Hgrow; exact Hf0 | exact R].
      * intros a0 k0 [<- | Ha0] Hm0 Hcu0.
        -- rewrite Hm in Hm0. injection Hm0 as <-. left. reflexivity.
        -- apply in_or_app. right. eapply Hu2; eassumption.
      * intros a0 [<- | Ha0]; [exact Hnotif | apply Hn2; exact Ha0].
    + destruct Hcase as (k & Hm & Hcu & -> & Hiss1 & _).
      exists (links ++ new2)%list.
      split; [rewrite Hiss2, Hiss1, <- app_assoc; reflexivity |].
      split; [| split].
      * intros st Hin Hw. apply in_app_or in Hin. destruct Hin as [Hin | Hin].
        -- exfalso. eapply Hlinks'; eassumption.
        -- destruct (Hw2 st Hin Hw)
             as [(a0 & k0 & Ha0 & R) | (a0 & id0 & Ha0 & Hm0 & Hf0 & R)].
           ++ left. exists a0, k0. split; [right; exact Ha0 | exact R].
           ++ right. exists a0, id0. split; [right; exact Ha0 |].
              split; [exact Hm0 |]. split; [apply Hgrow; exact Hf0 | exact R].
      * intros a0 k0 [<- | Ha0] Hm0 Hcu0.
        -- rewrite Hm in Hm0. injection Hm0 as <-. congruence.
        -- apply in_or_app. right. eapply Hu2; eassumption.
      * intros a0 [<- | Ha0]; [exact Hnotif | apply Hn2; exact Ha0].
    + destruct Hcase as (Hm & id & -> & Hfresh & Hiss1 & _).
      exists ((InsertAlert (inserted now id a) :: links) ++ new2)%list.
      split; [rewrite Hiss2, Hiss1, <- app_assoc; reflexivity |].
      split; [| split].
      * intros st Hin Hw. apply in_app_or in Hin.
        destruct Hin as [[<- | Hin] | Hin].
        -- right. exists a, id. split; [left; reflexivity | auto].
        -- exfalso. eapply Hlinks'; eassumption.
        -- destruct (Hw2 st Hin Hw)
             as [(a0 & k0 & Ha0 & R) | (a0 & id0 & Ha0 & Hm0 & Hf0 & R)].
           ++ left. exists a0, k0. split; [right; exact Ha0 | exact R].
           ++ right. exists a0, id0. split; [right; exact Ha0 |].
              split; [exact Hm0 |]. split; [apply Hgrow; exact Hf0 | exact R].
      * intros a0 k0 [<- | Ha0] Hm0 Hcu0.
        -- congruence.
        -- apply in_or_app. right. eapply Hu2; eassumption.
      * intros a0 [<- | Ha0]; [exact Hnotif | apply Hn2; exact Ha0].
Qed.

(** A loop over rules that all equal their match writes no rule. *)
Lemma updateEach_unchanged existingAlerts alerts sess :
  (forall a, In a alerts ->
     exists k, match_of existingAlerts a = Some k /\ ContainsUpdates Encode k a = false) ->
  (forall a, In a alerts -> GetNotificationsFromSettings a <> None) ->
  exists alerts' sess',
    updateEach Encode now existingAlerts alerts sess = inr (alerts', sess') /\
    links_only sess sess'.
Proof.
  revert sess. induction alerts as [| a rest IH]; intros sess Hall Hnotif.
  - exists [], sess. split; [reflexivity | apply links_only_refl].
  - destruct (Hall a (or_introl eq_refl)) as (k & Hm & Hcu).
    destruct (updateAlert_unchanged existingAlerts a sess Hm Hcu
                (Hnotif a (or_introl eq_refl))) as (sess1 & R1 & L1).
    destruct (IH sess1) as (rest' & sess2 & R2 & L2).
    { intros a0 Ha0. apply Hall. right. exact Ha0. }
    { intros a0 Ha0. apply Hnotif. right. exact Ha0. }
    exists (Alert.set_Id (Alert.Id k) a :: rest'), sess2. split.
    + cbn [updateEach]. erewrite bind_run by exact R1.
      erewrite bind_run by exact R2. reflexivity.
    + eapply links_only_trans; eassumption.
Qed.

(** *** Removing the rules that left the dashboard *)

Lemma missing_mem existingAlerts alerts :
  missing existingAlerts alerts =
  filter (fun k => negb (mem (Alert.PanelId k) (panels alerts))) existingAlerts.
Proof.
  unfold missing, mem, panels. apply filter_ext. intros k. f_equal.
  induction alerts as [| a rest IH]; cbn; [reflexivity |]. rewrite IH. reflexivity.
Qed.

Lemma missing_panels existingAlerts alerts alerts' :
  panels alerts' = panels alerts ->
  missing existingAlerts alerts' = missing existingAlerts alerts.
Proof. intros H. rewrite !missing_mem, H. reflexivity. Qed.

Lemma In_missing existingAlerts alerts k :
  In k (missing existingAlerts alerts) <->
  In k existingAlerts /\ ~ In (Alert.PanelId k) (panels alerts).
Proof.
  rewrite missing_mem, filter_In, negb_true_iff, mem_false. reflexivity.
Qed.

Lemma deleteMissingAlerts_run existingAlerts cmd sess :
  let stmts :=
    flat_map cascade (map Alert.Id (missing existingAlerts (SaveAlertsCommand.Alerts cmd))) in
  deleteMissingAlerts existingAlerts cmd sess =
  inr (tt, mkSession (replay stmts (db sess)) (issued sess ++ stmts)).
Proof.
  cbv zeta. revert sess.
  induction existingAlerts as [| k rest IH]; intros sess.
  - cbn. unfold ret. rewrite app_nil_r. destruct sess; reflexivity.
  - cbn [deleteMissingAlerts missing filter].
    fold (missing rest (SaveAlertsCommand.Alerts cmd)).
    destruct (negb (existsb (fun a => (Alert.PanelId k =? Alert.PanelId a)%Z)
                      (SaveAlertsCommand.Alerts cmd))).
    + erewrite bind_run by apply deleteAlertByIdInternal_run.
      rewrite IH. cbn [db issued map flat_map].
      rewrite replay_app, <- app_assoc. reflexivity.
    + unfold bind at 1. unfold ret at 1. apply IH.
Qed.

Lemma alert_after_cascades ids s :
  alert (replay (flat_map cascade ids) s) =
  filter (fun r => negb (mem (Alert.Id r) ids)) (alert s).
Proof.
  revert s. induction ids as [| i rest IH]; intros s.
  - cbn. symmetry. apply forallb_filter_id. apply forallb_forall. reflexivity.
  - cbn [flat_map]. rewrite replay_app, IH.
    destruct (cascade_others_kept i s) as (-> & _).
    induction (alert s) as [| r rows IHr]; [reflexivity |].
    cbn [filter mem existsb].
    destruct (Alert.Id r =? i)%Z; cbn [negb orb].
    + exact IHr.
    + cbn [filter]. fold (mem (Alert.Id r) rest).
      destruct (negb (mem (Alert.Id r) rest)); [f_equal |]; exact IHr.
Qed.

Lemma SaveAlerts_run cmd s :
  let existingAlerts := find_by_dashboard (SaveAlertsCommand.DashboardId cmd) s in
  let stmts :=
    flat_map cascade (map Alert.Id (missing existingAlerts (SaveAlertsCommand.Alerts cmd))) in
  match updateEach Encode now existingAlerts (SaveAlertsCommand.Alerts cmd)
          (mkSession s []) with
  | inl e => SaveAlerts Encode now cmd s = mkTx (inl e) s []
  | inr (alerts', sess1) =>
      SaveAlerts Encode now cmd s =
      mkTx (inr (SaveAlertsCommand.Build (SaveAlertsCommand.DashboardId cmd)
                   (SaveAlertsCommand.UserId cmd) (SaveAlertsCommand.OrgId cmd) alerts'))
           (replay stmts (db sess1)) (issued sess1 ++ stmts)
  end.
Proof.
  cbv zeta. unfold SaveAlerts, inTransaction.
  erewrite bind_run by (unfold GetAlertsByDashboardId2, reads; reflexivity).
  cbn [db].
  destruct (updateEach Encode now _ (SaveAlertsCommand.Alerts cmd) (mkSession s []))
    as [e | [alerts' sess1]] eqn:Hrun.
  - unfold bind at 1. unfold updateAlerts. unfold bind at 1. rewrite Hrun. reflexivity.
  - erewrite bind_run
      by (unfold updateAlerts; erewrite bind_run by exact Hrun; reflexivity).
    erewrite bind_run by apply deleteMissingAlerts_run.
    unfold ret. cbn [SaveAlertsCommand.Alerts db issued].
    pose proof Hrun as Hp. apply updateEach_panels in Hp.
    erewrite missing_panels by exact Hp.
    reflexivity.
Qed.

Lemma SaveAlerts_inv cmd s cmd' :
  outcome (SaveAlerts Encode now cmd s) = inr cmd' ->
  let existingAlerts := find_by_dashboard (SaveAlertsCommand.DashboardId cmd) s in
  let stmts :=
    flat_map cascade (map Alert.Id (missing existingAlerts (SaveAlertsCommand.Alerts cmd))) in
  exists alerts' sess1,
    updateEach Encode now existingAlerts (SaveAlertsCommand.Alerts cmd)
      (mkSession s []) = inr (alerts', sess1) /\
    SaveAlerts Encode now cmd s =
      mkTx (inr cmd') (replay stmts (db sess1)) (issued sess1 ++ stmts).
Proof.
  intros H. cbv zeta. pose proof (SaveAlerts_run cmd s) as R. cbv zeta in R.
  destruct (updateEach Encode now _ (SaveAlertsCommand.Alerts cmd) (mkSession s []))
    as [e | [alerts' sess1]].
  - rewrite R in H. discriminate H.
  - exists alerts', sess1. split; [reflexivity |].
    rewrite R in H. cbn [outcome] in H. injection H as <-. exact R.
Qed.

(** *** The whole reconciliation *)

Lemma In_find_by_dashboard k dashboardId s :
  In k (find_by_dashboard dashboardId s) <->
  In k (alert s) /\ Alert.DashboardId k = dashboardId.
Proof. unfold find_by_dashboard. rewrite filter_In, Z.eqb_eq. reflexivity. Qed.

Lemma unique_ids_inj s a b :
  unique_ids s -> In a (alert s) -> In b (alert s) -> Alert.Id a = Alert.Id b -> a = b.
Proof.
  unfold unique_ids. induction (alert s) as [| x rows IH]; intros Hnd Ha Hb Heq;
    [contradiction |].
  cbn in Hnd. inversion Hnd as [| ? ? Hnotin Hnd']; subst.
  destruct Ha as [-> | Ha]; destruct Hb as [-> | Hb].
  - reflexivity.
  - exfalso. apply Hnotin. rewrite Heq. apply in_map. exact Hb.
  - exfalso. apply Hnotin. rewrite <- Heq. apply in_map. exact Ha.
  - apply IH; assumption.
Qed.

Lemma In_cascades st ids :
  In st (flat_map cascade ids) -> exists i, In i ids /\ In st (cascade i).
Proof. intros H. apply in_flat_map in H. exact H. Qed.

Lemma NoDup_map_filter (f : Alert.t -> Z) (p : Alert.t -> bool) rows :
  NoDup (map f rows) -> NoDup (map f (filter p rows)).
Proof.
  induction rows as [| r rest IH]; intros H; [constructor |].
  cbn in H. inversion H as [| ? ? Hnotin Hnd]; subst.
  cbn [filter]. destruct (p r); [| apply IH; exact Hnd].
  cbn [map]. constructor; [| apply IH; exact Hnd].
  intros Hin. apply Hnotin. apply in_map_iff in Hin.
  destruct Hin as (x & Hx & Hin). apply filter_In in Hin.
  rewrite <- Hx. apply in_map. apply Hin.
Qed.

(** A new rule is in the table and in the log once the loop is done. *)
Lemma updateEach_inserts existingAlerts alerts sess alerts' sess' :
  updateEach Encode now existingAlerts alerts sess = inr (alerts', sess') ->
  (forall k, In k existingAlerts -> In (Alert.Id k) (map Alert.Id (alert (db sess)))) ->
  forall a, In a alerts -> match_of existingAlerts a = None ->
    exists id,
      ~ In id (map Alert.Id (alert (db sess))) /\
      In (inserted now id a) (alert (db sess')) /\
      In (InsertAlert (inserted now id a)) (issued sess').
Proof.
  revert sess alerts' sess'.
  induction alerts as [| a rest IH]; intros sess alerts' sess' H Hids a0 Ha0 Hm0;
    [contradiction |].
  apply updateEach_cons in H.
  destruct H as (a' & rest' & sess1 & -> & H1 & H2).
  apply updateAlert_inv in H1.
  pose proof (reconcile_step_ids H1) as Hstep.
  assert (Hids1 : forall k, In k existingAlerts ->
                    In (Alert.Id k) (map Alert.Id (alert (db sess1)))).
  { intros k Hk. destruct Hstep as [-> | (id & _ & ->)]; [apply Hids, Hk |].
    apply in_or_app. left. apply Hids, Hk. }
  assert (Hgrow : forall id, ~ In id (map Alert.Id (alert (db sess1))) ->
                    ~ In id (map Alert.Id (alert (db sess)))).
  { intros id Hn Hc. apply Hn. destruct Hstep as [-> | (id1 & _ & ->)]; [exact Hc |].
    apply in_or_app. left. exact Hc. }
  destruct Ha0 as [<- | Ha0].
  - destruct H1 as (_ & links & _ & [Hcase | [Hcase | Hcase]]).
    + destruct Hcase as (k & Hm & _). congruence.
    + destruct Hcase as (k & Hm & _). congruence.
    + destruct Hcase as (_ & id & -> & Hfresh & Hiss & Htab).
      exists id. split; [exact Hfresh |].
      destruct (updateEach_table _ _ _ H2 Hids1) as (ins & Ht & _).
      destruct (updateEach_log _ _ _ H2) as (new & Hiss2 & _).
      split.
      * rewrite Ht. apply in_or_app. left. apply in_map_iff.
        exists (inserted now id a). split.
        -- apply updates_of_foreign. intros k Hk Heq. apply Hfresh.
           destruct (inserted_fields now id a) as (Hid & _).
           rewrite <- Hid, <- Heq. apply Hids, Hk.
        -- rewrite Htab. apply in_or_app. right. left. reflexivity.
      * rewrite Hiss2, Hiss. apply in_or_app. left. apply in_or_app. right.
        left. reflexivity.
  - destruct (IH _ _ _ H2 Hids1 a0 Ha0 Hm0) as (id & Hfresh & Hin & Hlog).
    exists id. split; [apply Hgrow; exact Hfresh | auto].
Qed.

Lemma SaveAlerts_summary cmd s cmd' :
  outcome (SaveAlerts Encode now cmd s) = inr cmd' ->
  let res := SaveAlerts Encode now cmd s in
  let existingAlerts := find_by_dashboard (SaveAlertsCommand.DashboardId cmd) s in
  let alerts := SaveAlertsCommand.Alerts cmd in
  let gone := map Alert.Id (missing existingAlerts alerts) in
  exists ins new,
    alert (store res) =
      filter (fun r => negb (mem (Alert.Id r) gone))
        (map (updates_of Encode now existingAlerts alerts) (alert s) ++ ins) /\
    committed res = (new ++ flat_map cascade gone)%list /\
    (forall id, In id gone -> unreachable id (store res)) /\
    (forall i, In i ins ->
       ~ In (Alert.Id i) (map Alert.Id (alert s)) /\
       exists a id, In a alerts /\ match_of existingAlerts a = None /\
                    i = inserted now id a) /\
    (forall a, In a alerts -> match_of existingAlerts a = None ->
       exists id, ~ In id (map Alert.Id (alert s)) /\
                  In (inserted now id a) ins /\
                  In (InsertAlert (inserted now id a)) new) /\
    (forall st, In st new -> is_rule_write st = true ->
       (exists a k, In a alerts /\ match_of existingAlerts a = Some k /\
                    ContainsUpdates Encode k a = true /\
                    st = UpdateAlert (Alert.Id k) MustCols_message_for (bean now k a)) \/
       (exists a id, In a alerts /\ match_of existingAlerts a = None /\
                     ~ In id (map Alert.Id (alert s)) /\
                     st = InsertAlert (inserted now id a))) /\
    (forall a k, In a alerts -> match_of existingAlerts a = Some k ->
       ContainsUpdates Encode k a = true ->
       In (UpdateAlert (Alert.Id k) MustCols_message_for (bean now k a)) new) /\
    (forall a, In a alerts -> GetNotificationsFromSettings a <> None) /\
    (unique_ids s -> unique_ids (store res)).
Proof.
  intros H res existingAlerts alerts gone.
  destruct (SaveAlerts_inv _ _ H) as (alerts' & sess1 & Hrun & Heq).
  fold existingAlerts alerts gone in Hrun, Heq.
  assert (Hids : forall k, In k existingAlerts ->
                   In (Alert.Id k) (map Alert.Id (alert (db (mkSession s []))))).
  { intros k Hk. apply in_map. apply In_find_by_dashboard in Hk. apply Hk. }
  destruct (updateEach_table _ _ _ Hrun Hids) as (ins & Ht & Hi & _).
  destruct (updateEach_log _ _ _ Hrun) as (new & Hiss & Hw & Hu & Hn).
  destruct (updateEach_ids _ _ _ Hrun) as [Hnd _].
  cbn [db issued app] in *.
  exists ins, new. subst res. rewrite Heq. cbn [store committed].
  split; [rewrite alert_after_cascades, Ht; reflexivity |].
  split; [rewrite Hiss; reflexivity |].
  split; [intros id Hid; apply replay_cascades_unreachable; exact Hid |].
  split; [exact Hi |].
  split.
  { intros a Ha Hm.
    destruct (updateEach_inserts _ _ _ Hrun Hids a Ha Hm) as (id & Hf & Hin & Hlog).
    cbn [db] in Hf. exists id. split; [exact Hf |].
    rewrite Hiss in Hlog. split; [| exact Hlog].
    rewrite Ht in Hin. apply in_app_or in Hin. destruct Hin as [Hin | Hin]; [| exact Hin].
    exfalso. apply Hf. apply in_map_iff in Hin. destruct Hin as (r & Hr & Hin).
    destruct (inserted_fields now id a) as (Hid & _).
    rewrite <- Hid, <- Hr, updates_of_Id. apply in_map. exact Hin. }
  split; [exact Hw |].
  split; [exact Hu |].
  split; [exact Hn |].
  intros Hu0. unfold unique_ids. rewrite alert_after_cascades.
  apply NoDup_map_filter. apply Hnd. exact Hu0.
Qed.

(** *** What the updates do to one row *)

Lemma updates_of_cons existingAlerts a rest r :
  updates_of Encode now existingAlerts (a :: rest) r =
  updates_of Encode now existingAlerts rest (update_of Encode now existingAlerts a r).
Proof. reflexivity. Qed.

Lemma updates_of_invariant (P : Alert.t -> Prop) existingAlerts alerts r :
  P r ->
  (forall a k r',
     In a alerts -> match_of existingAlerts a = Some k ->
     ContainsUpdates Encode k a = true ->
     Alert.Id r' = Alert.Id k -> Alert.Id r' = Alert.Id r -> P r' ->
     P (xorm_update_row MustCols_message_for (bean now k a) r')) ->
  P (updates_of Encode now existingAlerts alerts r).
Proof.
  revert r. induction alerts as [| a rest IH]; intros r Hr Hstep; [exact Hr |].
  rewrite updates_of_cons. apply IH.
  - unfold update_of. destruct (match_of existingAlerts a) as [k |] eqn:Hm; [| exact Hr].
    destruct (Z.eqb_spec (Alert.Id r) (Alert.Id k)) as [Heq | _]; [| exact Hr].
    destruct (ContainsUpdates Encode k a) eqn:Hcu; [| exact Hr].
    cbn [andb]. apply (Hstep a k r); auto. left. reflexivity.
  - intros a0 k r' Ha0 Hm Hcu Hid Hid' Hp. apply (Hstep a0 k r'); auto.
    + right. exact Ha0.
    + rewrite Hid'. apply update_of_Id.
Qed.

Lemma updates_of_untouched existingAlerts alerts r :
  (forall a k, In a alerts -> match_of existingAlerts a = Some k ->
               Alert.Id k = Alert.Id r -> ContainsUpdates Encode k a = false) ->
  updates_of Encode now existingAlerts alerts r = r.
Proof.
  intros H. induction alerts as [| a rest IH]; [reflexivity |].
  rewrite updates_of_cons.
  assert (Hu : update_of Encode now existingAlerts a r = r).
  { unfold update_of. destruct (match_of existingAlerts a) as [k |] eqn:Hm; [| reflexivity].
    destruct (Z.eqb_spec (Alert.Id r) (Alert.Id k)) as [Heq | _]; [| reflexivity].
    rewrite (H a k (or_introl eq_refl) Hm (eq_sym Heq)). reflexivity. }
  rewrite Hu. apply IH. intros a0 k Ha0. apply H. right. exact Ha0.
Qed.

Lemma upd_int_zero col old : must MustCols_message_for col = false ->
  upd_int MustCols_message_for col old 0 = old.
Proof. intros H. unfold upd_int. rewrite H. reflexivity. Qed.

Lemma updated_row_fields b r :
  let r' := xorm_update_row MustCols_message_for b r in
  Alert.Id r' = Alert.Id r /\
  Alert.State r' = upd_string MustCols_message_for "state" (Alert.State r) (Alert.State b) /\
  Alert.Created r' =
    upd_int MustCols_message_for "created" (Alert.Created r) (Alert.Created b) /\
  Alert.Updated r' =
    upd_int MustCols_message_for "updated" (Alert.Updated r) (Alert.Updated b) /\
  Alert.Name r' = upd_string MustCols_message_for "name" (Alert.Name r) (Alert.Name b) /\
  Alert.Message r' = Alert.Message b /\
  Alert.Settings r' = upd_json (Alert.Settings r) (Alert.Settings b) /\
  Alert.PanelId r' =
    upd_int MustCols_message_for "panel_id" (Alert.PanelId r) (Alert.PanelId b) /\
  Alert.DashboardId r' =
    upd_int MustCols_message_for "dashboard_id" (Alert.DashboardId r)
      (Alert.DashboardId b).
Proof. cbn. repeat split. Qed.

(** The id and the state of a persisted rule survive every update of the
    reconciliation, and so does its creation time while the desired rules
    of its panel carry none. *)
Lemma updates_of_preserve s existingAlerts alerts k :
  unique_ids s ->
  (forall x, In x existingAlerts -> In x (alert s)) ->
  In k existingAlerts ->
  let r' := updates_of Encode now existingAlerts alerts k in
  Alert.Id r' = Alert.Id k /\
  Alert.State r' = Alert.State k /\
  ((forall a, In a alerts -> Alert.PanelId a = Alert.PanelId k -> Alert.Created a = 0) ->
   Alert.Created r' = Alert.Created k).
Proof.
  intros Hu Hsub Hk r'. subst r'.
  split; [apply updates_of_Id |]. split.
  - apply updates_of_invariant with (P := fun r => Alert.State r = Alert.State k);
      [reflexivity |].
    intros a k0 r0 Ha Hm Hcu Hid Hid0 Hp.
    destruct (match_of_some _ _ Hm) as [Hk0 _].
    assert (k0 = k) as ->.
    { eapply unique_ids_inj; [exact Hu | apply Hsub, Hk0 | apply Hsub, Hk | congruence]. }
    destruct (updated_row_fields (bean now k a) r0) as (_ & -> & _).
    destruct (bean_fields now k a) as (_ & _ & _ & _ & _ & _ & -> & _).
    rewrite Hp. apply upd_string_same.
  - intros Hc.
    apply updates_of_invariant with (P := fun r => Alert.Created r = Alert.Created k);
      [reflexivity |].
    intros a k0 r0 Ha Hm Hcu Hid Hid0 Hp.
    destruct (match_of_some _ _ Hm) as [Hk0 Hpanel].
    assert (k0 = k) as ->.
    { eapply unique_ids_inj; [exact Hu | apply Hsub, Hk0 | apply Hsub, Hk | congruence]. }
    destruct (updated_row_fields (bean now k a) r0) as (_ & _ & -> & _).
    destruct (bean_fields now k a) as (_ & _ & _ & _ & _ & _ & _ & _ & ->).
    rewrite (Hc a Ha (eq_sym Hpanel)), Hp. apply upd_int_zero. reflexivity.
Qed.

Lemma updates_of_Updated existingAlerts alerts a k r :
  now <> 0 ->
  In a alerts -> match_of existingAlerts a = Some k ->
  ContainsUpdates Encode k a = true -> Alert.Id r = Alert.Id k ->
  Alert.Updated (updates_of Encode now existingAlerts alerts r) = now.
Proof.
  intros Hnow. revert r.
  assert (Hset : forall a0 k0 r0,
            Alert.Updated (xorm_update_row MustCols_message_for (bean now k0 a0) r0) = now).
  { intros a0 k0 r0.
    destruct (updated_row_fields (bean now k0 a0) r0) as (_ & _ & _ & -> & _).
    destruct (bean_fields now k0 a0) as (_ & _ & _ & _ & _ & _ & _ & -> & _).
    apply upd_int_nonzero. exact Hnow. }
  induction alerts as [| a0 rest IH]; intros r Ha Hm Hcu Hid; [contradiction |].
  rewrite updates_of_cons. destruct Ha as [-> | Ha].
  - rewrite (update_of_matched _ _ r Hm Hcu).
    apply Z.eqb_eq in Hid. rewrite Hid.
    apply updates_of_invariant with (P := fun r => Alert.Updated r = now).
    + apply Hset.
    + intros. apply Hset.
  - apply IH; auto. rewrite update_of_Id. exact Hid.
Qed.

(** *** Reconciliation partitions the persisted rules *)

Lemma not_gone s dashboardId alerts k :
  unique_ids s ->
  In k (find_by_dashboard dashboardId s) ->
  In (Alert.PanelId k) (panels alerts) ->
  ~ In (Alert.Id k) (map Alert.Id (missing (find_by_dashboard dashboardId s) alerts)).
Proof.
  intros Hu Hk Hp Hin. apply in_map_iff in Hin. destruct Hin as (k2 & Hid & Hk2).
  apply In_missing in Hk2. destruct Hk2 as [Hk2 Hnp].
  assert (k2 = k) as ->.
  { eapply unique_ids_inj; [exact Hu | | | exact Hid].
    - apply In_find_by_dashboard in Hk2. apply Hk2.
    - apply In_find_by_dashboard in Hk. apply Hk. }
  contradiction.
Qed.

Lemma other_dashboard_not_gone s dashboardId alerts r :
  unique_ids s -> In r (alert s) -> Alert.DashboardId r <> dashboardId ->
  ~ In (Alert.Id r) (map Alert.Id (missing (find_by_dashboard dashboardId s) alerts)).
Proof.
  intros Hu Hr Hd Hin. apply in_map_iff in Hin. destruct Hin as (k2 & Hid & Hk2).
  apply In_missing in Hk2. destruct Hk2 as [Hk2 _].
  apply In_find_by_dashboard in Hk2. destruct Hk2 as [Hk2 Hd2].
  assert (k2 = r) as -> by (eapply unique_ids_inj; eassumption).
  contradiction.
Qed.

Lemma match_of_none_iff existingAlerts a :
  match_of existingAlerts a = None <-> ~ In (Alert.PanelId a) (panels existingAlerts).
Proof.
  split.
  - intros Hm Hin. unfold panels in Hin. apply in_map_iff in Hin.
    destruct Hin as (k & Hp & Hk). eapply match_of_none; eassumption.
  - intros Hn. destruct (match_of existingAlerts a) as [k |] eqn:Hm; [| reflexivity].
    exfalso. apply Hn. destruct (match_of_some _ _ Hm) as [Hk Hp].
    rewrite <- Hp. apply in_map. exact Hk.
Qed.

Lemma not_rule_write id st : is_rule_write st = false -> writes_rule id st = false.
Proof. destruct st; cbn; intros H; try discriminate H; reflexivity. Qed.

Lemma In_cascade st i :
  In st (cascade i) ->
  st = DeleteAlertRow i \/
  (forall id, writes_rule id st = false) /\ is_rule_write st = false.
Proof.
  cbn. intros [<- | [<- | [<- | [<- | [<- | []]]]]]; auto.
Qed.

Lemma DeleteAlertRow_in_cascades i ids :
  In (DeleteAlertRow i) (flat_map cascade ids) <-> In i ids.
Proof.
  rewrite in_flat_map. split.
  - intros (j & Hj & Hin). cbn in Hin.
    destruct Hin as [H | [H | [H | [H | [H | []]]]]]; try discriminate H.
    injection H as ->. exact Hj.
  - intros Hin. exists i. split; [exact Hin | left; reflexivity].
Qed.

Lemma bean_inj k a a' :
  bean now k a = bean now k a' ->
  ContainsUpdates Encode k a = ContainsUpdates Encode k a'.
Proof.
  intros H. apply ContainsUpdates_fields.
  - destruct (bean_fields now k a) as (_ & _ & <- & _).
    destruct (bean_fields now k a') as (_ & _ & <- & _). rewrite H. reflexivity.
  - destruct (bean_fields now k a) as (_ & _ & _ & <- & _).
    destruct (bean_fields now k a') as (_ & _ & _ & <- & _). rewrite H. reflexivity.
  - destruct (bean_fields now k a) as (_ & _ & _ & _ & <- & _).
    destruct (bean_fields now k a') as (_ & _ & _ & _ & <- & _). rewrite H. reflexivity.
Qed.

(** A committed update of a persisted rule comes from a desired rule that
    differs from it. *)
Lemma committed_update s cmd cmd' k a :
  unique_ids s ->
  outcome (SaveAlerts Encode now cmd s) = inr cmd' ->
  In k (find_by_dashboard (SaveAlertsCommand.DashboardId cmd) s) ->
  In (UpdateAlert (Alert.Id k) MustCols_message_for (bean now k a))
     (committed (SaveAlerts Encode now cmd s)) ->
  ContainsUpdates Encode k a = true.
Proof.
  intros Hu H Hk Hin.
  destruct (SaveAlerts_summary _ _ H) as (ins & new & _ & Hc & _ & _ & _ & Hw & _).
  rewrite Hc in Hin. apply in_app_or in Hin. destruct Hin as [Hin | Hin].
  - destruct (Hw _ Hin eq_refl) as [(a0 & k0 & Ha0 & Hm0 & Hcu0 & Heq) |
                                    (a0 & id0 & _ & _ & _ & Heq)];
      [| discriminate Heq].
    injection Heq as Hid Hb.
    destruct (match_of_some _ _ Hm0) as [Hk0 _].
    assert (k0 = k) as ->.
    { eapply unique_ids_inj; [exact Hu | | | congruence].
      - apply In_find_by_dashboard in Hk0. apply Hk0.
      - apply In_find_by_dashboard in Hk. apply Hk. }
    rewrite (bean_inj _ _ _ Hb). exact Hcu0.
  - apply in_flat_map in Hin. destruct Hin as (i & _ & Hin).
    cbn in Hin. destruct Hin as [E | [E | [E | [E | [E | []]]]]]; discriminate E.
Qed.

(** No committed statement writes a persisted rule that stays on the
    dashboard and equals every desired rule paired with it. *)
Lemma committed_leave_alone s cmd cmd' k :
  unique_ids s ->
  outcome (SaveAlerts Encode now cmd s) = inr cmd' ->
  let existingAlerts := find_by_dashboard (SaveAlertsCommand.DashboardId cmd) s in
  In k existingAlerts ->
  In (Alert.PanelId k) (panels (SaveAlertsCommand.Alerts cmd)) ->
  (forall a, In a (SaveAlertsCommand.Alerts cmd) ->
     match_of existingAlerts a = Some k -> ContainsUpdates Encode k a = false) ->
  In k (alert (store (SaveAlerts Encode now cmd s))) /\
  forall st, In st (committed (SaveAlerts Encode now cmd s)) ->
             writes_rule (Alert.Id k) st = false.
Proof.
  intros Hu H existingAlerts Hk Hp Hsame.
  destruct (SaveAlerts_summary _ _ H) as (ins & new & Ht & Hc & _ & _ & _ & Hw & _).
  fold existingAlerts in Ht, Hc, Hw.
  assert (Hng : ~ In (Alert.Id k)
                  (map Alert.Id (missing existingAlerts (SaveAlertsCommand.Alerts cmd))))
    by (apply not_gone; assumption).
  assert (Hin_s : In k (alert s)) by (apply In_find_by_dashboard in Hk; apply Hk).
  split.
  - rewrite Ht. apply filter_In. split.
    + apply in_or_app. left. apply in_map_iff. exists k. split; [| exact Hin_s].
      apply updates_of_untouched. intros a k0 Ha Hm Hid.
      destruct (match_of_some _ _ Hm) as [Hk0 _].
      assert (k0 = k) as ->.
      { eapply unique_ids_inj; [exact Hu | | exact Hin_s | exact Hid].
        apply In_find_by_dashboard in Hk0. apply Hk0. }
      apply Hsame; assumption.
    + apply negb_true_iff, mem_false. exact Hng.
  - intros st Hin. rewrite Hc in Hin. apply in_app_or in Hin.
    destruct Hin as [Hin | Hin].
    + destruct (is_rule_write st) eqn:Hrw; [| apply not_rule_write; exact Hrw].
      destruct (Hw _ Hin Hrw) as [(a0 & k0 & Ha0 & Hm0 & Hcu0 & ->) |
                                  (a0 & id0 & _ & _ & Hf & ->)].
      * cbn. apply Z.eqb_neq. intros Hid.
        destruct (match_of_some _ _ Hm0) as [Hk0 _].
        assert (k0 = k) as ->.
        { eapply unique_ids_inj; [exact Hu | | exact Hin_s | exact Hid].
          apply In_find_by_dashboard in Hk0. apply Hk0. }
        rewrite (Hsame a0 Ha0 Hm0) in Hcu0. discriminate.
      * cbn. destruct (inserted_fields now id0 a0) as (-> & _).
        apply Z.eqb_neq. intros ->. apply Hf. apply in_map. exact Hin_s.
    + apply in_flat_map in Hin. destruct Hin as (i & Hi & Hin).
      apply In_cascade in Hin. destruct Hin as [-> | [Hin _]].
      * cbn. apply Z.eqb_neq. intros ->. contradiction.
      * apply Hin.
Qed.

Lemma committed_update_iff s cmd cmd' k a :
  unique_ids s ->
  outcome (SaveAlerts Encode now cmd s) = inr cmd' ->
  In a (SaveAlertsCommand.Alerts cmd) ->
  match_of (find_by_dashboard (SaveAlertsCommand.DashboardId cmd) s) a = Some k ->
  In (UpdateAlert (Alert.Id k) MustCols_message_for (bean now k a))
     (committed (SaveAlerts Encode now cmd s)) <->
  ContainsUpdates Encode k a = true.
Proof.
  intros Hu H Ha Hm. split.
  - intros Hin. destruct (match_of_some _ _ Hm) as [Hk _].
    eapply committed_update; eassumption.
  - intros Hcu.
    destruct (SaveAlerts_summary _ _ H) as (ins & new & _ & Hc & _ & _ & _ & _ & Hupd & _).
    rewrite Hc. apply in_or_app. left. apply Hupd; assumption.
Qed.

(** *** Identity of a reconciled rule *)

(** C4, as amended.  After a successful [SaveAlerts] a persisted rule of
    the dashboard whose panel a desired rule names is stored under its old
    id with its old state, whatever id and state the desired rules carry;
    it also keeps its creation time provided the desired rules of its panel
    carry none (a zero [Created]). *)
Theorem identity_preserved (cmd cmd' : SaveAlertsCommand.t) (s : Store)
    (a k : Alert.t) :
  unique_ids s ->
  outcome (SaveAlerts Encode now cmd s) = inr cmd' ->
  In a (SaveAlertsCommand.Alerts cmd) ->
  In k (find_by_dashboard (SaveAlertsCommand.DashboardId cmd) s) ->
  Alert.PanelId a = Alert.PanelId k ->
  exists r',
    get_alert (Alert.Id k) (store (SaveAlerts Encode now cmd s)) = Some r' /\
    Alert.Id r' = Alert.Id k /\
    Alert.State r' = Alert.State k /\
    ((forall b, In b (SaveAlertsCommand.Alerts cmd) ->
                Alert.PanelId b = Alert.PanelId k -> Alert.Created b = 0) ->
     Alert.Created r' = Alert.Created k).
Proof.
  intros Hu H Ha Hk Hpanel.
  set (existingAlerts := find_by_dashboard (SaveAlertsCommand.DashboardId cmd) s) in *.
  set (alerts := SaveAlertsCommand.Alerts cmd) in *.
  destruct (SaveAlerts_summary _ _ H) as (ins & new & Ht & _ & _ & _ & _ & _ & _ & _ & Hu').
  fold existingAlerts alerts in Ht.
  assert (Hp : In (Alert.PanelId k) (panels alerts)).
  { rewrite <- Hpanel. apply in_map. exact Ha. }
  assert (Hng : ~ In (Alert.Id k) (map Alert.Id (missing existingAlerts alerts)))
    by (apply not_gone; assumption).
  assert (Hsub : forall x, In x existingAlerts -> In x (alert s)).
  { intros x Hx. apply In_find_by_dashboard in Hx. apply Hx. }
  destruct (@updates_of_preserve s existingAlerts alerts k Hu Hsub Hk)
    as (Pid & Pstate & Pcreated).
  exists (updates_of Encode now existingAlerts alerts k).
  split; [| split; [exact Pid | split; [exact Pstate | exact Pcreated]]].
  rewrite <- Pid. apply get_alert_unique; [apply Hu'; exact Hu |].
  rewrite Ht. apply filter_In. split.
  - apply in_or_app. left. apply in_map. apply Hsub, Hk.
  - rewrite Pid. apply negb_true_iff, mem_false. exact Hng.
Qed.

(** *** Meaningful changes *)

Lemma ContainsUpdates_spec k a :
  ContainsUpdates Encode k a = true <->
  match Alert.Settings k, Alert.Settings a with
  | Some s1, Some s2 =>
      exists json1 json2,
        Encode s1 = Some json1 /\ Encode s2 = Some json2 /\
        (Alert.Name k <> Alert.Name a \/ Alert.Message k <> Alert.Message a \/
         json1 <> json2)
  | _, _ => Alert.Name k <> Alert.Name a \/ Alert.Message k <> Alert.Message a
  end.
Proof.
  unfold ContainsUpdates. cbn [orb].
  assert (Hpair : forall x y x' y' : string,
            negb (x =? y) || negb (x' =? y') = true <-> x <> y \/ x' <> y').
  { intros x y x' y'. rewrite orb_true_iff, !negb_true_iff, !String.eqb_neq.
    reflexivity. }
  destruct (Alert.Settings k) as [s1 |]; [| apply Hpair].
  destruct (Alert.Settings a) as [s2 |]; [| apply Hpair].
  destruct (Encode s1) as [json1 |], (Encode s2) as [json2 |].
  - rewrite orb_true_iff, Hpair, negb_true_iff, String.eqb_neq. split.
    + intros Hd. exists json1, json2. intuition.
    + intros (j1 & j2 & E1 & E2 & Hd). injection E1 as <-. injection E2 as <-.
      intuition.
  - split; [discriminate | intros (j1 & j2 & _ & E2 & _); discriminate E2].
  - split; [discriminate | intros (j1 & j2 & E1 & _); discriminate E1].
  - split; [discriminate | intros (j1 & j2 & E1 & _); discriminate E1].
Qed.

Lemma ContainsUpdates_ignores_State st k a :
  ContainsUpdates Encode (Alert.set_State st k) a = ContainsUpdates Encode k a /\
  ContainsUpdates Encode k (Alert.set_State st a) = ContainsUpdates Encode k a.
Proof. destruct k, a. split; reflexivity. Qed.

(** C5, as amended.  For a desired rule and the persisted rule it is paired
    with, a successful [SaveAlerts] writes the desired rule over the
    persisted one exactly when [ContainsUpdates] holds of the pair: the
    names or the messages differ or, when both rules have settings, the
    encodings of the settings differ, and no encoding of the two fails; the
    states of the two rules play no part.  The rule it writes carries the
    current time as [Updated], and that is what the store holds afterwards.
    A persisted rule that equals every desired rule paired with it is not
    written: its row is the same and no committed statement touches it. *)
Theorem meaningful_change (cmd cmd' : SaveAlertsCommand.t) (s : Store)
    (a k : Alert.t) :
  unique_ids s ->
  outcome (SaveAlerts Encode now cmd s) = inr cmd' ->
  In a (SaveAlertsCommand.Alerts cmd) ->
  match_of (find_by_dashboard (SaveAlertsCommand.DashboardId cmd) s) a = Some k ->
  let res := SaveAlerts Encode now cmd s in
  (In (UpdateAlert (Alert.Id k) MustCols_message_for (bean now k a)) (committed res)
   <-> ContainsUpdates Encode k a = true) /\
  (ContainsUpdates Encode k a = true <->
   match Alert.Settings k, Alert.Settings a with
   | Some s1, Some s2 =>
       exists json1 json2,
         Encode s1 = Some json1 /\ Encode s2 = Some json2 /\
         (Alert.Name k <> Alert.Name a \/ Alert.Message k <> Alert.Message a \/
          json1 <> json2)
   | _, _ => Alert.Name k <> Alert.Name a \/ Alert.Message k <> Alert.Message a
   end) /\
  (forall st,
     ContainsUpdates Encode (Alert.set_State st k) a = ContainsUpdates Encode k a /\
     ContainsUpdates Encode k (Alert.set_State st a) = ContainsUpdates Encode k a) /\
  Alert.Updated (bean now k a) = now /\
  (ContainsUpdates Encode k a = true -> now <> 0 ->
   exists r', get_alert (Alert.Id k) (store res) = Some r' /\ Alert.Updated r' = now) /\
  ((forall b, In b (SaveAlertsCommand.Alerts cmd) ->
      match_of (find_by_dashboard (SaveAlertsCommand.DashboardId cmd) s) b = Some k ->
      ContainsUpdates Encode k b = false) ->
   In k (alert (store res)) /\
   forall st, In st (committed res) -> writes_rule (Alert.Id k) st = false).
Proof.
  intros Hu H Ha Hm res.
  set (existingAlerts := find_by_dashboard (SaveAlertsCommand.DashboardId cmd) s) in *.
  set (alerts := SaveAlertsCommand.Alerts cmd) in *.
  destruct (match_of_some _ _ Hm) as [Hk Hpanel].
  assert (Hp : In (Alert.PanelId k) (panels alerts)).
  { rewrite Hpanel. apply in_map. exact Ha. }
  subst res.
  split; [eapply committed_update_iff; eassumption |].
  split; [apply ContainsUpdates_spec |].
  split; [intros st; apply ContainsUpdates_ignores_State |].
  split; [apply bean_fields |].
  split.
  - intros Hcu Hnow.
    destruct (SaveAlerts_summary _ _ H)
      as (ins & new & Ht & _ & _ & _ & _ & _ & _ & _ & Hu').
    fold existingAlerts alerts in Ht.
    exists (updates_of Encode now existingAlerts alerts k). split.
    + rewrite <- (updates_of_Id existingAlerts alerts k).
      apply get_alert_unique; [apply Hu'; exact Hu |].
      rewrite Ht. apply filter_In. split.
      * apply in_or_app. left. apply in_map.
        apply In_find_by_dashboard in Hk. apply Hk.
      * rewrite updates_of_Id. apply negb_true_iff, mem_false.
        apply not_gone; assumption.
    + eapply updates_of_Updated; eauto.
  - intros Hall. eapply committed_leave_alone; eassumption.
Qed.

(** *** Reconciling twice *)

Lemma find_app_list {A : Type} (p : A -> bool) l1 l2 :
  find p (l1 ++ l2) = match find p l1 with Some x => Some x | None => find p l2 end.
Proof.
  induction l1 as [| x rest IH]; cbn; [reflexivity |].
  destruct (p x); [reflexivity | exact IH].
Qed.

Lemma find_map_list {A B : Type} (f : A -> B) (p : B -> bool) l :
  find p (map f l) = option_map f (find (fun x => p (f x)) l).
Proof.
  induction l as [| x rest IH]; cbn; [reflexivity |].
  destruct (p (f x)); [reflexivity | exact IH].
Qed.

Lemma filter_map_list {A B : Type} (f : A -> B) (q : B -> bool) l :
  filter q (map f l) = map f (filter (fun x => q (f x)) l).
Proof.
  induction l as [| x rest IH]; cbn; [reflexivity |].
  destruct (q (f x)); cbn; rewrite IH; reflexivity.
Qed.

Lemma find_ext_in {A : Type} (p q : A -> bool) l :
  (forall x, In x l -> p x = q x) -> find p l = find q l.
Proof.
  induction l as [| x rest IH]; intros H; cbn; [reflexivity |].
  rewrite (H x (or_introl eq_refl)). rewrite IH; [reflexivity |].
  intros y Hy. apply H. right. exact Hy.
Qed.

Lemma find_filter_some {A : Type} (p q : A -> bool) l k :
  find p l = Some k -> q k = true -> find p (filter q l) = Some k.
Proof.
  induction l as [| x rest IH]; cbn; [discriminate |].
  destruct (p x) eqn:Hp.
  - intros H Hq. injection H as ->. rewrite Hq. cbn. rewrite Hp. reflexivity.
  - intros H Hq. destruct (q x); cbn; [rewrite Hp |]; apply IH; assumption.
Qed.

Lemma find_filter_none {A : Type} (p q : A -> bool) l :
  find p l = None -> find p (filter q l) = None.
Proof.
  induction l as [| x rest IH]; cbn; [reflexivity |].
  destruct (p x) eqn:Hp; [discriminate |].
  intros H. destruct (q x); cbn; [rewrite Hp |]; apply IH; exact H.
Qed.

Lemma find_exists {A : Type} (p : A -> bool) l x :
  In x l -> p x = true -> exists r, find p l = Some r.
Proof.
  induction l as [| y rest IH]; intros Hin Hp; [contradiction |].
  cbn. destruct (p y) eqn:Hy; [exists y; reflexivity |].
  destruct Hin as [-> | Hin]; [congruence | apply IH; assumption].
Qed.

Lemma filter_filter_list {A : Type} (p q : A -> bool) l :
  filter p (filter q l) = filter (fun x => q x && p x) l.
Proof.
  induction l as [| x rest IH]; cbn; [reflexivity |].
  destruct (q x); cbn; [destruct (p x) |]; rewrite IH; reflexivity.
Qed.

Lemma panels_inj alerts a b :
  NoDup (panels alerts) -> In a alerts -> In b alerts ->
  Alert.PanelId a = Alert.PanelId b -> a = b.
Proof.
  unfold panels. induction alerts as [| x rest IH]; intros Hnd Ha Hb Heq;
    [contradiction |].
  cbn in Hnd. inversion Hnd as [| ? ? Hnotin Hnd']; subst.
  destruct Ha as [-> | Ha]; destruct Hb as [-> | Hb].
  - reflexivity.
  - exfalso. apply Hnotin. rewrite Heq. apply in_map. exact Hb.
  - exfalso. apply Hnotin. rewrite <- Heq. apply in_map. exact Ha.
  - apply IH; assumption.
Qed.

Lemma ContainsUpdates_same_content k a :
  Alert.Name k = Alert.Name a -> Alert.Message k = Alert.Message a ->
  (Alert.Settings a = None \/ Alert.Settings k = Alert.Settings a) ->
  ContainsUpdates Encode k a = false.
Proof.
  intros Hn Hm Hs. unfold ContainsUpdates. rewrite Hn, Hm, !String.eqb_refl. cbn.
  destruct Hs as [-> | ->].
  - destruct (Alert.Settings k); reflexivity.
  - destruct (Alert.Settings a) as [j |]; [| reflexivity].
    destruct (Encode j); [| reflexivity]. rewrite String.eqb_refl. reflexivity.
Qed.

(** A row the reconciliation wrote equals the desired rule it was written
    from, as long as that rule has a name. *)
Lemma written_row_same existingAlerts a k :
  Alert.Name a <> "" ->
  match_of existingAlerts a = Some k ->
  ContainsUpdates Encode (update_of Encode now existingAlerts a k) a = false.
Proof.
  intros Hname Hm. unfold update_of. rewrite Hm, Z.eqb_refl. cbn [andb].
  destruct (ContainsUpdates Encode k a) eqn:Hcu; [| exact Hcu].
  destruct (updated_row_fields (bean now k a) k)
    as (_ & _ & _ & _ & Rn & Rm & Rs & _).
  destruct (bean_fields now k a) as (_ & _ & Bn & Bm & Bs & _).
  apply ContainsUpdates_same_content.
  - rewrite Rn, Bn. apply upd_string_nonempty. exact Hname.
  - rewrite Rm, Bm. reflexivity.
  - rewrite Rs, Bs. destruct (Alert.Settings a); [right | left]; reflexivity.
Qed.

Lemma update_of_other_panel s existingAlerts a0 a k :
  unique_ids s ->
  (forall x, In x existingAlerts -> In x (alert s)) ->
  match_of existingAlerts a = Some k ->
  Alert.PanelId a0 <> Alert.PanelId a ->
  forall r, Alert.Id r = Alert.Id k ->
    update_of Encode now existingAlerts a0 r = r.
Proof.
  intros Hu Hsub Hm Hne r Hid. unfold update_of.
  destruct (match_of existingAlerts a0) as [k0 |] eqn:Hm0; [| reflexivity].
  destruct (Z.eqb_spec (Alert.Id r) (Alert.Id k0)) as [Heq | _]; [| reflexivity].
  exfalso. apply Hne.
  destruct (match_of_some _ _ Hm0) as [Hk0 Hp0].
  destruct (match_of_some _ _ Hm) as [Hk Hp].
  assert (k0 = k) as ->.
  { eapply unique_ids_inj; [exact Hu | apply Hsub, Hk0 | apply Hsub, Hk | congruence]. }
  congruence.
Qed.

(** With one desired rule per panel, a persisted rule is written from the
    desired rule paired with it and from no other. *)
Lemma updates_of_single s existingAlerts alerts a k :
  unique_ids s ->
  (forall x, In x existingAlerts -> In x (alert s)) ->
  NoDup (panels alerts) -> In a alerts ->
  match_of existingAlerts a = Some k ->
  updates_of Encode now existingAlerts alerts k =
  update_of Encode now existingAlerts a k.
Proof.
  intros Hu Hsub Hnd Ha Hm.
  assert (Hrest : forall l r,
            ~ In (Alert.PanelId a) (panels l) -> Alert.Id r = Alert.Id k ->
            updates_of Encode now existingAlerts l r = r).
  { induction l as [| a0 rest IH]; intros r Hnp Hid; [reflexivity |].
    rewrite updates_of_cons.
    rewrite (@update_of_other_panel s existingAlerts a0 a k Hu Hsub Hm).
    - apply IH; [| exact Hid]. intros Hc. apply Hnp. right. exact Hc.
    - intros Hc. apply Hnp. left. exact Hc.
    - exact Hid. }
  induction alerts as [| a0 rest IH]; [contradiction |].
  unfold panels in Hnd. cbn in Hnd. inversion Hnd as [| ? ? Hnotin Hnd']; subst.
  rewrite updates_of_cons. destruct Ha as [-> | Ha].
  - apply Hrest; [exact Hnotin | apply update_of_Id].
  - rewrite (@update_of_other_panel s existingAlerts a0 a k Hu Hsub Hm).
    + apply IH; assumption.
    + intros Hc. apply Hnotin. rewrite Hc. apply in_map. exact Ha.
    + reflexivity.
Qed.

(** The updates leave every row on its dashboard and on its panel, when
    the desired rules are rules of the dashboard. *)
Lemma updates_of_key s dashboardId alerts r0 :
  unique_ids s ->
  (forall a, In a alerts -> Alert.DashboardId a = dashboardId) ->
  In r0 (alert s) ->
  let r := updates_of Encode now (find_by_dashboard dashboardId s) alerts r0 in
  Alert.PanelId r = Alert.PanelId r0 /\ Alert.DashboardId r = Alert.DashboardId r0.
Proof.
  intros Hu Hd Hr0 r. subst r.
  apply updates_of_invariant
    with (P := fun r => Alert.PanelId r = Alert.PanelId r0 /\
                        Alert.DashboardId r = Alert.DashboardId r0);
    [split; reflexivity |].
  intros a k r' Ha Hm Hcu Hid Hid0 [Pp Pd].
  destruct (match_of_some _ _ Hm) as [Hk Hpanel].
  apply In_find_by_dashboard in Hk. destruct Hk as [Hk Hdk].
  assert (k = r0) as -> by (eapply unique_ids_inj; try eassumption; congruence).
  destruct (updated_row_fields (bean now r0 a) r')
    as (_ & _ & _ & _ & _ & _ & _ & -> & ->).
  destruct (bean_fields now r0 a) as (_ & -> & _ & _ & _ & -> & _).
  rewrite Pp, Pd, <- Hpanel, (Hd a Ha), Hdk.
  split; apply upd_int_same.
Qed.

Lemma upd_int_optional cols col old new :
  must cols col = false ->
  upd_int cols col old new = if (new =? 0)%Z then old else new.
Proof. intros H. unfold upd_int. rewrite H. destruct (new =? 0)%Z; reflexivity. Qed.

Lemma upd_string_optional cols col old new :
  must cols col = false ->
  upd_string cols col old new = if new =? "" then old else new.
Proof. intros H. unfold upd_string. rewrite H. destruct (new =? ""); reflexivity. Qed.

Lemma bean_content k a :
  Alert.For (bean now k a) = Alert.For a /\
  Alert.EvalData (bean now k a) = Alert.EvalData a /\
  Alert.Frequency (bean now k a) = Alert.Frequency a.
Proof. destruct a; cbn; repeat split. Qed.

(** With one desired rule per panel, the row of a persisted rule after the
    reconciliation is what the desired rule paired with it made of it. *)
Lemma SaveAlerts_stored cmd cmd' s a k :
  unique_ids s ->
  outcome (SaveAlerts Encode now cmd s) = inr cmd' ->
  NoDup (panels (SaveAlertsCommand.Alerts cmd)) ->
  In a (SaveAlertsCommand.Alerts cmd) ->
  match_of (find_by_dashboard (SaveAlertsCommand.DashboardId cmd) s) a = Some k ->
  get_alert (Alert.Id k) (store (SaveAlerts Encode now cmd s)) =
  Some (update_of Encode now (find_by_dashboard (SaveAlertsCommand.DashboardId cmd) s) a k).
Proof.
  intros Hu H Hnd Ha Hm.
  destruct (SaveAlerts_summary _ _ H)
    as (ins & new & Ht & _ & _ & _ & _ & _ & _ & _ & Hu').
  destruct (match_of_some _ _ Hm) as [Hk Hpanel].
  set (existingAlerts := find_by_dashboard (SaveAlertsCommand.DashboardId cmd) s) in *.
  assert (Hsub : forall x, In x existingAlerts -> In x (alert s)).
  { intros x Hx. apply In_find_by_dashboard in Hx. apply Hx. }
  rewrite <- (@updates_of_single s existingAlerts (SaveAlertsCommand.Alerts cmd) a k
                Hu Hsub Hnd Ha Hm).
  rewrite <- (updates_of_Id existingAlerts (SaveAlertsCommand.Alerts cmd) k) at 1.
  apply get_alert_unique; [apply Hu'; exact Hu |].
  rewrite Ht. apply filter_In. split.
  - apply in_or_app. left. apply in_map. apply Hsub. exact Hk.
  - rewrite updates_of_Id. apply negb_true_iff, mem_false.
    apply not_gone; [exact Hu | exact Hk |].
    rewrite Hpanel. apply in_map. exact Ha.
Qed.

(** C1, as amended.  A successful [SaveAlerts] partitions the persisted
    rules of the dashboard by panel id against the desired rules.  A
    persisted rule whose panel no desired rule names is deleted with
    everything that depends on it.  A persisted rule whose panel a desired
    rule names stays; the desired rule is written over the persisted rule it
    is paired with exactly when [ContainsUpdates] holds of the pair, that
    is when the names or the messages differ or, where both rules have
    settings and these can be encoded, the encodings differ; a persisted
    rule that equals every desired rule paired with it is not written at
    all.  A desired rule whose panel no persisted rule has is
    inserted under a new id with state [unknown].  Rules of other
    dashboards are left as they were.  With one desired rule per panel, the
    row of a rule that was written has the message, the settings, the
    duration and the evaluation data of the desired rule, the time of the
    reconciliation as [Updated], and the id, the state and the panel it
    had; it has the name and the frequency of the desired rule only when
    these are not the zero value of their type, and keeps its own
    otherwise. *)
Theorem reconciliation_partitions (cmd cmd' : SaveAlertsCommand.t) (s : Store) :
  unique_ids s ->
  outcome (SaveAlerts Encode now cmd s) = inr cmd' ->
  let res := SaveAlerts Encode now cmd s in
  let existingAlerts := find_by_dashboard (SaveAlertsCommand.DashboardId cmd) s in
  let alerts := SaveAlertsCommand.Alerts cmd in
  (forall k, In k existingAlerts -> ~ In (Alert.PanelId k) (panels alerts) ->
     unreachable (Alert.Id k) (store res) /\
     In (DeleteAlertRow (Alert.Id k)) (committed res)) /\
  (forall k, In k existingAlerts -> In (Alert.PanelId k) (panels alerts) ->
     (exists r', get_alert (Alert.Id k) (store res) = Some r') /\
     ~ In (DeleteAlertRow (Alert.Id k)) (committed res)) /\
  (forall a k, In a alerts -> match_of existingAlerts a = Some k ->
     (In (UpdateAlert (Alert.Id k) MustCols_message_for (bean now k a)) (committed res)
      <-> ContainsUpdates Encode k a = true) /\
     (ContainsUpdates Encode k a = true <->
      match Alert.Settings k, Alert.Settings a with
      | Some s1, Some s2 =>
          exists json1 json2,
            Encode s1 = Some json1 /\ Encode s2 = Some json2 /\
            (Alert.Name k <> Alert.Name a \/ Alert.Message k <> Alert.Message a \/
             json1 <> json2)
      | _, _ => Alert.Name k <> Alert.Name a \/ Alert.Message k <> Alert.Message a
      end)) /\
  (forall k, In k existingAlerts -> In (Alert.PanelId k) (panels alerts) ->
     (forall a, In a alerts -> match_of existingAlerts a = Some k ->
                ContainsUpdates Encode k a = false) ->
     In k (alert (store res)) /\
     forall st, In st (committed res) -> writes_rule (Alert.Id k) st = false) /\
  (forall a, In a alerts -> ~ In (Alert.PanelId a) (panels existingAlerts) ->
     exists id,
       ~ In id (map Alert.Id (alert s)) /\
       get_alert id (store res) = Some (inserted now id a) /\
       Alert.State (inserted now id a) = AlertStateUnknown /\
       In (InsertAlert (inserted now id a)) (committed res)) /\
  (forall r, In r (alert s) ->
     Alert.DashboardId r <> SaveAlertsCommand.DashboardId cmd ->
     In r (alert (store res))) /\
  (NoDup (panels alerts) ->
   forall a k, In a alerts -> match_of existingAlerts a = Some k ->
     ContainsUpdates Encode k a = true ->
     exists r',
       get_alert (Alert.Id k) (store res) = Some r' /\
       r' = xorm_update_row MustCols_message_for (bean now k a) k /\
       Alert.Message r' = Alert.Message a /\
       Alert.Settings r' = Alert.Settings a /\
       Alert.For r' = Alert.For a /\
       Alert.EvalData r' = Alert.EvalData a /\
       Alert.Name r' = (if Alert.Name a =? "" then Alert.Name k else Alert.Name a) /\
       Alert.Frequency r' =
         (if (Alert.Frequency a =? 0)%Z then Alert.Frequency k else Alert.Frequency a) /\
       Alert.Updated r' = (if (now =? 0)%Z then Alert.Updated k else now) /\
       Alert.Id r' = Alert.Id k /\
       Alert.State r' = Alert.State k /\
       Alert.PanelId r' = Alert.PanelId k).
Proof.
  intros Hu H res existingAlerts alerts.
  destruct (SaveAlerts_summary _ _ H)
    as (ins & new & Ht & Hc & Hgone & Hins & Hnew & Hw & Hupd & _ & Hu').
  fold res existingAlerts alerts in Ht, Hc, Hgone, Hins, Hnew, Hw, Hupd, Hu'.
  split; [| split; [| split; [| split; [| split; [| split]]]]].
  - intros k Hk Hp.
    assert (Hid : In (Alert.Id k) (map Alert.Id (missing existingAlerts alerts))).
    { apply in_map. apply In_missing. auto. }
    split; [apply Hgone; exact Hid |].
    rewrite Hc. apply in_or_app. right. apply DeleteAlertRow_in_cascades. exact Hid.
  - intros k Hk Hp.
    assert (Hng : ~ In (Alert.Id k) (map Alert.Id (missing existingAlerts alerts)))
      by (apply not_gone; assumption).
    split.
    + exists (updates_of Encode now existingAlerts alerts k).
      rewrite <- (updates_of_Id existingAlerts alerts k).
      apply get_alert_unique; [apply Hu'; exact Hu |].
      rewrite Ht. apply filter_In. split.
      * apply in_or_app. left. apply in_map.
        apply In_find_by_dashboard in Hk. apply Hk.
      * rewrite updates_of_Id. apply negb_true_iff, mem_false. exact Hng.
    + rewrite Hc. intros Hin. apply in_app_or in Hin. destruct Hin as [Hin | Hin].
      * destruct (Hw _ Hin eq_refl) as [(a0 & k0 & _ & _ & _ & Heq) |
                                        (a0 & id0 & _ & _ & _ & Heq)];
          discriminate Heq.
      * apply DeleteAlertRow_in_cascades in Hin. contradiction.
  - intros a k Ha Hm.
    split; [eapply committed_update_iff; eassumption | apply ContainsUpdates_spec].
  - intros k Hk Hp Hsame. eapply committed_leave_alone; eassumption.
  - intros a Ha Hp. apply match_of_none_iff in Hp.
    destruct (Hnew a Ha Hp) as (id & Hf & Hin & Hlog).
    exists id. split; [exact Hf |].
    assert (Hrow : In (inserted now id a) (alert (store res))).
    { rewrite Ht. apply filter_In. split; [apply in_or_app; right; exact Hin |].
      apply negb_true_iff, mem_false. intros Hg.
      destruct (inserted_fields now id a) as (Hid & _). rewrite Hid in Hg.
      apply Hf. apply in_map_iff in Hg. destruct Hg as (k & <- & Hk).
      apply in_map. apply In_missing in Hk. destruct Hk as [Hk _].
      apply In_find_by_dashboard in Hk. apply Hk. }
    split; [| split].
    + destruct (inserted_fields now id a) as (Hid & _).
      rewrite <- Hid at 1. apply get_alert_unique; [apply Hu'; exact Hu | exact Hrow].
    + apply inserted_fields.
    + rewrite Hc. apply in_or_app. left. exact Hlog.
  - intros r Hr Hd. rewrite Ht. apply filter_In. split.
    + apply in_or_app. left. apply in_map_iff. exists r. split; [| exact Hr].
      apply updates_of_foreign. intros k Hk Hid.
      apply In_find_by_dashboard in Hk. destruct Hk as [Hk Hdk].
      assert (k = r) as -> by (eapply unique_ids_inj; eassumption).
      contradiction.
    + apply negb_true_iff, mem_false.
      apply other_dashboard_not_gone; assumption.
  - intros Hnd a k Ha Hm Hcu.
    destruct (match_of_some _ _ Hm) as [Hk Hpanel].
    exists (xorm_update_row MustCols_message_for (bean now k a) k).
    split.
    { pose proof (@SaveAlerts_stored cmd cmd' s a k Hu H Hnd Ha Hm) as Hst.
      fold existingAlerts in Hst.
      rewrite (@update_of_matched existingAlerts a k k Hm Hcu), Z.eqb_refl in Hst.
      exact Hst. }
    split; [reflexivity |].
    destruct (bean_fields now k a) as (_ & Bp & _ & _ & _ & _ & Bs & _).
    destruct (bean_content k a) as (Bf & Bd & Bfr).
    cbn [xorm_update_row Alert.Message Alert.Settings Alert.For Alert.EvalData Alert.Name
         Alert.Frequency Alert.Updated Alert.Id Alert.State Alert.PanelId].
    rewrite Bp, Bs, Bf, Bd, Bfr.
    destruct (bean_fields now k a) as (_ & _ & -> & -> & -> & _ & _ & -> & _).
    split; [reflexivity |]. split; [reflexivity |]. split; [reflexivity |].
    split; [reflexivity |].
    split; [apply upd_string_optional; reflexivity |].
    split; [apply upd_int_optional; reflexivity |].
    split; [apply upd_int_optional; reflexivity |].
    split; [reflexivity |].
    split; [apply upd_string_same |].
    rewrite <- Hpanel. apply upd_int_same.
Qed.


(** The persisted rules a second reconciliation finds: one per desired
    rule, equal to it, and none besides. *)
Lemma second_run cmd cmd' s :
  unique_ids s ->
  NoDup (panels (SaveAlertsCommand.Alerts cmd)) ->
  (forall a, In a (SaveAlertsCommand.Alerts cmd) ->
             Alert.DashboardId a = SaveAlertsCommand.DashboardId cmd) ->
  (forall a, In a (SaveAlertsCommand.Alerts cmd) -> Alert.Name a <> "") ->
  outcome (SaveAlerts Encode now cmd s) = inr cmd' ->
  let existing2 :=
    find_by_dashboard (SaveAlertsCommand.DashboardId cmd)
      (store (SaveAlerts Encode now cmd s)) in
  (forall a, In a (SaveAlertsCommand.Alerts cmd) ->
     exists r, match_of existing2 a = Some r /\ ContainsUpdates Encode r a = false) /\
  (forall r, In r existing2 ->
     In (Alert.PanelId r) (panels (SaveAlertsCommand.Alerts cmd))).
Proof.
  intros Hu Hnd Hdash Hname H existing2.
  set (D := SaveAlertsCommand.DashboardId cmd) in *.
  set (alerts := SaveAlertsCommand.Alerts cmd) in *.
  set (E := find_by_dashboard D s).
  destruct (SaveAlerts_summary _ _ H)
    as (ins & new & Ht & _ & _ & Hins & Hnew & _ & _ & _ & _).
  fold D alerts E in Ht, Hins, Hnew.
  set (U := updates_of Encode now E alerts) in *.
  set (gone := map Alert.Id (missing E alerts)) in *.
  set (keep := fun r : Alert.t => negb (mem (Alert.Id r) gone)) in *.
  set (dashD := fun r : Alert.t => (Alert.DashboardId r =? D)%Z).
  assert (Hsub : forall x, In x E -> In x (alert s)).
  { intros x Hx. apply In_find_by_dashboard in Hx. apply Hx. }
  assert (Hkey : forall x, In x (alert s) ->
             Alert.PanelId (U x) = Alert.PanelId x /\
             Alert.DashboardId (U x) = Alert.DashboardId x).
  { intros x Hx. apply (@updates_of_key s D alerts x Hu Hdash Hx). }
  assert (Hgone_ids : forall id, In id gone -> In id (map Alert.Id (alert s))).
  { intros id Hid. apply in_map_iff in Hid. destruct Hid as (k & <- & Hk).
    apply in_map. apply Hsub. apply In_missing in Hk. apply Hk. }
  assert (HE2 : existing2 =
                (map U (filter keep E) ++ filter dashD (filter keep ins))%list).
  { unfold existing2, find_by_dashboard. fold D dashD. rewrite Ht.
    rewrite !filter_app. f_equal.
    rewrite filter_map_list, filter_map_list. f_equal.
    unfold E, find_by_dashboard. fold dashD.
    rewrite !filter_filter_list. apply filter_ext_in.
    intros x Hx. unfold keep, dashD.
    destruct (Hkey x Hx) as [_ ->]. unfold U. rewrite updates_of_Id.
    apply andb_comm. }
  assert (Hfirst : forall a,
            find (fun k => (Alert.PanelId a =? Alert.PanelId k)%Z)
              (map U (filter keep E)) =
            option_map U
              (find (fun k => (Alert.PanelId a =? Alert.PanelId k)%Z) (filter keep E))).
  { intros a. rewrite find_map_list. f_equal. apply find_ext_in.
    intros x Hx. apply filter_In in Hx. destruct Hx as [Hx _].
    destruct (Hkey x (Hsub x Hx)) as [-> _]. reflexivity. }
  split.
  - intros a Ha. unfold match_of. rewrite HE2, find_app_list, Hfirst.
    destruct (match_of E a) as [k |] eqn:Hm.
    + destruct (match_of_some _ _ Hm) as [Hk Hpanel].
      assert (Hkeep : keep k = true).
      { unfold keep. apply negb_true_iff, mem_false. apply not_gone; [exact Hu | exact Hk |].
        rewrite Hpanel. apply in_map. exact Ha. }
      unfold match_of in Hm.
      rewrite (find_filter_some _ keep _ Hm Hkeep). cbn [option_map].
      exists (U k). split; [reflexivity |].
      unfold U. rewrite (@updates_of_single s E alerts a k Hu Hsub Hnd Ha Hm).
      apply written_row_same; [apply Hname; exact Ha | exact Hm].
    + unfold match_of in Hm. rewrite (find_filter_none _ keep _ Hm). cbn [option_map].
      destruct (Hnew a Ha Hm) as (id & Hf & Hin & _).
      destruct (inserted_fields now id a)
        as (Iid & Ipanel & _ & _ & _ & Idash & _).
      assert (Hin' : In (inserted now id a) (filter dashD (filter keep ins))).
      { apply filter_In. split.
        - apply filter_In. split; [exact Hin |].
          unfold keep. apply negb_true_iff, mem_false. rewrite Iid.
          intros Hc. apply Hf. apply Hgone_ids. exact Hc.
        - unfold dashD. rewrite Idash, (Hdash a Ha). apply Z.eqb_refl. }
      destruct (find_exists (fun k => (Alert.PanelId a =? Alert.PanelId k)%Z) _ _ Hin')
        as (r & Hr).
      { rewrite Ipanel. apply Z.eqb_refl. }
      exists r. split; [exact Hr |].
      apply find_some in Hr. destruct Hr as [Hrin Hrp].
      apply Z.eqb_eq in Hrp.
      apply filter_In in Hrin. destruct Hrin as [Hrin _].
      apply filter_In in Hrin. destruct Hrin as [Hrin _].
      destruct (Hins r Hrin) as (_ & a' & id' & Ha' & _ & ->).
      destruct (inserted_fields now id' a') as (_ & Jpanel & Jn & Jm & Js & _).
      assert (a' = a) as ->.
      { apply (@panels_inj alerts a' a Hnd Ha' Ha). congruence. }
      apply ContainsUpdates_same_content; auto.
  - intros r Hr. rewrite HE2 in Hr. apply in_app_or in Hr. destruct Hr as [Hr | Hr].
    + apply in_map_iff in Hr. destruct Hr as (x & <- & Hx).
      apply filter_In in Hx. destruct Hx as [Hx Hkeep].
      destruct (Hkey x (Hsub x Hx)) as [-> _].
      unfold keep in Hkeep. apply negb_true_iff, mem_false in Hkeep.
      destruct (in_dec Z.eq_dec (Alert.PanelId x) (panels alerts)) as [Hp | Hp];
        [exact Hp |].
      exfalso. apply Hkeep. apply in_map. apply In_missing. auto.
    + apply filter_In in Hr. destruct Hr as [Hr _].
      apply filter_In in Hr. destruct Hr as [Hr _].
      destruct (Hins r Hr) as (_ & a' & id' & Ha' & _ & ->).
      destruct (inserted_fields now id' a') as (_ & -> & _).
      apply in_map. exact Ha'.
Qed.

(** *** Reconciliation returns *)

Lemma next_id_fresh ids : mem (next_id ids) ids = false.
Proof.
  apply mem_false. unfold next_id. intros Hin.
  assert (Hle : forall x, In x ids -> x <= fold_right Z.max 0 ids).
  { clear Hin. induction ids as [| y rest IH]; intros x Hx; [contradiction |].
    cbn [fold_right]. destruct Hx as [-> | Hx]; [lia |].
    specialize (IH x Hx). lia. }
  specialize (Hle _ Hin). lia.
Qed.

Lemma updateAlert_total existingAlerts a sess :
  GetNotificationsFromSettings a <> None ->
  (match_of existingAlerts a = None -> Alert.Id a = 0) ->
  exists a' sess', updateAlert Encode now existingAlerts a sess = inr (a', sess').
Proof.
  intros Hnotif Hid. unfold updateAlert.
  assert (Hfirst : exists a1 sess1,
            match find (fun k => (Alert.PanelId a =? Alert.PanelId k)%Z) existingAlerts with
            | Some alertToUpdate =>
                let alert := Alert.set_Id (Alert.Id alertToUpdate) a in
                if ContainsUpdates Encode alertToUpdate alert then
                  let alert := Alert.set_Updated now alert in
                  let alert := Alert.set_State (Alert.State alertToUpdate) alert in
                  (issue (UpdateAlert (Alert.Id alert) MustCols_message_for alert) ;;;
                   ret alert)%session
                else ret alert
            | None =>
                let alert := Alert.set_Updated now a in
                let alert := Alert.set_Created now alert in
                let alert := Alert.set_State AlertStateUnknown alert in
                let alert := Alert.set_NewStateDate now alert in
                xorm_Insert alert
            end sess = inr (a1, sess1) /\
            Alert.Settings a1 = Alert.Settings a).
  { unfold match_of in Hid.
    destruct (find (fun k => (Alert.PanelId a =? Alert.PanelId k)%Z) existingAlerts)
      as [k |].
    - cbv zeta. destruct (ContainsUpdates Encode k (Alert.set_Id (Alert.Id k) a)).
      + eexists. eexists. split; [reflexivity |]. destruct a; reflexivity.
      + eexists. eexists. split; [reflexivity |]. destruct a; reflexivity.
    - cbv zeta. fold (stamp now a). unfold xorm_Insert, bind, reads. cbn [db].
      assert (H0 : Alert.Id (stamp now a) = 0).
      { rewrite <- (Hid eq_refl). destruct a; reflexivity. }
      rewrite H0. cbn [Z.eqb]. rewrite next_id_fresh.
      eexists. eexists. split; [reflexivity |]. destruct a; reflexivity. }
  destruct Hfirst as (a1 & sess1 & Hrun & Hs).
  erewrite bind_run by exact Hrun. cbv zeta.
  pose proof (relink a1 sess1) as R. cbv zeta in R.
  rewrite (@notifications_of_settings _ _ Hs) in R.
  rewrite (@notifications_of_settings _ _ Hs).
  destruct (GetNotificationsFromSettings a) as [uids |]; [| congruence].
  destruct R as (sess2 & R & _). exists a1, sess2. exact R.
Qed.

(** [SaveAlerts] returns when the settings of the desired rules yield
    notification uids and the new rules come without an id. *)
Lemma SaveAlerts_succeeds cmd s :
  (forall a, In a (SaveAlertsCommand.Alerts cmd) ->
             GetNotificationsFromSettings a <> None) ->
  (forall a, In a (SaveAlertsCommand.Alerts cmd) ->
             match_of (find_by_dashboard (SaveAlertsCommand.DashboardId cmd) s) a = None ->
             Alert.Id a = 0) ->
  exists cmd', outcome (SaveAlerts Encode now cmd s) = inr cmd'.
Proof.
  intros Hnotif Hid.
  pose proof (SaveAlerts_run cmd s) as R. cbv zeta in R.
  set (existingAlerts := find_by_dashboard (SaveAlertsCommand.DashboardId cmd) s) in *.
  assert (Htotal : forall alerts sess,
            (forall a, In a alerts -> GetNotificationsFromSettings a <> None) ->
            (forall a, In a alerts -> match_of existingAlerts a = None -> Alert.Id a = 0) ->
            exists alerts' sess',
              updateEach Encode now existingAlerts alerts sess = inr (alerts', sess')).
  { induction alerts as [| a rest IH]; intros sess Hn Hi.
    - exists [], sess. reflexivity.
    - destruct (updateAlert_total existingAlerts a sess
                  (Hn a (or_introl eq_refl)) (Hi a (or_introl eq_refl)))
        as (a' & sess1 & R1).
      destruct (IH sess1) as (rest' & sess2 & R2).
      { intros a0 Ha0. apply Hn. right. exact Ha0. }
      { intros a0 Ha0. apply Hi. right. exact Ha0. }
      exists (a' :: rest'), sess2. cbn [updateEach].
      erewrite bind_run by exact R1. erewrite bind_run by exact R2. reflexivity. }
  destruct (Htotal (SaveAlertsCommand.Alerts cmd) (mkSession s []) Hnotif Hid)
    as (alerts' & sess1 & Hrun).
  rewrite Hrun in R. rewrite R. eexists. reflexivity.
Qed.

End ReconciliationProofs.

Lemma missing_nil existingAlerts alerts :
  (forall r, In r existingAlerts -> In (Alert.PanelId r) (panels alerts)) ->
  missing existingAlerts alerts = [].
Proof.
  intros H. destruct (missing existingAlerts alerts) as [| k rest] eqn:Hm; [reflexivity |].
  assert (Hk : In k (missing existingAlerts alerts)) by (rewrite Hm; left; reflexivity).
  apply In_missing in Hk. destruct Hk as [Hk Hp]. exfalso. apply Hp, H, Hk.
Qed.

(** C6, as amended.  Let a reconciliation of a dashboard succeed, for desired
    rules that name each panel once, belong to the dashboard and have a name.
    Reconciling the same rules again, at any later time, succeeds as well,
    commits no statement on the rule table and leaves the rule table as the
    first reconciliation left it, so that every rule keeps its [Updated] and
    its state.  (The statements the second reconciliation does commit
    regenerate the tag and notification links.) *)
Theorem reconciling_twice (Encode : Json -> option string) (now now2 : Time)
    (cmd cmd1 : SaveAlertsCommand.t) (s : Store) :
  unique_ids s ->
  NoDup (panels (SaveAlertsCommand.Alerts cmd)) ->
  (forall a, In a (SaveAlertsCommand.Alerts cmd) ->
             Alert.DashboardId a = SaveAlertsCommand.DashboardId cmd) ->
  (forall a, In a (SaveAlertsCommand.Alerts cmd) -> Alert.Name a <> "") ->
  outcome (SaveAlerts Encode now cmd s) = inr cmd1 ->
  let s1 := store (SaveAlerts Encode now cmd s) in
  let res2 := SaveAlerts Encode now2 cmd s1 in
  (exists cmd2, outcome res2 = inr cmd2) /\
  alert (store res2) = alert s1 /\
  (forall st, In st (committed res2) -> is_rule_write st = false) /\
  (forall id r, get_alert id s1 = Some r ->
     exists r2, get_alert id (store res2) = Some r2 /\
                Alert.Updated r2 = Alert.Updated r /\ Alert.State r2 = Alert.State r).
Proof.
  intros Hu Hnd Hdash Hname H s1 res2.
  destruct (@second_run Encode now cmd cmd1 s Hu Hnd Hdash Hname H) as [P1 P2].
  fold s1 in P1, P2.
  destruct (SaveAlerts_summary _ _ _ _ H) as (ins & new & _ & _ & _ & _ & _ & _ & _ & Hnotif & _).
  set (existing2 := find_by_dashboard (SaveAlertsCommand.DashboardId cmd) s1) in *.
  destruct (@updateEach_unchanged Encode now2 existing2 (SaveAlertsCommand.Alerts cmd)
              (mkSession s1 []) P1 Hnotif) as (alerts2 & sess2 & Hrun & Hlinks).
  pose proof (SaveAlerts_run Encode now2 cmd s1) as R. cbv zeta in R.
  fold existing2 in R. rewrite Hrun in R.
  rewrite (missing_nil _ _ P2) in R. cbn [map flat_map replay fold_left] in R.
  rewrite app_nil_r in R.
  destruct Hlinks as (Halert & links & Hissued & Hnone).
  cbn [db issued app] in Halert, Hissued.
  assert (Htab : alert (store res2) = alert s1).
  { subst res2. rewrite R. exact Halert. }
  split; [| split; [| split]].
  - subst res2. rewrite R. eexists. reflexivity.
  - exact Htab.
  - subst res2. rewrite R. cbn [committed]. rewrite Hissued.
    intros st Hin. rewrite forallb_forall in Hnone.
    apply negb_true_iff. apply Hnone. exact Hin.
  - intros id r Hget. exists r. unfold get_alert in *. rewrite Htab. auto.
Qed.

(** *** Deleting a rule and what depends on it *)

(** C9.  [DeleteAlert] runs the five deletes of the rule and of its
    annotations, notification states, tag links and notification links in one
    transaction: afterwards no row of the five tables refers to the rule, and
    every other row is as it was.  Deleting the rules of a dashboard and
    removing a rule that left its dashboard during reconciliation run the
    same five deletes, with the same outcome for each rule they remove. *)
Theorem cascade_delete :
  (forall cmd s,
     let res := DeleteAlert cmd s in
     outcome res = inr tt /\
     committed res = cascade (DeleteAlertCommand.Id cmd) /\
     unreachable (DeleteAlertCommand.Id cmd) (store res) /\
     others_kept (DeleteAlertCommand.Id cmd) s (store res)) /\
  (forall dashboardId s,
     let res := inTransaction (deleteAlertDefinition dashboardId) s in
     outcome res = inr tt /\
     committed res = flat_map cascade (map Alert.Id (find_by_dashboard dashboardId s)) /\
     forall k, In k (find_by_dashboard dashboardId s) ->
               unreachable (Alert.Id k) (store res)) /\
  (forall Encode now cmd cmd' s,
     outcome (SaveAlerts Encode now cmd s) = inr cmd' ->
     let res := SaveAlerts Encode now cmd s in
     forall k,
       In k (find_by_dashboard (SaveAlertsCommand.DashboardId cmd) s) ->
       ~ In (Alert.PanelId k) (panels (SaveAlertsCommand.Alerts cmd)) ->
       unreachable (Alert.Id k) (store res) /\
       forall st, In st (cascade (Alert.Id k)) -> In st (committed res)).
Proof.
  split; [| split].
  - intros cmd s res. subst res. unfold DeleteAlert, inTransaction.
    rewrite deleteAlertByIdInternal_run. cbn [outcome store committed db issued app].
    split; [reflexivity |]. split; [reflexivity |].
    split; [apply cascade_unreachable | apply cascade_others_kept].
  - intros dashboardId s res. subst res.
    unfold deleteAlertDefinition, inTransaction.
    erewrite bind_run by (unfold reads; reflexivity).
    rewrite deleteEach_run. cbn [outcome store committed db issued app].
    rewrite flat_map_cascade_ids.
    split; [reflexivity |]. split; [reflexivity |].
    intros k Hk. apply replay_cascades_unreachable. apply in_map. exact Hk.
  - intros Encode now cmd cmd' s H res k Hk Hp.
    destruct (SaveAlerts_summary _ _ _ _ H) as (ins & new & _ & Hc & Hgone & _).
    assert (Hid : In (Alert.Id k)
                    (map Alert.Id
                       (missing (find_by_dashboard (SaveAlertsCommand.DashboardId cmd) s)
                          (SaveAlertsCommand.Alerts cmd)))).
    { apply in_map. apply In_missing. auto. }
    split; [apply Hgone; exact Hid |].
    intros st Hst. subst res. rewrite Hc. apply in_or_app. right.
    apply in_flat_map. exists (Alert.Id k). auto.
Qed.

(** ** The properties on the sample data *)

Lemma Sample_unique : unique_ids Sample.store.
Proof.
  unfold unique_ids. cbn.
  repeat (constructor; [cbn; intuition discriminate |]). constructor.
Qed.

Lemma Sample_limit_sublist n (rows : list JoinedRow) r :
  In r (Sample.limit n rows) -> In r rows.
Proof.
  unfold Sample.limit. generalize (Z.to_nat n). intros m. revert rows.
  induction m as [| m IH]; intros rows H; [contradiction |].
  destruct rows as [| x rest]; [contradiction |].
  cbn in H. destruct H as [-> | H]; [left; reflexivity | right; apply IH; exact H].
Qed.

(** Panels 1, 2, 3 against panels 2, 3, 4: the rule of panel 1 is deleted
    with its dependent rows. *)
Lemma reconciliation_partitions_witness :
  unique_ids Sample.store /\
  (exists cmd',
     outcome (SaveAlerts Sample.encode 100 Sample.panels_234 Sample.store) = inr cmd') /\
  (unreachable 1 (store (SaveAlerts Sample.encode 100 Sample.panels_234 Sample.store)) /\
   In (DeleteAlertRow 1)
      (committed (SaveAlerts Sample.encode 100 Sample.panels_234 Sample.store))) /\
  exists r',
    get_alert 3 (store (SaveAlerts Sample.encode 100 Sample.panels_234 Sample.store)) =
      Some r' /\
    Alert.Name r' = "load average" /\
    Alert.Updated r' = 100 /\
    Alert.State r' = AlertStatePaused.
Proof.
  assert (H : exists cmd',
            outcome (SaveAlerts Sample.encode 100 Sample.panels_234 Sample.store) = inr cmd')
    by (eexists; vm_compute; reflexivity).
  split; [exact Sample_unique |]. split; [exact H |].
  destruct H as [cmd' H].
  destruct (@reconciliation_partitions Sample.encode 100 Sample.panels_234 cmd'
              Sample.store Sample_unique H) as (Hdeleted & _ & _ & _ & _ & _ & Hwritten).
  split.
  - apply (Hdeleted Sample.persisted_1).
    + vm_compute. left. reflexivity.
    + vm_compute. intuition discriminate.
  - destruct (Hwritten) with (a := Sample.desired 3 "load average") (k := Sample.persisted_3)
      as (r' & Hget & _ & _ & _ & _ & _ & Hname & _ & Hupdated & _ & Hstate & _).
    + vm_compute. repeat constructor; cbn; intuition discriminate.
    + vm_compute. right. left. reflexivity.
    + vm_compute. reflexivity.
    + vm_compute. reflexivity.
    + exists r'. split; [exact Hget |]. split; [exact Hname |].
      split; [exact Hupdated | exact Hstate].
Defined.

(** The claim C1 fails for the name of a rule that is written.  The desired
    rule of panel 1 comes without a name; it is paired with the persisted
    rule named [cpu], differs from it and is written over it, yet the stored
    rule is still named [cpu]: the storage layer takes the empty name for
    unset and leaves the column alone, so that the stored rule is not the
    desired one. *)
Lemma unnamed_rule_keeps_name :
  unique_ids Sample.store /\
  NoDup (panels (SaveAlertsCommand.Alerts Sample.with_unnamed)) /\
  In (Sample.desired 1 "") (SaveAlertsCommand.Alerts Sample.with_unnamed) /\
  match_of (find_by_dashboard 7 Sample.store) (Sample.desired 1 "") =
    Some Sample.persisted_1 /\
  ContainsUpdates Sample.encode Sample.persisted_1 (Sample.desired 1 "") = true /\
  (exists cmd',
     outcome (SaveAlerts Sample.encode 100 Sample.with_unnamed Sample.store) = inr cmd') /\
  In (UpdateAlert 1 MustCols_message_for (bean 100 Sample.persisted_1 (Sample.desired 1 "")))
     (committed (SaveAlerts Sample.encode 100 Sample.with_unnamed Sample.store)) /\
  exists r',
    get_alert 1 (store (SaveAlerts Sample.encode 100 Sample.with_unnamed Sample.store)) =
      Some r' /\
    Alert.Updated r' = 100 /\
    Alert.Name r' = "cpu" /\
    Alert.Name r' <> Alert.Name (Sample.desired 1 "").
Proof.
  split; [exact Sample_unique |].
  split; [vm_compute; repeat constructor; cbn; intuition discriminate |].
  split; [left; reflexivity |].
  split; [vm_compute; reflexivity |].
  split; [vm_compute; reflexivity |].
  split; [eexists; vm_compute; reflexivity |].
  split; [vm_compute; left; reflexivity |].
  eexists. split; [vm_compute; reflexivity |].
  cbn. repeat split. discriminate.
Qed.



Lemma identity_preserved_witness :
  unique_ids Sample.store /\
  (exists cmd',
     outcome (SaveAlerts Sample.encode 100 Sample.panels_234 Sample.store) = inr cmd') /\
  exists r',
    get_alert 3 (store (SaveAlerts Sample.encode 100 Sample.panels_234 Sample.store)) =
      Some r' /\
    Alert.State r' = AlertStatePaused /\
    Alert.Created r' = 10.
Proof.
  assert (H : exists cmd',
            outcome (SaveAlerts Sample.encode 100 Sample.panels_234 Sample.store) = inr cmd')
    by (eexists; vm_compute; reflexivity).
  split; [exact Sample_unique |]. split; [exact H |].
  destruct H as [cmd' H].
  destruct (@identity_preserved Sample.encode 100 Sample.panels_234 cmd' Sample.store
              (Sample.desired 3 "load average") Sample.persisted_3 Sample_unique H)
    as (r' & Hget & _ & Hstate & Hcreated).
  - vm_compute. right. left. reflexivity.
  - vm_compute. right. right. left. reflexivity.
  - reflexivity.
  - exists r'. split; [exact Hget |]. split; [exact Hstate |].
    apply Hcreated. intros b [<- | [<- | [<- | []]]] _; reflexivity.
Defined.

(** The claim C4 fails for the creation time: the desired rule of panel 1
    comes with a name of its own and the creation time 999, and the stored
    rule, still rule 1 in state [ok], is left with that creation time instead
    of its own, 10. *)
Lemma created_overwritten :
  unique_ids Sample.store /\
  In Sample.recreated (SaveAlertsCommand.Alerts Sample.with_recreated) /\
  In Sample.persisted_1 (find_by_dashboard 7 Sample.store) /\
  Alert.PanelId Sample.recreated = Alert.PanelId Sample.persisted_1 /\
  (exists cmd',
     outcome (SaveAlerts Sample.encode 100 Sample.with_recreated Sample.store) =
       inr cmd') /\
  exists r',
    get_alert 1 (store (SaveAlerts Sample.encode 100 Sample.with_recreated Sample.store)) =
      Some r' /\
    Alert.Id r' = 1 /\
    Alert.State r' = AlertStateOK /\
    Alert.Created r' = 999 /\
    Alert.Created r' <> Alert.Created Sample.persisted_1.
Proof.
  split; [exact Sample_unique |].
  split; [left; reflexivity |].
  split; [vm_compute; left; reflexivity |].
  split; [reflexivity |].
  split; [eexists; vm_compute; reflexivity |].
  eexists. split; [vm_compute; reflexivity |].
  cbn. repeat split. discriminate.
Qed.

Lemma meaningful_change_witness :
  unique_ids Sample.store /\
  (exists cmd',
     outcome (SaveAlerts Sample.encode 100 Sample.panels_234 Sample.store) = inr cmd') /\
  In (Sample.desired 3 "load average") (SaveAlertsCommand.Alerts Sample.panels_234) /\
  match_of (find_by_dashboard 7 Sample.store) (Sample.desired 3 "load average") =
    Some Sample.persisted_3 /\
  In (UpdateAlert 3 MustCols_message_for
        (bean 100 Sample.persisted_3 (Sample.desired 3 "load average")))
     (committed (SaveAlerts Sample.encode 100 Sample.panels_234 Sample.store)).
Proof.
  assert (H : exists cmd',
            outcome (SaveAlerts Sample.encode 100 Sample.panels_234 Sample.store) = inr cmd')
    by (eexists; vm_compute; reflexivity).
  assert (Ha : In (Sample.desired 3 "load average")
                 (SaveAlertsCommand.Alerts Sample.panels_234))
    by (right; left; reflexivity).
  assert (Hm : match_of (find_by_dashboard 7 Sample.store)
                 (Sample.desired 3 "load average") = Some Sample.persisted_3)
    by reflexivity.
  split; [exact Sample_unique |]. split; [exact H |].
  split; [exact Ha |]. split; [exact Hm |].
  destruct H as [cmd' H].
  destruct (@meaningful_change Sample.encode 100 Sample.panels_234 cmd' Sample.store
              (Sample.desired 3 "load average") Sample.persisted_3
              Sample_unique H Ha Hm) as (Hiff & _).
  apply Hiff. reflexivity.
Defined.

(** The claim C5 fails where one of the two rules has no settings: the
    desired rule of panel 1 has the name and the message of the persisted
    one and no settings, the persisted one has settings, and no statement
    writes the persisted rule. *)
Lemma dropped_settings_not_written :
  match_of (find_by_dashboard 7 Sample.store) Sample.bare = Some Sample.persisted_1 /\
  Alert.Name Sample.persisted_1 = Alert.Name Sample.bare /\
  Alert.Message Sample.persisted_1 = Alert.Message Sample.bare /\
  Alert.Settings Sample.persisted_1 <> Alert.Settings Sample.bare /\
  (exists cmd',
     outcome (SaveAlerts Sample.encode 100 Sample.with_bare Sample.store) = inr cmd') /\
  ContainsUpdates Sample.encode Sample.persisted_1 Sample.bare = false /\
  forallb (fun st => negb (writes_rule 1 st))
    (committed (SaveAlerts Sample.encode 100 Sample.with_bare Sample.store)) = true /\
  get_alert 1 (store (SaveAlerts Sample.encode 100 Sample.with_bare Sample.store)) =
    Some Sample.persisted_1.
Proof.
  split; [reflexivity |]. split; [reflexivity |]. split; [reflexivity |].
  split; [discriminate |].
  split; [eexists; vm_compute; reflexivity |].
  split; [reflexivity |].
  split; vm_compute; reflexivity.
Qed.

Lemma reconciling_twice_witness :
  unique_ids Sample.store /\
  NoDup (panels (SaveAlertsCommand.Alerts Sample.panels_234)) /\
  (exists cmd',
     outcome (SaveAlerts Sample.encode 100 Sample.panels_234 Sample.store) = inr cmd') /\
  alert (store (SaveAlerts Sample.encode 200 Sample.panels_234
                  (store (SaveAlerts Sample.encode 100 Sample.panels_234 Sample.store)))) =
  alert (store (SaveAlerts Sample.encode 100 Sample.panels_234 Sample.store)).
Proof.
  assert (H : exists cmd',
            outcome (SaveAlerts Sample.encode 100 Sample.panels_234 Sample.store) = inr cmd')
    by (eexists; vm_compute; reflexivity).
  assert (Hnd : NoDup (panels (SaveAlertsCommand.Alerts Sample.panels_234))).
  { cbn. repeat (constructor; [cbn; intuition discriminate |]). constructor. }
  split; [exact Sample_unique |]. split; [exact Hnd |]. split; [exact H |].
  destruct H as [cmd' H].
  destruct (@reconciling_twice Sample.encode 100 200 Sample.panels_234 cmd' Sample.store
              Sample_unique Hnd) as (_ & Htable & _).
  - intros a [<- | [<- | [<- | []]]]; reflexivity.
  - intros a [<- | [<- | [<- | []]]]; discriminate.
  - exact H.
  - exact Htable.
Defined.

(** The claim C6 fails for a desired rule without a name.  The first
    reconciliation writes it over the rule named [cpu]; the storage layer
    takes the empty name for unset, so the stored name stays; the second
    reconciliation finds the same difference and writes the rule again,
    with a new [Updated].  And a second reconciliation of any rule set
    commits statements: the deletes that precede the regeneration of the
    links. *)
Lemma unnamed_rule_written_again :
  In (DeleteRuleTags 2)
     (committed (SaveAlerts Sample.encode 200 Sample.panels_234
                   (store (SaveAlerts Sample.encode 100 Sample.panels_234 Sample.store)))) /\
  (exists cmd1,
     outcome (SaveAlerts Sample.encode 100 Sample.with_unnamed Sample.store) = inr cmd1) /\
  (exists cmd2,
     outcome (SaveAlerts Sample.encode 200 Sample.with_unnamed
                (store (SaveAlerts Sample.encode 100 Sample.with_unnamed Sample.store))) =
     inr cmd2) /\
  existsb is_rule_write
    (committed (SaveAlerts Sample.encode 200 Sample.with_unnamed
                  (store (SaveAlerts Sample.encode 100 Sample.with_unnamed Sample.store)))) =
    true /\
  option_map Alert.Updated
    (get_alert 1 (store (SaveAlerts Sample.encode 100 Sample.with_unnamed Sample.store))) =
    Some 100 /\
  option_map Alert.Updated
    (get_alert 1
       (store (SaveAlerts Sample.encode 200 Sample.with_unnamed
                 (store (SaveAlerts Sample.encode 100 Sample.with_unnamed Sample.store))))) =
    Some 200.
Proof.
  split; [vm_compute; left; reflexivity |].
  split; [eexists; vm_compute; reflexivity |].
  split; [eexists; vm_compute; reflexivity |].
  split; [vm_compute; reflexivity |].
  split; vm_compute; reflexivity.
Qed.

Lemma state_filter_witness :
  GetAlertsQuery.State (Sample.search ["all"; "ok"]) = "all" :: ["ok"] /\
  HandleAlertsQuery Sample.like Sample.collate Sample.limit Sample.permitted
    (Sample.search ["all"; "ok"]) Sample.store =
  HandleAlertsQuery Sample.like Sample.collate Sample.limit Sample.permitted
    (with_State [] (Sample.search ["all"; "ok"])) Sample.store.
Proof.
  split; [reflexivity |].
  destruct (state_filter Sample.like Sample.collate Sample.limit Sample.permitted
              (Sample.search ["all"; "ok"]) Sample.store) as (Hall & _).
  apply (Hall ["ok"]). reflexivity.
Defined.

Lemma PauseAlert_bulk_witness :
  PauseAlertCommand.AlertIds (PauseAlertCommand.Build 1 [1; 3; 99] 0 true) <> [] /\
  exists cmd',
    outcome (PauseAlert 100 (PauseAlertCommand.Build 1 [1; 3; 99] 0 true) Sample.store) =
      inr cmd' /\
    PauseAlertCommand.ResultCount cmd' = 2.
Proof.
  assert (Hne : PauseAlertCommand.AlertIds (PauseAlertCommand.Build 1 [1; 3; 99] 0 true)
                <> []) by discriminate.
  split; [exact Hne |].
  destruct (PauseAlert_bulk 100 (PauseAlertCommand.Build 1 [1; 3; 99] 0 true) Sample.store)
    as (_ & Hok & _).
  destruct (Hok Hne) as (cmd' & Hout & Hcount & _).
  exists cmd'. split; [exact Hout |]. rewrite Hcount. reflexivity.
Defined.

Lemma cascade_delete_witness :
  unreachable 1 (store (DeleteAlert (DeleteAlertCommand.Build 1) Sample.store)).
Proof.
  destruct cascade_delete as (Hdelete & _).
  destruct (Hdelete (DeleteAlertCommand.Build 1) Sample.store) as (_ & _ & Hgone & _).
  exact Hgone.
Defined.

Lemma OrgId_is_ignored_witness :
  store (SetAlertState 100 (with_OrgId 2 Sample.to_alerting) Sample.store) =
  store (SetAlertState 100 Sample.to_alerting Sample.store).
Proof.
  destruct (OrgId_is_ignored 100 Sample.to_alerting 2 Sample.store) as (Hstore & _).
  exact Hstore.
Defined.

(** ** Further properties of the model functions *)

(** *** pkg/models/alert.go *)

(** X1.  Whatever the encoder, [ContainsUpdates] is symmetric in its two
    rules, and no rule contains updates relative to itself: the comparison
    reads the name, the message and the encoded settings of both sides in
    the same way. *)
Theorem ContainsUpdates_symmetric (Encode : Json -> option string) (a b : Alert.t) :
  ContainsUpdates Encode a b = ContainsUpdates Encode b a /\
  ContainsUpdates Encode a a = false.
Proof.
  unfold ContainsUpdates. split.
  - rewrite (String.eqb_sym (Alert.Name a)), (String.eqb_sym (Alert.Message a)).
    destruct (Alert.Settings a) as [s1 |], (Alert.Settings b) as [s2 |]; try reflexivity.
    destruct (Encode s1) as [j1 |], (Encode s2) as [j2 |]; try reflexivity.
    rewrite (String.eqb_sym j1). reflexivity.
  - rewrite !String.eqb_refl. cbn.
    destruct (Alert.Settings a) as [s1 |]; [| reflexivity].
    destruct (Encode s1) as [j1 |]; [| reflexivity].
    rewrite String.eqb_refl. reflexivity.
Qed.

(** X2.  A valid no-data option converts to a valid alert state exactly
    when it is not [keep_state], and so does a valid execution-error option:
    [keep_state] is the one valid option that names no state. *)
Theorem options_as_states (o : string) :
  NoDataOption.IsValid o && IsValid (NoDataOption.ToAlertState o) =
    NoDataOption.IsValid o && negb (o =? NoDataKeepState) /\
  ExecutionErrorOption.IsValid o && IsValid (ExecutionErrorOption.ToAlertState o) =
    ExecutionErrorOption.IsValid o && negb (o =? ExecutionErrorKeepState).
Proof.
  unfold IsValid, NoDataOption.IsValid, NoDataOption.ToAlertState,
    ExecutionErrorOption.IsValid, ExecutionErrorOption.ToAlertState.
  unfold NoDataSetNoData, NoDataSetAlerting, NoDataKeepState, NoDataSetOK,
    ExecutionErrorSetAlerting, ExecutionErrorKeepState,
    AlertStateOK, AlertStateNoData, AlertStatePaused, AlertStatePending,
    AlertStateAlerting, AlertStateUnknown.
  destruct (String.eqb_spec o "ok") as [-> | Hok]; [split; reflexivity |].
  destruct (String.eqb_spec o "no_data") as [-> | Hnd]; [split; reflexivity |].
  destruct (String.eqb_spec o "keep_state") as [-> | Hks]; [split; reflexivity |].
  destruct (String.eqb_spec o "alerting") as [-> | Hal]; [split; reflexivity |].
  split; reflexivity.
Qed.

Lemma uid_of_none m :
  uid_of m = None <-> forall uid, lookup_field "uid" (MustMap m) <> Some (JString uid).
Proof.
  unfold uid_of. destruct (lookup_field "uid" (MustMap m)) as [[| | | u | |] |];
    split; intros H; try reflexivity; try discriminate; try (intros uid; discriminate).
  exfalso. exact (H u eq_refl).
Qed.

Lemma uid_of_some m uid :
  uid_of m = Some uid <-> lookup_field "uid" (MustMap m) = Some (JString uid).
Proof.
  unfold uid_of. destruct (lookup_field "uid" (MustMap m)) as [[| | | u | |] |];
    split; intros H; try discriminate; inversion H; reflexivity.
Qed.

Lemma uids_of_none data :
  uids_of data = None <-> exists m, In m data /\ uid_of m = None.
Proof.
  induction data as [| m rest IH]; cbn [uids_of].
  - split; [discriminate | intros (m & [] & _)].
  - destruct (uid_of m) as [u |] eqn:Hm.
    + destruct (uids_of rest) as [us |] eqn:Hrest.
      * split; [discriminate |].
        intros (m' & [<- | Hin] & Hnone); [congruence |].
        assert (Hcontra : Some us = None) by (apply IH; exists m'; split; assumption).
        discriminate Hcontra.
      * split; [| reflexivity]. intros _.
        destruct (proj1 IH eq_refl) as (m' & Hin & Hnone).
        exists m'. split; [right; exact Hin | exact Hnone].
    + split; [| reflexivity]. intros _. exists m. split; [left; reflexivity | exact Hm].
Qed.

Lemma uids_of_some data uids :
  uids_of data = Some uids -> map Some uids = map uid_of data.
Proof.
  revert uids. induction data as [| m rest IH]; cbn [uids_of]; intros uids H.
  - inversion H. reflexivity.
  - destruct (uid_of m) as [u |] eqn:Hm; [| discriminate].
    destruct (uids_of rest) as [us |]; [| discriminate].
    inversion H; subst. cbn [map]. rewrite Hm, (IH us eq_refl). reflexivity.
Qed.

(** X3.  [GetNotificationsFromSettings] panics exactly when the settings
    hold a [notifications] entry with an element that is not an object with
    a string [uid].  When it returns, the uids are those of the elements, one
    for each and in their order. *)
Theorem GetNotificationsFromSettings_panics (alert : Alert.t) :
  (GetNotificationsFromSettings alert = None <->
   exists settings data m,
     Alert.Settings alert = Some settings /\
     CheckGet settings "notifications" = Some data /\
     In m (MustArray data) /\
     forall uid, lookup_field "uid" (MustMap m) <> Some (JString uid)) /\
  (forall uids settings data,
     GetNotificationsFromSettings alert = Some uids ->
     Alert.Settings alert = Some settings ->
     CheckGet settings "notifications" = Some data ->
     map (fun uid => Some (JString uid)) uids =
     map (fun m => lookup_field "uid" (MustMap m)) (MustArray data)).
Proof.
  unfold GetNotificationsFromSettings. split.
  - split.
    + destruct (Alert.Settings alert) as [settings |]; [| discriminate].
      destruct (CheckGet settings "notifications") as [data |] eqn:Hget; [| discriminate].
      intros H. apply uids_of_none in H. destruct H as (m & Hin & Hnone).
      exists settings, data, m. repeat split; try assumption.
      apply uid_of_none. exact Hnone.
    + intros (settings & data & m & -> & -> & Hin & Hnone).
      apply uids_of_none. exists m. split; [exact Hin |].
      apply uid_of_none. exact Hnone.
  - intros uids settings data H Hs Hget. rewrite Hs, Hget in H.
    revert uids H. induction (MustArray data) as [| m rest IH]; cbn [uids_of]; intros uids H.
    + inversion H. reflexivity.
    + destruct (uid_of m) as [u |] eqn:Hm; [| discriminate].
      destruct (uids_of rest) as [us |]; [| discriminate].
      inversion H; subst. cbn [map]. apply uid_of_some in Hm. rewrite Hm.
      rewrite (IH us eq_refl). reflexivity.
Qed.

(** *** Deleting rules *)

Lemma store_ext s s' :
  alert s = alert s' -> annotation s = annotation s' ->
  alert_notification_state s = alert_notification_state s' ->
  alert_rule_tag s = alert_rule_tag s' ->
  alert_rule_notification s = alert_rule_notification s' ->
  tag s = tag s' -> alert_notification s = alert_notification s' ->
  dashboard s = dashboard s' -> s = s'.
Proof.
  destruct s, s'. cbn. intros. subst. reflexivity.
Qed.

Lemma filter_idem {A : Type} (p : A -> bool) l : filter p (filter p l) = filter p l.
Proof.
  rewrite filter_filter_list. apply filter_ext. intros x. apply andb_diag.
Qed.

Lemma filter_comm {A : Type} (p q : A -> bool) l :
  filter p (filter q l) = filter q (filter p l).
Proof.
  rewrite !filter_filter_list. apply filter_ext. intros x. apply andb_comm.
Qed.

Lemma filter_all {A : Type} (p : A -> bool) l :
  (forall x, In x l -> p x = true) -> filter p l = l.
Proof.
  induction l as [| x l IH]; intros H; cbn [filter]; [reflexivity |].
  rewrite (H x (or_introl eq_refl)). f_equal. apply IH. intros y Hy. apply H. right. exact Hy.
Qed.

Lemma DeleteAlert_run cmd s :
  DeleteAlert cmd s =
  mkTx (inr tt) (replay (cascade (DeleteAlertCommand.Id cmd)) s)
    (cascade (DeleteAlertCommand.Id cmd)).
Proof.
  unfold DeleteAlert, inTransaction. rewrite deleteAlertByIdInternal_run. reflexivity.
Qed.

Lemma get_alert_none id s :
  get_alert id s = None <-> forall r, In r (alert s) -> Alert.Id r <> id.
Proof.
  unfold get_alert. split.
  - intros H r Hin Hid.
    pose proof (find_none _ _ H r Hin) as Hf. cbn in Hf.
    apply Z.eqb_neq in Hf. contradiction.
  - intros H. destruct (find _ (alert s)) as [r |] eqn:Hf; [| reflexivity].
    apply find_some in Hf. destruct Hf as (Hin & Hid). apply Z.eqb_eq in Hid.
    exfalso. exact (H r Hin Hid).
Qed.

(** X4.  [DeleteAlert] never reports a missing rule: it returns no error
    whatever the id.  Deleting the same rule twice is the same as deleting it
    once, two deletions give the same store in either order, and a deletion
    under an id that no rule has leaves the rule table as it was. *)
Theorem DeleteAlert_idempotent (cmd cmd2 : DeleteAlertCommand.t) (s : Store) :
  outcome (DeleteAlert cmd s) = inr tt /\
  store (DeleteAlert cmd (store (DeleteAlert cmd s))) = store (DeleteAlert cmd s) /\
  store (DeleteAlert cmd (store (DeleteAlert cmd2 s))) =
    store (DeleteAlert cmd2 (store (DeleteAlert cmd s))) /\
  (get_alert (DeleteAlertCommand.Id cmd) s = None ->
   alert (store (DeleteAlert cmd s)) = alert s).
Proof.
  rewrite !DeleteAlert_run. cbn [outcome store].
  set (id := DeleteAlertCommand.Id cmd). set (id2 := DeleteAlertCommand.Id cmd2).
  pose proof (cascade_others_kept id s) as (Ha & Hb & Hc & Hd & He & Hf & Hg & Hh).
  split; [reflexivity |]. split; [| split].
  - pose proof (cascade_others_kept id (replay (cascade id) s))
      as (Ha' & Hb' & Hc' & Hd' & He' & Hf' & Hg' & Hh').
    apply store_ext; try congruence.
    + rewrite Ha', Ha. apply filter_idem.
    + rewrite Hb', Hb. apply filter_idem.
    + rewrite Hc', Hc. apply filter_idem.
    + rewrite Hd', Hd. apply filter_idem.
    + rewrite He', He. apply filter_idem.
  - pose proof (cascade_others_kept id2 s) as (Ha2 & Hb2 & Hc2 & Hd2 & He2 & Hf2 & Hg2 & Hh2).
    pose proof (cascade_others_kept id (replay (cascade id2) s))
      as (Ha' & Hb' & Hc' & Hd' & He' & Hf' & Hg' & Hh').
    pose proof (cascade_others_kept id2 (replay (cascade id) s))
      as (Ha'' & Hb'' & Hc'' & Hd'' & He'' & Hf'' & Hg'' & Hh'').
    apply store_ext; try congruence.
    + rewrite Ha', Ha2, Ha'', Ha. apply filter_comm.
    + rewrite Hb', Hb2, Hb'', Hb. apply filter_comm.
    + rewrite Hc', Hc2, Hc'', Hc. apply filter_comm.
    + rewrite Hd', Hd2, Hd'', Hd. apply filter_comm.
    + rewrite He', He2, He'', He. apply filter_comm.
  - intros Hnone. rewrite Ha. apply filter_all. intros r Hin.
    apply negb_true_iff, Z.eqb_neq. exact (proj1 (get_alert_none id s) Hnone r Hin).
Qed.

Lemma filter_none_list {A : Type} (p : A -> bool) l :
  (forall x, In x l -> p x = false) -> filter p l = [].
Proof.
  induction l as [| x l IH]; intros H; cbn [filter]; [reflexivity |].
  rewrite (H x (or_introl eq_refl)). apply IH. intros y Hy. apply H. right. exact Hy.
Qed.

Lemma exist_alert_get id s :
  id <> 0 -> exist_alert id s = match get_alert id s with Some _ => true | None => false end.
Proof.
  intros Hid. unfold exist_alert, get_alert.
  destruct (Z.eqb_spec id 0) as [-> | _]; [contradiction |].
  induction (alert s) as [| r rows IH]; cbn [existsb find]; [reflexivity |].
  destruct (Alert.Id r =? id)%Z; [reflexivity | exact IH].
Qed.

(** X5.  Once [DeleteAlert] has run, no path of the file finds the rule:
    [GetAlertById], [SetAlertState] and [UpdateAlert] fail with their
    not-found errors, the rule has no notification link left, and no listing of
    the states of a dashboard mentions it. *)
Theorem deleted_rule_not_found (cmd : DeleteAlertCommand.t) (s : Store) :
  let id := DeleteAlertCommand.Id cmd in
  let s' := store (DeleteAlert cmd s) in
  (forall query, GetAlertByIdQuery.Id query = id ->
     GetAlertById query s' = inl (Errorf "could not find alert")) /\
  (forall now set, SetAlertStateCommand.AlertId set = id ->
     outcome (SetAlertState now set s') = inl (Errorf "Could not find alert")) /\
  (forall ParseDuration NewFromAny_update now update,
     UpdateAlertCommand.ID update = id -> id <> 0 ->
     outcome (sqlstore.UpdateAlert ParseDuration NewFromAny_update now update s') =
       inl (Errorf "Cannot find alert")) /\
  getAlertNotificationIDs id s' = inr [] /\
  (forall query result d,
     GetAlertStatesForDashboard query s' = inr result ->
     In d (GetAlertStatesForDashboardQuery.Result result) ->
     AlertStateInfoDTO.Id d <> id).
Proof.
  intros id s'. subst s'. rewrite DeleteAlert_run. cbn [store].
  fold id.
  pose proof (cascade_unreachable id s) as (Halert & _ & _ & _ & Hlinks).
  assert (Hnone : get_alert id (replay (cascade id) s) = None)
    by (apply get_alert_none; exact Halert).
  split; [| split; [| split; [| split]]].
  - intros query Hq. unfold GetAlertById. rewrite Hq, Hnone. reflexivity.
  - intros now set Hset. unfold SetAlertState, inTransaction, bind, reads.
    cbn [db]. rewrite Hset, Hnone. reflexivity.
  - intros ParseDuration NewFromAny_update now update Hu Hid.
    unfold sqlstore.UpdateAlert. rewrite Hu, (exist_alert_get _ Hid), Hnone. reflexivity.
  - unfold getAlertNotificationIDs. rewrite filter_none_list; [reflexivity |].
    intros r Hin. apply Z.eqb_neq. exact (Hlinks r Hin).
  - intros query result d Hres Hin. unfold GetAlertStatesForDashboard in Hres.
    inversion Hres; subst result; clear Hres. cbn in Hin.
    apply in_map_iff in Hin. destruct Hin as (r & <- & Hr).
    apply filter_In in Hr. destruct Hr as (Hr & _). cbn. exact (Halert r Hr).
Qed.

(** X6.  [SaveAlerts] with no desired rule does what the deletion of the
    dashboard's alert definitions does: it runs the deletes of
    [deleteAlertDefinition], only them, and leaves the same store. *)
Theorem SaveAlerts_of_nothing (Encode : Json -> option string) (now : Time)
    (dashboardId userId orgId : Z) (s : Store) :
  let res := SaveAlerts Encode now (SaveAlertsCommand.Build dashboardId userId orgId []) s in
  let del := inTransaction (deleteAlertDefinition dashboardId) s in
  outcome res = inr (SaveAlertsCommand.Build dashboardId userId orgId []) /\
  outcome del = inr tt /\
  store res = store del /\
  committed res = committed del.
Proof.
  intros res del. subst res del.
  pose proof (SaveAlerts_run Encode now (SaveAlertsCommand.Build dashboardId userId orgId []) s)
    as Hrun.
  cbn [SaveAlertsCommand.Alerts SaveAlertsCommand.DashboardId SaveAlertsCommand.UserId
       SaveAlertsCommand.OrgId updateEach ret] in Hrun.
  rewrite Hrun. clear Hrun.
  unfold missing. cbn [existsb negb].
  rewrite (filter_all (fun _ : Alert.t => true)) by reflexivity.
  unfold inTransaction, deleteAlertDefinition, bind, reads.
  rewrite deleteEach_run, flat_map_cascade_ids. cbn [db issued outcome store committed app].
  repeat split; reflexivity.
Qed.

(** X7.  [SaveAlerts] fails, and leaves the store as it was with nothing
    committed, as soon as one desired rule, wherever it stands in the list,
    has a [notifications] entry [GetNotificationsFromSettings] panics on:
    the rules written before it are rolled back with it. *)
Theorem SaveAlerts_malformed_notifications (Encode : Json -> option string) (now : Time)
    (cmd : SaveAlertsCommand.t) (s : Store) (a : Alert.t) :
  In a (SaveAlertsCommand.Alerts cmd) ->
  GetNotificationsFromSettings a = None ->
  exists e,
    outcome (SaveAlerts Encode now cmd s) = inl e /\
    store (SaveAlerts Encode now cmd s) = s /\
    committed (SaveAlerts Encode now cmd s) = [].
Proof.
  intros Hin Hnone.
  pose proof (SaveAlerts_run Encode now cmd s) as Hrun. cbv zeta in Hrun.
  destruct (updateEach Encode now
              (find_by_dashboard (SaveAlertsCommand.DashboardId cmd) s)
              (SaveAlertsCommand.Alerts cmd) (mkSession s [])) as [e | [alerts' sess1]] eqn:Hupd.
  - exists e. rewrite Hrun. repeat split; reflexivity.
  - exfalso. destruct (updateEach_log Encode now _ _ _ Hupd) as (new & _ & _ & _ & Hok).
    exact (Hok a Hin Hnone).
Qed.

(** *** Tags and notification links *)

Lemma tag_effect_refl id s : tag_effect id s s.
Proof.
  repeat split; try reflexivity.
  - exists []. rewrite app_nil_r. reflexivity.
  - exists []. rewrite app_nil_r. split; [reflexivity | intros l []].
Qed.

Lemma tag_effect_trans id s1 s2 s3 :
  tag_effect id s1 s2 -> tag_effect id s2 s3 -> tag_effect id s1 s3.
Proof.
  intros (Ha & Hb & Hc & Hd & He & Hf & (rows & Hg) & (links & Hh & Hl))
         (Ha' & Hb' & Hc' & Hd' & He' & Hf' & (rows' & Hg') & (links' & Hh' & Hl')).
  repeat split; try congruence.
  - exists (rows ++ rows')%list. rewrite Hg', Hg, app_assoc. reflexivity.
  - exists (links ++ links')%list. split.
    + rewrite Hh', Hh, app_assoc. reflexivity.
    + intros l Hin. apply in_app_or in Hin. destruct Hin; auto.
Qed.

Lemma tag_ret {A : Type} id (a : A) : tag_comp id (ret a).
Proof.
  intros sess. exists a, sess. split; [reflexivity | apply tag_effect_refl].
Qed.

Lemma tag_reads {A : Type} id (f : Store -> A) : tag_comp id (reads f).
Proof.
  intros sess. exists (f (db sess)), sess. split; [reflexivity | apply tag_effect_refl].
Qed.

Lemma tag_issue_InsertTag id row : tag_comp id (issue (InsertTag row)).
Proof.
  intros sess. eexists tt, _. split; [reflexivity |]. cbn.
  repeat split; try reflexivity.
  - exists [row]. reflexivity.
  - exists []. rewrite app_nil_r. split; [reflexivity | intros l []].
Qed.

Lemma tag_issue_InsertRuleTag id tagId : tag_comp id (issue (InsertRuleTag id tagId)).
Proof.
  intros sess. eexists tt, _. split; [reflexivity |]. cbn.
  repeat split; try reflexivity.
  - exists []. rewrite app_nil_r. reflexivity.
  - exists [AlertRuleTag.Build id tagId]. split; [reflexivity |].
    intros l [<- | []]. reflexivity.
Qed.

Lemma tag_bind {A B : Type} id (m : M A) (k : A -> M B) :
  tag_comp id m -> (forall a, tag_comp id (k a)) -> tag_comp id (bind m k).
Proof.
  intros Hm Hk sess. destruct (Hm sess) as (a & sess1 & Hrun & Heff).
  destruct (Hk a sess1) as (b & sess2 & Hrun2 & Heff2).
  exists b, sess2. split.
  - unfold bind. rewrite Hrun. exact Hrun2.
  - eapply tag_effect_trans; eassumption.
Qed.

Lemma tag_ensureTag id t : tag_comp id (ensureTag t).
Proof.
  unfold ensureTag. apply tag_bind; [apply tag_reads |]. intros rows.
  destruct (find (same_tag t) rows).
  - apply tag_ret.
  - apply tag_bind; [apply tag_issue_InsertTag | intros _; apply tag_ret].
Qed.

Lemma tag_EnsureTagsExist id tags : tag_comp id (EnsureTagsExist tags).
Proof.
  induction tags as [| t rest IH]; cbn [EnsureTagsExist]; [apply tag_ret |].
  apply tag_bind; [apply tag_ensureTag |]. intros t'.
  apply tag_bind; [exact IH |]. intros rest'. apply tag_ret.
Qed.

Lemma tag_insertRuleTags id tags : tag_comp id (insertRuleTags tags id).
Proof.
  induction tags as [| t rest IH]; cbn [insertRuleTags]; [apply tag_ret |].
  apply tag_bind; [apply tag_issue_InsertRuleTag | intros _; exact IH].
Qed.

Lemma tag_insertTags id tags : tag_comp id (insertTags tags id).
Proof.
  unfold insertTags. apply tag_bind; [apply tag_EnsureTagsExist |].
  intros tags'. apply tag_insertRuleTags.
Qed.

Lemma insertNotifications_run alertID orgID uids sess :
  insertNotifications alertID orgID uids sess =
  inr (tt, mkSession (replay (link_stmts alertID orgID uids) (db sess))
             (issued sess ++ link_stmts alertID orgID uids)).
Proof.
  revert sess. induction uids as [| uid rest IH]; intros sess; cbn [insertNotifications].
  - unfold ret, link_stmts. cbn. rewrite app_nil_r. destruct sess; reflexivity.
  - unfold bind at 1. unfold issue at 1. rewrite IH. cbn [db issued].
    unfold link_stmts. cbn [map replay fold_left]. rewrite <- app_assoc. reflexivity.
Qed.

Lemma replay_link_stmts alertID orgID uids s :
  let s' := replay (link_stmts alertID orgID uids) s in
  alert s' = alert s /\
  annotation s' = annotation s /\
  alert_notification_state s' = alert_notification_state s /\
  alert_rule_tag s' = alert_rule_tag s /\
  tag s' = tag s /\
  alert_notification s' = alert_notification s /\
  dashboard s' = dashboard s /\
  alert_rule_notification s' =
    (alert_rule_notification s ++
     flat_map (fun uid => resolve_channels alertID orgID uid (alert_notification s)) uids)%list.
Proof.
  revert s. induction uids as [| uid rest IH]; intros s; cbn zeta.
  - cbn. rewrite app_nil_r. repeat split; reflexivity.
  - unfold link_stmts. cbn [map replay fold_left].
    specialize (IH (exec (InsertRuleNotifications alertID orgID uid) s)). cbn zeta in IH.
    unfold replay, link_stmts in IH.
    destruct IH as (Ha & Hb & Hc & Hd & He & Hf & Hg & Hh).
    rewrite Ha, Hb, Hc, Hd, He, Hf, Hg, Hh. cbn.
    rewrite <- app_assoc. repeat split; reflexivity.
Qed.

Lemma resolved_links_of id alertID orgID uids s :
  map AlertRuleNotification.AlertNotificationId
    (filter (fun r => (AlertRuleNotification.AlertId r =? id)%Z)
       (flat_map (fun uid => resolve_channels alertID orgID uid (alert_notification s)) uids)) =
  if (alertID =? id)%Z then channel_ids orgID uids s else [].
Proof.
  unfold channel_ids.
  induction uids as [| uid rest IH]; cbn [flat_map].
  - destruct (alertID =? id)%Z; reflexivity.
  - rewrite filter_app, map_app, IH. clear IH.
    unfold resolve_channels.
    set (cs := filter _ (alert_notification s)).
    destruct (Z.eqb_spec alertID id) as [-> | Hne].
    + f_equal. induction cs as [| c cs IHc]; cbn; [reflexivity |].
      rewrite Z.eqb_refl. cbn. f_equal. exact IHc.
    + cbn. replace (filter _ (map _ cs)) with (@nil AlertRuleNotification.t); [reflexivity |].
      induction cs as [| c cs IHc]; cbn; [reflexivity |].
      destruct (Z.eqb_spec alertID id); [contradiction | exact IHc].
Qed.

(** *** Standalone rules *)

Lemma xorm_Insert_fresh b s log :
  Alert.Id b = 0 ->
  let row := Alert.set_Id (next_id (map Alert.Id (alert s))) b in
  xorm_Insert b (mkSession s log) =
  inr (row, mkSession (exec (InsertAlert row) s) (log ++ [InsertAlert row])).
Proof.
  intros Hid. cbn zeta. unfold xorm_Insert, bind, reads. cbn [db].
  rewrite Hid. cbn [Z.eqb]. rewrite next_id_fresh. reflexivity.
Qed.

Lemma CreateAlert_run ParseDuration NewFromAny_create now cmd s forDuration :
  ParseDuration (CreateAlertCommand.For cmd) = inr forDuration ->
  let id := next_id (map Alert.Id (alert s)) in
  let row :=
    Alert.set_Id id
      (created_rule now cmd forDuration
         (NewFromAny_create (CreateAlertCommand.set_Result None cmd))) in
  let links :=
    link_stmts id (CreateAlertCommand.OrgId cmd)
      (uids_of_refs (CreateAlertCommand.Notifications cmd)) in
  exists sess1,
    tag_effect id (exec (InsertAlert row) s) (db sess1) /\
    sqlstore.CreateAlert ParseDuration NewFromAny_create now cmd s =
      mkTx (inr (CreateAlertCommand.set_Result (Some row)
                   (CreateAlertCommand.set_ExecutionErrorState "" cmd)))
        (replay links (db sess1)) (issued sess1 ++ links).
Proof.
  intros Hparse id row links.
  unfold sqlstore.CreateAlert.
  replace (CreateAlertCommand.For (CreateAlertCommand.set_ExecutionErrorState "" cmd))
    with (CreateAlertCommand.For cmd) by (destruct cmd; reflexivity).
  rewrite Hparse.
  replace (CreateAlertCommand.OrgId (CreateAlertCommand.set_ExecutionErrorState "" cmd))
    with (CreateAlertCommand.OrgId cmd) by (destruct cmd; reflexivity).
  replace (CreateAlertCommand.Name (CreateAlertCommand.set_ExecutionErrorState "" cmd))
    with (CreateAlertCommand.Name cmd) by (destruct cmd; reflexivity).
  replace (CreateAlertCommand.Frequency (CreateAlertCommand.set_ExecutionErrorState "" cmd))
    with (CreateAlertCommand.Frequency cmd) by (destruct cmd; reflexivity).
  replace (CreateAlertCommand.AlertRuleTags (CreateAlertCommand.set_ExecutionErrorState "" cmd))
    with (CreateAlertCommand.AlertRuleTags cmd) by (destruct cmd; reflexivity).
  replace (CreateAlertCommand.Notifications (CreateAlertCommand.set_ExecutionErrorState "" cmd))
    with (CreateAlertCommand.Notifications cmd) by (destruct cmd; reflexivity).
  cbv zeta. fold (created_rule now cmd forDuration
                    (NewFromAny_create (CreateAlertCommand.set_Result None cmd))).
  unfold inTransaction.
  erewrite bind_run by (apply xorm_Insert_fresh; reflexivity).
  fold id. fold row.
  replace (Alert.Id row) with id by (symmetry; apply set_Id_fields).
  destruct (tag_insertTags id (tags_of_map (CreateAlertCommand.AlertRuleTags cmd))
              (mkSession (exec (InsertAlert row) s) ([] ++ [InsertAlert row])))
    as (u & sess1 & Hrun & Heff).
  erewrite bind_run by exact Hrun.
  erewrite bind_run by apply insertNotifications_run.
  exists sess1. split; [exact Heff |]. reflexivity.
Qed.

Lemma next_id_pos ids : 0 < next_id ids.
Proof.
  unfold next_id. assert (0 <= fold_right Z.max 0 ids); [| lia].
  induction ids as [| i ids IH]; cbn [fold_right]; lia.
Qed.

Lemma CreateAlert_fail ParseDuration NewFromAny_create now cmd s err :
  ParseDuration (CreateAlertCommand.For cmd) = inl err ->
  sqlstore.CreateAlert ParseDuration NewFromAny_create now cmd s = mkTx (inl err) s [].
Proof.
  intros Hparse. unfold sqlstore.CreateAlert.
  replace (CreateAlertCommand.For (CreateAlertCommand.set_ExecutionErrorState "" cmd))
    with (CreateAlertCommand.For cmd) by (destruct cmd; reflexivity).
  rewrite Hparse. reflexivity.
Qed.

Lemma channel_ids_ext orgId uids s s' :
  alert_notification s' = alert_notification s ->
  channel_ids orgId uids s' = channel_ids orgId uids s.
Proof.
  intros H. unfold channel_ids. rewrite H. reflexivity.
Qed.

Lemma find_id_fresh id (rows : list Alert.t) :
  ~ In id (map Alert.Id rows) -> find (fun r => (Alert.Id r =? id)%Z) rows = None.
Proof.
  intros Hfresh. destruct (find _ rows) as [r |] eqn:Hf; [| reflexivity].
  apply find_some in Hf. destruct Hf as (Hin & Hid). apply Z.eqb_eq in Hid.
  exfalso. apply Hfresh. rewrite <- Hid. apply in_map. exact Hin.
Qed.

(** X8.  [CreateAlert] returns the error of the duration parser, and writes
    nothing, when [For] does not parse.  Otherwise it succeeds: the rule table
    gains one row, under a key no rule had, that [GetAlertById] then returns;
    the row carries the organisation, name, frequency and duration of the
    command, starts in state [unknown] with all three dates at the time of the
    call, belongs to no dashboard and no panel (so that it is not
    [ValidToSave]), and keeps the command as it came in as its settings, while
    the command returns with [ExecutionErrorState] cleared. *)
Theorem CreateAlert_creates (ParseDuration : string -> error + Z)
    (NewFromAny_create : CreateAlertCommand.t -> Json) (now : Time)
    (cmd : CreateAlertCommand.t) (s : Store) :
  let res := sqlstore.CreateAlert ParseDuration NewFromAny_create now cmd s in
  match ParseDuration (CreateAlertCommand.For cmd) with
  | inl err => outcome res = inl err /\ store res = s /\ committed res = []
  | inr forDuration =>
      exists cmd' row,
        outcome res = inr cmd' /\
        CreateAlertCommand.Result cmd' = Some row /\
        CreateAlertCommand.ExecutionErrorState cmd' = "" /\
        0 < Alert.Id row /\
        ~ In (Alert.Id row) (map Alert.Id (alert s)) /\
        alert (store res) = (alert s ++ [row])%list /\
        GetAlertById (GetAlertByIdQuery.Build (Alert.Id row) None) (store res) =
          inr (GetAlertByIdQuery.Build (Alert.Id row) (Some row)) /\
        Alert.OrgId row = CreateAlertCommand.OrgId cmd /\
        Alert.Name row = CreateAlertCommand.Name cmd /\
        Alert.Frequency row = CreateAlertCommand.Frequency cmd /\
        Alert.For row = forDuration /\
        Alert.State row = AlertStateUnknown /\
        Alert.Created row = now /\ Alert.Updated row = now /\
        Alert.NewStateDate row = now /\
        Alert.DashboardId row = 0 /\ Alert.PanelId row = 0 /\
        ValidToSave row = false /\
        Alert.Settings row =
          Some (NewFromAny_create (CreateAlertCommand.set_Result None cmd))
  end.
Proof.
  intros res. subst res.
  destruct (ParseDuration (CreateAlertCommand.For cmd)) as [err | forDuration] eqn:Hparse.
  - rewrite (CreateAlert_fail _ _ _ _ _ Hparse). repeat split; reflexivity.
  - destruct (CreateAlert_run _ NewFromAny_create now _ s Hparse)
      as (sess1 & Heff & Hrun).
    rewrite Hrun. clear Hrun. cbn [outcome store].
    set (id := next_id (map Alert.Id (alert s))) in *.
    set (row := Alert.set_Id id _) in *.
    assert (Hfresh : ~ In id (map Alert.Id (alert s))).
    { apply mem_false. apply next_id_fresh. }
    assert (Hrows : alert (replay (link_stmts id (CreateAlertCommand.OrgId cmd)
                             (uids_of_refs (CreateAlertCommand.Notifications cmd)))
                             (db sess1)) = (alert s ++ [row])%list).
    { destruct (replay_link_stmts id (CreateAlertCommand.OrgId cmd)
                  (uids_of_refs (CreateAlertCommand.Notifications cmd)) (db sess1))
        as (Ha & _).
      rewrite Ha. destruct Heff as (Ha' & _). rewrite Ha'. reflexivity. }
    eexists _, row. split; [reflexivity |].
    split; [destruct cmd; reflexivity |].
    split; [destruct cmd; reflexivity |].
    split; [apply next_id_pos |].
    split; [exact Hfresh |].
    split; [exact Hrows |].
    split.
    { unfold GetAlertById, get_alert. cbn [GetAlertByIdQuery.Id]. rewrite Hrows.
      change (Alert.Id row) with id.
      rewrite find_app_list, (find_id_fresh _ _ Hfresh). cbn [find].
      change (Alert.Id row) with id. rewrite Z.eqb_refl. reflexivity. }
    repeat split; reflexivity.
Qed.

Lemma links_after_insert id alertID orgID uids s :
  map AlertRuleNotification.AlertNotificationId
    (links_of id (replay (link_stmts alertID orgID uids) s)) =
  (map AlertRuleNotification.AlertNotificationId (links_of id s) ++
   if (alertID =? id)%Z then channel_ids orgID uids s else [])%list.
Proof.
  unfold links_of.
  destruct (replay_link_stmts alertID orgID uids s) as (_ & _ & _ & _ & _ & _ & _ & H).
  rewrite H, filter_app, map_app, resolved_links_of. reflexivity.
Qed.

(** X9.  The notification links [CreateAlert] leaves for the new rule are
    the links already stored under its key followed by one link for each
    channel of the organisation of the command that carries one of the
    listed uids, in the order of the uids; a uid of no channel adds none.  The
    links of every other rule stay as they were, and in a store without
    orphaned rows the new rule has the resolved links only. *)
Theorem CreateAlert_links (ParseDuration : string -> error + Z)
    (NewFromAny_create : CreateAlertCommand.t -> Json) (now : Time)
    (cmd cmd' : CreateAlertCommand.t) (row : Alert.t) (s : Store) :
  outcome (sqlstore.CreateAlert ParseDuration NewFromAny_create now cmd s) = inr cmd' ->
  CreateAlertCommand.Result cmd' = Some row ->
  let res := sqlstore.CreateAlert ParseDuration NewFromAny_create now cmd s in
  let resolved :=
    channel_ids (CreateAlertCommand.OrgId cmd)
      (uids_of_refs (CreateAlertCommand.Notifications cmd)) s in
  (forall id, id <> Alert.Id row ->
     getAlertNotificationIDs id (store res) = getAlertNotificationIDs id s) /\
  (exists old,
     getAlertNotificationIDs (Alert.Id row) s = inr old /\
     getAlertNotificationIDs (Alert.Id row) (store res) = inr (old ++ resolved)%list) /\
  (no_orphans s -> getAlertNotificationIDs (Alert.Id row) (store res) = inr resolved).
Proof.
  intros Hout Hres res resolved. subst res resolved.
  destruct (ParseDuration (CreateAlertCommand.For cmd)) as [err | forDuration] eqn:Hparse.
  { rewrite (CreateAlert_fail _ _ _ _ _ Hparse) in Hout. discriminate Hout. }
  destruct (CreateAlert_run _ NewFromAny_create now _ s Hparse) as (sess1 & Heff & Hrun).
  rewrite Hrun in *. clear Hrun. cbn [outcome store] in *.
  inversion Hout; subst cmd'; clear Hout.
  assert (Hrow : Alert.Id row = next_id (map Alert.Id (alert s))).
  { destruct cmd; cbn in Hres. inversion Hres. reflexivity. }
  rewrite Hrow. clear Hres Hrow row.
  set (id := next_id (map Alert.Id (alert s))) in *.
  destruct Heff as (_ & _ & _ & Hlinks & Hchannels & _).
  cbn [exec with_alert alert_rule_notification alert_notification] in Hlinks, Hchannels.
  assert (Hold : forall i, links_of i (db sess1) = links_of i s)
    by (intros i; unfold links_of; rewrite Hlinks; reflexivity).
  assert (Hnew : forall i,
            getAlertNotificationIDs i
              (replay (link_stmts id (CreateAlertCommand.OrgId cmd)
                         (uids_of_refs (CreateAlertCommand.Notifications cmd))) (db sess1)) =
            inr (map AlertRuleNotification.AlertNotificationId (links_of i s) ++
                 if (id =? i)%Z
                 then channel_ids (CreateAlertCommand.OrgId cmd)
                        (uids_of_refs (CreateAlertCommand.Notifications cmd)) s
                 else [])%list).
  { intros i. unfold getAlertNotificationIDs. cbv zeta.
    fold (links_of i (replay (link_stmts id (CreateAlertCommand.OrgId cmd)
                                (uids_of_refs (CreateAlertCommand.Notifications cmd)))
                        (db sess1))).
    rewrite links_after_insert, Hold, (channel_ids_ext _ _ _ _ Hchannels). reflexivity. }
  split; [| split].
  - intros i Hi. rewrite Hnew.
    destruct (Z.eqb_spec id i) as [<- | _]; [contradiction |].
    rewrite app_nil_r. reflexivity.
  - eexists. split; [reflexivity |]. rewrite Hnew, Z.eqb_refl. reflexivity.
  - intros Horphans. rewrite Hnew, Z.eqb_refl.
    assert (Hfresh : ~ In id (map Alert.Id (alert s)))
      by (apply mem_false, next_id_fresh).
    destruct (Horphans id Hfresh) as (_ & _ & _ & _ & Hnone).
    unfold links_of. rewrite filter_none_list; [reflexivity |].
    intros l Hin. apply Z.eqb_neq. exact (Hnone l Hin).
Qed.

Lemma UpdateAlert_run ParseDuration NewFromAny_update now cmd s forDuration :
  exist_alert (UpdateAlertCommand.ID cmd) s = true ->
  ParseDuration (UpdateAlertCommand.For cmd) = inr forDuration ->
  let id := UpdateAlertCommand.ID cmd in
  let b :=
    update_bean now cmd forDuration
      (NewFromAny_update (UpdateAlertCommand.set_Result None cmd)) in
  let links :=
    link_stmts id (UpdateAlertCommand.OrgID cmd)
      (uids_of_refs (UpdateAlertCommand.Notifications cmd)) in
  exists sess1,
    tag_effect id
      (exec (DeleteRuleTags id) (exec (UpdateAlert id MustCols_message_for b) s))
      (db sess1) /\
    sqlstore.UpdateAlert ParseDuration NewFromAny_update now cmd s =
      mkTx (inr (UpdateAlertCommand.set_Result (Some b) cmd))
        (replay links (exec (DeleteRuleNotifications id) (db sess1)))
        ((issued sess1 ++ [DeleteRuleNotifications id]) ++ links).
Proof.
  intros Hhas Hparse id b links.
  unfold sqlstore.UpdateAlert. rewrite Hhas, Hparse. cbn [negb]. cbv zeta.
  fold (update_bean now cmd forDuration
          (NewFromAny_update (UpdateAlertCommand.set_Result None cmd))).
  fold b. change (Alert.Id b) with id.
  unfold inTransaction.
  erewrite bind_run by (unfold issue; reflexivity).
  erewrite bind_run by (unfold issue; reflexivity).
  cbn [db issued].
  destruct (tag_insertTags id (tags_of_map (UpdateAlertCommand.AlertRuleTags cmd))
              (mkSession
                 (exec (DeleteRuleTags id) (exec (UpdateAlert id MustCols_message_for b) s))
                 (([] ++ [UpdateAlert id MustCols_message_for b]) ++ [DeleteRuleTags id])))
    as (u & sess1 & Hrun & Heff).
  erewrite bind_run by exact Hrun.
  erewrite bind_run by (unfold issue; reflexivity).
  erewrite bind_run by apply insertNotifications_run.
  exists sess1. split; [exact Heff |]. reflexivity.
Qed.

Lemma get_alert_ext id s s' : alert s' = alert s -> get_alert id s' = get_alert id s.
Proof.
  intros H. unfold get_alert. rewrite H. reflexivity.
Qed.

Lemma UpdateAlert_missing ParseDuration NewFromAny_update now cmd s :
  exist_alert (UpdateAlertCommand.ID cmd) s = false ->
  sqlstore.UpdateAlert ParseDuration NewFromAny_update now cmd s =
  mkTx (inl (Errorf "Cannot find alert")) s [].
Proof.
  intros H. unfold sqlstore.UpdateAlert. rewrite H. reflexivity.
Qed.

Lemma UpdateAlert_fail ParseDuration NewFromAny_update now cmd s err :
  exist_alert (UpdateAlertCommand.ID cmd) s = true ->
  ParseDuration (UpdateAlertCommand.For cmd) = inl err ->
  sqlstore.UpdateAlert ParseDuration NewFromAny_update now cmd s = mkTx (inl err) s [].
Proof.
  intros H Hparse. unfold sqlstore.UpdateAlert. rewrite H, Hparse. reflexivity.
Qed.

(** X10.  [UpdateAlert] on the id of no rule fails with "Cannot find alert",
    also when [For] does not parse; on a stored rule it returns the error of
    the duration parser when [For] does not parse; either way nothing is
    written.  Otherwise it succeeds and rewrites the descriptive columns of
    that rule only: the message and the evaluation data are erased (the
    bean carries neither, and both columns are written whatever the bean
    holds), the duration and the settings are replaced, and the name, the
    organisation, the frequency and the update time are replaced when the
    command carries a non-zero value for them, so that a name cannot be
    cleared and a rule of another organisation moves to the organisation of
    the command.  The state, its counter and date, the creation time, the
    dashboard and the panel and the execution error stay as stored; the rule
    the command returns is the written bean, with no state and no creation
    time.  No other rule, annotation or notification state is touched. *)
Theorem UpdateAlert_updates (ParseDuration : string -> error + Z)
    (NewFromAny_update : UpdateAlertCommand.t -> Json) (now : Time)
    (cmd : UpdateAlertCommand.t) (s : Store) :
  UpdateAlertCommand.ID cmd <> 0 ->
  let res := sqlstore.UpdateAlert ParseDuration NewFromAny_update now cmd s in
  let id := UpdateAlertCommand.ID cmd in
  match get_alert id s with
  | None =>
      outcome res = inl (Errorf "Cannot find alert") /\ store res = s /\ committed res = []
  | Some rule =>
      match ParseDuration (UpdateAlertCommand.For cmd) with
      | inl err => outcome res = inl err /\ store res = s /\ committed res = []
      | inr forDuration =>
          exists cmd' stored returned,
            outcome res = inr cmd' /\
            UpdateAlertCommand.Result cmd' = Some returned /\
            get_alert id (store res) = Some stored /\
            (Alert.Id stored = Alert.Id rule /\
             Alert.State stored = Alert.State rule /\
             Alert.StateChanges stored = Alert.StateChanges rule /\
             Alert.NewStateDate stored = Alert.NewStateDate rule /\
             Alert.Created stored = Alert.Created rule /\
             Alert.DashboardId stored = Alert.DashboardId rule /\
             Alert.PanelId stored = Alert.PanelId rule /\
             Alert.ExecutionError stored = Alert.ExecutionError rule) /\
            (Alert.Message stored = "" /\
             Alert.EvalData stored = None /\
             Alert.For stored = forDuration /\
             Alert.Settings stored =
               Some (NewFromAny_update (UpdateAlertCommand.set_Result None cmd)) /\
             Alert.Name stored =
               (if UpdateAlertCommand.Name cmd =? "" then Alert.Name rule
                else UpdateAlertCommand.Name cmd) /\
             Alert.OrgId stored =
               (if (UpdateAlertCommand.OrgID cmd =? 0)%Z then Alert.OrgId rule
                else UpdateAlertCommand.OrgID cmd) /\
             Alert.Frequency stored =
               (if (UpdateAlertCommand.Frequency cmd =? 0)%Z then Alert.Frequency rule
                else UpdateAlertCommand.Frequency cmd) /\
             Alert.Updated stored = (if (now =? 0)%Z then Alert.Updated rule else now)) /\
            (Alert.State returned = "" /\ Alert.Created returned = 0 /\
             Alert.Name returned = UpdateAlertCommand.Name cmd) /\
            map Alert.Id (alert (store res)) = map Alert.Id (alert s) /\
            (forall r, In r (alert s) -> Alert.Id r <> id -> In r (alert (store res))) /\
            annotation (store res) = annotation s /\
            alert_notification_state (store res) = alert_notification_state s
      end
  end.
Proof.
  intros Hid res id. subst res.
  pose proof (exist_alert_get s Hid) as Hhas. fold id in Hhas.
  destruct (get_alert id s) as [rule |] eqn:Hget.
  2: { rewrite (UpdateAlert_missing _ _ _ _ _ Hhas). repeat split; reflexivity. }
  destruct (ParseDuration (UpdateAlertCommand.For cmd)) as [err | forDuration] eqn:Hparse.
  { rewrite (UpdateAlert_fail _ _ _ _ _ Hhas Hparse). repeat split; reflexivity. }
  destruct (UpdateAlert_run _ NewFromAny_update now _ s Hhas Hparse) as (sess1 & Heff & Hrun).
  rewrite Hrun. clear Hrun. cbn [outcome store]. fold id in Heff |- *.
  set (b := update_bean now cmd forDuration _) in *.
  set (links := link_stmts id _ _).
  destruct (replay_link_stmts id (UpdateAlertCommand.OrgID cmd)
              (uids_of_refs (UpdateAlertCommand.Notifications cmd))
              (exec (DeleteRuleNotifications id) (db sess1)))
    as (Ha & Hb & Hc & _).
  fold links in Ha, Hb, Hc.
  destruct Heff as (Ha' & Hb' & Hc' & _).
  assert (Halert : alert (replay links (exec (DeleteRuleNotifications id) (db sess1))) =
                   alert (exec (UpdateAlert id MustCols_message_for b) s)).
  { rewrite Ha. cbn [exec with_alert_rule_notification alert]. rewrite Ha'. reflexivity. }
  exists (UpdateAlertCommand.set_Result (Some b) cmd),
         (xorm_update_row MustCols_message_for b rule), b.
  split; [reflexivity |].
  split; [destruct cmd; reflexivity |].
  split.
  { rewrite (get_alert_ext id _ _ Halert). apply exec_UpdateAlert_get. exact Hget. }
  split; [repeat split; reflexivity |].
  split.
  { split; [reflexivity |]. split; [reflexivity |]. split; [reflexivity |].
    split; [reflexivity |].
    cbn [xorm_update_row Alert.Name Alert.OrgId Alert.Frequency Alert.Updated b update_bean].
    unfold upd_string, upd_int. cbn [must MustCols_message_for existsb String.eqb Ascii.eqb
                                      Bool.eqb orb].
    split; [destruct (UpdateAlertCommand.Name cmd =? ""); reflexivity |].
    split; [destruct (UpdateAlertCommand.OrgID cmd =? 0)%Z; reflexivity |].
    split; [destruct (UpdateAlertCommand.Frequency cmd =? 0)%Z; reflexivity |].
    destruct (now =? 0)%Z; reflexivity. }
  split; [repeat split; reflexivity |].
  split; [rewrite Halert; apply exec_UpdateAlert_ids |].
  split.
  { intros r Hin Hr. rewrite Halert. cbn [exec with_alert alert].
    apply in_map_iff. exists r. split; [| exact Hin].
    destruct (Z.eqb_spec (Alert.Id r) id); [contradiction | reflexivity]. }
  split.
  - rewrite Hb. cbn [exec with_alert_rule_notification annotation]. rewrite Hb'. reflexivity.
  - rewrite Hc. cbn [exec with_alert_rule_notification alert_notification_state].
    rewrite Hc'. reflexivity.
Qed.

Lemma links_after_delete i id s :
  links_of i (exec (DeleteRuleNotifications id) s) =
  if (i =? id)%Z then [] else links_of i s.
Proof.
  unfold links_of. cbn [exec with_alert_rule_notification alert_rule_notification].
  rewrite filter_filter_list.
  destruct (Z.eqb_spec i id) as [-> | Hne].
  - apply filter_none_list. intros l _.
    destruct (AlertRuleNotification.AlertId l =? id)%Z; reflexivity.
  - apply filter_ext. intros l.
    destruct (Z.eqb_spec (AlertRuleNotification.AlertId l) id) as [-> | _]; cbn [negb andb].
    + symmetry. apply Z.eqb_neq. intros Heq. apply Hne. symmetry. exact Heq.
    + reflexivity.
Qed.

(** X11.  After a successful [UpdateAlert] the notification links of the
    rule are replaced, whatever they were: one link for each channel of the
    organisation of the command that carries one of the listed uids, in the
    order of the uids.  The links of every other rule stay as they were. *)
Theorem UpdateAlert_links (ParseDuration : string -> error + Z)
    (NewFromAny_update : UpdateAlertCommand.t -> Json) (now : Time)
    (cmd cmd' : UpdateAlertCommand.t) (s : Store) :
  outcome (sqlstore.UpdateAlert ParseDuration NewFromAny_update now cmd s) = inr cmd' ->
  let res := sqlstore.UpdateAlert ParseDuration NewFromAny_update now cmd s in
  getAlertNotificationIDs (UpdateAlertCommand.ID cmd) (store res) =
    inr (channel_ids (UpdateAlertCommand.OrgID cmd)
           (uids_of_refs (UpdateAlertCommand.Notifications cmd)) s) /\
  (forall id, id <> UpdateAlertCommand.ID cmd ->
     getAlertNotificationIDs id (store res) = getAlertNotificationIDs id s).
Proof.
  intros Hout res. subst res.
  destruct (exist_alert (UpdateAlertCommand.ID cmd) s) eqn:Hhas.
  2: { rewrite (UpdateAlert_missing _ _ _ _ _ Hhas) in Hout. discriminate Hout. }
  destruct (ParseDuration (UpdateAlertCommand.For cmd)) as [err | forDuration] eqn:Hparse.
  { rewrite (UpdateAlert_fail _ _ _ _ _ Hhas Hparse) in Hout. discriminate Hout. }
  destruct (UpdateAlert_run _ NewFromAny_update now _ s Hhas Hparse) as (sess1 & Heff & Hrun).
  rewrite Hrun. clear Hrun Hout. cbn [store].
  set (id := UpdateAlertCommand.ID cmd) in *.
  destruct Heff as (_ & _ & _ & Hlinks & Hchannels & _).
  cbn [exec with_alert with_alert_rule_tag alert_rule_notification alert_notification]
    in Hlinks, Hchannels.
  assert (Hnew : forall i,
            getAlertNotificationIDs i
              (replay (link_stmts id (UpdateAlertCommand.OrgID cmd)
                         (uids_of_refs (UpdateAlertCommand.Notifications cmd)))
                 (exec (DeleteRuleNotifications id) (db sess1))) =
            inr (map AlertRuleNotification.AlertNotificationId
                   (if (i =? id)%Z then [] else links_of i s) ++
                 if (id =? i)%Z
                 then channel_ids (UpdateAlertCommand.OrgID cmd)
                        (uids_of_refs (UpdateAlertCommand.Notifications cmd)) s
                 else [])%list).
  { intros i. unfold getAlertNotificationIDs. cbv zeta.
    fold (links_of i (replay (link_stmts id (UpdateAlertCommand.OrgID cmd)
                                (uids_of_refs (UpdateAlertCommand.Notifications cmd)))
                        (exec (DeleteRuleNotifications id) (db sess1)))).
    rewrite links_after_insert, links_after_delete.
    replace (links_of i (db sess1)) with (links_of i s)
      by (unfold links_of; rewrite Hlinks; reflexivity).
    rewrite (channel_ids_ext _ _ s (exec (DeleteRuleNotifications id) (db sess1)))
      by exact Hchannels.
    reflexivity. }
  split.
  - rewrite Hnew, Z.eqb_refl. reflexivity.
  - intros i Hi. rewrite Hnew.
    destruct (Z.eqb_spec i id) as [-> | _]; [contradiction |].
    destruct (Z.eqb_spec id i) as [<- | _]; [contradiction |].
    rewrite app_nil_r. reflexivity.
Qed.

(** *** State transitions after other operations *)

Lemma SetAlertState_paused now cmd s rule :
  get_alert (SetAlertStateCommand.AlertId cmd) s = Some rule ->
  Alert.State rule = AlertStatePaused ->
  SetAlertState now cmd s = mkTx (inl ErrCannotChangeStateOnPausedAlert) s [].
Proof.
  intros Hget Hpaused. unfold SetAlertState, inTransaction, bind, reads. cbn [db].
  rewrite Hget, Hpaused. reflexivity.
Qed.

Lemma SetAlertState_same now cmd s rule :
  get_alert (SetAlertStateCommand.AlertId cmd) s = Some rule ->
  Alert.State rule <> AlertStatePaused ->
  SetAlertStateCommand.State cmd = Alert.State rule ->
  SetAlertState now cmd s = mkTx (inl ErrRequiresNewState) s [].
Proof.
  intros Hget Hpaused Hsame. unfold SetAlertState, inTransaction, bind, reads. cbn [db].
  rewrite Hget. apply String.eqb_neq in Hpaused. rewrite Hpaused, Hsame, String.eqb_refl.
  reflexivity.
Qed.

Lemma transition_stored now cmd s rule :
  get_alert (SetAlertStateCommand.AlertId cmd) s = Some rule ->
  Alert.State rule <> AlertStatePaused ->
  SetAlertStateCommand.State cmd <> Alert.State rule ->
  store (SetAlertState now cmd s) =
    exec (UpdateAlert (SetAlertStateCommand.AlertId cmd) [] (transitioned now cmd rule)) s /\
  get_alert (SetAlertStateCommand.AlertId cmd) (store (SetAlertState now cmd s)) =
    Some (xorm_update_row [] (transitioned now cmd rule) rule).
Proof.
  intros Hget Hpaused Hnew.
  rewrite (SetAlertState_found now cmd s Hget Hpaused Hnew). cbn [store].
  destruct (get_alert_some _ _ Hget) as (_ & ->).
  split; [reflexivity |]. apply exec_UpdateAlert_get. exact Hget.
Qed.

(** X12.  A transition [SetAlertState] has made cannot be made again, and a
    transition into [paused] closes the rule to [SetAlertState] for good.
    After a successful call with a non-empty state, a call for the same rule
    fails with [ErrCannotChangeStateOnPausedAlert], whatever state it asks
    for, when the first call asked for [paused], and with
    [ErrRequiresNewState] when it asks for the same state again; the failed
    call leaves the store as the first one left it. *)
Theorem SetAlertState_not_repeatable (now now2 : Time)
    (cmd cmd2 : SetAlertStateCommand.t) (s : Store) (rule : Alert.t) :
  get_alert (SetAlertStateCommand.AlertId cmd) s = Some rule ->
  Alert.State rule <> AlertStatePaused ->
  SetAlertStateCommand.State cmd <> Alert.State rule ->
  SetAlertStateCommand.State cmd <> "" ->
  SetAlertStateCommand.AlertId cmd2 = SetAlertStateCommand.AlertId cmd ->
  let s1 := store (SetAlertState now cmd s) in
  let res2 := SetAlertState now2 cmd2 s1 in
  (SetAlertStateCommand.State cmd = AlertStatePaused ->
   outcome res2 = inl ErrCannotChangeStateOnPausedAlert /\
   store res2 = s1 /\ committed res2 = []) /\
  (SetAlertStateCommand.State cmd <> AlertStatePaused ->
   SetAlertStateCommand.State cmd2 = SetAlertStateCommand.State cmd ->
   outcome res2 = inl ErrRequiresNewState /\
   store res2 = s1 /\ committed res2 = []).
Proof.
  intros Hget Hpaused Hnew Hnonempty Hid s1 res2. subst res2 s1.
  destruct (transition_stored now cmd s Hget Hpaused Hnew) as (_ & Hstored).
  rewrite <- Hid in Hstored.
  assert (Hstate : Alert.State (xorm_update_row [] (transitioned now cmd rule) rule) =
                   SetAlertStateCommand.State cmd).
  { destruct (transitioned_stored now cmd rule) as (_ & _ & _ & Hst & _).
    rewrite Hst. apply upd_string_nonempty. exact Hnonempty. }
  split.
  - intros Hp. rewrite (SetAlertState_paused now2 cmd2 _ Hstored) by congruence.
    repeat split; reflexivity.
  - intros Hp Hsame. rewrite (SetAlertState_same now2 cmd2 _ Hstored) by congruence.
    repeat split; reflexivity.
Qed.

Lemma paused_get st date ids s rule :
  get_alert (Alert.Id rule) s = Some rule ->
  In (Alert.Id rule) ids ->
  get_alert (Alert.Id rule) (exec (UpdateStateWhereIdIn st date ids) s) =
  Some (set_state_date st date rule).
Proof.
  intros Hget Hin. unfold get_alert in *. cbn [exec with_alert alert].
  rewrite find_id_map.
  - rewrite Hget. cbn [option_map]. apply mem_In in Hin. rewrite Hin. reflexivity.
  - intros r. destruct (mem (Alert.Id r) ids); [apply set_state_date_fields | reflexivity].
Qed.

(** X13.  What [PauseAlert] does to later transitions of a rule it names.
    After pausing, [SetAlertState] on the rule fails with
    [ErrCannotChangeStateOnPausedAlert].  After unpausing the rule is in
    state [unknown], whatever it was in before: a transition to [unknown]
    fails with [ErrRequiresNewState], and any other transition succeeds and
    counts one state change more than the rule had before the pause, the
    pause itself not being counted. *)
Theorem pause_then_transition (now now2 : Time) (pause : PauseAlertCommand.t)
    (set : SetAlertStateCommand.t) (s : Store) (rule : Alert.t) :
  In (SetAlertStateCommand.AlertId set) (PauseAlertCommand.AlertIds pause) ->
  get_alert (SetAlertStateCommand.AlertId set) s = Some rule ->
  let s1 := store (PauseAlert now pause s) in
  let res := SetAlertState now2 set s1 in
  if PauseAlertCommand.Paused pause then
    outcome res = inl ErrCannotChangeStateOnPausedAlert /\ store res = s1
  else if SetAlertStateCommand.State set =? AlertStateUnknown then
    outcome res = inl ErrRequiresNewState /\ store res = s1
  else
    exists set',
      outcome res = inr set' /\
      Alert.State (SetAlertStateCommand.Result set') = SetAlertStateCommand.State set /\
      Alert.StateChanges (SetAlertStateCommand.Result set') =
        wrap64 (Alert.StateChanges rule + 1).
Proof.
  intros Hin Hget s1 res. subst res s1.
  assert (Hne : PauseAlertCommand.AlertIds pause <> [])
    by (intros Hnil; rewrite Hnil in Hin; exact Hin).
  rewrite (PauseAlert_run now pause s Hne). cbn [store].
  destruct (get_alert_some _ _ Hget) as (_ & Hid).
  rewrite <- Hid in Hget, Hin.
  pose proof (paused_get (pause_state (PauseAlertCommand.Paused pause)) now _ s Hget Hin)
    as Hget1.
  rewrite Hid in Hget1.
  destruct (set_state_date_fields (pause_state (PauseAlertCommand.Paused pause)) now rule)
    as (Hst & _ & _).
  destruct (PauseAlertCommand.Paused pause); cbn [pause_state] in *.
  - rewrite (SetAlertState_paused now2 set _ Hget1 Hst). split; reflexivity.
  - assert (Hnp : Alert.State (set_state_date AlertStateUnknown now rule) <> AlertStatePaused)
      by (rewrite Hst; discriminate).
    destruct (String.eqb_spec (SetAlertStateCommand.State set) AlertStateUnknown)
      as [Heq | Hneq].
    + rewrite (SetAlertState_same now2 set _ Hget1 Hnp) by congruence.
      split; reflexivity.
    + rewrite (SetAlertState_found now2 set _ Hget1 Hnp) by congruence.
      cbn [outcome]. eexists. split; [reflexivity |].
      cbn [SetAlertStateCommand.Result].
      destruct (transitioned_fields now2 set (set_state_date AlertStateUnknown now rule))
        as (_ & Hs & Hc & _).
      split; [exact Hs |]. rewrite Hc. destruct rule; reflexivity.
Qed.

Lemma filter_map_in {A : Type} (g : A -> A) (p : A -> bool) l :
  (forall x, In x l -> p (g x) = p x) -> filter p (map g l) = map g (filter p l).
Proof.
  induction l as [| x l IH]; intros H; cbn [map filter]; [reflexivity |].
  rewrite (H x (or_introl eq_refl)), IH by (intros y Hy; apply H; right; exact Hy).
  destruct (p x); reflexivity.
Qed.

Lemma transitioned_keys now cmd rule :
  Alert.OrgId (transitioned now cmd rule) = Alert.OrgId rule /\
  Alert.DashboardId (transitioned now cmd rule) = Alert.DashboardId rule /\
  Alert.PanelId (transitioned now cmd rule) = Alert.PanelId rule.
Proof.
  unfold transitioned. destruct (SetAlertStateCommand.Error cmd =? ""); destruct rule;
    repeat split; reflexivity.
Qed.

(** X14.  [GetAlertStatesForDashboard] follows [SetAlertState].  After a
    transition to a non-empty state, the states listed for any organisation
    and dashboard are the ones listed before, entry for entry, except that
    the entry of the rule shows the new state with the time of the call as
    its date. *)
Theorem states_listing_follows (now : Time) (cmd : SetAlertStateCommand.t) (s : Store)
    (rule : Alert.t) (query before : GetAlertStatesForDashboardQuery.t) :
  unique_ids s ->
  get_alert (SetAlertStateCommand.AlertId cmd) s = Some rule ->
  Alert.State rule <> AlertStatePaused ->
  SetAlertStateCommand.State cmd <> Alert.State rule ->
  SetAlertStateCommand.State cmd <> "" ->
  now <> 0 ->
  GetAlertStatesForDashboard query s = inr before ->
  exists after,
    GetAlertStatesForDashboard query (store (SetAlertState now cmd s)) = inr after /\
    GetAlertStatesForDashboardQuery.Result after =
      map (fun d =>
             if (AlertStateInfoDTO.Id d =? SetAlertStateCommand.AlertId cmd)%Z
             then AlertStateInfoDTO.Build (AlertStateInfoDTO.Id d)
                    (AlertStateInfoDTO.DashboardId d) (AlertStateInfoDTO.PanelId d)
                    (SetAlertStateCommand.State cmd) now
             else d)
        (GetAlertStatesForDashboardQuery.Result before).
Proof.
  intros Huniq Hget Hpaused Hnew Hnonempty Hnow Hbefore.
  destruct (transition_stored now cmd s Hget Hpaused Hnew) as (Hstore & _).
  rewrite Hstore. clear Hstore.
  unfold GetAlertStatesForDashboard in *. inversion Hbefore; subst before; clear Hbefore.
  eexists. split; [reflexivity |].
  cbn [GetAlertStatesForDashboardQuery.Result exec with_alert alert].
  set (id := SetAlertStateCommand.AlertId cmd) in *.
  set (t := transitioned now cmd rule).
  destruct (get_alert_some _ _ Hget) as (Hin & Hid).
  assert (Hsame : forall r, In r (alert s) -> Alert.Id r = id -> r = rule).
  { intros r Hr Hrid. apply (@unique_ids_inj s r rule Huniq Hr Hin). congruence. }
  destruct (transitioned_keys now cmd rule) as (Horg & Hdash & Hpanel). fold t in Horg, Hdash, Hpanel.
  rewrite filter_map_in.
  - rewrite !map_map. apply map_ext_in. intros r Hr.
    apply filter_In in Hr. destruct Hr as (Hr & _).
    unfold to_state_info at 2. cbn [AlertStateInfoDTO.Id].
    destruct (Z.eqb_spec (Alert.Id r) id) as [Hrid | _]; [| reflexivity].
    rewrite (Hsame r Hr Hrid).
    unfold to_state_info.
    cbn [xorm_update_row Alert.Id Alert.DashboardId Alert.PanelId Alert.State
         Alert.NewStateDate AlertStateInfoDTO.Id AlertStateInfoDTO.DashboardId
         AlertStateInfoDTO.PanelId].
    rewrite Hdash, Hpanel, upd_int_same, upd_int_same.
    destruct (transitioned_fields now cmd rule) as (_ & Hs & _ & Hd & _). fold t in Hs, Hd.
    rewrite Hs, Hd, (upd_string_nonempty _ _ _ Hnonempty), (upd_int_nonzero _ _ _ Hnow).
    reflexivity.
  - intros r Hr. destruct (Z.eqb_spec (Alert.Id r) id) as [Hrid | _]; [| reflexivity].
    rewrite (Hsame r Hr Hrid).
    cbn [xorm_update_row Alert.OrgId Alert.DashboardId].
    rewrite Horg, Hdash, !upd_int_same. reflexivity.
Qed.

(** *** The key of the rule table *)

Lemma CreateAlert_table ParseDuration NewFromAny_create now cmd s forDuration :
  ParseDuration (CreateAlertCommand.For cmd) = inr forDuration ->
  alert (store (sqlstore.CreateAlert ParseDuration NewFromAny_create now cmd s)) =
  (alert s ++
   [Alert.set_Id (next_id (map Alert.Id (alert s)))
      (created_rule now cmd forDuration
         (NewFromAny_create (CreateAlertCommand.set_Result None cmd)))])%list.
Proof.
  intros Hparse.
  destruct (CreateAlert_run _ NewFromAny_create now _ s Hparse) as (sess1 & Heff & Hrun).
  rewrite Hrun. cbn [store].
  destruct (replay_link_stmts (next_id (map Alert.Id (alert s)))
              (CreateAlertCommand.OrgId cmd)
              (uids_of_refs (CreateAlertCommand.Notifications cmd)) (db sess1)) as (Ha & _).
  rewrite Ha. destruct Heff as (Ha' & _). rewrite Ha'. reflexivity.
Qed.

Lemma SetAlertState_ids now cmd s :
  map Alert.Id (alert (store (SetAlertState now cmd s))) = map Alert.Id (alert s).
Proof.
  destruct (get_alert (SetAlertStateCommand.AlertId cmd) s) as [rule |] eqn:Hget.
  - destruct (String.eqb_spec (Alert.State rule) AlertStatePaused) as [Hp | Hp].
    + rewrite (SetAlertState_paused now cmd s Hget Hp). reflexivity.
    + destruct (String.eqb_spec (SetAlertStateCommand.State cmd) (Alert.State rule))
        as [Hs | Hs].
      * rewrite (SetAlertState_same now cmd s Hget Hp Hs). reflexivity.
      * rewrite (SetAlertState_found now cmd s Hget Hp Hs). cbn [store].
        apply exec_UpdateAlert_ids.
  - unfold SetAlertState, inTransaction, bind, reads. cbn [db]. rewrite Hget. reflexivity.
Qed.

Lemma PauseAlert_ids now cmd s :
  map Alert.Id (alert (store (PauseAlert now cmd s))) = map Alert.Id (alert s).
Proof.
  destruct (PauseAlertCommand.AlertIds cmd) as [| i ids] eqn:Hids.
  - unfold PauseAlert, inTransaction. rewrite Hids. reflexivity.
  - rewrite PauseAlert_run by (rewrite Hids; discriminate). cbn [store exec with_alert alert].
    apply paused_rows.
Qed.

Lemma PauseAllAlerts_ids now cmd s :
  map Alert.Id (alert (store (PauseAllAlerts now cmd s))) = map Alert.Id (alert s).
Proof.
  unfold PauseAllAlerts, inTransaction, issue_counting, bind, reads, issue, ret.
  cbn [db store exec with_alert alert]. rewrite map_map. apply map_ext.
  intros r. apply set_state_date_fields.
Qed.

Lemma UpdateAlert_ids ParseDuration NewFromAny_update now cmd s :
  map Alert.Id
    (alert (store (sqlstore.UpdateAlert ParseDuration NewFromAny_update now cmd s))) =
  map Alert.Id (alert s).
Proof.
  destruct (exist_alert (UpdateAlertCommand.ID cmd) s) eqn:Hhas.
  2: { rewrite (UpdateAlert_missing _ _ _ _ _ Hhas). reflexivity. }
  destruct (ParseDuration (UpdateAlertCommand.For cmd)) as [err | forDuration] eqn:Hparse.
  { rewrite (UpdateAlert_fail _ _ _ _ _ Hhas Hparse). reflexivity. }
  destruct (UpdateAlert_run _ NewFromAny_update now _ s Hhas Hparse) as (sess1 & Heff & Hrun).
  rewrite Hrun. cbn [store].
  destruct (replay_link_stmts (UpdateAlertCommand.ID cmd) (UpdateAlertCommand.OrgID cmd)
              (uids_of_refs (UpdateAlertCommand.Notifications cmd))
              (exec (DeleteRuleNotifications (UpdateAlertCommand.ID cmd)) (db sess1)))
    as (Ha & _).
  rewrite Ha. cbn [exec with_alert_rule_notification alert].
  destruct Heff as (Ha' & _). rewrite Ha'.
  cbn [exec with_alert_rule_tag alert].
  apply (exec_UpdateAlert_ids (UpdateAlertCommand.ID cmd) MustCols_message_for
           (update_bean now cmd forDuration
              (NewFromAny_update (UpdateAlertCommand.set_Result None cmd))) s).
Qed.

(** X15.  Every command of the file keeps the key of the rule table: in a
    store where no two rules share an id, no two rules share an id after
    [SetAlertState], [PauseAlert], [PauseAllAlerts], [DeleteAlert],
    [SaveAlerts], [CreateAlert] or [UpdateAlert], whether the command
    succeeded or not. *)
Theorem commands_keep_unique_ids (s : Store) :
  unique_ids s ->
  (forall now cmd, unique_ids (store (SetAlertState now cmd s))) /\
  (forall now cmd, unique_ids (store (PauseAlert now cmd s))) /\
  (forall now cmd, unique_ids (store (PauseAllAlerts now cmd s))) /\
  (forall cmd, unique_ids (store (DeleteAlert cmd s))) /\
  (forall Encode now cmd, unique_ids (store (SaveAlerts Encode now cmd s))) /\
  (forall ParseDuration NewFromAny_create now cmd,
     unique_ids (store (sqlstore.CreateAlert ParseDuration NewFromAny_create now cmd s))) /\
  (forall ParseDuration NewFromAny_update now cmd,
     unique_ids (store (sqlstore.UpdateAlert ParseDuration NewFromAny_update now cmd s))).
Proof.
  intros Huniq. unfold unique_ids in *.
  split; [| split; [| split; [| split; [| split; [| split]]]]].
  - intros now cmd. rewrite SetAlertState_ids. exact Huniq.
  - intros now cmd. rewrite PauseAlert_ids. exact Huniq.
  - intros now cmd. rewrite PauseAllAlerts_ids. exact Huniq.
  - intros cmd. rewrite DeleteAlert_run. cbn [store].
    destruct (cascade_others_kept (DeleteAlertCommand.Id cmd) s) as (Ha & _).
    rewrite Ha. apply NoDup_map_filter. exact Huniq.
  - intros Encode now cmd.
    destruct (outcome (SaveAlerts Encode now cmd s)) as [e | cmd'] eqn:Hout.
    + pose proof (SaveAlerts_run Encode now cmd s) as Hrun. cbv zeta in Hrun.
      destruct (updateEach Encode now _ _ _) as [e' | [alerts' sess1]].
      * rewrite Hrun. exact Huniq.
      * rewrite Hrun in Hout. discriminate Hout.
    + destruct (SaveAlerts_summary Encode now cmd s Hout)
        as (ins & new & _ & _ & _ & _ & _ & _ & _ & _ & Hkeep).
      exact (Hkeep Huniq).
  - intros ParseDuration NewFromAny_create now cmd.
    destruct (ParseDuration (CreateAlertCommand.For cmd)) as [err | forDuration] eqn:Hparse.
    + rewrite (CreateAlert_fail _ _ _ _ _ Hparse). exact Huniq.
    + rewrite (CreateAlert_table _ NewFromAny_create now _ s Hparse).
      rewrite map_app. apply NoDup_app; [exact Huniq | |].
      * cbn. constructor; [intros [] | constructor].
      * intros i Hi [<- | []]. revert Hi. apply mem_false, next_id_fresh.
  - intros ParseDuration NewFromAny_update now cmd. rewrite UpdateAlert_ids. exact Huniq.
Qed.

Lemma filter_app_fresh {A : Type} (p : A -> bool) l extra :
  (forall x, In x l -> p x = true) -> (forall x, In x extra -> p x = false) ->
  filter p (l ++ extra) = l.
Proof.
  intros Hl Hextra. rewrite filter_app, (filter_all _ _ Hl), (filter_none_list _ _ Hextra).
  apply app_nil_r.
Qed.

(** X16.  In a store without orphaned rows, creating a rule with
    [CreateAlert] and deleting it with [DeleteAlert] restores the rules, the
    tag links, the notification links and every other table but the table of
    tags, which keeps the tags the creation added: [DeleteAlert] deletes no
    tag. *)
Theorem create_then_delete (ParseDuration : string -> error + Z)
    (NewFromAny_create : CreateAlertCommand.t -> Json) (now : Time)
    (cmd cmd' : CreateAlertCommand.t) (row : Alert.t) (s : Store) :
  no_orphans s ->
  outcome (sqlstore.CreateAlert ParseDuration NewFromAny_create now cmd s) = inr cmd' ->
  CreateAlertCommand.Result cmd' = Some row ->
  let s1 := store (sqlstore.CreateAlert ParseDuration NewFromAny_create now cmd s) in
  let s2 := store (DeleteAlert (DeleteAlertCommand.Build (Alert.Id row)) s1) in
  alert s2 = alert s /\
  annotation s2 = annotation s /\
  alert_notification_state s2 = alert_notification_state s /\
  alert_rule_tag s2 = alert_rule_tag s /\
  alert_rule_notification s2 = alert_rule_notification s /\
  alert_notification s2 = alert_notification s /\
  dashboard s2 = dashboard s /\
  exists rows, tag s2 = (tag s1) /\ tag s1 = (tag s ++ rows)%list.
Proof.
  intros Horphans Hout Hres s1 s2. subst s2 s1.
  destruct (ParseDuration (CreateAlertCommand.For cmd)) as [err | forDuration] eqn:Hparse.
  { rewrite (CreateAlert_fail _ _ _ _ _ Hparse) in Hout. discriminate Hout. }
  destruct (CreateAlert_run _ NewFromAny_create now _ s Hparse) as (sess1 & Heff & Hrun).
  rewrite Hrun in *. clear Hrun. cbn [outcome store] in *.
  inversion Hout; subst cmd'; clear Hout.
  assert (Hrow : Alert.Id row = next_id (map Alert.Id (alert s))).
  { destruct cmd; cbn in Hres. inversion Hres. reflexivity. }
  rewrite Hrow. clear Hres Hrow row.
  set (id := next_id (map Alert.Id (alert s))) in *.
  set (row := Alert.set_Id id _) in *.
  assert (Hfresh : ~ In id (map Alert.Id (alert s))) by (apply mem_false, next_id_fresh).
  destruct (Horphans id Hfresh) as (_ & Hann & Hstates & Htags & Hlinks).
  rewrite DeleteAlert_run. cbn [store DeleteAlertCommand.Id].
  set (s1 := replay (link_stmts id _ _) (db sess1)).
  destruct (cascade_others_kept id s1) as (Ha & Hb & Hc & Hd & He & Hf & Hg & Hh).
  destruct (replay_link_stmts id (CreateAlertCommand.OrgId cmd)
              (uids_of_refs (CreateAlertCommand.Notifications cmd)) (db sess1))
    as (Ra & Rb & Rc & Rd & Re & Rf & Rg & Rh).
  fold s1 in Ra, Rb, Rc, Rd, Re, Rf, Rg, Rh.
  destruct Heff as (Ta & Tb & Tc & Td & Te & Tf & (rows & Tg) & (links & Th & Tl)).
  cbn [exec with_alert alert annotation alert_notification_state alert_rule_tag
       alert_rule_notification tag alert_notification dashboard] in Ta, Tb, Tc, Td, Te, Tf, Tg, Th.
  split; [| split; [| split; [| split; [| split; [| split; [| split]]]]]].
  - rewrite Ha, Ra, Ta. apply filter_app_fresh.
    + intros r Hr. apply negb_true_iff, Z.eqb_neq. intros Hid. apply Hfresh.
      rewrite <- Hid. apply in_map. exact Hr.
    + intros r [<- | []]. apply negb_false_iff, Z.eqb_eq. apply set_Id_fields.
  - rewrite Hb, Rb, Tb. apply filter_all. intros r Hr.
    apply negb_true_iff, Z.eqb_neq. exact (Hann r Hr).
  - rewrite Hc, Rc, Tc. apply filter_all. intros r Hr.
    apply negb_true_iff, Z.eqb_neq. exact (Hstates r Hr).
  - rewrite Hd, Rd, Th. apply filter_app_fresh.
    + intros r Hr. apply negb_true_iff, Z.eqb_neq. exact (Htags r Hr).
    + intros r Hr. apply negb_false_iff, Z.eqb_eq. exact (Tl r Hr).
  - rewrite He, Rh, Td. apply filter_app_fresh.
    + intros r Hr. apply negb_true_iff, Z.eqb_neq. exact (Hlinks r Hr).
    + intros r Hr. apply negb_false_iff, Z.eqb_eq.
      apply in_flat_map in Hr. destruct Hr as (uid & _ & Hr).
      unfold resolve_channels in Hr. apply in_map_iff in Hr.
      destruct Hr as (c & <- & _). reflexivity.
  - rewrite Hg, Rf, Te. reflexivity.
  - rewrite Hh, Rg, Tf. reflexivity.
  - exists rows. split; [exact Hf |]. rewrite Re, Tg. reflexivity.
Qed.

(** *** The filters of the search *)

Lemma join_dashboard_In outer s r :
  In r (join_dashboard outer s) ->
  In (fst r) (alert s) /\
  match snd r with
  | Some dash => In dash (dashboard s) /\ Dashboard.Id dash = Alert.DashboardId (fst r)
  | None =>
      outer = true /\
      forall dash, In dash (dashboard s) -> Dashboard.Id dash <> Alert.DashboardId (fst r)
  end.
Proof.
  unfold join_dashboard. intros H. apply in_flat_map in H. destruct H as (a & Ha & Hr).
  destruct (filter (fun d => (Dashboard.Id d =? Alert.DashboardId a)%Z) (dashboard s))
    as [| d0 ds] eqn:Hf.
  - destruct outer; [| destruct Hr]. destruct Hr as [<- | []]. cbn [fst snd].
    split; [exact Ha |]. split; [reflexivity |].
    intros dash Hdash Hid.
    assert (Hin : In dash (filter (fun d => (Dashboard.Id d =? Alert.DashboardId a)%Z)
                             (dashboard s)))
      by (apply filter_In; split; [exact Hdash | apply Z.eqb_eq; exact Hid]).
    rewrite Hf in Hin. exact Hin.
  - apply in_map_iff in Hr. destruct Hr as (dash & <- & Hdash). cbn [fst snd].
    split; [exact Ha |]. rewrite <- Hf in Hdash. apply filter_In in Hdash.
    destruct Hdash as (Hdash & Hid). apply Z.eqb_eq in Hid. split; assumption.
Qed.

Lemma In_join_dashboard outer s a joined :
  In a (alert s) ->
  match joined with
  | Some dash => In dash (dashboard s) /\ Dashboard.Id dash = Alert.DashboardId a
  | None =>
      outer = true /\
      forall dash, In dash (dashboard s) -> Dashboard.Id dash <> Alert.DashboardId a
  end ->
  In (a, joined) (join_dashboard outer s).
Proof.
  intros Ha Hj. unfold join_dashboard. apply in_flat_map. exists a. split; [exact Ha |].
  destruct joined as [dash |].
  - destruct Hj as (Hdash & Hid).
    assert (Hin : In dash (filter (fun d => (Dashboard.Id d =? Alert.DashboardId a)%Z)
                             (dashboard s)))
      by (apply filter_In; split; [exact Hdash | apply Z.eqb_eq; exact Hid]).
    destruct (filter _ (dashboard s)) as [| d0 ds]; [destruct Hin |].
    apply in_map_iff. exists dash. split; [reflexivity | exact Hin].
  - destruct Hj as (-> & Hnone).
    rewrite filter_none_list; [left; reflexivity |].
    intros dash Hdash. apply Z.eqb_neq. exact (Hnone dash Hdash).
Qed.

Lemma length_zero_string (text : string) :
  (0 <? String.length text)%nat = false <-> text = "".
Proof.
  destruct text; cbn; split; intros H; congruence.
Qed.

(** A text of white space only is blank, whether the white space is a space,
    a tab, a no-break space (U+00A0) or an ideographic space (U+3000); white
    space inside a text stays. *)
Lemma TrimSpace_blank :
  TrimSpace (String (Ascii.ascii_of_nat 32) (String (Ascii.ascii_of_nat 9) "")) = "" /\
  TrimSpace (String (Ascii.ascii_of_nat 194) (String (Ascii.ascii_of_nat 160) "")) = "" /\
  TrimSpace (String (Ascii.ascii_of_nat 227)
               (String (Ascii.ascii_of_nat 128) (String (Ascii.ascii_of_nat 128) ""))) = "" /\
  TrimSpace " cpu load " = "cpu load" /\
  TrimSpace (String (Ascii.ascii_of_nat 194) (String (Ascii.ascii_of_nat 160) "cpu") ++
             String (Ascii.ascii_of_nat 194) (String (Ascii.ascii_of_nat 133) "")) = "cpu".
Proof. repeat split; vm_compute; reflexivity. Qed.

Section SearchScope.

Variable LikeStr : string -> string -> bool.
Variable Collation : string -> string -> bool.
Variable Limit : Z -> list JoinedRow -> list JoinedRow.
Variable dashboardPermissionFilter :
  SignedInUser.t -> Z -> Store -> option Dashboard.t -> bool.

Lemma where_clause_bool query s r :
  forallb (fun c => c r) (where_clause LikeStr dashboardPermissionFilter query s) =
  (Alert.OrgId (fst r) =? GetAlertsQuery.OrgId query)%Z &&
  (negb (0 <? String.length (TrimSpace (GetAlertsQuery.Query query)))%nat ||
   LikeStr ("%" ++ GetAlertsQuery.Query query ++ "%")%string (Alert.Name (fst r))) &&
  (negb (0 <? List.length (GetAlertsQuery.DashboardIDs query))%nat ||
   mem (Alert.DashboardId (fst r)) (GetAlertsQuery.DashboardIDs query)) &&
  ((GetAlertsQuery.PanelId query =? 0)%Z ||
   (Alert.PanelId (fst r) =? GetAlertsQuery.PanelId query)%Z) &&
  (match GetAlertsQuery.State query with
   | first :: _ => first =? "all"
   | [] => true
   end ||
   state_clause (GetAlertsQuery.State query) (Alert.State (fst r))) &&
  ((SignedInUser.OrgRole (GetAlertsQuery.User query) =? ROLE_ADMIN) ||
   dashboardPermissionFilter (GetAlertsQuery.User query) PERMISSION_VIEW s (snd r)).
Proof.
  unfold where_clause.
  destruct (0 <? String.length (TrimSpace (GetAlertsQuery.Query query)))%nat;
    destruct (0 <? List.length (GetAlertsQuery.DashboardIDs query))%nat;
    destruct (GetAlertsQuery.PanelId query =? 0)%Z;
    destruct (SignedInUser.OrgRole (GetAlertsQuery.User query) =? ROLE_ADMIN);
    (destruct (GetAlertsQuery.State query) as [| first rest];
     [| destruct (first =? "all")]);
    cbn [negb]; repeat rewrite forallb_app; cbn [forallb]; btauto.
Qed.

Lemma where_clause_true query s r :
  forallb (fun c => c r) (where_clause LikeStr dashboardPermissionFilter query s) = true <->
  Alert.OrgId (fst r) = GetAlertsQuery.OrgId query /\
  (TrimSpace (GetAlertsQuery.Query query) <> "" ->
   LikeStr ("%" ++ GetAlertsQuery.Query query ++ "%")%string (Alert.Name (fst r)) = true) /\
  (GetAlertsQuery.DashboardIDs query <> [] ->
   In (Alert.DashboardId (fst r)) (GetAlertsQuery.DashboardIDs query)) /\
  (GetAlertsQuery.PanelId query <> 0 ->
   Alert.PanelId (fst r) = GetAlertsQuery.PanelId query) /\
  (forall first rest,
     GetAlertsQuery.State query = first :: rest -> first <> "all" ->
     state_clause (GetAlertsQuery.State query) (Alert.State (fst r)) = true) /\
  (SignedInUser.OrgRole (GetAlertsQuery.User query) <> ROLE_ADMIN ->
   dashboardPermissionFilter (GetAlertsQuery.User query) PERMISSION_VIEW s (snd r) = true).
Proof.
  rewrite where_clause_bool. rewrite !andb_true_iff, !orb_true_iff, Z.eqb_eq.
  rewrite negb_true_iff, negb_true_iff, length_zero_string, mem_In.
  rewrite !Z.eqb_eq.
  assert (Hids : (0 <? List.length (GetAlertsQuery.DashboardIDs query))%nat = false <->
                 GetAlertsQuery.DashboardIDs query = []).
  { destruct (GetAlertsQuery.DashboardIDs query); cbn; split; congruence. }
  rewrite Hids. clear Hids.
  split.
  - intros (((((Horg & Hlike) & Hdash) & Hpanel) & Hstate) & Hperm).
    split; [exact Horg |].
    split; [intros Hq; destruct Hlike as [Hnil | Hlike]; [contradiction | exact Hlike] |].
    split; [intros Hq; destruct Hdash as [Hnil | Hdash]; [contradiction | exact Hdash] |].
    split; [intros Hq; destruct Hpanel as [Hnil | Hpanel]; [contradiction | exact Hpanel] |].
    split.
    + intros first rest Hst Hne. destruct Hstate as [Hall | Hstate]; [| exact Hstate].
      rewrite Hst in Hall. apply String.eqb_eq in Hall. contradiction.
    + intros Hrole. destruct Hperm as [Hadmin | Hperm]; [| exact Hperm].
      apply String.eqb_eq in Hadmin. contradiction.
  - intros (Horg & Hlike & Hdash & Hpanel & Hstate & Hperm).
    repeat split.
    + exact Horg.
    + destruct (string_dec (TrimSpace (GetAlertsQuery.Query query)) "") as [Hq | Hq];
        [left; exact Hq | right; exact (Hlike Hq)].
    + destruct (GetAlertsQuery.DashboardIDs query) as [| i ids] eqn:Hids;
        [left; reflexivity | right; apply Hdash; discriminate].
    + destruct (Z.eq_dec (GetAlertsQuery.PanelId query) 0) as [Hq | Hq];
        [left; exact Hq | right; exact (Hpanel Hq)].
    + destruct (GetAlertsQuery.State query) as [| first rest] eqn:Hst; [left; reflexivity |].
      destruct (String.eqb_spec first "all") as [Hall | Hall]; [left; reflexivity |].
      right. exact (Hstate first rest eq_refl Hall).
    + destruct (String.eqb_spec (SignedInUser.OrgRole (GetAlertsQuery.User query)) ROLE_ADMIN)
        as [Hadmin | Hadmin]; [left; reflexivity | right; exact (Hperm Hadmin)].
Qed.

(** X17.  What a search never returns.  When the dialect's limit only drops
    rows, every entry of the result of [HandleAlertsQuery] describes a stored
    rule of the organisation of the query, of one of the listed dashboards if
    any is listed, of the given panel if one is given, and with a name the
    dialect matches against the text of the query unless the text is blank
    (empty once the white space Unicode defines is trimmed off both ends).
    Unless standalone rules are asked for, the dashboard of the rule exists
    and the entry carries its uid and slug; and for a user who is not an
    administrator the permission filter accepted the dashboard. *)
Theorem search_scope (query : GetAlertsQuery.t) (s : Store)
    (result : list AlertListItemDTO.t) (d : AlertListItemDTO.t) :
  (forall n rows r, In r (Limit n rows) -> In r rows) ->
  HandleAlertsQuery LikeStr Collation Limit dashboardPermissionFilter query s = inr result ->
  In d result ->
  exists rule joined,
    In rule (alert s) /\
    AlertListItemDTO.Id d = Alert.Id rule /\
    AlertListItemDTO.Name d = Alert.Name rule /\
    AlertListItemDTO.DashboardId d = Alert.DashboardId rule /\
    AlertListItemDTO.PanelId d = Alert.PanelId rule /\
    Alert.OrgId rule = GetAlertsQuery.OrgId query /\
    (GetAlertsQuery.DashboardIDs query <> [] ->
     In (Alert.DashboardId rule) (GetAlertsQuery.DashboardIDs query)) /\
    (GetAlertsQuery.PanelId query <> 0 ->
     Alert.PanelId rule = GetAlertsQuery.PanelId query) /\
    (TrimSpace (GetAlertsQuery.Query query) <> "" ->
     LikeStr ("%" ++ GetAlertsQuery.Query query ++ "%")%string (Alert.Name rule) = true) /\
    (GetAlertsQuery.StandaloneAlertsEnabled query = false ->
     exists dash,
       joined = Some dash /\ In dash (dashboard s) /\
       Dashboard.Id dash = Alert.DashboardId rule /\
       AlertListItemDTO.DashboardUid d = Dashboard.Uid dash /\
       AlertListItemDTO.DashboardSlug d = Dashboard.Slug dash) /\
    (SignedInUser.OrgRole (GetAlertsQuery.User query) <> ROLE_ADMIN ->
     dashboardPermissionFilter (GetAlertsQuery.User query) PERMISSION_VIEW s joined = true).
Proof.
  intros Hlimit Hres Hin.
  destruct (@search_sound LikeStr Collation Limit dashboardPermissionFilter query s result d
              Hlimit Hres Hin) as ([rule joined] & Hjoin & Hwhere & ->).
  apply join_dashboard_In in Hjoin. cbn [fst snd] in Hjoin. destruct Hjoin as (Hrule & Hj).
  apply where_clause_true in Hwhere. cbn [fst snd] in Hwhere.
  destruct Hwhere as (Horg & Hlike & Hdash & Hpanel & _ & Hperm).
  exists rule, joined.
  assert (Hfields : forall x, AlertListItemDTO.Id (normalize x) = AlertListItemDTO.Id x /\
                              AlertListItemDTO.Name (normalize x) = AlertListItemDTO.Name x /\
                              AlertListItemDTO.DashboardId (normalize x) =
                                AlertListItemDTO.DashboardId x /\
                              AlertListItemDTO.PanelId (normalize x) =
                                AlertListItemDTO.PanelId x /\
                              AlertListItemDTO.DashboardUid (normalize x) =
                                AlertListItemDTO.DashboardUid x /\
                              AlertListItemDTO.DashboardSlug (normalize x) =
                                AlertListItemDTO.DashboardSlug x).
  { intros x. unfold normalize. destruct (AlertListItemDTO.ExecutionError x =? " ");
      destruct x; repeat split; reflexivity. }
  destruct (Hfields (to_dto (rule, joined))) as (Hi & Hn & Hd & Hp & Hu & Hs).
  split; [exact Hrule |].
  split; [rewrite Hi; reflexivity |].
  split; [rewrite Hn; reflexivity |].
  split; [rewrite Hd; reflexivity |].
  split; [rewrite Hp; reflexivity |].
  split; [exact Horg |].
  split; [exact Hdash |].
  split; [exact Hpanel |].
  split; [exact Hlike |].
  split; [| exact Hperm].
  intros Hinner. destruct joined as [dash |].
  - destruct Hj as (Hdin & Hdid). exists dash.
    split; [reflexivity |]. split; [exact Hdin |]. split; [exact Hdid |].
    split; [rewrite Hu; reflexivity | rewrite Hs; reflexivity].
  - destruct Hj as (Houter & _). congruence.
Qed.

(** X18.  What an unlimited search never drops.  With no limit, the result
    of [HandleAlertsQuery] has the entry of every stored rule of the
    organisation of the query that passes the filters the query sets, joined
    with each dashboard of its [DashboardId]; a rule whose dashboard does not
    exist is listed, without dashboard uid or slug, when standalone rules are
    asked for. *)
Theorem search_complete (query : GetAlertsQuery.t) (s : Store)
    (result : list AlertListItemDTO.t) (rule : Alert.t) (joined : option Dashboard.t) :
  GetAlertsQuery.Limit query = 0 ->
  HandleAlertsQuery LikeStr Collation Limit dashboardPermissionFilter query s = inr result ->
  In rule (alert s) ->
  match joined with
  | Some dash => In dash (dashboard s) /\ Dashboard.Id dash = Alert.DashboardId rule
  | None =>
      GetAlertsQuery.StandaloneAlertsEnabled query = true /\
      forall dash, In dash (dashboard s) -> Dashboard.Id dash <> Alert.DashboardId rule
  end ->
  Alert.OrgId rule = GetAlertsQuery.OrgId query ->
  (TrimSpace (GetAlertsQuery.Query query) <> "" ->
   LikeStr ("%" ++ GetAlertsQuery.Query query ++ "%")%string (Alert.Name rule) = true) ->
  (GetAlertsQuery.DashboardIDs query <> [] ->
   In (Alert.DashboardId rule) (GetAlertsQuery.DashboardIDs query)) ->
  (GetAlertsQuery.PanelId query <> 0 ->
   Alert.PanelId rule = GetAlertsQuery.PanelId query) ->
  (forall first rest,
     GetAlertsQuery.State query = first :: rest -> first <> "all" ->
     state_clause (GetAlertsQuery.State query) (Alert.State rule) = true) ->
  (SignedInUser.OrgRole (GetAlertsQuery.User query) <> ROLE_ADMIN ->
   dashboardPermissionFilter (GetAlertsQuery.User query) PERMISSION_VIEW s joined = true) ->
  exists d,
    In d result /\
    AlertListItemDTO.Id d = Alert.Id rule /\
    AlertListItemDTO.State d = Alert.State rule /\
    AlertListItemDTO.DashboardUid d =
      match joined with Some dash => Dashboard.Uid dash | None => "" end /\
    AlertListItemDTO.DashboardSlug d =
      match joined with Some dash => Dashboard.Slug dash | None => "" end.
Proof.
  intros Hlimit Hres Hrule Hj Horg Hlike Hdash Hpanel Hstate Hperm.
  exists (normalize (to_dto (rule, joined))). split.
  - apply (@search_unlimited LikeStr Collation Limit dashboardPermissionFilter query s result
             (normalize (to_dto (rule, joined))) Hlimit Hres).
    exists (rule, joined). split; [| split; [| reflexivity]].
    + apply In_join_dashboard; assumption.
    + apply where_clause_true. cbn [fst snd]. repeat split; assumption.
  - unfold normalize. destruct (AlertListItemDTO.ExecutionError _ =? " ");
      repeat split; reflexivity.
Qed.

End SearchScope.

(** *** The notification links after a reconciliation *)

Lemma links_after_cascades i ids s :
  links_of i (replay (flat_map cascade ids) s) =
  if mem i ids then [] else links_of i s.
Proof.
  revert s. induction ids as [| j rest IH]; intros s.
  - reflexivity.
  - cbn [flat_map]. rewrite replay_app, IH. cbn [mem existsb]. fold (mem i rest).
    destruct (mem i rest); [rewrite orb_true_r; reflexivity |]. rewrite orb_false_r.
    unfold links_of.
    destruct (cascade_others_kept j s) as (_ & _ & _ & _ & -> & _).
    fold (links_of i (exec (DeleteRuleNotifications j) s)).
    apply links_after_delete.
Qed.

Lemma relink_links (alert0 : Alert.t) uids sess :
  GetNotificationsFromSettings alert0 = Some uids ->
  let tail :=
    (issue (DeleteRuleTags (Alert.Id alert0)) ;;;
     insertTags (GetTagsFromSettings alert0) (Alert.Id alert0) ;;;
     match GetNotificationsFromSettings alert0 with
     | None => fail Panic
     | Some alertNotificationUIDs =>
         issue (DeleteRuleNotifications (Alert.Id alert0)) ;;;
         insertNotifications (Alert.Id alert0) (Alert.OrgId alert0) alertNotificationUIDs ;;;
         ret alert0
     end)%session in
  exists sess',
    tail sess = inr (alert0, sess') /\
    alert_notification (db sess') = alert_notification (db sess) /\
    forall i,
      map AlertRuleNotification.AlertNotificationId (links_of i (db sess')) =
      if (i =? Alert.Id alert0)%Z
      then channel_ids (Alert.OrgId alert0) uids (db sess)
      else map AlertRuleNotification.AlertNotificationId (links_of i (db sess)).
Proof.
  intros Hn tail. subst tail. rewrite Hn.
  set (id := Alert.Id alert0).
  erewrite bind_run by (unfold issue; reflexivity).
  destruct (tag_insertTags id (GetTagsFromSettings alert0)
              (mkSession (exec (DeleteRuleTags id) (db sess))
                 (issued sess ++ [DeleteRuleTags id])))
    as (u & sess2 & R2 & Heff).
  erewrite bind_run by exact R2.
  erewrite bind_run by (unfold issue; reflexivity).
  erewrite bind_run by apply insertNotifications_run.
  eexists. split; [reflexivity |]. cbn [db].
  destruct Heff as (_ & _ & _ & Hlinks & Hchannels & _).
  cbn [db exec with_alert_rule_tag alert_rule_notification alert_notification]
    in Hlinks, Hchannels.
  destruct (replay_link_stmts id (Alert.OrgId alert0) uids
              (exec (DeleteRuleNotifications id) (db sess2)))
    as (_ & _ & _ & _ & _ & Hc & _).
  split.
  - rewrite Hc. cbn [exec with_alert_rule_notification alert_notification]. exact Hchannels.
  - intros i. rewrite links_after_insert, links_after_delete.
    rewrite (channel_ids_ext _ _ (db sess) (exec (DeleteRuleNotifications id) (db sess2)))
      by exact Hchannels.
    replace (links_of i (db sess2)) with (links_of i (db sess))
      by (unfold links_of; rewrite Hlinks; reflexivity).
    rewrite (Z.eqb_sym id i).
    destruct (i =? id)%Z; [reflexivity | apply app_nil_r].
Qed.

Section LinkProofs.

Variable Encode : Json -> option string.
Variable now : Time.

(** One turn of the loop of [updateAlerts], seen from the notification
    links. *)
Lemma updateAlert_links existingAlerts a sess a' sess' :
  updateAlert Encode now existingAlerts a sess = inr (a', sess') ->
  Alert.PanelId a' = Alert.PanelId a /\
  Alert.OrgId a' = Alert.OrgId a /\
  exists uids,
    GetNotificationsFromSettings a = Some uids /\
    alert_notification (db sess') = alert_notification (db sess) /\
    forall i,
      map AlertRuleNotification.AlertNotificationId (links_of i (db sess')) =
      if (i =? Alert.Id a')%Z
      then channel_ids (Alert.OrgId a) uids (db sess)
      else map AlertRuleNotification.AlertNotificationId (links_of i (db sess)).
Proof.
  unfold updateAlert. intros H.
  apply bind_inr in H. destruct H as (a1 & sess1 & H1 & H2).
  cbv zeta in H2.
  assert (Hfirst : Alert.PanelId a1 = Alert.PanelId a /\
                   Alert.OrgId a1 = Alert.OrgId a /\
                   Alert.Settings a1 = Alert.Settings a /\
                   alert_rule_notification (db sess1) = alert_rule_notification (db sess) /\
                   alert_notification (db sess1) = alert_notification (db sess)).
  { destruct (find (fun k => (Alert.PanelId a =? Alert.PanelId k)%Z) existingAlerts)
      as [k |].
    - destruct (ContainsUpdates Encode k (Alert.set_Id (Alert.Id k) a)).
      + cbv zeta in H1. unfold bind, issue, ret in H1. injection H1 as <- <-.
        destruct a; repeat split; reflexivity.
      + unfold ret in H1. injection H1 as <- <-. destruct a; repeat split; reflexivity.
    - cbv zeta in H1. apply xorm_Insert_inr in H1. destruct H1 as (id & -> & _ & ->).
      destruct a; repeat split; reflexivity. }
  destruct Hfirst as (Hpanel & Horg & Hsettings & Hlinks & Hchannels).
  destruct (GetNotificationsFromSettings a1) as [uids |] eqn:Hn.
  2: { pose proof (relink a1 sess1) as R. cbv zeta in R. rewrite Hn in R.
       rewrite R in H2. discriminate H2. }
  pose proof (relink_links a1 sess1 Hn) as R. cbv zeta in R. rewrite Hn in R.
  destruct R as (sess2 & R & Hc & Hl).
  rewrite R in H2. injection H2 as <- <-.
  split; [exact Hpanel |]. split; [exact Horg |]. exists uids.
  split; [rewrite <- (@notifications_of_settings a1 a Hsettings); exact Hn |].
  split; [congruence |].
  intros i. rewrite Hl, Horg, (channel_ids_ext _ _ (db sess) (db sess1)) by exact Hchannels.
  replace (links_of i (db sess1)) with (links_of i (db sess))
    by (unfold links_of; rewrite Hlinks; reflexivity).
  reflexivity.
Qed.

Lemma updateAlert_returned existingAlerts a sess a' sess' :
  updateAlert Encode now existingAlerts a sess = inr (a', sess') ->
  (forall k, In k existingAlerts -> In (Alert.Id k) (map Alert.Id (alert (db sess)))) ->
  In (Alert.Id a') (map Alert.Id (alert (db sess'))) /\
  ((exists k, match_of existingAlerts a = Some k /\ Alert.Id a' = Alert.Id k) \/
   ~ In (Alert.Id a') (map Alert.Id (alert (db sess)))).
Proof.
  intros H Hex. apply updateAlert_inv in H.
  destruct H as (_ & links & _ & [Hcase | [Hcase | Hcase]]).
  - destruct Hcase as (k & Hm & _ & -> & _ & Halert).
    destruct (bean_fields now k a) as (Hid & _). rewrite Hid.
    split; [| left; exists k; split; [exact Hm | reflexivity]].
    rewrite Halert, exec_UpdateAlert_ids. apply Hex. apply (match_of_some _ _ Hm).
  - destruct Hcase as (k & Hm & _ & -> & _ & Halert).
    destruct (set_Id_fields (Alert.Id k) a) as (Hid & _). rewrite Hid.
    split; [| left; exists k; split; [exact Hm | reflexivity]].
    rewrite Halert. apply Hex. apply (match_of_some _ _ Hm).
  - destruct Hcase as (_ & id & -> & Hfresh & _ & Halert).
    destruct (inserted_fields now id a) as (Hid & _). rewrite Hid.
    split; [| right; exact Hfresh].
    rewrite Halert, map_app. apply in_or_app. right. left. exact Hid.
Qed.

Lemma NoDup_map_inj (rows : list Alert.t) k1 k2 :
  NoDup (map Alert.Id rows) -> In k1 rows -> In k2 rows -> Alert.Id k1 = Alert.Id k2 ->
  k1 = k2.
Proof.
  induction rows as [| r rows IH]; intros Hnd H1 H2 Hid; [destruct H1 |].
  cbn [map] in Hnd. inversion Hnd as [| x l Hnotin Hnd']; subst.
  destruct H1 as [-> | H1], H2 as [-> | H2].
  - reflexivity.
  - exfalso. apply Hnotin. rewrite Hid. apply in_map. exact H2.
  - exfalso. apply Hnotin. rewrite <- Hid. apply in_map. exact H1.
  - apply IH; assumption.
Qed.

Lemma updateEach_returned existingAlerts alerts sess alerts' sess' :
  updateEach Encode now existingAlerts alerts sess = inr (alerts', sess') ->
  NoDup (map Alert.Id existingAlerts) -> NoDup (panels alerts) ->
  (forall k, In k existingAlerts -> In (Alert.Id k) (map Alert.Id (alert (db sess)))) ->
  NoDup (map Alert.Id alerts') /\
  forall a', In a' alerts' ->
    In (Alert.Id a') (map Alert.Id (alert (db sess'))) /\
    ((exists a k, In a alerts /\ match_of existingAlerts a = Some k /\
                  Alert.Id a' = Alert.Id k) \/
     ~ In (Alert.Id a') (map Alert.Id (alert (db sess)))).
Proof.
  intros H Hkeys. revert sess alerts' sess' H.
  induction alerts as [| a rest IH]; intros sess alerts' sess' H Hpanels Hex.
  - cbn in H. unfold ret in H. injection H as <- <-.
    split; [constructor | intros a' []].
  - apply updateEach_cons in H.
    destruct H as (a' & rest' & sess1 & -> & H1 & H2).
    cbn [panels map] in Hpanels. inversion Hpanels as [| x l Hnotin Hpanels']; subst.
    fold (panels rest) in Hnotin, Hpanels'.
    destruct (updateAlert_returned _ _ _ H1 Hex) as (Hstored & Horigin).
    assert (Hgrow : forall id, In id (map Alert.Id (alert (db sess))) ->
                               In id (map Alert.Id (alert (db sess1)))).
    { assert (Hone : updateEach Encode now existingAlerts [a] sess = inr ([a'], sess1)).
      { cbn [updateEach]. erewrite bind_run by exact H1. reflexivity. }
      apply (updateEach_ids Encode now _ _ _ Hone). }
    assert (Hgrow2 : forall id, In id (map Alert.Id (alert (db sess1))) ->
                                In id (map Alert.Id (alert (db sess')))).
    { apply (updateEach_ids Encode now _ _ _ H2). }
    destruct (IH sess1 rest' sess' H2 Hpanels' (fun k Hk => Hgrow _ (Hex k Hk)))
      as (IHnd & IHall).
    split.
    + cbn [map]. constructor; [| exact IHnd].
      intros Hdup. apply in_map_iff in Hdup. destruct Hdup as (a2' & Hid2 & Hin2).
      destruct (IHall a2' Hin2) as (_ & [(a2 & k2 & Ha2 & Hm2 & Hk2) | Hfresh2]).
      * destruct Horigin as [(k & Hm & Hk) | Hfresh].
        -- assert (Hkk : k = k2).
           { apply (@NoDup_map_inj existingAlerts k k2 Hkeys).
             - apply (match_of_some _ _ Hm).
             - apply (match_of_some _ _ Hm2).
             - congruence. }
           subst k2. apply Hnotin.
           destruct (match_of_some _ _ Hm) as (_ & Hp).
           destruct (match_of_some _ _ Hm2) as (_ & Hp2).
           rewrite <- Hp, Hp2. apply in_map. exact Ha2.
        -- apply Hfresh. rewrite <- Hid2, Hk2. apply Hex. apply (match_of_some _ _ Hm2).
      * apply Hfresh2. rewrite Hid2. exact Hstored.
    + intros x [<- | Hx].
      * split; [apply Hgrow2; exact Hstored |].
        destruct Horigin as [(k & Hm & Hk) | Hfresh]; [left | right; exact Hfresh].
        exists a, k. split; [left; reflexivity | split; assumption].
      * destruct (IHall x Hx) as (Hs & [(a2 & k2 & Ha2 & Hm2 & Hk2) | Hfresh2]).
        -- split; [exact Hs |]. left. exists a2, k2.
           split; [right; exact Ha2 | split; assumption].
        -- split; [exact Hs |]. right. intros Hin. apply Hfresh2, Hgrow. exact Hin.
Qed.

Lemma updateEach_links existingAlerts alerts sess alerts' sess' :
  updateEach Encode now existingAlerts alerts sess = inr (alerts', sess') ->
  NoDup (map Alert.Id alerts') ->
  alert_notification (db sess') = alert_notification (db sess) /\
  Forall2
    (fun a a' =>
       Alert.PanelId a' = Alert.PanelId a /\
       exists uids,
         GetNotificationsFromSettings a = Some uids /\
         map AlertRuleNotification.AlertNotificationId (links_of (Alert.Id a') (db sess')) =
         channel_ids (Alert.OrgId a) uids (db sess))
    alerts alerts' /\
  (forall i, ~ In i (map Alert.Id alerts') ->
     map AlertRuleNotification.AlertNotificationId (links_of i (db sess')) =
     map AlertRuleNotification.AlertNotificationId (links_of i (db sess))).
Proof.
  revert sess alerts' sess'.
  induction alerts as [| a rest IH]; intros sess alerts' sess' H Hnd.
  - cbn in H. unfold ret in H. injection H as <- <-.
    split; [reflexivity |]. split; [constructor | reflexivity].
  - apply updateEach_cons in H.
    destruct H as (a' & rest' & sess1 & -> & H1 & H2).
    cbn [map] in Hnd. inversion Hnd as [| x l Hnotin Hnd']; subst.
    destruct (updateAlert_links _ _ _ H1) as (Hpanel & _ & uids & Hn & Hc1 & Hl1).
    destruct (IH sess1 rest' sess' H2 Hnd') as (Hc2 & Hall & Hframe).
    split; [congruence |]. split.
    + constructor.
      * split; [exact Hpanel |]. exists uids. split; [exact Hn |].
        rewrite (Hframe _ Hnotin), Hl1, Z.eqb_refl. reflexivity.
      * eapply Forall2_impl; [| exact Hall].
        intros b b' (Hp & us & Hb & Hlinks). split; [exact Hp |]. exists us.
        split; [exact Hb |]. rewrite Hlinks. apply channel_ids_ext. exact Hc1.
    + intros i Hi. cbn [map In] in Hi.
      rewrite (Hframe i) by (intros Hin; apply Hi; right; exact Hin).
      rewrite Hl1. destruct (Z.eqb_spec i (Alert.Id a')) as [-> | _]; [| reflexivity].
      exfalso. apply Hi. left. reflexivity.
Qed.

Lemma Forall2_In_left {A B : Type} (R : A -> B -> Prop) l l' a :
  Forall2 R l l' -> In a l -> exists b, In b l' /\ R a b.
Proof.
  induction 1 as [| x y l l' Hxy Hrest IH]; intros Hin; [destruct Hin |].
  destruct Hin as [<- | Hin].
  - exists y. split; [left; reflexivity | exact Hxy].
  - destruct (IH Hin) as (b & Hb & Hab). exists b. split; [right; exact Hb | exact Hab].
Qed.

(** X19.  [SaveAlerts] leaves the notification links its rules declare.
    After a successful reconciliation of desired rules on distinct panels,
    every desired rule has its rule in the store, under the id the command
    returns for its panel, and the notification links of that rule are
    exactly one link for each channel of the organisation of the rule that
    carries one of the uids listed in its settings, in the order of the uids,
    whatever links the rule had before. *)
Theorem SaveAlerts_links (cmd cmd' : SaveAlertsCommand.t) (s : Store) (a : Alert.t) :
  unique_ids s ->
  NoDup (panels (SaveAlertsCommand.Alerts cmd)) ->
  outcome (SaveAlerts Encode now cmd s) = inr cmd' ->
  In a (SaveAlertsCommand.Alerts cmd) ->
  exists a' uids,
    In a' (SaveAlertsCommand.Alerts cmd') /\
    Alert.PanelId a' = Alert.PanelId a /\
    In (Alert.Id a') (map Alert.Id (alert (store (SaveAlerts Encode now cmd s)))) /\
    GetNotificationsFromSettings a = Some uids /\
    getAlertNotificationIDs (Alert.Id a') (store (SaveAlerts Encode now cmd s)) =
      inr (channel_ids (Alert.OrgId a) uids s).
Proof.
  intros Huniq Hpanels Hout Ha.
  pose proof (SaveAlerts_run Encode now cmd s) as Hrun. cbv zeta in Hrun.
  set (existingAlerts := find_by_dashboard (SaveAlertsCommand.DashboardId cmd) s) in *.
  destruct (updateEach Encode now existingAlerts (SaveAlertsCommand.Alerts cmd)
              (mkSession s [])) as [e | [alerts' sess1]] eqn:Hupd.
  { rewrite Hrun in Hout. discriminate Hout. }
  rewrite Hrun in *. clear Hrun. cbn [outcome store] in *.
  injection Hout as <-. cbn [SaveAlertsCommand.Alerts].
  assert (Hex : forall k, In k existingAlerts ->
                          In (Alert.Id k) (map Alert.Id (alert (db (mkSession s []))))).
  { intros k Hk. apply In_find_by_dashboard in Hk. apply in_map. apply Hk. }
  assert (Hkeys : NoDup (map Alert.Id existingAlerts)).
  { apply NoDup_map_filter. exact Huniq. }
  destruct (updateEach_returned _ _ _ Hupd Hkeys Hpanels Hex) as (Hnd & Hret).
  destruct (updateEach_links _ _ _ Hupd Hnd) as (_ & Hall & _).
  destruct (@Forall2_In_left _ _ _ _ _ a Hall Ha)
    as (a' & Ha' & Hpanel & uids & Hn & Hlinks).
  exists a', uids.
  destruct (Hret a' Ha') as (Hstored & Horigin).
  set (gone := map Alert.Id (missing existingAlerts (SaveAlertsCommand.Alerts cmd))).
  assert (Hkept : mem (Alert.Id a') gone = false).
  { apply mem_false. intros Hgone.
    destruct Horigin as [(a0 & k & Ha0 & Hm & Hk) | Hfresh].
    - rewrite Hk in Hgone. revert Hgone.
      apply (@not_gone s (SaveAlertsCommand.DashboardId cmd)
               (SaveAlertsCommand.Alerts cmd) k Huniq).
      + apply (match_of_some _ _ Hm).
      + destruct (match_of_some _ _ Hm) as (_ & ->). apply in_map. exact Ha0.
    - apply Hfresh. cbn [db]. unfold gone in Hgone. apply in_map_iff in Hgone.
      destruct Hgone as (m & <- & Hm). apply In_missing in Hm. destruct Hm as (Hm & _).
      apply In_find_by_dashboard in Hm. apply in_map. apply Hm. }
  split; [exact Ha' |]. split; [exact Hpanel |]. split; [| split; [exact Hn |]].
  - rewrite alert_after_cascades. apply in_map_iff in Hstored.
    destruct Hstored as (r & Hid & Hr). apply in_map_iff. exists r. split; [exact Hid |].
    apply filter_In. split; [exact Hr |]. rewrite Hid, Hkept. reflexivity.
  - unfold getAlertNotificationIDs. cbv zeta.
    fold (links_of (Alert.Id a') (replay (flat_map cascade gone) (db sess1))).
    rewrite links_after_cascades, Hkept, Hlinks. reflexivity.
Qed.

End LinkProofs.

(** *** The tags of a rule *)

Lemma ensureTag_spec t sess :
  exists t' sess',
    ensureTag t sess = inr (t', sess') /\
    Tag.Key t' = Tag.Key t /\ Tag.Value t' = Tag.Value t /\
    In t' (tag (db sess')) /\
    alert_rule_tag (db sess') = alert_rule_tag (db sess) /\
    exists rows, tag (db sess') = (tag (db sess) ++ rows)%list.
Proof.
  unfold ensureTag, bind, reads.
  destruct (find (same_tag t) (tag (db sess))) as [existing |] eqn:Hfind.
  - apply find_some in Hfind. destruct Hfind as (Hin & Hsame).
    unfold same_tag in Hsame. apply andb_true_iff in Hsame. destruct Hsame as (Hk & Hv).
    apply String.eqb_eq in Hk, Hv.
    exists existing, sess. repeat split; try assumption.
    exists []. rewrite app_nil_r. reflexivity.
  - eexists _, _. split; [reflexivity |]. cbn.
    repeat split.
    + apply in_or_app. right. left. reflexivity.
    + eexists. reflexivity.
Qed.

Lemma EnsureTagsExist_spec tags sess :
  exists tags' sess',
    EnsureTagsExist tags sess = inr (tags', sess') /\
    alert_rule_tag (db sess') = alert_rule_tag (db sess) /\
    (exists rows, tag (db sess') = (tag (db sess) ++ rows)%list) /\
    Forall2
      (fun t t' => Tag.Key t' = Tag.Key t /\ Tag.Value t' = Tag.Value t /\
                   In t' (tag (db sess')))
      tags tags'.
Proof.
  revert sess. induction tags as [| t rest IH]; intros sess; cbn [EnsureTagsExist].
  - exists [], sess. split; [reflexivity |]. split; [reflexivity |].
    split; [exists []; rewrite app_nil_r; reflexivity | constructor].
  - destruct (ensureTag_spec t sess) as (t' & sess1 & R1 & Hk & Hv & Hin & Hl1 & rows1 & Ht1).
    destruct (IH sess1) as (rest' & sess2 & R2 & Hl2 & (rows2 & Ht2) & Hall).
    exists (t' :: rest'), sess2.
    split; [erewrite bind_run by exact R1; erewrite bind_run by exact R2; reflexivity |].
    split; [congruence |].
    split; [exists (rows1 ++ rows2)%list; rewrite Ht2, Ht1, app_assoc; reflexivity |].
    constructor; [| exact Hall].
    split; [exact Hk |]. split; [exact Hv |].
    rewrite Ht2. apply in_or_app. left. exact Hin.
Qed.

Lemma insertRuleTags_run tags alertID sess :
  exists sess',
    insertRuleTags tags alertID sess = inr (tt, sess') /\
    tag (db sess') = tag (db sess) /\
    alert_rule_tag (db sess') =
      (alert_rule_tag (db sess) ++
       map (fun t => AlertRuleTag.Build alertID (Tag.Id t)) tags)%list.
Proof.
  revert sess. induction tags as [| t rest IH]; intros sess; cbn [insertRuleTags].
  - exists sess. split; [reflexivity |]. split; [reflexivity |].
    cbn. rewrite app_nil_r. reflexivity.
  - destruct (IH (mkSession (exec (InsertRuleTag alertID (Tag.Id t)) (db sess))
                    (issued sess ++ [InsertRuleTag alertID (Tag.Id t)])))
      as (sess' & R & Ht & Hl).
    exists sess'. split; [erewrite bind_run by (unfold issue; reflexivity); exact R |].
    split; [rewrite Ht; reflexivity |].
    rewrite Hl. cbn [db exec with_alert_rule_tag alert_rule_tag map].
    rewrite <- app_assoc. reflexivity.
Qed.

Lemma insertTags_spec tags alertID sess :
  exists tags' sess',
    insertTags tags alertID sess = inr (tt, sess') /\
    (exists rows, tag (db sess') = (tag (db sess) ++ rows)%list) /\
    alert_rule_tag (db sess') =
      (alert_rule_tag (db sess) ++
       map (fun t => AlertRuleTag.Build alertID (Tag.Id t)) tags')%list /\
    Forall2
      (fun t t' => Tag.Key t' = Tag.Key t /\ Tag.Value t' = Tag.Value t /\
                   In t' (tag (db sess')))
      tags tags'.
Proof.
  unfold insertTags.
  destruct (EnsureTagsExist_spec tags sess) as (tags' & sess1 & R1 & Hl1 & Ht1 & Hall).
  destruct (insertRuleTags_run tags' alertID sess1) as (sess2 & R2 & Ht2 & Hl2).
  exists tags', sess2.
  split; [erewrite bind_run by exact R1; exact R2 |].
  split; [rewrite Ht2; exact Ht1 |].
  split; [rewrite Hl2, Hl1; reflexivity |].
  eapply Forall2_impl; [| exact Hall].
  intros t t' (Hk & Hv & Hin). rewrite Ht2. auto.
Qed.

Lemma tag_links_fresh i alertID (l : list AlertRuleTag.t) (tags' : list Tag.t) :
  filter (fun r => (AlertRuleTag.AlertId r =? i)%Z)
    (l ++ map (fun t => AlertRuleTag.Build alertID (Tag.Id t)) tags') =
  (filter (fun r => (AlertRuleTag.AlertId r =? i)%Z) l ++
   if (alertID =? i)%Z
   then map (fun t => AlertRuleTag.Build alertID (Tag.Id t)) tags'
   else [])%list.
Proof.
  rewrite filter_app. f_equal.
  destruct (Z.eqb_spec alertID i) as [-> | Hne].
  - apply filter_all. intros r Hr. apply in_map_iff in Hr. destruct Hr as (t & <- & _).
    apply Z.eqb_refl.
  - apply filter_none_list. intros r Hr. apply in_map_iff in Hr. destruct Hr as (t & <- & _).
    apply Z.eqb_neq. exact Hne.
Qed.

Lemma tag_links_after_delete i id s :
  tag_links_of i (exec (DeleteRuleTags id) s) =
  if (i =? id)%Z then [] else tag_links_of i s.
Proof.
  unfold tag_links_of. cbn [exec with_alert_rule_tag alert_rule_tag].
  rewrite filter_filter_list.
  destruct (Z.eqb_spec i id) as [-> | Hne].
  - apply filter_none_list. intros l _.
    destruct (AlertRuleTag.AlertId l =? id)%Z; reflexivity.
  - apply filter_ext. intros l.
    destruct (Z.eqb_spec (AlertRuleTag.AlertId l) id) as [-> | _]; cbn [negb andb].
    + symmetry. apply Z.eqb_neq. intros Heq. apply Hne. symmetry. exact Heq.
    + reflexivity.
Qed.

Lemma UpdateAlert_run_with ParseDuration NewFromAny_update now cmd s forDuration sess1 :
  exist_alert (UpdateAlertCommand.ID cmd) s = true ->
  ParseDuration (UpdateAlertCommand.For cmd) = inr forDuration ->
  let id := UpdateAlertCommand.ID cmd in
  let b :=
    update_bean now cmd forDuration
      (NewFromAny_update (UpdateAlertCommand.set_Result None cmd)) in
  insertTags (tags_of_map (UpdateAlertCommand.AlertRuleTags cmd)) id
    (mkSession (exec (DeleteRuleTags id) (exec (UpdateAlert id MustCols_message_for b) s))
       (([] ++ [UpdateAlert id MustCols_message_for b]) ++ [DeleteRuleTags id])) =
    inr (tt, sess1) ->
  store (sqlstore.UpdateAlert ParseDuration NewFromAny_update now cmd s) =
  replay (link_stmts id (UpdateAlertCommand.OrgID cmd)
            (uids_of_refs (UpdateAlertCommand.Notifications cmd)))
    (exec (DeleteRuleNotifications id) (db sess1)).
Proof.
  intros Hhas Hparse id b Hrun.
  unfold sqlstore.UpdateAlert. rewrite Hhas, Hparse. cbn [negb]. cbv zeta.
  fold (update_bean now cmd forDuration
          (NewFromAny_update (UpdateAlertCommand.set_Result None cmd))).
  fold b. change (Alert.Id b) with id.
  unfold inTransaction.
  erewrite bind_run by (unfold issue; reflexivity).
  erewrite bind_run by (unfold issue; reflexivity).
  cbn [db issued].
  erewrite bind_run by exact Hrun.
  erewrite bind_run by (unfold issue; reflexivity).
  erewrite bind_run by apply insertNotifications_run.
  reflexivity.
Qed.

(** X20.  After a successful [UpdateAlert] the tag links of the rule are
    replaced, whatever they were, by one link for each entry of
    [AlertRuleTags], in the order of the entries, and each link points to a
    row of the table of tags that holds the key and the value of its entry.
    The table of tags only grows, and the tag links of every other rule stay
    as they were. *)
Theorem UpdateAlert_tags (ParseDuration : string -> error + Z)
    (NewFromAny_update : UpdateAlertCommand.t -> Json) (now : Time)
    (cmd cmd' : UpdateAlertCommand.t) (s : Store) :
  outcome (sqlstore.UpdateAlert ParseDuration NewFromAny_update now cmd s) = inr cmd' ->
  let res := sqlstore.UpdateAlert ParseDuration NewFromAny_update now cmd s in
  exists tags',
    tag_links_of (UpdateAlertCommand.ID cmd) (store res) =
      map (fun t => AlertRuleTag.Build (UpdateAlertCommand.ID cmd) (Tag.Id t)) tags' /\
    Forall2
      (fun entry t =>
         Tag.Key t = fst entry /\ Tag.Value t = snd entry /\ In t (tag (store res)))
      (UpdateAlertCommand.AlertRuleTags cmd) tags' /\
    (exists rows, tag (store res) = (tag s ++ rows)%list) /\
    (forall id, id <> UpdateAlertCommand.ID cmd ->
       tag_links_of id (store res) = tag_links_of id s).
Proof.
  intros Hout res. subst res.
  destruct (exist_alert (UpdateAlertCommand.ID cmd) s) eqn:Hhas.
  2: { rewrite (UpdateAlert_missing _ _ _ _ _ Hhas) in Hout. discriminate Hout. }
  destruct (ParseDuration (UpdateAlertCommand.For cmd)) as [err | forDuration] eqn:Hparse.
  { rewrite (UpdateAlert_fail _ _ _ _ _ Hhas Hparse) in Hout. discriminate Hout. }
  clear Hout.
  set (id := UpdateAlertCommand.ID cmd) in *.
  set (b := update_bean now cmd forDuration
              (NewFromAny_update (UpdateAlertCommand.set_Result None cmd))).
  destruct (insertTags_spec (tags_of_map (UpdateAlertCommand.AlertRuleTags cmd)) id
              (mkSession
                 (exec (DeleteRuleTags id) (exec (UpdateAlert id MustCols_message_for b) s))
                 (([] ++ [UpdateAlert id MustCols_message_for b]) ++ [DeleteRuleTags id])))
    as (tags' & sess1 & Hrun & (rows & Htag) & Hlinks & Hall).
  rewrite (@UpdateAlert_run_with ParseDuration NewFromAny_update now cmd s forDuration
             sess1 Hhas Hparse Hrun).
  fold id.
  destruct (replay_link_stmts id (UpdateAlertCommand.OrgID cmd)
              (uids_of_refs (UpdateAlertCommand.Notifications cmd))
              (exec (DeleteRuleNotifications id) (db sess1)))
    as (_ & _ & _ & Hd & He & _).
  change (alert_rule_tag (exec (DeleteRuleNotifications id) (db sess1)))
    with (alert_rule_tag (db sess1)) in Hd.
  change (tag (exec (DeleteRuleNotifications id) (db sess1))) with (tag (db sess1)) in He.
  cbn [db] in Htag, Hlinks.
  assert (Hof : forall i,
            tag_links_of i
              (replay (link_stmts id (UpdateAlertCommand.OrgID cmd)
                         (uids_of_refs (UpdateAlertCommand.Notifications cmd)))
                 (exec (DeleteRuleNotifications id) (db sess1))) =
            ((if (i =? id)%Z then [] else tag_links_of i s) ++
             if (id =? i)%Z
             then map (fun t => AlertRuleTag.Build id (Tag.Id t)) tags'
             else [])%list).
  { intros i. unfold tag_links_of at 1. rewrite Hd, Hlinks, tag_links_fresh.
    fold (tag_links_of i
            (exec (DeleteRuleTags id) (exec (UpdateAlert id MustCols_message_for b) s))).
    rewrite tag_links_after_delete. reflexivity. }
  exists tags'. split; [| split; [| split]].
  - rewrite Hof, !Z.eqb_refl. reflexivity.
  - rewrite He. clear - Hall.
    unfold tags_of_map in Hall. remember (UpdateAlertCommand.AlertRuleTags cmd) as entries.
    clear Heqentries. revert tags' Hall.
    induction entries as [| e entries IH]; intros tags' Hall; inversion Hall; subst.
    + constructor.
    + constructor; [assumption | apply IH; assumption].
  - exists rows. rewrite He, Htag. reflexivity.
  - intros i Hi. rewrite Hof.
    destruct (Z.eqb_spec i id) as [-> | _]; [contradiction |].
    destruct (Z.eqb_spec id i) as [<- | _]; [contradiction |].
    apply app_nil_r.
Qed.

Lemma filter_key_unique (rows : list Tag.t) t :
  NoDup (map Tag.Id rows) -> In t rows ->
  filter (fun r => (Tag.Id r =? Tag.Id t)%Z) rows = [t].
Proof.
  induction rows as [| r rows IH]; intros Hnd Hin; [destruct Hin |].
  cbn [map] in Hnd. inversion Hnd as [| x l Hnotin Hnd']; subst.
  cbn [filter]. destruct Hin as [-> | Hin].
  - rewrite Z.eqb_refl. f_equal. apply filter_none_list. intros r Hr.
    apply Z.eqb_neq. intros Hid. apply Hnotin. rewrite <- Hid. apply in_map. exact Hr.
  - destruct (Z.eqb_spec (Tag.Id r) (Tag.Id t)) as [Hid | _]; [| apply IH; assumption].
    exfalso. apply Hnotin. rewrite Hid. apply in_map. exact Hin.
Qed.

Lemma filter_key_short (rows : list Tag.t) id :
  NoDup (map Tag.Id rows) ->
  (List.length (filter (fun r => (Tag.Id r =? id)%Z) rows) <= 1)%nat.
Proof.
  intros Hnd.
  destruct (filter (fun r => (Tag.Id r =? id)%Z) rows) as [| t rest] eqn:Hf;
    [cbn; lia |].
  assert (Hin : In t (filter (fun r => (Tag.Id r =? id)%Z) rows))
    by (rewrite Hf; left; reflexivity).
  apply filter_In in Hin. destruct Hin as (Hin & Hid). apply Z.eqb_eq in Hid. subst id.
  rewrite (@filter_key_unique rows t Hnd Hin) in Hf. inversion Hf. cbn. lia.
Qed.

(** X21.  [getAlertTags] never returns more than one tag, however many tag
    links the rule has, and whatever the database makes of the statement: in
    a table of tags with unique ids, every call that returns has at most one
    tag.  On a database that accepts the statement, a rule without tag link
    has no tag and a rule with one tag link has the tag it points to; for a
    rule with more, the call fails or returns at most one of its tags. *)
Theorem getAlertTags_at_most_one (rejected : option error)
    (scalar_of_many : list Z -> error + option Z) (alertID : Z) (s : Store) :
  NoDup (map Tag.Id (tag s)) ->
  (forall tags,
     getAlertTags rejected scalar_of_many alertID s = inr tags ->
     (List.length tags <= 1)%nat) /\
  (rejected = None -> tag_links_of alertID s = [] ->
   getAlertTags rejected scalar_of_many alertID s = inr []) /\
  (forall link t,
     rejected = None ->
     tag_links_of alertID s = [link] -> In t (tag s) ->
     Tag.Id t = AlertRuleTag.TagId link ->
     getAlertTags rejected scalar_of_many alertID s = inr [t]).
Proof.
  intros Hnd. unfold getAlertTags, tag_links_of. split; [| split].
  - intros tags H. destruct rejected as [err |]; [discriminate |]. cbv zeta in H.
    destruct (scalar_subquery scalar_of_many _) as [err | [id |]]; [discriminate | |].
    + inversion H; subst tags. apply filter_key_short. exact Hnd.
    + inversion H. cbn. lia.
  - intros -> ->. reflexivity.
  - intros link t -> -> Hin Hid. cbn [map scalar_subquery]. rewrite <- Hid.
    rewrite (@filter_key_unique (tag s) t Hnd Hin). reflexivity.
Qed.

Lemma CreateAlert_run_with ParseDuration NewFromAny_create now cmd s forDuration sess1 :
  ParseDuration (CreateAlertCommand.For cmd) = inr forDuration ->
  let id := next_id (map Alert.Id (alert s)) in
  let row :=
    Alert.set_Id id
      (created_rule now cmd forDuration
         (NewFromAny_create (CreateAlertCommand.set_Result None cmd))) in
  insertTags (tags_of_map (CreateAlertCommand.AlertRuleTags cmd)) id
    (mkSession (exec (InsertAlert row) s) ([] ++ [InsertAlert row])) = inr (tt, sess1) ->
  store (sqlstore.CreateAlert ParseDuration NewFromAny_create now cmd s) =
  replay (link_stmts id (CreateAlertCommand.OrgId cmd)
            (uids_of_refs (CreateAlertCommand.Notifications cmd)))
    (db sess1).
Proof.
  intros Hparse id row Hrun.
  unfold sqlstore.CreateAlert.
  replace (CreateAlertCommand.For (CreateAlertCommand.set_ExecutionErrorState "" cmd))
    with (CreateAlertCommand.For cmd) by (destruct cmd; reflexivity).
  rewrite Hparse.
  replace (CreateAlertCommand.OrgId (CreateAlertCommand.set_ExecutionErrorState "" cmd))
    with (CreateAlertCommand.OrgId cmd) by (destruct cmd; reflexivity).
  replace (CreateAlertCommand.Name (CreateAlertCommand.set_ExecutionErrorState "" cmd))
    with (CreateAlertCommand.Name cmd) by (destruct cmd; reflexivity).
  replace (CreateAlertCommand.Frequency (CreateAlertCommand.set_ExecutionErrorState "" cmd))
    with (CreateAlertCommand.Frequency cmd) by (destruct cmd; reflexivity).
  replace (CreateAlertCommand.AlertRuleTags (CreateAlertCommand.set_ExecutionErrorState "" cmd))
    with (CreateAlertCommand.AlertRuleTags cmd) by (destruct cmd; reflexivity).
  replace (CreateAlertCommand.Notifications (CreateAlertCommand.set_ExecutionErrorState "" cmd))
    with (CreateAlertCommand.Notifications cmd) by (destruct cmd; reflexivity).
  cbv zeta. fold (created_rule now cmd forDuration
                    (NewFromAny_create (CreateAlertCommand.set_Result None cmd))).
  unfold inTransaction.
  erewrite bind_run by (apply xorm_Insert_fresh; reflexivity).
  fold id. fold row.
  replace (Alert.Id row) with id by (symmetry; apply set_Id_fields).
  erewrite bind_run by exact Hrun.
  erewrite bind_run by apply insertNotifications_run.
  reflexivity.
Qed.

(** X23.  [CreateAlert] links the new rule to its tags: the tag links of the
    rule are the ones already stored under its key, none in a store without
    orphaned rows, followed by one link for each entry of [AlertRuleTags], in
    the order of the entries, each pointing to a row of the table of tags
    that holds the key and the value of its entry.  The table of tags only
    grows, and the tag links of every other rule stay as they were. *)
Theorem CreateAlert_tags (ParseDuration : string -> error + Z)
    (NewFromAny_create : CreateAlertCommand.t -> Json) (now : Time)
    (cmd cmd' : CreateAlertCommand.t) (row : Alert.t) (s : Store) :
  outcome (sqlstore.CreateAlert ParseDuration NewFromAny_create now cmd s) = inr cmd' ->
  CreateAlertCommand.Result cmd' = Some row ->
  let res := sqlstore.CreateAlert ParseDuration NewFromAny_create now cmd s in
  exists tags',
    tag_links_of (Alert.Id row) (store res) =
      (tag_links_of (Alert.Id row) s ++
       map (fun t => AlertRuleTag.Build (Alert.Id row) (Tag.Id t)) tags')%list /\
    Forall2
      (fun entry t =>
         Tag.Key t = fst entry /\ Tag.Value t = snd entry /\ In t (tag (store res)))
      (CreateAlertCommand.AlertRuleTags cmd) tags' /\
    (exists rows, tag (store res) = (tag s ++ rows)%list) /\
    (forall id, id <> Alert.Id row -> tag_links_of id (store res) = tag_links_of id s) /\
    (no_orphans s -> tag_links_of (Alert.Id row) s = []).
Proof.
  intros Hout Hres res. subst res.
  destruct (ParseDuration (CreateAlertCommand.For cmd)) as [err | forDuration] eqn:Hparse.
  { rewrite (CreateAlert_fail _ _ _ _ _ Hparse) in Hout. discriminate Hout. }
  assert (Hrow : Alert.Id row = next_id (map Alert.Id (alert s))).
  { destruct (CreateAlert_run _ NewFromAny_create now _ s Hparse) as (sess0 & _ & Hrun).
    rewrite Hrun in Hout. cbn [outcome] in Hout. inversion Hout; subst cmd'.
    destruct cmd; cbn in Hres. inversion Hres. reflexivity. }
  rewrite Hrow. clear Hout Hres Hrow row cmd'.
  set (id := next_id (map Alert.Id (alert s))) in *.
  set (row := Alert.set_Id id
                (created_rule now cmd forDuration
                   (NewFromAny_create (CreateAlertCommand.set_Result None cmd)))).
  destruct (insertTags_spec (tags_of_map (CreateAlertCommand.AlertRuleTags cmd)) id
              (mkSession (exec (InsertAlert row) s) ([] ++ [InsertAlert row])))
    as (tags' & sess1 & Hrun & (rows & Htag) & Hlinks & Hall).
  rewrite (@CreateAlert_run_with ParseDuration NewFromAny_create now cmd s forDuration
             sess1 Hparse Hrun).
  fold id.
  destruct (replay_link_stmts id (CreateAlertCommand.OrgId cmd)
              (uids_of_refs (CreateAlertCommand.Notifications cmd)) (db sess1))
    as (_ & _ & _ & Hd & He & _).
  cbn [db exec with_alert alert_rule_tag tag] in Htag, Hlinks.
  assert (Hof : forall i,
            tag_links_of i
              (replay (link_stmts id (CreateAlertCommand.OrgId cmd)
                         (uids_of_refs (CreateAlertCommand.Notifications cmd)))
                 (db sess1)) =
            (tag_links_of i s ++
             if (id =? i)%Z
             then map (fun t => AlertRuleTag.Build id (Tag.Id t)) tags'
             else [])%list).
  { intros i. unfold tag_links_of at 1. rewrite Hd, Hlinks, tag_links_fresh. reflexivity. }
  exists tags'. split; [| split; [| split; [| split]]].
  - rewrite Hof, Z.eqb_refl. reflexivity.
  - rewrite He. clear - Hall.
    unfold tags_of_map in Hall. remember (CreateAlertCommand.AlertRuleTags cmd) as entries.
    clear Heqentries. revert tags' Hall.
    induction entries as [| e entries IH]; intros tags' Hall; inversion Hall; subst.
    + constructor.
    + constructor; [assumption | apply IH; assumption].
  - exists rows. rewrite He, Htag. reflexivity.
  - intros i Hi. rewrite Hof.
    destruct (Z.eqb_spec id i) as [<- | _]; [contradiction |].
    apply app_nil_r.
  - intros Horphans.
    assert (Hfresh : ~ In id (map Alert.Id (alert s))) by (apply mem_false, next_id_fresh).
    destruct (Horphans id Hfresh) as (_ & _ & _ & Hnone & _).
    unfold tag_links_of. apply filter_none_list.
    intros l Hin. apply Z.eqb_neq. exact (Hnone l Hin).
Qed.

(** *** The tag links after a reconciliation *)

Lemma tag_links_after_cascades i ids s :
  tag_links_of i (replay (flat_map cascade ids) s) =
  (if mem i ids then [] else tag_links_of i s) /\
  tag (replay (flat_map cascade ids) s) = tag s.
Proof.
  revert s. induction ids as [| j rest IH]; intros s.
  - split; reflexivity.
  - cbn [flat_map]. rewrite replay_app. destruct (IH (replay (cascade j) s)) as (-> & ->).
    cbn [mem existsb]. fold (mem i rest).
    destruct (cascade_others_kept j s) as (_ & _ & _ & Hd & _ & Hf & _).
    split; [| exact Hf].
    destruct (mem i rest); [rewrite orb_true_r; reflexivity |]. rewrite orb_false_r.
    unfold tag_links_of. rewrite Hd.
    fold (tag_links_of i (exec (DeleteRuleTags j) s)).
    apply tag_links_after_delete.
Qed.

Lemma tags_of_settings a b :
  Alert.Settings a = Alert.Settings b -> GetTagsFromSettings a = GetTagsFromSettings b.
Proof.
  intros H. unfold GetTagsFromSettings. rewrite H. reflexivity.
Qed.

Lemma relink_tags (alert0 : Alert.t) uids sess :
  GetNotificationsFromSettings alert0 = Some uids ->
  let tail :=
    (issue (DeleteRuleTags (Alert.Id alert0)) ;;;
     insertTags (GetTagsFromSettings alert0) (Alert.Id alert0) ;;;
     match GetNotificationsFromSettings alert0 with
     | None => fail Panic
     | Some alertNotificationUIDs =>
         issue (DeleteRuleNotifications (Alert.Id alert0)) ;;;
         insertNotifications (Alert.Id alert0) (Alert.OrgId alert0) alertNotificationUIDs ;;;
         ret alert0
     end)%session in
  exists sess' tags',
    tail sess = inr (alert0, sess') /\
    (exists rows, tag (db sess') = (tag (db sess) ++ rows)%list) /\
    (forall i,
       tag_links_of i (db sess') =
       if (i =? Alert.Id alert0)%Z
       then map (fun t => AlertRuleTag.Build (Alert.Id alert0) (Tag.Id t)) tags'
       else tag_links_of i (db sess)) /\
    Forall2
      (fun t t' => Tag.Key t' = Tag.Key t /\ Tag.Value t' = Tag.Value t /\
                   In t' (tag (db sess')))
      (GetTagsFromSettings alert0) tags'.
Proof.
  intros Hn tail. subst tail. rewrite Hn.
  set (id := Alert.Id alert0).
  erewrite bind_run by (unfold issue; reflexivity).
  destruct (insertTags_spec (GetTagsFromSettings alert0) id
              (mkSession (exec (DeleteRuleTags id) (db sess))
                 (issued sess ++ [DeleteRuleTags id])))
    as (tags' & sess2 & R2 & (rows & Htag) & Hlinks & Hall).
  erewrite bind_run by exact R2.
  erewrite bind_run by (unfold issue; reflexivity).
  erewrite bind_run by apply insertNotifications_run.
  eexists _, tags'. split; [reflexivity |]. cbn [db] in *.
  destruct (replay_link_stmts id (Alert.OrgId alert0) uids
              (exec (DeleteRuleNotifications id) (db sess2)))
    as (_ & _ & _ & Hd & He & _).
  change (alert_rule_tag (exec (DeleteRuleNotifications id) (db sess2)))
    with (alert_rule_tag (db sess2)) in Hd.
  change (tag (exec (DeleteRuleNotifications id) (db sess2))) with (tag (db sess2)) in He.
  change (tag (exec (DeleteRuleTags id) (db sess))) with (tag (db sess)) in Htag.
  split; [exists rows; rewrite He; exact Htag |]. split.
  - intros i. unfold tag_links_of at 1. rewrite Hd, Hlinks, tag_links_fresh.
    fold (tag_links_of i (exec (DeleteRuleTags id) (db sess))).
    rewrite tag_links_after_delete, (Z.eqb_sym id i).
    destruct (i =? id)%Z; [reflexivity | apply app_nil_r].
  - rewrite He. exact Hall.
Qed.

Section TagProofs.

Variable Encode : Json -> option string.
Variable now : Time.

Lemma updateAlert_tags existingAlerts a sess a' sess' :
  updateAlert Encode now existingAlerts a sess = inr (a', sess') ->
  exists tags',
    (exists rows, tag (db sess') = (tag (db sess) ++ rows)%list) /\
    (forall i,
       tag_links_of i (db sess') =
       if (i =? Alert.Id a')%Z
       then map (fun t => AlertRuleTag.Build (Alert.Id a') (Tag.Id t)) tags'
       else tag_links_of i (db sess)) /\
    Forall2
      (fun t t' => Tag.Key t' = Tag.Key t /\ Tag.Value t' = Tag.Value t /\
                   In t' (tag (db sess')))
      (GetTagsFromSettings a) tags'.
Proof.
  unfold updateAlert. intros H.
  apply bind_inr in H. destruct H as (a1 & sess1 & H1 & H2).
  cbv zeta in H2.
  assert (Hfirst : Alert.Settings a1 = Alert.Settings a /\
                   alert_rule_tag (db sess1) = alert_rule_tag (db sess) /\
                   tag (db sess1) = tag (db sess)).
  { destruct (find (fun k => (Alert.PanelId a =? Alert.PanelId k)%Z) existingAlerts)
      as [k |].
    - destruct (ContainsUpdates Encode k (Alert.set_Id (Alert.Id k) a)).
      + cbv zeta in H1. unfold bind, issue, ret in H1. injection H1 as <- <-.
        destruct a; repeat split; reflexivity.
      + unfold ret in H1. injection H1 as <- <-. destruct a; repeat split; reflexivity.
    - cbv zeta in H1. apply xorm_Insert_inr in H1. destruct H1 as (id & -> & _ & ->).
      destruct a; repeat split; reflexivity. }
  destruct Hfirst as (Hsettings & Hlinks & Htag).
  destruct (GetNotificationsFromSettings a1) as [uids |] eqn:Hn.
  2: { pose proof (relink a1 sess1) as R. cbv zeta in R. rewrite Hn in R.
       rewrite R in H2. discriminate H2. }
  pose proof (relink_tags a1 sess1 Hn) as R. cbv zeta in R. rewrite Hn in R.
  destruct R as (sess2 & tags' & R & (rows & Hgrow) & Hof & Hall).
  rewrite R in H2. injection H2 as <- <-.
  exists tags'. split; [exists rows; rewrite Hgrow, Htag; reflexivity |]. split.
  - intros i. rewrite Hof.
    replace (tag_links_of i (db sess1)) with (tag_links_of i (db sess))
      by (unfold tag_links_of; rewrite Hlinks; reflexivity).
    reflexivity.
  - rewrite <- (tags_of_settings a1 a Hsettings). exact Hall.
Qed.

Lemma updateEach_tags existingAlerts alerts sess alerts' sess' :
  updateEach Encode now existingAlerts alerts sess = inr (alerts', sess') ->
  NoDup (map Alert.Id alerts') ->
  (exists rows, tag (db sess') = (tag (db sess) ++ rows)%list) /\
  Forall2
    (fun a a' =>
       Alert.PanelId a' = Alert.PanelId a /\
       exists tags',
         tag_links_of (Alert.Id a') (db sess') =
           map (fun t => AlertRuleTag.Build (Alert.Id a') (Tag.Id t)) tags' /\
         Forall2
           (fun t t' => Tag.Key t' = Tag.Key t /\ Tag.Value t' = Tag.Value t /\
                        In t' (tag (db sess')))
           (GetTagsFromSettings a) tags')
    alerts alerts' /\
  (forall i, ~ In i (map Alert.Id alerts') ->
     tag_links_of i (db sess') = tag_links_of i (db sess)).
Proof.
  revert sess alerts' sess'.
  induction alerts as [| a rest IH]; intros sess alerts' sess' H Hnd.
  - cbn in H. unfold ret in H. injection H as <- <-.
    split; [exists []; rewrite app_nil_r; reflexivity |].
    split; [constructor | reflexivity].
  - apply updateEach_cons in H.
    destruct H as (a' & rest' & sess1 & -> & H1 & H2).
    cbn [map] in Hnd. inversion Hnd as [| x l Hnotin Hnd']; subst.
    destruct (updateAlert_tags _ _ _ H1) as (tags' & (rows1 & Hg1) & Hof1 & Hall1).
    destruct (@updateAlert_links Encode now existingAlerts a sess a' sess1 H1)
      as (Hpanel & _).
    destruct (IH sess1 rest' sess' H2 Hnd') as ((rows2 & Hg2) & Hall & Hframe).
    split; [exists (rows1 ++ rows2)%list; rewrite Hg2, Hg1, app_assoc; reflexivity |].
    split.
    + constructor; [| exact Hall].
      split; [exact Hpanel |]. exists tags'. split.
      * rewrite (Hframe _ Hnotin), Hof1, Z.eqb_refl. reflexivity.
      * eapply Forall2_impl; [| exact Hall1].
        intros t t' (Hk & Hv & Hin). split; [exact Hk |]. split; [exact Hv |].
        rewrite Hg2. apply in_or_app. left. exact Hin.
    + intros i Hi. cbn [map In] in Hi.
      rewrite (Hframe i) by (intros Hin; apply Hi; right; exact Hin).
      rewrite Hof1. destruct (Z.eqb_spec i (Alert.Id a')) as [-> | _]; [| reflexivity].
      exfalso. apply Hi. left. reflexivity.
Qed.

(** X24.  [SaveAlerts] leaves the tag links its rules declare.  After a
    successful reconciliation of desired rules on distinct panels, the tag
    links of the rule of every desired rule are exactly one link for each
    entry of [alertRuleTags] in its settings, in the order
    [GetTagsFromSettings] lists them, each pointing to a row of the table of
    tags that holds the key and the value [GetTagsFromSettings] reads for the
    entry; whatever tag links the rule had before are gone. *)
Theorem SaveAlerts_tags (cmd cmd' : SaveAlertsCommand.t) (s : Store) (a : Alert.t) :
  unique_ids s ->
  NoDup (panels (SaveAlertsCommand.Alerts cmd)) ->
  outcome (SaveAlerts Encode now cmd s) = inr cmd' ->
  In a (SaveAlertsCommand.Alerts cmd) ->
  exists a' tags',
    In a' (SaveAlertsCommand.Alerts cmd') /\
    Alert.PanelId a' = Alert.PanelId a /\
    tag_links_of (Alert.Id a') (store (SaveAlerts Encode now cmd s)) =
      map (fun t => AlertRuleTag.Build (Alert.Id a') (Tag.Id t)) tags' /\
    Forall2
      (fun t t' =>
         Tag.Key t' = Tag.Key t /\ Tag.Value t' = Tag.Value t /\
         In t' (tag (store (SaveAlerts Encode now cmd s))))
      (GetTagsFromSettings a) tags'.
Proof.
  intros Huniq Hpanels Hout Ha.
  pose proof (SaveAlerts_run Encode now cmd s) as Hrun. cbv zeta in Hrun.
  set (existingAlerts := find_by_dashboard (SaveAlertsCommand.DashboardId cmd) s) in *.
  destruct (updateEach Encode now existingAlerts (SaveAlertsCommand.Alerts cmd)
              (mkSession s [])) as [e | [alerts' sess1]] eqn:Hupd.
  { rewrite Hrun in Hout. discriminate Hout. }
  rewrite Hrun in *. clear Hrun. cbn [outcome store] in *.
  injection Hout as <-. cbn [SaveAlertsCommand.Alerts].
  assert (Hex : forall k, In k existingAlerts ->
                          In (Alert.Id k) (map Alert.Id (alert (db (mkSession s []))))).
  { intros k Hk. apply In_find_by_dashboard in Hk. apply in_map. apply Hk. }
  assert (Hkeys : NoDup (map Alert.Id existingAlerts)).
  { apply NoDup_map_filter. exact Huniq. }
  destruct (@updateEach_returned Encode now existingAlerts (SaveAlertsCommand.Alerts cmd)
              (mkSession s []) alerts' sess1 Hupd Hkeys Hpanels Hex) as (Hnd & Hret).
  destruct (updateEach_tags _ _ _ Hupd Hnd) as (_ & Hall & _).
  destruct (@Forall2_In_left _ _ _ _ _ a Hall Ha)
    as (a' & Ha' & Hpanel & tags' & Hlinks & Htags).
  exists a', tags'.
  destruct (Hret a' Ha') as (_ & Horigin).
  set (gone := map Alert.Id (missing existingAlerts (SaveAlertsCommand.Alerts cmd))).
  assert (Hkept : mem (Alert.Id a') gone = false).
  { apply mem_false. intros Hgone.
    destruct Horigin as [(a0 & k & Ha0 & Hm & Hk) | Hfresh].
    - rewrite Hk in Hgone. revert Hgone.
      apply (@not_gone s (SaveAlertsCommand.DashboardId cmd)
               (SaveAlertsCommand.Alerts cmd) k Huniq).
      + apply (match_of_some _ _ Hm).
      + destruct (match_of_some _ _ Hm) as (_ & ->). apply in_map. exact Ha0.
    - apply Hfresh. cbn [db]. unfold gone in Hgone. apply in_map_iff in Hgone.
      destruct Hgone as (m & <- & Hm). apply In_missing in Hm. destruct Hm as (Hm & _).
      apply In_find_by_dashboard in Hm. apply in_map. apply Hm. }
  destruct (tag_links_after_cascades (Alert.Id a') gone (db sess1)) as (Hl & Ht).
  split; [exact Ha' |]. split; [exact Hpanel |]. split.
  - rewrite Hl, Hkept. exact Hlinks.
  - rewrite Ht. exact Htags.
Qed.

End TagProofs.

(** ** The further properties on the sample data *)

Lemma Sample_no_orphans : no_orphans Sample.store.
Proof.
  intros id Hfresh. unfold unreachable. cbn in Hfresh.
  repeat split; intros r Hin Hid; apply Hfresh; subst id; cbn in Hin;
    repeat (destruct Hin as [<- | Hin]; [cbn; tauto |]); destruct Hin.
Qed.

Lemma SaveAlerts_malformed_notifications_witness :
  exists e,
    outcome (SaveAlerts Sample.encode 100 Fixture.with_malformed Sample.store) = inl e /\
    store (SaveAlerts Sample.encode 100 Fixture.with_malformed Sample.store) = Sample.store /\
    committed (SaveAlerts Sample.encode 100 Fixture.with_malformed Sample.store) = [].
Proof.
  apply (SaveAlerts_malformed_notifications Sample.encode 100 Fixture.with_malformed
           Sample.store Fixture.malformed).
  - right. left. reflexivity.
  - reflexivity.
Defined.

Lemma CreateAlert_links_witness :
  no_orphans Sample.store /\
  getAlertNotificationIDs 5
    (store (sqlstore.CreateAlert Fixture.parse Fixture.settings_of_create 100
              Fixture.create Sample.store)) = inr [1].
Proof.
  split; [exact Sample_no_orphans |].
  destruct (@CreateAlert_links Fixture.parse Fixture.settings_of_create 100
              Fixture.create Fixture.create_result Fixture.created Sample.store)
    as (_ & _ & H).
  - vm_compute. reflexivity.
  - reflexivity.
  - exact (H Sample_no_orphans).
Defined.

Lemma UpdateAlert_updates_witness :
  exists stored,
    get_alert 1
      (store (sqlstore.UpdateAlert Fixture.parse Fixture.settings_of_update 100
                Fixture.update_from_org2 Sample.store)) = Some stored /\
    Alert.OrgId stored = 2 /\ Alert.Name stored = "cpu" /\
    Alert.State stored = AlertStateOK /\ Alert.Message stored = "" /\
    Alert.EvalData stored = None.
Proof.
  assert (Hid : UpdateAlertCommand.ID Fixture.update_from_org2 <> 0) by discriminate.
  pose proof (UpdateAlert_updates Fixture.parse Fixture.settings_of_update 100
                Fixture.update_from_org2 Sample.store Hid) as H.
  cbv zeta in H.
  change (get_alert (UpdateAlertCommand.ID Fixture.update_from_org2) Sample.store)
    with (Some Sample.persisted_1) in H.
  change (Fixture.parse (UpdateAlertCommand.For Fixture.update_from_org2))
    with (@inr error Z 300000000000) in H.
  cbv iota beta in H.
  destruct H as (cmd' & stored & returned & _ & _ & Hget & Hkept & Hwritten & _).
  exists stored. split; [exact Hget |].
  destruct Hkept as (_ & Hstate & _).
  destruct Hwritten as (Hmsg & Hdata & _ & _ & Hname & Horg & _).
  split; [exact Horg |]. split; [exact Hname |]. split; [exact Hstate |].
  split; [exact Hmsg | exact Hdata].
Defined.

Lemma UpdateAlert_links_witness :
  getAlertNotificationIDs 1
    (store (sqlstore.UpdateAlert Fixture.parse Fixture.settings_of_update 100
              Fixture.update Sample.store)) = inr [1] /\
  getAlertNotificationIDs 3
    (store (sqlstore.UpdateAlert Fixture.parse Fixture.settings_of_update 100
              Fixture.update Sample.store)) = getAlertNotificationIDs 3 Sample.store.
Proof.
  destruct (@UpdateAlert_links Fixture.parse Fixture.settings_of_update 100 Fixture.update
              (UpdateAlertCommand.set_Result
                 (Some (update_bean 100 Fixture.update 300000000000
                          (Fixture.settings_of_update Fixture.update)))
                 Fixture.update)
              Sample.store) as (Hown & Hothers).
  - vm_compute. reflexivity.
  - split; [exact Hown |]. apply Hothers. discriminate.
Defined.

Lemma SetAlertState_not_repeatable_witness :
  outcome (SetAlertState 200 Sample.to_alerting
             (store (SetAlertState 100 Sample.to_alerting Sample.store))) =
  inl ErrRequiresNewState.
Proof.
  destruct (@SetAlertState_not_repeatable 100 200 Sample.to_alerting Sample.to_alerting
              Sample.store Sample.persisted_1) as (_ & Hagain).
  - reflexivity.
  - discriminate.
  - discriminate.
  - discriminate.
  - reflexivity.
  - apply Hagain; [discriminate | reflexivity].
Defined.

Lemma pause_then_transition_witness :
  outcome (SetAlertState 200 Sample.to_alerting
             (store (PauseAlert 100 Fixture.pause_1 Sample.store))) =
  inl ErrCannotChangeStateOnPausedAlert.
Proof.
  assert (Hin : In (SetAlertStateCommand.AlertId Sample.to_alerting)
                  (PauseAlertCommand.AlertIds Fixture.pause_1)) by (left; reflexivity).
  assert (Hget : get_alert (SetAlertStateCommand.AlertId Sample.to_alerting) Sample.store =
                 Some Sample.persisted_1) by reflexivity.
  pose proof (@pause_then_transition 100 200 Fixture.pause_1 Sample.to_alerting
                Sample.store Sample.persisted_1 Hin Hget) as H.
  cbv zeta in H.
  change (PauseAlertCommand.Paused Fixture.pause_1) with true in H.
  cbv iota in H. apply H.
Defined.

Lemma states_listing_follows_witness :
  exists after,
    GetAlertStatesForDashboard Fixture.states_of_7
      (store (SetAlertState 100 Sample.to_alerting Sample.store)) = inr after /\
    map AlertStateInfoDTO.State (GetAlertStatesForDashboardQuery.Result after) =
      [AlertStateAlerting; AlertStateAlerting; AlertStatePaused].
Proof.
  destruct (@states_listing_follows 100 Sample.to_alerting Sample.store Sample.persisted_1
              Fixture.states_of_7
              (GetAlertStatesForDashboardQuery.Build 1 7
                 (map to_state_info (find_by_dashboard 7 Sample.store))))
    as (after & Hafter & Hresult).
  - exact Sample_unique.
  - reflexivity.
  - discriminate.
  - discriminate.
  - discriminate.
  - discriminate.
  - reflexivity.
  - exists after. split; [exact Hafter |]. rewrite Hresult. reflexivity.
Defined.

Lemma commands_keep_unique_ids_witness :
  unique_ids (store (DeleteAlert (DeleteAlertCommand.Build 1) Sample.store)) /\
  unique_ids (store (sqlstore.CreateAlert Fixture.parse Fixture.settings_of_create 100
                       Fixture.create Sample.store)).
Proof.
  destruct (commands_keep_unique_ids Sample_unique)
    as (_ & _ & _ & Hdelete & _ & Hcreate & _).
  split; [apply Hdelete | apply Hcreate].
Defined.

Lemma create_then_delete_witness :
  alert (store (DeleteAlert (DeleteAlertCommand.Build 5)
                  (store (sqlstore.CreateAlert Fixture.parse Fixture.settings_of_create 100
                            Fixture.create Sample.store)))) = alert Sample.store /\
  alert_rule_tag (store (DeleteAlert (DeleteAlertCommand.Build 5)
                  (store (sqlstore.CreateAlert Fixture.parse Fixture.settings_of_create 100
                            Fixture.create Sample.store)))) = alert_rule_tag Sample.store.
Proof.
  destruct (@create_then_delete Fixture.parse Fixture.settings_of_create 100
              Fixture.create Fixture.create_result Fixture.created Sample.store)
    as (Halert & _ & _ & Htags & _).
  - exact Sample_no_orphans.
  - vm_compute. reflexivity.
  - reflexivity.
  - split; [exact Halert | exact Htags].
Defined.

Lemma search_scope_witness :
  exists rule,
    In rule (alert Sample.store) /\ Alert.Id rule = 1 /\ Alert.OrgId rule = 1.
Proof.
  destruct (@search_scope Sample.like Sample.collate Sample.limit Sample.permitted (Sample.search [])
              Sample.store
              (map normalize
                 (map to_dto
                    (order_by_name Sample.collate
                       (join_dashboard false
                          (with_alert (find_by_dashboard 7 Sample.store) Sample.store)))))
              (normalize (to_dto (Sample.persisted_1, Some Fixture.dashboard_7))))
    as (rule & joined & Hin & Hid & _ & _ & _ & Horg & _).
  - exact Sample_limit_sublist.
  - vm_compute. reflexivity.
  - left. reflexivity.
  - exists rule. split; [exact Hin |]. split; [symmetry; exact Hid | exact Horg].
Defined.

Lemma search_complete_witness :
  exists d rows,
    HandleAlertsQuery Sample.like Sample.collate Sample.limit Sample.permitted (Sample.search [])
      Sample.store = inr rows /\
    In d rows /\ AlertListItemDTO.Id d = 1 /\ AlertListItemDTO.DashboardUid d = "uid7".
Proof.
  destruct (@search_complete Sample.like Sample.collate Sample.limit Sample.permitted (Sample.search [])
              Sample.store
              (map normalize
                 (map to_dto
                    (order_by_name Sample.collate
                       (join_dashboard false
                          (with_alert (find_by_dashboard 7 Sample.store) Sample.store)))))
              Sample.persisted_1 (Some Fixture.dashboard_7))
    as (d & Hin & Hid & _ & Huid & _).
  - reflexivity.
  - vm_compute. reflexivity.
  - left. reflexivity.
  - split; [left; reflexivity | reflexivity].
  - reflexivity.
  - intros H. exfalso. apply H. reflexivity.
  - intros H. exfalso. apply H. reflexivity.
  - intros H. exfalso. apply H. reflexivity.
  - intros first rest H. discriminate H.
  - intros H. exfalso. apply H. reflexivity.
  - exists d. eexists. split; [vm_compute; reflexivity |].
    split; [exact Hin |]. split; [exact Hid | exact Huid].
Defined.

Lemma SaveAlerts_links_witness :
  exists a',
    Alert.PanelId a' = 4 /\
    getAlertNotificationIDs (Alert.Id a')
      (store (SaveAlerts Sample.encode 100 Fixture.with_notifying Sample.store)) = inr [1].
Proof.
  destruct (@SaveAlerts_links Sample.encode 100 Fixture.with_notifying
              (Sample.save [Alert.set_Id 2 (Sample.desired 2 "disk");
                            inserted 100 5 Fixture.notifying])
              Sample.store Fixture.notifying)
    as (a' & uids & _ & Hpanel & _ & Huids & Hlinks).
  - exact Sample_unique.
  - vm_compute. repeat constructor; cbn; intuition discriminate.
  - vm_compute. reflexivity.
  - right. left. reflexivity.
  - exists a'. split; [exact Hpanel |]. rewrite Hlinks.
    inversion Huids. reflexivity.
Defined.

Lemma UpdateAlert_tags_witness :
  exists tags',
    tag_links_of 1
      (store (sqlstore.UpdateAlert Fixture.parse Fixture.settings_of_update 100
                Fixture.update Sample.store)) =
      map (fun t => AlertRuleTag.Build 1 (Tag.Id t)) tags' /\
    List.length tags' = 2%nat.
Proof.
  destruct (@UpdateAlert_tags Fixture.parse Fixture.settings_of_update 100 Fixture.update
              (UpdateAlertCommand.set_Result
                 (Some (update_bean 100 Fixture.update 300000000000
                          (Fixture.settings_of_update Fixture.update)))
                 Fixture.update)
              Sample.store) as (tags' & Hlinks & Hall & _).
  - vm_compute. reflexivity.
  - exists tags'. split; [exact Hlinks |].
    apply Forall2_length in Hall. rewrite <- Hall. reflexivity.
Defined.

Lemma CreateAlert_tags_witness :
  exists tags',
    tag_links_of 5
      (store (sqlstore.CreateAlert Fixture.parse Fixture.settings_of_create 100
                Fixture.create Sample.store)) =
      map (fun t => AlertRuleTag.Build 5 (Tag.Id t)) tags' /\
    List.length tags' = 2%nat.
Proof.
  destruct (@CreateAlert_tags Fixture.parse Fixture.settings_of_create 100 Fixture.create
              Fixture.create_result Fixture.created Sample.store)
    as (tags' & Hlinks & Hall & _ & _ & Hnone).
  - vm_compute. reflexivity.
  - reflexivity.
  - change (Alert.Id Fixture.created) with 5 in Hlinks, Hnone.
    exists tags'. split.
    + rewrite Hlinks, (Hnone Sample_no_orphans). reflexivity.
    + apply Forall2_length in Hall. rewrite <- Hall. reflexivity.
Defined.

Lemma getAlertTags_at_most_one_witness :
  getAlertTags None Fixture.many_rows 2 Sample.store = inr [Tag.Build 1 "team" "ops"] /\
  forall tags,
    getAlertTags None Fixture.many_rows 1
      (store (sqlstore.UpdateAlert Fixture.parse Fixture.settings_of_update 100
                Fixture.update Sample.store)) = inr tags ->
    (List.length tags <= 1)%nat.
Proof.
  split.
  - destruct (@getAlertTags_at_most_one None Fixture.many_rows 2 Sample.store)
      as (_ & _ & Hone).
    + vm_compute. repeat constructor. intros [].
    + apply (Hone (AlertRuleTag.Build 2 1));
        [reflexivity | reflexivity | left; reflexivity | reflexivity].
  - destruct (@getAlertTags_at_most_one None Fixture.many_rows 1
                (store (sqlstore.UpdateAlert Fixture.parse Fixture.settings_of_update 100
                          Fixture.update Sample.store))) as (Hshort & _).
    + vm_compute. repeat constructor; cbn; intuition discriminate.
    + exact Hshort.
Defined.

Lemma SaveAlerts_tags_witness :
  exists a' tags',
    Alert.PanelId a' = 4 /\
    tag_links_of (Alert.Id a')
      (store (SaveAlerts Sample.encode 100 Fixture.with_tagged Sample.store)) =
      map (fun t => AlertRuleTag.Build (Alert.Id a') (Tag.Id t)) tags' /\
    List.length tags' = 2%nat.
Proof.
  destruct (@SaveAlerts_tags Sample.encode 100 Fixture.with_tagged
              (Sample.save [Alert.set_Id 2 (Sample.desired 2 "disk");
                            inserted 100 5 Fixture.tagged])
              Sample.store Fixture.tagged)
    as (a' & tags' & _ & Hpanel & Hlinks & Hall).
  - exact Sample_unique.
  - vm_compute. repeat constructor; cbn; intuition discriminate.
  - vm_compute. reflexivity.
  - right. left. reflexivity.
  - exists a', tags'. split; [exact Hpanel |]. split; [exact Hlinks |].
    apply Forall2_length in Hall. rewrite <- Hall. reflexivity.
Defined.
